(** * WhateverWebGPU: the double-buffered simulation / render loop

    A shallow embedding of the two complete variants of the Game-of-Life
    demo found in the repository:

    - [Part000]: the class based program ([UIController], [Grid], [Buffers],
      [PipelineFactory], [Simulation], [Renderer], [Engine]) with the reset
      button and the grid-size slider;
    - [Part001]: the earlier function based program ([createBindGroups],
      [createStateStorageBuffers], [Renderer], [init]).

    JavaScript numbers are modelled as follows.  Timestamps and the two
    module-level tunables are whole numbers of milliseconds ([Z]); on such
    values, below 2^53, the double subtraction and comparison of the source
    are exact.  Values that the source divides ([timeMs / 1000],
    [GRID_SIZE / 8]) and the draws of [Math.random] are rationals ([Q]).
    An element of a [Float32Array] is kept as the number written to it, and
    [number] reads it back through [Math_fround], the value that the array
    holds.  The WebGPU device is a store of buffers addressed by handle.

    [Part000] and [Part001] are the programs on a complete page, one that
    has every element the source dereferences, the [#fps] element of the
    frame counter among them.  [Page000] and [Page001] put each program on
    any page: the elements that start-up looks for, the listeners it
    installs, the timer that debounces the grid-size slider, what start-up
    throws when something is missing, and the frame that ends in a
    [TypeError] at the first reading of the frame counter when [#fps] is
    missing.  On a page that has [#fps] the events of the page are those of
    the program ([world_run000], [world_run001]). *)

From Stdlib Require Import ZArith QArith Qround Qabs Lia.
From stdpp Require Import base list strings.

Open Scope string_scope.
Open Scope list_scope.
Open Scope Z_scope.

(** ** A small state monad *)

Definition State (S A : Type) : Type := S -> A * S.

Definition ret {S A} (a : A) : State S A := fun s => (a, s).

Definition bind {S A B} (m : State S A) (k : A -> State S B) : State S B :=
  fun s => let (a, s') := m s in k a s'.

Definition gets {S A} (f : S -> A) : State S A := fun s => (f s, s).

Definition modify {S} (f : S -> S) : State S unit := fun s => (tt, f s).

Definition when_ {S} (b : bool) (m : State S unit) : State S unit :=
  if b then m else ret tt.

Definition exec {S A} (m : State S A) (s : S) : S := snd (m s).

Declare Scope state_scope.
Delimit Scope state_scope with state.
Notation "x <- m ;;; k" := (bind m (fun x => k))
  (at level 100, m at next level, k at level 200, right associativity) : state_scope.
Notation "m ;;; k" := (bind m (fun _ => k))
  (at level 100, k at level 200, right associativity) : state_scope.

(** ** The WebGPU device, as far as the program uses it *)

(** Flag values of the WebGPU API ([GPUBufferUsage], [GPUShaderStage]). *)
Module GPUBufferUsage.
Definition COPY_DST : Z := 8.
Definition VERTEX : Z := 32.
Definition UNIFORM : Z := 64.
Definition STORAGE : Z := 128.
End GPUBufferUsage.

Module GPUShaderStage.
Definition VERTEX : Z := 1.
Definition FRAGMENT : Z := 2.
Definition COMPUTE : Z := 4.
End GPUShaderStage.

(** One 4-byte element of a typed array or of a buffer.  [F32 q] is the
    element that a [Float32Array] holds for the number [q]; the number it
    holds is [Math_fround q]. *)
Inductive Word : Type :=
| U32 (z : Z)
| F32 (q : Q).

(** [Math.fround], the conversion that a [Float32Array] applies: the
    binary32 value nearest to [x], ties to the even significand, subnormals
    below [2 ^ -126].  Every number the program stores (grid sizes, the
    corners of the quad, seconds of a timestamp below [2 ^ 53] ms) is far
    inside the binary32 range, beyond which the source would store an
    infinity.  The quotient [timeMs / 1000] of the source is a double; for a
    whole [timeMs] below [2 ^ 53] it lies so close to the rational that both
    round to the same binary32. *)
Definition binade (a : Q) : Z :=
  let e := Z.log2 (Qnum a) - Z.log2 (Zpos (Qden a)) in
  if Qle_bool (2 ^ e) a then e else e - 1.

Definition roundHalfEven (x : Q) : Z :=
  let f := Qfloor x in
  match (x - inject_Z f ?= 1 # 2)%Q with
  | Lt => f
  | Gt => f + 1
  | Eq => if Z.even f then f else f + 1
  end.

Definition Math_fround (x : Q) : Q :=
  let a := Qabs x in
  match Qnum a with
  | 0 => 0%Q
  | _ =>
      let e := Z.max (binade a) (-126) in
      let ulp := (2 ^ (e - 23))%Q in
      let m := (inject_Z (roundHalfEven (a / ulp)) * ulp)%Q in
      Qred (if 0 <? Qnum x then m else - m)
  end.

(** The number that an element holds. *)
Definition number (w : Word) : Q :=
  match w with
  | U32 z => inject_Z z
  | F32 q => Math_fround q
  end.

Record GPUBuffer : Type := mkBuffer {
  label : string;
  size : Z;                (* bytes *)
  usage : Z;
  contents : list Word
}.

Definition byteLength (data : list Word) : Z := 4 * Z.of_nat (length data).

(** [device.createBuffer]: a fresh, zero-filled buffer; its handle is its
    position in the store. *)
Definition createBuffer (lbl : string) (sz usg : Z) (bufs : list GPUBuffer)
  : nat * list GPUBuffer :=
  (length bufs,
   bufs ++ [mkBuffer lbl sz usg (replicate (Z.to_nat (sz / 4)) (U32 0))]).

Definition hasFlag (flags bit : Z) : bool := negb (Z.land flags bit =? 0).

(** [device.queue.writeBuffer(buffer, bufferOffset, data)].  A write that does
    not fit the buffer, or into a buffer without [COPY_DST], is dropped by
    the device (a validation error, no exception). *)
Definition splice (old : list Word) (at_ : nat) (data : list Word) : list Word :=
  take at_ old ++ data ++ drop (at_ + length data) old.

Definition writeBuffer (h : nat) (bufferOffset : Z) (data : list Word)
    (bufs : list GPUBuffer) : list GPUBuffer :=
  match bufs !! h with
  | Some b =>
      if hasFlag (usage b) GPUBufferUsage.COPY_DST
         && (0 <=? bufferOffset) && (bufferOffset mod 4 =? 0)
         && (bufferOffset + byteLength data <=? size b)
      then <[h := mkBuffer (label b) (size b) (usage b)
                    (splice (contents b) (Z.to_nat (bufferOffset / 4)) data)]> bufs
      else bufs
  | None => bufs
  end.

(** Bind group layouts and bind groups. *)
Inductive BufferBindingType : Type := uniform | read_only_storage | storage.

Record LayoutEntry : Type := mkLayoutEntry {
  binding : Z;
  visibility : Z;
  buffer : BufferBindingType
}.

Record GPUBindGroupLayout : Type := mkLayout {
  layout_label : string;
  layout_entries : list LayoutEntry
}.

Record BindGroupEntry : Type := mkEntry {
  entry_binding : Z;
  resource : nat           (* handle of the bound buffer *)
}.

Record GPUBindGroup : Type := mkBindGroup {
  group_label : string;
  layout : GPUBindGroupLayout;
  entries : list BindGroupEntry
}.

(** The buffer a bind group binds at a binding number. *)
Definition boundAt (b : Z) (g : GPUBindGroup) : option nat :=
  resource <$> find (fun e => entry_binding e =? b) (entries g).

(** What a shader stage can see of a bind group: for every layout entry
    visible to the stage, the binding number and the contents of the buffer
    bound there. *)
Definition ShaderView : Type := list (Z * list Word).

Definition viewEntry (bufs : list GPUBuffer) (g : GPUBindGroup) (e : LayoutEntry)
  : option (Z * list Word) :=
  h ← boundAt (binding e) g;
  b ← bufs !! h;
  Some (binding e, contents b).

Definition shaderView (stage : Z) (bufs : list GPUBuffer) (g : GPUBindGroup)
  : ShaderView :=
  omap (viewEntry bufs g)
       (filter (fun e => hasFlag (visibility e) stage = true)
               (layout_entries (layout g))).

(** Pipelines.  The compute shader ([shaders/simulation.wgsl]) is not part of
    the sources at hand: a kernel is any function from what the compute stage
    can see of the bind group, and the workgroup counts, to the new contents
    of each writable storage binding. *)
Definition Kernel : Type := ShaderView -> Z * Z -> Z -> list Word.

Record GPUComputePipeline : Type := mkComputePipeline {
  compute_label : string;
  compute_layout : list GPUBindGroupLayout;
  compute_entryPoint : string;
  compute_module : Kernel
}.

Record GPURenderPipeline : Type := mkRenderPipeline {
  render_label : string;
  render_layout : list GPUBindGroupLayout;
  vertex_entryPoint : string;
  vertex_arrayStride : Z;
  fragment_entryPoint : string
}.

(** [list[i]] of JavaScript: [undefined] outside the list. *)
Definition index {A} (l : list A) (i : Z) : option A :=
  if i <? 0 then None else l !! Z.to_nat i.

(** A finished pass of a command encoder. *)
Inductive Command : Type :=
| ComputePass (pipeline : GPUComputePipeline) (group : option GPUBindGroup)
              (workgroupCountX workgroupCountY : Z)
| RenderPass (pipeline : GPURenderPipeline) (vertexBuffer : nat)
             (group : option GPUBindGroup) (vertexCount instanceCount : Z).

Definition GPUCommandEncoder : Type := list Command.

(** What a draw call is a function of: the image on the canvas is determined
    by the bindings visible to the vertex and fragment stages, the vertex
    data and the two counts. *)
Record Frame : Type := mkFrame {
  frame_view : ShaderView;
  frame_vertices : option (list Word);
  frame_vertexCount : Z;
  frame_instanceCount : Z
}.

Definition setContents (h : nat) (ws : list Word) (bufs : list GPUBuffer)
  : list GPUBuffer :=
  match bufs !! h with
  | Some b => <[h := mkBuffer (label b) (size b) (usage b)
                        (resize (length (contents b)) (U32 0) ws)]> bufs
  | None => bufs
  end.

Definition writable (e : LayoutEntry) : bool :=
  match buffer e with
  | storage => hasFlag (visibility e) GPUShaderStage.COMPUTE
  | _ => false
  end.

(** One dispatch: the kernel reads the compute-visible view of the bind group
    as it is before the dispatch and overwrites the writable storage
    bindings. *)
Definition dispatch (k : Kernel) (g : GPUBindGroup) (wg : Z * Z)
    (bufs : list GPUBuffer) : list GPUBuffer :=
  let view := shaderView GPUShaderStage.COMPUTE bufs g in
  foldl (fun acc e =>
           if writable e then
             match boundAt (binding e) g with
             | Some h => setContents h (k view wg (binding e)) acc
             | None => acc
             end
           else acc)
        bufs (layout_entries (layout g)).

Definition drawStages : Z := Z.lor GPUShaderStage.VERTEX GPUShaderStage.FRAGMENT.

(** The device executes the passes of a submitted command buffer in order. *)
Definition execute (c : Command) (s : list GPUBuffer * option Frame)
  : list GPUBuffer * option Frame :=
  match c with
  | ComputePass p (Some g) x y => (dispatch (compute_module p) g (x, y) s.1, s.2)
  | ComputePass _ None _ _ => s
  | RenderPass _ vb (Some g) vc ic =>
      (s.1, Some (mkFrame (shaderView drawStages s.1 g)
                          (contents <$> s.1 !! vb) vc ic))
  | RenderPass _ _ None _ _ => s
  end.

Definition submit (cmds : list Command) (s : list GPUBuffer * option Frame)
  : list GPUBuffer * option Frame :=
  foldl (fun acc c => execute c acc) s cmds.

(** [new Uint32Array(n).map(() => Math.random() > 0.6 ? 1 : 0)]: the [k]-th
    cell takes the [k]-th draw, counted from [from]. *)
Definition cellOf (draw : Q) : Word :=
  if Qlt_le_dec (6 # 10) draw then U32 1 else U32 0.

Definition randomCells (random : nat -> Q) (from n : nat) : list Word :=
  map (fun k => cellOf (random (from + k)%nat)) (seq 0 n).

(** [Math.ceil(n / 8)]. *)
Definition workgroupCount (n : Z) : Z := Qceiling (inject_Z n / 8).

(** Host-side steps of the program, in the order they are performed. *)
Inductive Action : Type :=
| FpsSampled (fps : Z)
| CreateCommandEncoder
| Switched (bindGroupIndex : Z)
| Encoded (c : Command)
| WriteBuffer (h : nat) (data : list Word)
| Submit (cmds : list Command)
| RequestAnimationFrame (id : nat)
| CancelAnimationFrame (id : nat).

(** * The class based program *)
Module Part000.

Record Grid : Type := mkGrid {
  grid_size : Z;
  uniformBuffer : nat
}.

(** A [Simulation] never changes after its constructor has run, so the
    objects that hold one hold its value. *)
Record Simulation : Type := mkSimulation {
  time : nat;
  stateBuffers : list nat;
  bindGroups : list GPUBindGroup
}.

Record Renderer : Type := mkRenderer {
  lastFrame : Z;
  frameCount : Z;
  fps : Z;
  bindGroupIndex : Z;
  lastSwitch : Z;
  renderPipeline : GPURenderPipeline;
  computePipeline : GPUComputePipeline;
  vertexBuffer : nat;
  vertices : list Q;
  simulation : Simulation;
  timeBuffer : nat
}.

Record Engine : Type := mkEngine {
  engine_simulation : option Simulation;
  engine_renderer : option nat;          (* reference into [renderers] *)
  animationFrameId : option nat
}.

(** The locals of [Engine.init] that are live across its [await]. *)
Record Suspended : Type := mkSuspended {
  s_grid : Grid;
  s_timeBuffer : nat;
  s_vertexBuffer : nat;
  s_vertices : list Q;
  s_stateBuffers : list nat;
  s_layout : GPUBindGroupLayout;
  s_pipelineLayout : list GPUBindGroupLayout
}.

Record World : Type := mkWorld {
  GRID_SIZE : Z;
  COMPUTE_MS_INTERVAL : Z;
  buffers : list GPUBuffer;              (* the device *)
  canvas : option Frame;
  fpsText : option Z;                    (* [n] for the text "FPS: n" *)
  renderers : list Renderer;             (* the Renderer objects ever made *)
  engine : Engine;
  rafNext : nat;
  rafPending : list (nat * nat);         (* request id, Renderer to call *)
  suspended : list Suspended;            (* [init] calls awaiting pipelines *)
  random : nat -> Q;                     (* the draws of Math.random *)
  randomUsed : nat;
  hostLog : list Action
}.

Definition set_GRID_SIZE (v : Z) (w : World) : World :=
  mkWorld v (COMPUTE_MS_INTERVAL w) (buffers w) (canvas w) (fpsText w)
          (renderers w) (engine w) (rafNext w) (rafPending w) (suspended w)
          (random w) (randomUsed w) (hostLog w).

Definition set_COMPUTE_MS_INTERVAL (v : Z) (w : World) : World :=
  mkWorld (GRID_SIZE w) v (buffers w) (canvas w) (fpsText w)
          (renderers w) (engine w) (rafNext w) (rafPending w) (suspended w)
          (random w) (randomUsed w) (hostLog w).

Definition set_device (d : list GPUBuffer * option Frame) (w : World) : World :=
  mkWorld (GRID_SIZE w) (COMPUTE_MS_INTERVAL w) d.1 d.2 (fpsText w)
          (renderers w) (engine w) (rafNext w) (rafPending w) (suspended w)
          (random w) (randomUsed w) (hostLog w).

Definition set_buffers (b : list GPUBuffer) (w : World) : World :=
  set_device (b, canvas w) w.

Definition set_fpsText (v : option Z) (w : World) : World :=
  mkWorld (GRID_SIZE w) (COMPUTE_MS_INTERVAL w) (buffers w) (canvas w) v
          (renderers w) (engine w) (rafNext w) (rafPending w) (suspended w)
          (random w) (randomUsed w) (hostLog w).

Definition set_renderers (v : list Renderer) (w : World) : World :=
  mkWorld (GRID_SIZE w) (COMPUTE_MS_INTERVAL w) (buffers w) (canvas w) (fpsText w)
          v (engine w) (rafNext w) (rafPending w) (suspended w)
          (random w) (randomUsed w) (hostLog w).

Definition set_engine (v : Engine) (w : World) : World :=
  mkWorld (GRID_SIZE w) (COMPUTE_MS_INTERVAL w) (buffers w) (canvas w) (fpsText w)
          (renderers w) v (rafNext w) (rafPending w) (suspended w)
          (random w) (randomUsed w) (hostLog w).

Definition set_raf (next : nat) (pending : list (nat * nat)) (w : World) : World :=
  mkWorld (GRID_SIZE w) (COMPUTE_MS_INTERVAL w) (buffers w) (canvas w) (fpsText w)
          (renderers w) (engine w) next pending (suspended w)
          (random w) (randomUsed w) (hostLog w).

Definition set_suspended (v : list Suspended) (w : World) : World :=
  mkWorld (GRID_SIZE w) (COMPUTE_MS_INTERVAL w) (buffers w) (canvas w) (fpsText w)
          (renderers w) (engine w) (rafNext w) (rafPending w) v
          (random w) (randomUsed w) (hostLog w).

Definition set_randomUsed (v : nat) (w : World) : World :=
  mkWorld (GRID_SIZE w) (COMPUTE_MS_INTERVAL w) (buffers w) (canvas w) (fpsText w)
          (renderers w) (engine w) (rafNext w) (rafPending w) (suspended w)
          (random w) v (hostLog w).

Definition set_hostLog (v : list Action) (w : World) : World :=
  mkWorld (GRID_SIZE w) (COMPUTE_MS_INTERVAL w) (buffers w) (canvas w) (fpsText w)
          (renderers w) (engine w) (rafNext w) (rafPending w) (suspended w)
          (random w) (randomUsed w) v.

(** *** Browser and device calls *)

Definition log (a : Action) : State World unit :=
  modify (fun w => set_hostLog (hostLog w ++ [a]) w).

Definition device_createBuffer (lbl : string) (sz usg : Z) : State World nat :=
  fun w => let (h, bufs) := createBuffer lbl sz usg (buffers w) in
           (h, set_buffers bufs w).

Definition queue_writeBuffer (h : nat) (bufferOffset : Z) (data : list Word)
  : State World unit :=
  (modify (fun w => set_buffers (writeBuffer h bufferOffset data (buffers w)) w) ;;;
   log (WriteBuffer h data))%state.

Definition createCommandEncoder : State World GPUCommandEncoder :=
  (log CreateCommandEncoder ;;; ret [])%state.

Definition queue_submit (cmds : list Command) : State World unit :=
  (modify (fun w => set_device (submit cmds (buffers w, canvas w)) w) ;;;
   log (Submit cmds))%state.

Definition requestAnimationFrame (renderer : nat) : State World nat :=
  fun w => let id := rafNext w in
           (id, set_hostLog (hostLog w ++ [RequestAnimationFrame id])
                  (set_raf (S id) (rafPending w ++ [(id, renderer)]) w)).

Definition cancelAnimationFrame (id : nat) : State World unit :=
  (modify (fun w => set_raf (rafNext w)
                      (filter (fun p => p.1 <> id) (rafPending w)) w) ;;;
   log (CancelAnimationFrame id))%state.

Definition Math_random_cells (n : Z) : State World (list Word) :=
  fun w => let k := Z.to_nat n in
           (randomCells (random w) (randomUsed w) k,
            set_randomUsed (randomUsed w + k)%nat w).

(** *** class Grid *)
Definition new_Grid (size : Z) : State World Grid :=
  (let data := [F32 (inject_Z size); F32 (inject_Z size)] in
   uniformBuffer <- device_createBuffer "Grid Uniform" (byteLength data)
     (Z.lor GPUBufferUsage.UNIFORM GPUBufferUsage.COPY_DST) ;;;
   queue_writeBuffer uniformBuffer 0 data ;;;
   ret (mkGrid size uniformBuffer))%state.

(** *** class Buffers *)
Definition createTimeBuffer : State World nat :=
  device_createBuffer "Time Uniform" 4
    (Z.lor GPUBufferUsage.UNIFORM GPUBufferUsage.COPY_DST).

Definition createVertexBuffer : State World (nat * list Q) :=
  (let data := [-8 # 10; -8 # 10; 8 # 10; -8 # 10; 8 # 10; 8 # 10;
                -8 # 10; -8 # 10; 8 # 10; 8 # 10; -8 # 10; 8 # 10]%Q in
   buffer <- device_createBuffer "Cell vertices" (byteLength (F32 <$> data))
     (Z.lor GPUBufferUsage.VERTEX GPUBufferUsage.COPY_DST) ;;;
   queue_writeBuffer buffer 0 (F32 <$> data) ;;;
   ret (buffer, data))%state.

Definition createStateBuffers (size : Z) : State World (list nat) :=
  (data <- Math_random_cells (size * size) ;;;
   let usage := Z.lor GPUBufferUsage.STORAGE GPUBufferUsage.COPY_DST in
   a <- device_createBuffer "State A" (byteLength data) usage ;;;
   b <- device_createBuffer "State B" (byteLength data) usage ;;;
   let buffers := [a; b] in
   queue_writeBuffer a 0 data ;;;
   queue_writeBuffer b 0 data ;;;
   ret buffers)%state.

(** *** class PipelineFactory *)
Definition createBindGroupLayout : GPUBindGroupLayout :=
  mkLayout "BindGroupLayout"
    [ mkLayoutEntry 0 7 uniform;
      mkLayoutEntry 1 2 uniform;
      mkLayoutEntry 2 5 read_only_storage;
      mkLayoutEntry 3 4 storage ].

Definition createPipelineLayout (layout : GPUBindGroupLayout)
  : list GPUBindGroupLayout := [layout].

Section Shaders.

(** The code of [shaders/simulation.wgsl], loaded by [createCompute]. *)
Variable simulation_wgsl : Kernel.

Definition createCompute (layout : list GPUBindGroupLayout) : GPUComputePipeline :=
  mkComputePipeline "Simulation pipeline" layout "computeMain" simulation_wgsl.

Definition createRender (layout : list GPUBindGroupLayout) : GPURenderPipeline :=
  mkRenderPipeline "Cell pipeline" layout "vertexMain" 8 "fragmentMain".

(** *** class Simulation *)

(** [device.createBindGroup] on [stateBuffers[i]]: an [undefined] buffer is
    a [TypeError]; the entry is then left out. *)
Definition stateEntry (b : Z) (stateBuffers : list nat) (i : nat)
  : list BindGroupEntry :=
  match stateBuffers !! i with
  | Some h => [mkEntry b h]
  | None => []
  end.

Definition createBindGroups (time : nat) (stateBuffers : list nat) (grid : Grid)
    (layout : GPUBindGroupLayout) : list GPUBindGroup :=
  [ mkBindGroup "" layout
      ([ mkEntry 0 (uniformBuffer grid); mkEntry 1 time ]
       ++ stateEntry 2 stateBuffers 0 ++ stateEntry 3 stateBuffers 1);
    mkBindGroup "" layout
      ([ mkEntry 0 (uniformBuffer grid); mkEntry 1 time ]
       ++ stateEntry 2 stateBuffers 1 ++ stateEntry 3 stateBuffers 0) ].

Definition new_Simulation (grid : Grid) (time : nat) (state : list nat)
    (layout : GPUBindGroupLayout) : Simulation :=
  mkSimulation time state (createBindGroups time state grid layout).

Definition reset (this : Simulation) (size : Z) : State World unit :=
  (data <- Math_random_cells (size * size) ;;;
   foldr (fun buffer rest => queue_writeBuffer buffer 0 data ;;; rest)
         (ret tt) (stateBuffers this))%state.

(** *** class Renderer

    A method runs on its receiver and the world; the caller stores the
    receiver back (a Renderer is only ever touched by its own methods). *)
Definition Method (A : Type) : Type := State (Renderer * World) A.

Definition this {A} (field : Renderer -> A) : Method A :=
  gets (fun s => field s.1).

Definition assign (set : Renderer -> Renderer) : Method unit :=
  modify (fun s => (set s.1, s.2)).

Definition world {A} (m : State World A) : Method A :=
  fun s => let (a, w) := m s.2 in (a, (s.1, w)).

Definition set_lastFrame (v : Z) (r : Renderer) : Renderer :=
  mkRenderer v (frameCount r) (fps r) (bindGroupIndex r) (lastSwitch r)
    (renderPipeline r) (computePipeline r) (vertexBuffer r) (vertices r)
    (simulation r) (timeBuffer r).

Definition set_frameCount (v : Z) (r : Renderer) : Renderer :=
  mkRenderer (lastFrame r) v (fps r) (bindGroupIndex r) (lastSwitch r)
    (renderPipeline r) (computePipeline r) (vertexBuffer r) (vertices r)
    (simulation r) (timeBuffer r).

Definition set_fps (v : Z) (r : Renderer) : Renderer :=
  mkRenderer (lastFrame r) (frameCount r) v (bindGroupIndex r) (lastSwitch r)
    (renderPipeline r) (computePipeline r) (vertexBuffer r) (vertices r)
    (simulation r) (timeBuffer r).

Definition set_bindGroupIndex (v : Z) (r : Renderer) : Renderer :=
  mkRenderer (lastFrame r) (frameCount r) (fps r) v (lastSwitch r)
    (renderPipeline r) (computePipeline r) (vertexBuffer r) (vertices r)
    (simulation r) (timeBuffer r).

Definition set_lastSwitch (v : Z) (r : Renderer) : Renderer :=
  mkRenderer (lastFrame r) (frameCount r) (fps r) (bindGroupIndex r) v
    (renderPipeline r) (computePipeline r) (vertexBuffer r) (vertices r)
    (simulation r) (timeBuffer r).

Definition new_Renderer (renderPipeline : GPURenderPipeline)
    (computePipeline : GPUComputePipeline) (vertexBuffer : nat)
    (vertices : list Q) (simulation : Simulation) (timeBuffer : nat) : Renderer :=
  mkRenderer 0 0 0 0 0 renderPipeline computePipeline vertexBuffer vertices
    simulation timeBuffer.

(** [updateFPS] on a page that has the [#fps] element, where the
    assignment to [document.querySelector("#fps")!.textContent] succeeds;
    [Page000.updateFPS] is the method on any page. *)
Definition updateFPS (timeMs : Z) : Method unit :=
  (lf <- this lastFrame ;;;
   when_ (lf =? 0) (assign (set_lastFrame timeMs)) ;;;
   n <- this frameCount ;;;
   assign (set_frameCount (n + 1)) ;;;
   lf <- this lastFrame ;;;
   when_ (timeMs - lf >=? 1000)
     (n <- this frameCount ;;;
      assign (set_fps n) ;;;
      assign (set_frameCount 0) ;;;
      assign (set_lastFrame timeMs) ;;;
      f <- this fps ;;;
      world (modify (set_fpsText (Some f)) ;;; log (FpsSampled f))))%state.

(** [new Float32Array([seconds])]: the element [F32 seconds] holds
    [Math_fround seconds]. *)
Definition updateTimeBuffer (timeMs : Z) : Method unit :=
  (let seconds := (inject_Z timeMs / 1000)%Q in
   tb <- this timeBuffer ;;;
   world (queue_writeBuffer tb 0 [F32 seconds]))%state.

Definition runComputePass (encoder : GPUCommandEncoder) (timeMs : Z)
  : Method GPUCommandEncoder :=
  (ls <- this lastSwitch ;;;
   interval <- world (gets COMPUTE_MS_INTERVAL) ;;;
   when_ (timeMs - ls >=? interval)
     (i <- this bindGroupIndex ;;;
      assign (set_bindGroupIndex (Z.rem (i + 1) 2)) ;;;
      assign (set_lastSwitch timeMs) ;;;
      world (log (Switched (Z.rem (i + 1) 2)))) ;;;
   pipeline <- this computePipeline ;;;
   sim <- this simulation ;;;
   i <- this bindGroupIndex ;;;
   n <- world (gets GRID_SIZE) ;;;
   let pass := ComputePass pipeline (index (bindGroups sim) i)
                 (workgroupCount n) (workgroupCount n) in
   world (log (Encoded pass)) ;;;
   ret (encoder ++ [pass]))%state.

Definition runRenderPass (encoder : GPUCommandEncoder) : Method GPUCommandEncoder :=
  (pipeline <- this renderPipeline ;;;
   vb <- this vertexBuffer ;;;
   sim <- this simulation ;;;
   i <- this bindGroupIndex ;;;
   vs <- this vertices ;;;
   n <- world (gets GRID_SIZE) ;;;
   let pass := RenderPass pipeline vb (index (bindGroups sim) i)
                 (Z.of_nat (length vs) / 2) (n * n) in
   world (log (Encoded pass)) ;;;
   ret (encoder ++ [pass]))%state.

(** [self] is the reference that [this.render.bind(this)] captures. *)
Definition render (self : nat) (timeMs : Z) : Method unit :=
  (updateFPS timeMs ;;;
   encoder <- world createCommandEncoder ;;;
   encoder <- runComputePass encoder timeMs ;;;
   encoder <- runRenderPass encoder ;;;
   updateTimeBuffer timeMs ;;;
   world (queue_submit encoder) ;;;
   _ <- world (requestAnimationFrame self) ;;;
   ret tt)%state.

(** *** class Engine *)
Definition set_animationFrameId (v : option nat) (e : Engine) : Engine :=
  mkEngine (engine_simulation e) (engine_renderer e) v.

Definition set_simulation (v : option Simulation) (e : Engine) : Engine :=
  mkEngine v (engine_renderer e) (animationFrameId e).

Definition set_renderer (v : option nat) (e : Engine) : Engine :=
  mkEngine (engine_simulation e) v (animationFrameId e).

Definition stopRendering : State World unit :=
  (id <- gets (fun w => animationFrameId (engine w)) ;;;
   match id with
   | Some id =>
       cancelAnimationFrame id ;;;
       modify (fun w => set_engine (set_animationFrameId None (engine w)) w)
   | None => ret tt
   end)%state.

(** [init] is [async]: it runs up to its [await Promise.all], where its
    locals are parked until both pipelines exist; [init_afterAwait] is the
    rest of the body. *)
Definition init (gridSize : Z) : State World unit :=
  (grid <- new_Grid gridSize ;;;
   timeBuffer <- createTimeBuffer ;;;
   vb <- createVertexBuffer ;;;
   stateBuffers <- createStateBuffers gridSize ;;;
   let layout := createBindGroupLayout in
   let pipelineLayout := createPipelineLayout layout in
   modify (fun w => set_suspended
     (suspended w ++ [mkSuspended grid timeBuffer vb.1 vb.2 stateBuffers
                        layout pipelineLayout]) w))%state.

Definition init_afterAwait (s : Suspended) : State World unit :=
  (let renderPipeline := createRender (s_pipelineLayout s) in
   let computePipeline := createCompute (s_pipelineLayout s) in
   let sim := new_Simulation (s_grid s) (s_timeBuffer s) (s_stateBuffers s)
                (s_layout s) in
   let renderer := new_Renderer renderPipeline computePipeline (s_vertexBuffer s)
                     (s_vertices s) sim (s_timeBuffer s) in
   ref <- gets (fun w => length (renderers w)) ;;;
   modify (fun w => set_renderers (renderers w ++ [renderer]) w) ;;;
   modify (fun w => set_engine (set_simulation (Some sim) (engine w)) w) ;;;
   modify (fun w => set_engine (set_renderer (Some ref) (engine w)) w) ;;;
   id <- requestAnimationFrame ref ;;;
   modify (fun w => set_engine (set_animationFrameId (Some id) (engine w)) w))%state.

Definition start : State World unit :=
  (n <- gets GRID_SIZE ;;; init n)%state.

(** The handlers that [start] registers. *)
Definition onReset : State World unit :=
  (sim <- gets (fun w => engine_simulation (engine w)) ;;;
   match sim with
   | Some sim => n <- gets GRID_SIZE ;;; reset sim n
   | None => ret tt            (* TypeError: the handler ends here *)
   end)%state.

Definition onGridSizeChange (newSize : Z) : State World unit :=
  (stopRendering ;;;
   modify (set_GRID_SIZE newSize) ;;;
   init newSize)%state.

Definition onComputeIntervalInput (value : Z) : State World unit :=
  modify (set_COMPUTE_MS_INTERVAL value).

(** *** The event loop *)

(** The page as the module is loaded: [let GRID_SIZE = 64],
    [let COMPUTE_MS_INTERVAL = 100], [new Engine()]. *)
Definition loaded (random : nat -> Q) : World :=
  mkWorld 64 100 [] None None [] (mkEngine None None None) 1 [] [] random 0 [].

Inductive Event : Type :=
| AnimationFrame (timeMs : Z)      (* the display runs the requested callbacks *)
| PipelinesReady                   (* the oldest parked [init] resumes *)
| ResetClick
| GridSizeInput (size : Z)         (* the debounced slider value *)
| ComputeIntervalInput (value : Z).

Definition callRender (timeMs : Z) (w : World) (request : nat * nat) : World :=
  match renderers w !! request.2 with
  | Some r =>
      let s := exec (render request.2 timeMs) (r, w) in
      set_renderers (<[request.2 := s.1]> (renderers s.2)) s.2
  | None => w
  end.

Definition animationFrame (timeMs : Z) (w : World) : World :=
  foldl (callRender timeMs) (set_raf (rafNext w) [] w) (rafPending w).

Definition pipelinesReady (w : World) : World :=
  match suspended w with
  | s :: rest => exec (init_afterAwait s) (set_suspended rest w)
  | [] => w
  end.

Definition step (w : World) (e : Event) : World :=
  match e with
  | AnimationFrame timeMs => animationFrame timeMs w
  | PipelinesReady => pipelinesReady w
  | ResetClick => exec onReset w
  | GridSizeInput n => exec (onGridSizeChange n) w
  | ComputeIntervalInput v => exec (onComputeIntervalInput v) w
  end.

Definition run (w : World) (events : list Event) : World := foldl step w events.

(** The page after [new Engine().start()] has run to its first [await]. *)
Definition started (random : nat -> Q) : World := exec start (loaded random).

End Shaders.

End Part000.

(** * The function based program *)
Module Part001.

Definition GRID_SIZE : Z := 64.

Record Renderer : Type := mkRenderer {
  lastFrameTime : Z;
  frameCount : Z;
  fps : Z;
  bindGroupIndex : Z;
  lastBindGroupSwitchTime : Z;
  cellPipeline : GPURenderPipeline;
  simulationPipeline : GPUComputePipeline;
  vertexBuffer : nat;
  bindGroups : list GPUBindGroup;
  timeBuffer : nat;
  vertices : list Q
}.

Record World : Type := mkWorld {
  COMPUTE_MS_INTERVAL : Z;
  buffers : list GPUBuffer;
  canvas : option Frame;
  fpsText : option Z;
  renderer : option Renderer;            (* the one Renderer [init] makes *)
  rafNext : nat;
  rafPending : list nat;                 (* requests for [renderer.render] *)
  random : nat -> Q;
  randomUsed : nat;
  hostLog : list Action
}.

Definition set_COMPUTE_MS_INTERVAL (v : Z) (w : World) : World :=
  mkWorld v (buffers w) (canvas w) (fpsText w) (renderer w) (rafNext w)
          (rafPending w) (random w) (randomUsed w) (hostLog w).

Definition set_device (d : list GPUBuffer * option Frame) (w : World) : World :=
  mkWorld (COMPUTE_MS_INTERVAL w) d.1 d.2 (fpsText w) (renderer w) (rafNext w)
          (rafPending w) (random w) (randomUsed w) (hostLog w).

Definition set_buffers (b : list GPUBuffer) (w : World) : World :=
  set_device (b, canvas w) w.

Definition set_fpsText (v : option Z) (w : World) : World :=
  mkWorld (COMPUTE_MS_INTERVAL w) (buffers w) (canvas w) v (renderer w) (rafNext w)
          (rafPending w) (random w) (randomUsed w) (hostLog w).

Definition set_renderer (v : option Renderer) (w : World) : World :=
  mkWorld (COMPUTE_MS_INTERVAL w) (buffers w) (canvas w) (fpsText w) v (rafNext w)
          (rafPending w) (random w) (randomUsed w) (hostLog w).

Definition set_raf (next : nat) (pending : list nat) (w : World) : World :=
  mkWorld (COMPUTE_MS_INTERVAL w) (buffers w) (canvas w) (fpsText w) (renderer w)
          next pending (random w) (randomUsed w) (hostLog w).

Definition set_randomUsed (v : nat) (w : World) : World :=
  mkWorld (COMPUTE_MS_INTERVAL w) (buffers w) (canvas w) (fpsText w) (renderer w)
          (rafNext w) (rafPending w) (random w) v (hostLog w).

Definition set_hostLog (v : list Action) (w : World) : World :=
  mkWorld (COMPUTE_MS_INTERVAL w) (buffers w) (canvas w) (fpsText w) (renderer w)
          (rafNext w) (rafPending w) (random w) (randomUsed w) v.

Definition log (a : Action) : State World unit :=
  modify (fun w => set_hostLog (hostLog w ++ [a]) w).

Definition device_createBuffer (lbl : string) (sz usg : Z) : State World nat :=
  fun w => let (h, bufs) := createBuffer lbl sz usg (buffers w) in
           (h, set_buffers bufs w).

Definition queue_writeBuffer (h : nat) (bufferOffset : Z) (data : list Word)
  : State World unit :=
  (modify (fun w => set_buffers (writeBuffer h bufferOffset data (buffers w)) w) ;;;
   log (WriteBuffer h data))%state.

Definition createCommandEncoder : State World GPUCommandEncoder :=
  (log CreateCommandEncoder ;;; ret [])%state.

Definition queue_submit (cmds : list Command) : State World unit :=
  (modify (fun w => set_device (submit cmds (buffers w, canvas w)) w) ;;;
   log (Submit cmds))%state.

Definition requestAnimationFrame : State World nat :=
  fun w => let id := rafNext w in
           (id, set_hostLog (hostLog w ++ [RequestAnimationFrame id])
                  (set_raf (S id) (rafPending w ++ [id]) w)).

Definition Math_random_cells (n : Z) : State World (list Word) :=
  fun w => let k := Z.to_nat n in
           (randomCells (random w) (randomUsed w) k,
            set_randomUsed (randomUsed w + k)%nat w).

Definition createPipelineLayout (bindGroupLayout : GPUBindGroupLayout)
  : list GPUBindGroupLayout := [bindGroupLayout].

Definition createCellPipeline (pipelineLayout : list GPUBindGroupLayout)
  : GPURenderPipeline :=
  mkRenderPipeline "Cell pipeline" pipelineLayout "vertexMain" 8 "fragmentMain".

Definition createGridUniformBuffer : State World nat :=
  (let gridUniformArray := [F32 (inject_Z GRID_SIZE); F32 (inject_Z GRID_SIZE)] in
   gridUniformBuffer <- device_createBuffer "Grid Uniforms"
     (byteLength gridUniformArray)
     (Z.lor GPUBufferUsage.UNIFORM GPUBufferUsage.COPY_DST) ;;;
   queue_writeBuffer gridUniformBuffer 0 gridUniformArray ;;;
   ret gridUniformBuffer)%state.

Definition createTimeUniformBuffer : State World nat :=
  device_createBuffer "Time Uniform" 4
    (Z.lor GPUBufferUsage.UNIFORM GPUBufferUsage.COPY_DST).

Definition createStateStorageBuffers : State World (list nat) :=
  (let zeroes := replicate (Z.to_nat (GRID_SIZE * GRID_SIZE)) (U32 0) in
   let size := byteLength zeroes in
   let usage := Z.lor GPUBufferUsage.STORAGE GPUBufferUsage.COPY_DST in
   a <- device_createBuffer "Cell State A" size usage ;;;
   b <- device_createBuffer "Cell State B" size usage ;;;
   let cellStateStorage := [a; b] in
   cellStateArray <- Math_random_cells (GRID_SIZE * GRID_SIZE) ;;;
   queue_writeBuffer a 0 cellStateArray ;;;
   ret cellStateStorage)%state.

Definition createBindGroupLayout : GPUBindGroupLayout :=
  mkLayout "Cell Bind Group Layout"
    [ mkLayoutEntry 0
        (Z.lor (Z.lor GPUShaderStage.FRAGMENT GPUShaderStage.VERTEX)
               GPUShaderStage.COMPUTE)
        uniform;
      mkLayoutEntry 1 GPUShaderStage.FRAGMENT uniform;
      mkLayoutEntry 2 (Z.lor GPUShaderStage.VERTEX GPUShaderStage.COMPUTE)
        read_only_storage;
      mkLayoutEntry 3 GPUShaderStage.COMPUTE storage ].

Definition stateEntry (b : Z) (cellStateStorage : list nat) (i : nat)
  : list BindGroupEntry :=
  match cellStateStorage !! i with
  | Some h => [mkEntry b h]
  | None => []
  end.

Definition createBindGroups (gridUniformBuffer timeUniformBuffer : nat)
    (cellStateStorage : list nat) (bindGroupLayout : GPUBindGroupLayout)
  : list GPUBindGroup :=
  [ mkBindGroup "Cell renderer bind group A" bindGroupLayout
      ([ mkEntry 0 gridUniformBuffer; mkEntry 1 timeUniformBuffer ]
       ++ stateEntry 2 cellStateStorage 0 ++ stateEntry 3 cellStateStorage 1);
    mkBindGroup "Cell updater bind group B" bindGroupLayout
      ([ mkEntry 0 gridUniformBuffer; mkEntry 1 timeUniformBuffer ]
       ++ stateEntry 2 cellStateStorage 1 ++ stateEntry 3 cellStateStorage 0) ].

Definition createVertexBuffer : State World nat :=
  (let vertices := [-8 # 10; -8 # 10; 8 # 10; -8 # 10; 8 # 10; 8 # 10;
                    -8 # 10; -8 # 10; 8 # 10; 8 # 10; -8 # 10; 8 # 10]%Q in
   vertexBuffer <- device_createBuffer "Cell vertices"
     (byteLength (F32 <$> vertices))
     (Z.lor GPUBufferUsage.VERTEX GPUBufferUsage.COPY_DST) ;;;
   queue_writeBuffer vertexBuffer 0 (F32 <$> vertices) ;;;
   ret vertexBuffer)%state.

(** *** class Renderer *)
Definition Method (A : Type) : Type := State (Renderer * World) A.

Definition this {A} (field : Renderer -> A) : Method A :=
  gets (fun s => field s.1).

Definition assign (set : Renderer -> Renderer) : Method unit :=
  modify (fun s => (set s.1, s.2)).

Definition world {A} (m : State World A) : Method A :=
  fun s => let (a, w) := m s.2 in (a, (s.1, w)).

Definition set_lastFrameTime (v : Z) (r : Renderer) : Renderer :=
  mkRenderer v (frameCount r) (fps r) (bindGroupIndex r)
    (lastBindGroupSwitchTime r) (cellPipeline r) (simulationPipeline r)
    (vertexBuffer r) (bindGroups r) (timeBuffer r) (vertices r).

Definition set_frameCount (v : Z) (r : Renderer) : Renderer :=
  mkRenderer (lastFrameTime r) v (fps r) (bindGroupIndex r)
    (lastBindGroupSwitchTime r) (cellPipeline r) (simulationPipeline r)
    (vertexBuffer r) (bindGroups r) (timeBuffer r) (vertices r).

Definition set_fps (v : Z) (r : Renderer) : Renderer :=
  mkRenderer (lastFrameTime r) (frameCount r) v (bindGroupIndex r)
    (lastBindGroupSwitchTime r) (cellPipeline r) (simulationPipeline r)
    (vertexBuffer r) (bindGroups r) (timeBuffer r) (vertices r).

Definition set_bindGroupIndex (v : Z) (r : Renderer) : Renderer :=
  mkRenderer (lastFrameTime r) (frameCount r) (fps r) v
    (lastBindGroupSwitchTime r) (cellPipeline r) (simulationPipeline r)
    (vertexBuffer r) (bindGroups r) (timeBuffer r) (vertices r).

Definition set_lastBindGroupSwitchTime (v : Z) (r : Renderer) : Renderer :=
  mkRenderer (lastFrameTime r) (frameCount r) (fps r) (bindGroupIndex r) v
    (cellPipeline r) (simulationPipeline r)
    (vertexBuffer r) (bindGroups r) (timeBuffer r) (vertices r).

Definition new_Renderer (cellPipeline : GPURenderPipeline)
    (simulationPipeline : GPUComputePipeline) (vertexBuffer : nat)
    (bindGroups : list GPUBindGroup) (timeBuffer : nat) (vertices : list Q)
  : Renderer :=
  mkRenderer 0 0 0 0 0 cellPipeline simulationPipeline vertexBuffer bindGroups
    timeBuffer vertices.

(** [updateFpsCount] on a page that has the [#fps] element;
    [Page001.updateFpsCount] is the method on any page. *)
Definition updateFpsCount (timeMs : Z) : Method unit :=
  (lf <- this lastFrameTime ;;;
   when_ (lf =? 0) (assign (set_lastFrameTime timeMs)) ;;;
   n <- this frameCount ;;;
   assign (set_frameCount (n + 1)) ;;;
   lf <- this lastFrameTime ;;;
   when_ (timeMs - lf >=? 1000)
     (n <- this frameCount ;;;
      assign (set_fps n) ;;;
      assign (set_frameCount 0) ;;;
      assign (set_lastFrameTime timeMs) ;;;
      f <- this fps ;;;
      world (modify (set_fpsText (Some f)) ;;; log (FpsSampled f))))%state.

Definition updateBindGroupIndex (timeMs : Z) : Method unit :=
  (ls <- this lastBindGroupSwitchTime ;;;
   interval <- world (gets COMPUTE_MS_INTERVAL) ;;;
   when_ (timeMs - ls >=? interval)
     (i <- this bindGroupIndex ;;;
      groups <- this bindGroups ;;;
      let next := Z.rem (i + 1) (Z.of_nat (length groups)) in
      assign (set_bindGroupIndex next) ;;;
      assign (set_lastBindGroupSwitchTime timeMs) ;;;
      world (log (Switched next))))%state.

Definition render (timeMs : Z) : Method unit :=
  (encoder <- world createCommandEncoder ;;;

   pipeline <- this simulationPipeline ;;;
   groups <- this bindGroups ;;;
   i <- this bindGroupIndex ;;;
   let workgroupCount := workgroupCount GRID_SIZE in
   let computePass := ComputePass pipeline (index groups i)
                        workgroupCount workgroupCount in
   world (log (Encoded computePass)) ;;;
   let encoder := encoder ++ [computePass] in

   let time := (inject_Z timeMs / 1000)%Q in
   updateFpsCount timeMs ;;;
   tb <- this timeBuffer ;;;
   world (queue_writeBuffer tb 0 [F32 time]) ;;;
   updateBindGroupIndex timeMs ;;;

   pipeline <- this cellPipeline ;;;
   vb <- this vertexBuffer ;;;
   i <- this bindGroupIndex ;;;
   vs <- this vertices ;;;
   let pass := RenderPass pipeline vb (index groups i)
                 (Z.of_nat (length vs) / 2) (GRID_SIZE * GRID_SIZE) in
   world (log (Encoded pass)) ;;;
   let encoder := encoder ++ [pass] in

   world (queue_submit encoder) ;;;
   _ <- world requestAnimationFrame ;;;
   ret tt)%state.

Section Shaders.

Variable simulation_wgsl : Kernel.

Definition createComputePipeline (pipelineLayout : list GPUBindGroupLayout)
  : GPUComputePipeline :=
  mkComputePipeline "Simulation pipeline" pipelineLayout "computeMain"
    simulation_wgsl.

(** [init] has no handler that could run between its [await]s and touch
    what it builds, so it is taken in one piece. *)
Definition init : State World unit :=
  (gridUniformBuffer <- createGridUniformBuffer ;;;
   timeBuffer <- createTimeUniformBuffer ;;;
   cellStateStorage <- createStateStorageBuffers ;;;
   let bindGroupLayout := createBindGroupLayout in
   let bindGroups := createBindGroups gridUniformBuffer timeBuffer
                       cellStateStorage bindGroupLayout in
   let pipelineLayout := createPipelineLayout bindGroupLayout in
   let cellPipeline := createCellPipeline pipelineLayout in
   let simulationPipeline := createComputePipeline pipelineLayout in
   vertexBuffer <- createVertexBuffer ;;;
   let vertices := [-8 # 10; -8 # 10; 8 # 10; -8 # 10; 8 # 10; 8 # 10;
                    -8 # 10; -8 # 10; 8 # 10; 8 # 10; -8 # 10; 8 # 10]%Q in
   let renderer := new_Renderer cellPipeline simulationPipeline vertexBuffer
                     bindGroups timeBuffer vertices in
   modify (set_renderer (Some renderer)) ;;;
   _ <- requestAnimationFrame ;;;
   ret tt)%state.

Definition loaded (random : nat -> Q) : World :=
  mkWorld 100 [] None None None 1 [] random 0 [].

Definition started (random : nat -> Q) : World := exec init (loaded random).

End Shaders.

Inductive Event : Type :=
| AnimationFrame (timeMs : Z)
| ComputeIntervalInput (value : Z).

Definition callRender (timeMs : Z) (w : World) (request : nat) : World :=
  match renderer w with
  | Some r =>
      let s := exec (render timeMs) (r, w) in
      set_renderer (Some s.1) s.2
  | None => w
  end.

Definition animationFrame (timeMs : Z) (w : World) : World :=
  foldl (callRender timeMs) (set_raf (rafNext w) [] w) (rafPending w).

Definition step (w : World) (e : Event) : World :=
  match e with
  | AnimationFrame timeMs => animationFrame timeMs w
  | ComputeIntervalInput v => set_COMPUTE_MS_INTERVAL v w
  end.

Definition run (w : World) (events : list Event) : World := foldl step w events.

End Part001.

(** * Observations *)

(** The command batches handed to [queue.submit], oldest first, and the
    bind group indices switched to. *)
Definition submitted (log : list Action) : list (list Command) :=
  omap (fun a => match a with Submit cmds => Some cmds | _ => None end) log.

Definition switches (log : list Action) : list Z :=
  omap (fun a => match a with Switched i => Some i | _ => None end) log.

Definition timeWrites (h : nat) (log : list Action) : list (list Word) :=
  omap (fun a => match a with
                 | WriteBuffer h' d => if decide (h' = h) then Some d else None
                 | _ => None
                 end) log.

(** The buffers a bind group binds at the layout entries that satisfy [p]. *)
Definition boundWhere (p : LayoutEntry -> bool) (g : GPUBindGroup) : list nat :=
  omap (fun e => boundAt (binding e) g)
       (filter (fun e => p e = true) (layout_entries (layout g))).

Definition readOnlyForDraw (e : LayoutEntry) : bool :=
  match buffer e with
  | read_only_storage => hasFlag (visibility e) drawStages
  | _ => false
  end.

(** The storage buffers a compute pass writes and a render pass reads. *)
Definition writes (c : Command) : list nat :=
  match c with
  | ComputePass _ (Some g) _ _ => boundWhere writable g
  | _ => []
  end.

Definition reads (c : Command) : list nat :=
  match c with
  | RenderPass _ _ (Some g) _ _ => boundWhere readOnlyForDraw g
  | _ => []
  end.

(** A batch keeps its compute output apart from its render input: it writes
    one state buffer, reads one, and they are two buffers. *)
Definition separate (cmds : list Command) : Prop :=
  exists a b, concat (map writes cmds) = [a]
              /\ concat (map reads cmds) = [b] /\ a <> b.

(** The bind group a pass is encoded with. *)
Definition groupOf (c : Command) : option GPUBindGroup :=
  match c with
  | ComputePass _ g _ _ => g
  | RenderPass _ _ g _ _ => g
  end.

Definition isComputePass (c : Command) : bool :=
  match c with ComputePass _ _ _ _ => true | _ => false end.

Definition isRenderPass (c : Command) : bool :=
  match c with RenderPass _ _ _ _ _ => true | _ => false end.

Definition isPreamble (a : Action) : bool :=
  match a with
  | FpsSampled _ | CreateCommandEncoder | Switched _ => true
  | _ => false
  end.

(** The order of one tick as the specification has it: the switch decision
    (with the frame counter and the encoder) comes first, then the compute
    pass and the render pass, encoded with one and the same bind group, then
    the write of the time uniform, one submit of both passes and the request
    for the next frame. *)
Definition specifiedTick (acts : list Action) : Prop :=
  exists pre cp rp h data id,
    acts = pre ++ [Encoded cp; Encoded rp; WriteBuffer h data;
                   Submit [cp; rp]; RequestAnimationFrame id]
    /\ forallb isPreamble pre = true
    /\ isComputePass cp = true /\ isRenderPass rp = true
    /\ groupOf cp = groupOf rp.

(** Two buffer stores that differ at most in buffer [h]. *)
Definition agreeExcept (h : nat) (b1 b2 : list GPUBuffer) : Prop :=
  length b1 = length b2 /\ (forall i, i <> h -> b1 !! i = b2 !! i).

(** Buffer [h] is bound at no binding of [g] that [stage] can see. *)
Definition hiddenFrom (stage : Z) (h : nat) (g : GPUBindGroup) : Prop :=
  forall e, e ∈ layout_entries (layout g) ->
            hasFlag (visibility e) stage = true ->
            boundAt (binding e) g <> Some h.

(** The stages that see binding [b] of a layout: fragment, vertex, compute. *)
Definition stagesOf (b : Z) (l : GPUBindGroupLayout) : option (bool * bool * bool) :=
  (fun e => (hasFlag (visibility e) GPUShaderStage.FRAGMENT,
             hasFlag (visibility e) GPUShaderStage.VERTEX,
             hasFlag (visibility e) GPUShaderStage.COMPUTE))
  <$> find (fun e => binding e =? b) (layout_entries l).

(** Modelled from the spec: the workgroup edge of [shaders/simulation.wgsl],
    a file that is not among the sources; the specification gives tiles of
    8 by 8 cells, and 8 is the divisor of the dispatch counts. *)
Definition tile : Z := 8.

(** The gate of the bind group switch, run on its own over a stream of
    timestamps: the number of switches and the time of the last one. *)
Fixpoint gated (interval lastSwitch : Z) (ts : list Z) : nat :=
  match ts with
  | [] => 0%nat
  | t :: ts' =>
      if t - lastSwitch >=? interval
      then S (gated interval t ts')
      else gated interval lastSwitch ts'
  end.

Definition span (ts : list Z) : Z :=
  match ts with
  | [] => 0
  | t :: _ => List.last ts t - t
  end.

(** Timestamps that never go back, and timestamps at most [g] apart. *)
Fixpoint nondecreasing (ts : list Z) : bool :=
  match ts with
  | a :: (b :: _) as rest => (a <=? b) && nondecreasing rest
  | _ => true
  end.

Fixpoint gapsAtMost (g : Z) (ts : list Z) : bool :=
  match ts with
  | a :: (b :: _) as rest => (b - a <=? g) && gapsAtMost g rest
  | _ => true
  end.

(** A display at 60 Hz, timestamps in whole milliseconds:
    0, 16, 33, 50, ..., 983, 1000, 1016. *)
Definition sixtyHz : list Z := map (fun k => 50 * Z.of_nat k / 3) (seq 0 62).

(** The class based program with its first session running and the compute
    interval set to [interval], and the number of switches it logs over a
    stream of frames. *)
Definition running000 (k : Kernel) (random : nat -> Q) (interval : Z)
  : Part000.World :=
  Part000.run k (Part000.started random)
    [Part000.PipelinesReady; Part000.ComputeIntervalInput interval].

Definition flips000 (k : Kernel) (random : nat -> Q) (interval : Z)
    (ts : list Z) : Z :=
  Z.of_nat (length (switches (Part000.hostLog
    (Part000.run k (running000 k random interval)
       (Part000.AnimationFrame <$> ts))))).

(** What one call of [Part000.render] does, spelled out. *)
Module Tick000.
Import Part000.

Definition gate (timeMs : Z) (r : Renderer) (w : World) : bool :=
  timeMs - lastSwitch r >=? COMPUTE_MS_INTERVAL w.

Definition direction (timeMs : Z) (r : Renderer) (w : World) : Z :=
  if gate timeMs r w then Z.rem (bindGroupIndex r + 1) 2 else bindGroupIndex r.

Definition windowStart (timeMs : Z) (r : Renderer) : Z :=
  if lastFrame r =? 0 then timeMs else lastFrame r.

Definition sampled (timeMs : Z) (r : Renderer) : bool :=
  timeMs - windowStart timeMs r >=? 1000.

Definition after (timeMs : Z) (r : Renderer) (w : World) : Renderer :=
  mkRenderer
    (if sampled timeMs r then timeMs else windowStart timeMs r)
    (if sampled timeMs r then 0 else frameCount r + 1)
    (if sampled timeMs r then frameCount r + 1 else fps r)
    (direction timeMs r w)
    (if gate timeMs r w then timeMs else lastSwitch r)
    (renderPipeline r) (computePipeline r) (vertexBuffer r) (vertices r)
    (simulation r) (timeBuffer r).

Definition computePass (timeMs : Z) (r : Renderer) (w : World) : Command :=
  ComputePass (computePipeline r)
    (index (bindGroups (simulation r)) (direction timeMs r w))
    (workgroupCount (GRID_SIZE w)) (workgroupCount (GRID_SIZE w)).

Definition renderPass (timeMs : Z) (r : Renderer) (w : World) : Command :=
  RenderPass (renderPipeline r) (vertexBuffer r)
    (index (bindGroups (simulation r)) (direction timeMs r w))
    (Z.of_nat (length (vertices r)) / 2) (GRID_SIZE w * GRID_SIZE w).

Definition batch (timeMs : Z) (r : Renderer) (w : World) : list Command :=
  [computePass timeMs r w; renderPass timeMs r w].

Definition actions (self : nat) (timeMs : Z) (r : Renderer) (w : World)
  : list Action :=
  (if sampled timeMs r then [FpsSampled (frameCount r + 1)] else [])
  ++ [CreateCommandEncoder]
  ++ (if gate timeMs r w then [Switched (direction timeMs r w)] else [])
  ++ [Encoded (computePass timeMs r w); Encoded (renderPass timeMs r w);
      WriteBuffer (timeBuffer r) [F32 (inject_Z timeMs / 1000)];
      Submit (batch timeMs r w); RequestAnimationFrame (rafNext w)].

Definition device (timeMs : Z) (r : Renderer) (w : World)
  : list GPUBuffer * option Frame :=
  submit (batch timeMs r w)
    (writeBuffer (timeBuffer r) 0 [F32 (inject_Z timeMs / 1000)] (buffers w),
     canvas w).

Definition afterWorld (self : nat) (timeMs : Z) (r : Renderer) (w : World) : World :=
  mkWorld (GRID_SIZE w) (COMPUTE_MS_INTERVAL w)
    (device timeMs r w).1 (device timeMs r w).2
    (if sampled timeMs r then Some (frameCount r + 1) else fpsText w)
    (renderers w) (engine w) (S (rafNext w))
    (rafPending w ++ [(rafNext w, self)]) (suspended w)
    (random w) (randomUsed w) (hostLog w ++ actions self timeMs r w).

End Tick000.

(** What one call of [Part001.render] does, spelled out. *)
Module Tick001.
Import Part001.

Definition gate (timeMs : Z) (r : Renderer) (w : World) : bool :=
  timeMs - lastBindGroupSwitchTime r >=? COMPUTE_MS_INTERVAL w.

Definition direction (timeMs : Z) (r : Renderer) (w : World) : Z :=
  if gate timeMs r w
  then Z.rem (bindGroupIndex r + 1) (Z.of_nat (length (bindGroups r)))
  else bindGroupIndex r.

Definition windowStart (timeMs : Z) (r : Renderer) : Z :=
  if lastFrameTime r =? 0 then timeMs else lastFrameTime r.

Definition sampled (timeMs : Z) (r : Renderer) : bool :=
  timeMs - windowStart timeMs r >=? 1000.

Definition after (timeMs : Z) (r : Renderer) (w : World) : Renderer :=
  mkRenderer
    (if sampled timeMs r then timeMs else windowStart timeMs r)
    (if sampled timeMs r then 0 else frameCount r + 1)
    (if sampled timeMs r then frameCount r + 1 else fps r)
    (direction timeMs r w)
    (if gate timeMs r w then timeMs else lastBindGroupSwitchTime r)
    (cellPipeline r) (simulationPipeline r) (vertexBuffer r) (bindGroups r)
    (timeBuffer r) (vertices r).

(** The compute pass is encoded with the index the tick starts with, the
    render pass with the index after the switch decision. *)
Definition computePass (r : Renderer) : Command :=
  ComputePass (simulationPipeline r)
    (index (bindGroups r) (bindGroupIndex r))
    (workgroupCount GRID_SIZE) (workgroupCount GRID_SIZE).

Definition renderPass (timeMs : Z) (r : Renderer) (w : World) : Command :=
  RenderPass (cellPipeline r) (vertexBuffer r)
    (index (bindGroups r) (direction timeMs r w))
    (Z.of_nat (length (vertices r)) / 2) (GRID_SIZE * GRID_SIZE).

Definition batch (timeMs : Z) (r : Renderer) (w : World) : list Command :=
  [computePass r; renderPass timeMs r w].

Definition actions (timeMs : Z) (r : Renderer) (w : World) : list Action :=
  [CreateCommandEncoder; Encoded (computePass r)]
  ++ (if sampled timeMs r then [FpsSampled (frameCount r + 1)] else [])
  ++ [WriteBuffer (timeBuffer r) [F32 (inject_Z timeMs / 1000)]]
  ++ (if gate timeMs r w then [Switched (direction timeMs r w)] else [])
  ++ [Encoded (renderPass timeMs r w);
      Submit (batch timeMs r w); RequestAnimationFrame (rafNext w)].

Definition device (timeMs : Z) (r : Renderer) (w : World)
  : list GPUBuffer * option Frame :=
  submit (batch timeMs r w)
    (writeBuffer (timeBuffer r) 0 [F32 (inject_Z timeMs / 1000)] (buffers w),
     canvas w).

Definition afterWorld (timeMs : Z) (r : Renderer) (w : World) : World :=
  mkWorld (COMPUTE_MS_INTERVAL w)
    (device timeMs r w).1 (device timeMs r w).2
    (if sampled timeMs r then Some (frameCount r + 1) else fpsText w)
    (renderer w) (S (rafNext w)) (rafPending w ++ [rafNext w])
    (random w) (randomUsed w) (hostLog w ++ actions timeMs r w).

End Tick001.

(** ** Well-formed sessions *)

(** A Renderer as [Engine.init] wires it: its bind groups are the two that
    [createBindGroups] builds over four different buffers, and its bind group
    index is 0 or 1. *)
Module Inv000.
Import Part000.

Definition wired (r : Renderer) : Prop :=
  (bindGroupIndex r = 0 \/ bindGroupIndex r = 1)
  /\ exists grid a b,
       simulation r
       = new_Simulation grid (timeBuffer r) [a; b] createBindGroupLayout
       /\ NoDup [uniformBuffer grid; timeBuffer r; a; b].

Definition parked (s : Suspended) : Prop :=
  exists a b,
    s_stateBuffers s = [a; b]
    /\ s_layout s = createBindGroupLayout
    /\ NoDup [uniformBuffer (s_grid s); s_timeBuffer s; a; b].

Definition invariant (w : World) : Prop :=
  Forall wired (renderers w)
  /\ Forall parked (suspended w)
  /\ Forall separate (submitted (hostLog w)).

(** The session a reset acts on: the Engine holds a Simulation over two
    different state buffers of [n * n] cells each. *)
Definition stateBuffer (n : Z) (b : GPUBuffer) : Prop :=
  hasFlag (usage b) GPUBufferUsage.COPY_DST = true
  /\ size b = 4 * Z.of_nat (Z.to_nat (n * n))
  /\ length (contents b) = Z.to_nat (n * n).

Definition session (n : Z) (sim : Simulation) (a b : nat) (w : World) : Prop :=
  GRID_SIZE w = n
  /\ engine_simulation (engine w) = Some sim
  /\ stateBuffers sim = [a; b]
  /\ a <> b
  /\ (exists ba, buffers w !! a = Some ba /\ stateBuffer n ba)
  /\ (exists bb, buffers w !! b = Some bb /\ stateBuffer n bb).

End Inv000.

Module Inv001.
Import Part001.

Definition wired (r : Renderer) : Prop :=
  (bindGroupIndex r = 0 \/ bindGroupIndex r = 1)
  /\ exists grid a b,
       bindGroups r
       = createBindGroups grid (timeBuffer r) [a; b] createBindGroupLayout
       /\ NoDup [grid; timeBuffer r; a; b].

Definition invariant (w : World) : Prop :=
  exists r, renderer w = Some r /\ wired r.

End Inv001.

(** What [Part000.init] and its continuation build, spelled out. *)
Module Session000.
Import Part000.

Definition quad : list Q :=
  [-8 # 10; -8 # 10; 8 # 10; -8 # 10; 8 # 10; 8 # 10;
   -8 # 10; -8 # 10; 8 # 10; 8 # 10; -8 # 10; 8 # 10]%Q.

Definition allocated (n : Z) (data : list Word) : list GPUBuffer :=
  [ mkBuffer "Grid Uniform" 8 72 [F32 (inject_Z n); F32 (inject_Z n)];
    mkBuffer "Time Uniform" 4 72 [U32 0];
    mkBuffer "Cell vertices" 48 40 (F32 <$> quad);
    mkBuffer "State A" (byteLength data) 136 data;
    mkBuffer "State B" (byteLength data) 136 data ].

Definition parking (n : Z) (L : nat) : Suspended :=
  mkSuspended (mkGrid n L) (L + 1) (L + 2) quad [(L + 3)%nat; (L + 4)%nat]
    createBindGroupLayout [createBindGroupLayout].

Definition draw (n : Z) (w : World) : list Word :=
  randomCells (random w) (randomUsed w) (Z.to_nat (n * n)).

Definition afterInit (n : Z) (w : World) : World :=
  let L := length (buffers w) in
  mkWorld (GRID_SIZE w) (COMPUTE_MS_INTERVAL w)
    (buffers w ++ allocated n (draw n w))
    (canvas w) (fpsText w) (renderers w) (engine w) (rafNext w)
    (rafPending w) (suspended w ++ [parking n L]) (random w)
    (randomUsed w + Z.to_nat (n * n))%nat
    (hostLog w ++ [WriteBuffer L [F32 (inject_Z n); F32 (inject_Z n)];
                   WriteBuffer (L + 2) (F32 <$> quad);
                   WriteBuffer (L + 3) (draw n w);
                   WriteBuffer (L + 4) (draw n w)]).

Definition simulationOf (s : Suspended) : Simulation :=
  new_Simulation (s_grid s) (s_timeBuffer s) (s_stateBuffers s) (s_layout s).

Definition rendererOf (k : Kernel) (s : Suspended) : Renderer :=
  new_Renderer (createRender (s_pipelineLayout s))
    (createCompute k (s_pipelineLayout s)) (s_vertexBuffer s) (s_vertices s)
    (simulationOf s) (s_timeBuffer s).

Definition afterAwait (k : Kernel) (s : Suspended) (w : World) : World :=
  mkWorld (GRID_SIZE w) (COMPUTE_MS_INTERVAL w) (buffers w) (canvas w)
    (fpsText w) (renderers w ++ [rendererOf k s])
    (mkEngine (Some (simulationOf s)) (Some (length (renderers w)))
       (Some (rafNext w)))
    (S (rafNext w)) (rafPending w ++ [(rafNext w, length (renderers w))])
    (suspended w) (random w) (randomUsed w)
    (hostLog w ++ [RequestAnimationFrame (rafNext w)]).

(** After [reset]: the same world with one draw written to both buffers. *)
Definition afterReset (n : Z) (a b : nat) (w : World) : World :=
  let data := draw n w in
  let rewrite := fun h bufs =>
    match bufs !! h with
    | Some o => <[h := mkBuffer (label o) (size o) (usage o) data]> bufs
    | None => bufs
    end in
  mkWorld (GRID_SIZE w) (COMPUTE_MS_INTERVAL w)
    (rewrite b (rewrite a (buffers w)))
    (canvas w) (fpsText w) (renderers w) (engine w) (rafNext w)
    (rafPending w) (suspended w) (random w)
    (randomUsed w + Z.to_nat (n * n))%nat
    (hostLog w ++ [WriteBuffer a data; WriteBuffer b data]).

End Session000.

(** What [Part001.init] builds, spelled out. *)
Module Session001.
Import Part001.

Definition cells : nat := Z.to_nat (GRID_SIZE * GRID_SIZE).

Definition draw (random : nat -> Q) : list Word := randomCells random 0 cells.

Definition allocated (random : nat -> Q) : list GPUBuffer :=
  [ mkBuffer "Grid Uniforms" 8 72
      [F32 (inject_Z GRID_SIZE); F32 (inject_Z GRID_SIZE)];
    mkBuffer "Time Uniform" 4 72 [U32 0];
    mkBuffer "Cell State A" (4 * Z.of_nat cells) 136 (draw random);
    mkBuffer "Cell State B" (4 * Z.of_nat cells) 136 (replicate cells (U32 0));
    mkBuffer "Cell vertices" 48 40 (F32 <$> Session000.quad) ].

Definition rendererOf (k : Kernel) : Renderer :=
  new_Renderer (createCellPipeline (createPipelineLayout createBindGroupLayout))
    (createComputePipeline k (createPipelineLayout createBindGroupLayout))
    4 (createBindGroups 0 1 [2%nat; 3%nat] createBindGroupLayout) 1
    Session000.quad.

Definition afterInit (k : Kernel) (random : nat -> Q) : World :=
  mkWorld 100 (allocated random) None None (Some (rendererOf k)) 2 [1%nat]
    random cells
    [ WriteBuffer 0 [F32 (inject_Z GRID_SIZE); F32 (inject_Z GRID_SIZE)];
      WriteBuffer 2 (draw random);
      WriteBuffer 4 (F32 <$> Session000.quad);
      RequestAnimationFrame 1 ].

End Session001.

(** ** Two runs side by side *)

(** What of a Renderer the time of day does not touch: its bind group index
    and everything its constructor was given. *)
Definition wiring000 (r : Part000.Renderer) :=
  (Part000.bindGroupIndex r, Part000.renderPipeline r,
   Part000.computePipeline r, Part000.vertexBuffer r, Part000.vertices r,
   Part000.simulation r, Part000.timeBuffer r).

Definition wiring001 (r : Part001.Renderer) :=
  (Part001.bindGroupIndex r, Part001.cellPipeline r,
   Part001.simulationPipeline r, Part001.vertexBuffer r, Part001.bindGroups r,
   Part001.timeBuffer r, Part001.vertices r).

(** Two streams of timestamps, each gated with its own interval, that switch
    at the same frames. *)
Fixpoint sameSwitching (i1 ls1 : Z) (ts1 : list Z) (i2 ls2 : Z) (ts2 : list Z)
  : bool :=
  match ts1, ts2 with
  | [], [] => true
  | t1 :: ts1', t2 :: ts2' =>
      let g1 := t1 - ls1 >=? i1 in
      let g2 := t2 - ls2 >=? i2 in
      eqb g1 g2
      && sameSwitching i1 (if g1 then t1 else ls1) ts1'
                       i2 (if g2 then t2 else ls2) ts2'
  | _, _ => false
  end.

(** The function based program with the compute interval set. *)
Definition running001 (k : Kernel) (random : nat -> Q) (interval : Z)
  : Part001.World :=
  Part001.run (Part001.started k random) [Part001.ComputeIntervalInput interval].

(** After [Engine.stopRendering]. *)
Definition afterStop000 (w : Part000.World) : Part000.World :=
  match Part000.animationFrameId (Part000.engine w) with
  | Some id =>
      Part000.mkWorld (Part000.GRID_SIZE w) (Part000.COMPUTE_MS_INTERVAL w)
        (Part000.buffers w) (Part000.canvas w) (Part000.fpsText w)
        (Part000.renderers w)
        (Part000.set_animationFrameId None (Part000.engine w))
        (Part000.rafNext w)
        (filter (fun p => p.1 <> id) (Part000.rafPending w))
        (Part000.suspended w) (Part000.random w) (Part000.randomUsed w)
        (Part000.hostLog w ++ [CancelAnimationFrame id])
  | None => w
  end.

(** A grid-size change as the specification has it, [timeMs] being the
    timestamp of the request: what was scheduled is cancelled, the buffers
    of the old session are gone and only the new session's remain, and the
    Engine's Renderer starts with its switch time and its frame window at
    [timeMs] and its frame count at 0. *)
Definition resizeAsSpecified (timeMs : Z) (w w' : Part000.World) : Prop :=
  (forall q, q ∈ Part000.rafPending w -> q ∉ Part000.rafPending w')
  /\ length (Part000.buffers w') = 5%nat
  /\ exists i r,
       Part000.engine_renderer (Part000.engine w') = Some i
       /\ Part000.renderers w' !! i = Some r
       /\ Part000.lastSwitch r = timeMs
       /\ Part000.lastFrame r = timeMs
       /\ Part000.frameCount r = 0.

(** [n] switches starting from index [from]: each takes the other value. *)
Fixpoint toggles (from : Z) (n : nat) : list Z :=
  match n with
  | O => []
  | S n' => (1 - from) :: toggles (1 - from) n'
  end.

(** ** Sessions in reach *)

(** Every state buffer of dimension [n] in [bufs] is one in [bufs'] too. *)
Definition keeps (n : Z) (bufs bufs' : list GPUBuffer) : Prop :=
  forall h b, bufs !! h = Some b -> Inv000.stateBuffer n b ->
              exists b', bufs' !! h = Some b' /\ Inv000.stateBuffer n b'.

(** The state buffers of the newest session match [GRID_SIZE]: those of the
    [init] parked last, or, when none is parked, those of the Engine's
    Simulation. *)
Definition sized (w : Part000.World) (hs : list nat) : Prop :=
  exists a b,
    hs = [a; b] /\ a <> b
    /\ (exists ba, Part000.buffers w !! a = Some ba
                   /\ Inv000.stateBuffer (Part000.GRID_SIZE w) ba)
    /\ (exists bb, Part000.buffers w !! b = Some bb
                   /\ Inv000.stateBuffer (Part000.GRID_SIZE w) bb).

Definition newest (w : Part000.World) : option (list nat) :=
  match last (Part000.suspended w) with
  | Some s => Some (Part000.s_stateBuffers s)
  | None => Part000.stateBuffers <$> Part000.engine_simulation (Part000.engine w)
  end.

Definition current (w : Part000.World) : Prop :=
  exists hs, newest w = Some hs /\ sized w hs.

(** * The page around the program *)

(** What a script can throw: [new Error(message)], or the [TypeError] of a
    method called on [null] or [undefined]. *)
Inductive Thrown : Type :=
| Error (message : string)
| TypeError.

(** The browser, as far as start-up asks it. *)
Record Browser : Type := mkBrowser {
  elements : list string;      (* the ids of the elements of the document *)
  navigator_gpu : bool;        (* [navigator.gpu] is defined *)
  gpu_adapter : bool;          (* [requestAdapter()] gives an adapter, not [null] *)
  webgpu_context : bool        (* [canvas.getContext("webgpu")] is not [null] *)
}.

(** [document.getElementById(id)] and [document.querySelector("#" + id)]:
    whether they find an element. *)
Definition getElementById (id : string) (b : Browser) : bool :=
  bool_decide (id ∈ elements b).

(** ** The page of the class based program

    Slider values are whole numbers: an input event carries
    [parseInt(slider.value)], which for such a value is the number the label
    shows. *)
Module Page000.

(** A pending [setTimeout(() => callback(size), delay)]. *)
Record Timer : Type := mkTimer {
  timer_id : nat;
  timer_delay : Z;
  timer_size : Z
}.

Record Page : Type := mkPage {
  browser : Browser;
  world : Part000.World;
  listeners : list string;       (* ids of the elements with a listener *)
  intervalLabel : option Z;      (* text of #compute-interval-value *)
  sizeLabel : option Z;          (* text of #grid-size-value *)
  timeout : option nat;          (* [let timeout] of [onGridSizeChange] *)
  timerNext : nat;
  timers : list Timer;           (* oldest first *)
  errors : list Thrown           (* what reaches the console *)
}.

Definition set_world (v : Part000.World) (p : Page) : Page :=
  mkPage (browser p) v (listeners p) (intervalLabel p) (sizeLabel p)
         (timeout p) (timerNext p) (timers p) (errors p).

Definition set_listeners (v : list string) (p : Page) : Page :=
  mkPage (browser p) (world p) v (intervalLabel p) (sizeLabel p)
         (timeout p) (timerNext p) (timers p) (errors p).

Definition set_intervalLabel (v : option Z) (p : Page) : Page :=
  mkPage (browser p) (world p) (listeners p) v (sizeLabel p)
         (timeout p) (timerNext p) (timers p) (errors p).

Definition set_sizeLabel (v : option Z) (p : Page) : Page :=
  mkPage (browser p) (world p) (listeners p) (intervalLabel p) v
         (timeout p) (timerNext p) (timers p) (errors p).

Definition set_timeout (v : option nat) (p : Page) : Page :=
  mkPage (browser p) (world p) (listeners p) (intervalLabel p) (sizeLabel p)
         v (timerNext p) (timers p) (errors p).

Definition set_timers (next : nat) (v : list Timer) (p : Page) : Page :=
  mkPage (browser p) (world p) (listeners p) (intervalLabel p) (sizeLabel p)
         (timeout p) next v (errors p).

Definition report (e : Thrown) (p : Page) : Page :=
  mkPage (browser p) (world p) (listeners p) (intervalLabel p) (sizeLabel p)
         (timeout p) (timerNext p) (timers p) (errors p ++ [e]).

(** [clearTimeout(id)]: nothing happens for [undefined] or for an id that is
    not pending. *)
Definition clearTimeout (id : option nat) (p : Page) : Page :=
  match id with
  | Some id => set_timers (timerNext p)
                 (filter (fun t => timer_id t <> id) (timers p)) p
  | None => p
  end.

Definition setTimeout (size delay : Z) (p : Page) : nat * Page :=
  (timerNext p,
   set_timers (S (timerNext p))
     (timers p ++ [mkTimer (timerNext p) delay size]) p).

(** [element.addEventListener]: a [TypeError] when [getElementById] gave
    [null]. *)
Definition addEventListener (id : string) (p : Page) : Thrown + Page :=
  if getElementById id (browser p)
  then inr (set_listeners (listeners p ++ [id]) p)
  else inl TypeError.

Definition getCanvas (b : Browser) : Thrown + unit :=
  if getElementById "canvas" b then inr tt
  else inl (Error "Canvas element not found").

(** [adapter.requestDevice()] is taken to give a device. *)
Definition getDevice (b : Browser) : Thrown + unit :=
  if negb (navigator_gpu b) then inl (Error "WebGPU not supported")
  else if negb (gpu_adapter b) then inl (Error "No GPUAdapter found")
  else inr tt.

(** *** class UIController: what its methods register *)
Module UIController.

Definition onReset (p : Page) : Page :=
  match addEventListener "reset-button" p with   (* [?.]: no listener, no error *)
  | inr p' => p'
  | inl _ => p
  end.

Definition setup (p : Page) : Thrown + Page :=
  addEventListener "compute-interval-slider" p.

Definition onGridSizeChange (p : Page) : Thrown + Page :=
  addEventListener "grid-size-slider" p.

End UIController.

(** The listener that [UIController.setup] installs. *)
Definition computeIntervalInput (value : Z) (p : Page) : Page :=
  let p := set_world (exec (Part000.onComputeIntervalInput value) (world p)) p in
  if getElementById "compute-interval-value" (browser p)
  then set_intervalLabel (Some value) p
  else report TypeError p.

(** The listener that [UIController.onGridSizeChange] installs. *)
Definition gridSizeInput (value : Z) (p : Page) : Page :=
  let p := clearTimeout (timeout p) p in
  let size := value in
  if getElementById "grid-size-value" (browser p)
  then
    let p := set_sizeLabel (Some value) p in
    let (id, p) := setTimeout size 150 p in
    set_timeout (Some id) p
  else report TypeError p.

(** [Engine.start], to the end or to what it throws.  The call of
    [this.init] is not awaited. *)
Definition Engine_start (p : Page) : option Thrown * Page :=
  match UIController.setup p with
  | inl e => (Some e, p)
  | inr p =>
      match getDevice (browser p) with
      | inl e => (Some e, p)
      | inr _ =>
          match getCanvas (browser p) with
          | inl e => (Some e, p)
          | inr _ =>
              if negb (webgpu_context (browser p))
              then (Some TypeError, p)       (* [context.configure] on [null] *)
              else
                let p := set_world (exec Part000.start (world p)) p in
                let p := UIController.onReset p in
                match UIController.onGridSizeChange p with
                | inl e => (Some e, p)
                | inr p => (None, p)
                end
          end
      end
  end.

(** [new Engine().start().catch(console.error)]. *)
Definition main (p : Page) : Page :=
  match Engine_start p with
  | (Some e, p) => report e p
  | (None, p) => p
  end.

Definition loaded (b : Browser) (random : nat -> Q) : Page :=
  mkPage b (Part000.loaded random) [] None None None 1 [] [].

Definition started (b : Browser) (random : nat -> Q) : Page :=
  main (loaded b random).

Inductive Event : Type :=
| AnimationFrame (timeMs : Z)
| PipelinesReady
| ResetClick                          (* a click on #reset-button *)
| ComputeIntervalSlider (value : Z)   (* an input event of the slider *)
| GridSizeSlider (value : Z)
| Timeout.                            (* the oldest pending timer fires *)

Definition listening (id : string) (p : Page) : bool :=
  bool_decide (id ∈ listeners p).

(** *** class Renderer on the page

    [updateFPS] ends a reading with
    [document.querySelector("#fps")!.textContent = ...].  On a page without
    that element the assignment throws a [TypeError], after the counters
    have been reset for the new window; [render] ends there, before
    anything is encoded, written, submitted or requested.
    [Part000.updateFPS] and [Part000.render] are these two methods on a page
    that has the element. *)
Definition updateFPS (b : Browser) (timeMs : Z)
  : Part000.Method (option Thrown) :=
  (lf <- Part000.this Part000.lastFrame ;;;
   when_ (lf =? 0) (Part000.assign (Part000.set_lastFrame timeMs)) ;;;
   n <- Part000.this Part000.frameCount ;;;
   Part000.assign (Part000.set_frameCount (n + 1)) ;;;
   lf <- Part000.this Part000.lastFrame ;;;
   if timeMs - lf >=? 1000
   then
     n <- Part000.this Part000.frameCount ;;;
     Part000.assign (Part000.set_fps n) ;;;
     Part000.assign (Part000.set_frameCount 0) ;;;
     Part000.assign (Part000.set_lastFrame timeMs) ;;;
     f <- Part000.this Part000.fps ;;;
     if getElementById "fps" b
     then
       Part000.world (modify (Part000.set_fpsText (Some f)) ;;;
                      Part000.log (FpsSampled f)) ;;;
       ret None
     else ret (Some TypeError)
   else ret None)%state.

Definition render (b : Browser) (self : nat) (timeMs : Z)
  : Part000.Method (option Thrown) :=
  (thrown <- updateFPS b timeMs ;;;
   match thrown with
   | Some e => ret (Some e)
   | None =>
       encoder <- Part000.world Part000.createCommandEncoder ;;;
       encoder <- Part000.runComputePass encoder timeMs ;;;
       encoder <- Part000.runRenderPass encoder ;;;
       Part000.updateTimeBuffer timeMs ;;;
       Part000.world (Part000.queue_submit encoder) ;;;
       _ <- Part000.world (Part000.requestAnimationFrame self) ;;;
       ret None
   end)%state.

(** The display calls one requested callback.  What the callback throws
    reaches the console, and the callbacks after it are still called. *)
Definition callRender (timeMs : Z) (p : Page) (request : nat * nat) : Page :=
  match Part000.renderers (world p) !! request.2 with
  | Some r =>
      let (thrown, s) := render (browser p) request.2 timeMs (r, world p) in
      let p' := set_world (Part000.set_renderers
                             (<[request.2 := s.1]> (Part000.renderers s.2))
                             s.2) p in
      match thrown with
      | Some e => report e p'
      | None => p'
      end
  | None => p
  end.

Definition animationFrame (timeMs : Z) (p : Page) : Page :=
  foldl (callRender timeMs)
        (set_world (Part000.set_raf (Part000.rafNext (world p)) [] (world p)) p)
        (Part000.rafPending (world p)).

(** The listener that [Engine.start] registers through
    [UIController.onReset]: [() => this.simulation.reset(GRID_SIZE)].  Until
    the first pipelines exist [this.simulation] is [undefined] and the call
    on it throws. *)
Definition resetClick (p : Page) : Page :=
  let p' := set_world (exec Part000.onReset (world p)) p in
  match Part000.engine_simulation (Part000.engine (world p)) with
  | Some _ => p'
  | None => report TypeError p'
  end.

Section Shaders.

Variable simulation_wgsl : Kernel.

Definition step (p : Page) (e : Event) : Page :=
  match e with
  | AnimationFrame timeMs => animationFrame timeMs p
  | PipelinesReady =>
      set_world (Part000.pipelinesReady simulation_wgsl (world p)) p
  | ResetClick =>
      if listening "reset-button" p then resetClick p else p
  | ComputeIntervalSlider value =>
      if listening "compute-interval-slider" p
      then computeIntervalInput value p
      else p
  | GridSizeSlider value =>
      if listening "grid-size-slider" p then gridSizeInput value p else p
  | Timeout =>
      match timers p with
      | t :: rest =>
          set_world (exec (Part000.onGridSizeChange (timer_size t)) (world p))
                    (set_timers (timerNext p) rest p)
      | [] => p
      end
  end.

Definition run (p : Page) (events : list Event) : Page := foldl step p events.

End Shaders.

End Page000.
(** ** The page of the function based program *)
Module Page001.

Record Page : Type := mkPage {
  browser : Browser;
  world : Part001.World;
  listeners : list string;
  intervalLabel : option Z;                 (* text of #compute-interval-value *)
  errors : list (option string * Thrown)    (* console: text before the error *)
}.

Definition set_world (v : Part001.World) (p : Page) : Page :=
  mkPage (browser p) v (listeners p) (intervalLabel p) (errors p).

Definition set_listeners (v : list string) (p : Page) : Page :=
  mkPage (browser p) (world p) v (intervalLabel p) (errors p).

Definition set_intervalLabel (v : option Z) (p : Page) : Page :=
  mkPage (browser p) (world p) (listeners p) v (errors p).

Definition report (e : option string * Thrown) (p : Page) : Page :=
  mkPage (browser p) (world p) (listeners p) (intervalLabel p) (errors p ++ [e]).

Definition setupSliders (p : Page) : Thrown + Page :=
  if getElementById "compute-interval-slider" (browser p)
  then inr (set_listeners (listeners p ++ ["compute-interval-slider"]) p)
  else inl TypeError.

Definition getCanvas (b : Browser) : Thrown + unit :=
  if getElementById "canvas" b then inr tt
  else inl (Error "Canvas element not found").

Definition getAdapter (b : Browser) : Thrown + unit :=
  if negb (navigator_gpu b)
  then inl (Error "WebGPU not supported on this browser.")
  else if negb (gpu_adapter b)
       then inl (Error "No appropriate GPUAdapter found.")
       else inr tt.

(** [adapter.requestDevice()] is taken to give a device. *)
Definition getDevice (adapter : unit) : Thrown + unit := inr tt.

Definition configureContext (b : Browser) (canvas device : unit) : Thrown + unit :=
  if negb (webgpu_context b) then inl (Error "Failed to get WebGPU context.")
  else inr tt.

(** The listener that [setupSliders] installs. *)
Definition computeIntervalInput (value : Z) (p : Page) : Page :=
  let p := set_world (Part001.set_COMPUTE_MS_INTERVAL value (world p)) p in
  if getElementById "compute-interval-value" (browser p)
  then set_intervalLabel (Some value) p
  else report (None, TypeError) p.

Inductive Event : Type :=
| AnimationFrame (timeMs : Z)
| ComputeIntervalSlider (value : Z).

Definition listening (id : string) (p : Page) : bool :=
  bool_decide (id ∈ listeners p).

(** *** class Renderer on the page

    [updateFpsCount] ends a reading with
    [document.querySelector("#fps")!.textContent = ...]: a [TypeError] on a
    page without that element, after the counters have been reset.
    [render] is [async]: it ends there with a rejected promise that nothing
    handles, the compute pass encoded and nothing written, submitted or
    requested.  [Part001.updateFpsCount] and [Part001.render] are these two
    methods on a page that has the element. *)
Definition updateFpsCount (b : Browser) (timeMs : Z)
  : Part001.Method (option Thrown) :=
  (lf <- Part001.this Part001.lastFrameTime ;;;
   when_ (lf =? 0) (Part001.assign (Part001.set_lastFrameTime timeMs)) ;;;
   n <- Part001.this Part001.frameCount ;;;
   Part001.assign (Part001.set_frameCount (n + 1)) ;;;
   lf <- Part001.this Part001.lastFrameTime ;;;
   if timeMs - lf >=? 1000
   then
     n <- Part001.this Part001.frameCount ;;;
     Part001.assign (Part001.set_fps n) ;;;
     Part001.assign (Part001.set_frameCount 0) ;;;
     Part001.assign (Part001.set_lastFrameTime timeMs) ;;;
     f <- Part001.this Part001.fps ;;;
     if getElementById "fps" b
     then
       Part001.world (modify (Part001.set_fpsText (Some f)) ;;;
                      Part001.log (FpsSampled f)) ;;;
       ret None
     else ret (Some TypeError)
   else ret None)%state.

Definition render (b : Browser) (timeMs : Z) : Part001.Method (option Thrown) :=
  (encoder <- Part001.world Part001.createCommandEncoder ;;;

   pipeline <- Part001.this Part001.simulationPipeline ;;;
   groups <- Part001.this Part001.bindGroups ;;;
   i <- Part001.this Part001.bindGroupIndex ;;;
   let workgroupCount := workgroupCount Part001.GRID_SIZE in
   let computePass := ComputePass pipeline (index groups i)
                        workgroupCount workgroupCount in
   Part001.world (Part001.log (Encoded computePass)) ;;;
   let encoder := encoder ++ [computePass] in

   let time := (inject_Z timeMs / 1000)%Q in
   thrown <- updateFpsCount b timeMs ;;;
   match thrown with
   | Some e => ret (Some e)
   | None =>
       tb <- Part001.this Part001.timeBuffer ;;;
       Part001.world (Part001.queue_writeBuffer tb 0 [F32 time]) ;;;
       Part001.updateBindGroupIndex timeMs ;;;

       pipeline <- Part001.this Part001.cellPipeline ;;;
       vb <- Part001.this Part001.vertexBuffer ;;;
       i <- Part001.this Part001.bindGroupIndex ;;;
       vs <- Part001.this Part001.vertices ;;;
       let pass := RenderPass pipeline vb (index groups i)
                     (Z.of_nat (length vs) / 2)
                     (Part001.GRID_SIZE * Part001.GRID_SIZE) in
       Part001.world (Part001.log (Encoded pass)) ;;;
       let encoder := encoder ++ [pass] in

       Part001.world (Part001.queue_submit encoder) ;;;
       _ <- Part001.world Part001.requestAnimationFrame ;;;
       ret None
   end)%state.

Definition callRender (timeMs : Z) (p : Page) (request : nat) : Page :=
  match Part001.renderer (world p) with
  | Some r =>
      let (thrown, s) := render (browser p) timeMs (r, world p) in
      let p' := set_world (Part001.set_renderer (Some s.1) s.2) p in
      match thrown with
      | Some e => report (None, e) p'
      | None => p'
      end
  | None => p
  end.

Definition animationFrame (timeMs : Z) (p : Page) : Page :=
  foldl (callRender timeMs)
        (set_world (Part001.set_raf (Part001.rafNext (world p)) [] (world p)) p)
        (Part001.rafPending (world p)).

Definition step (p : Page) (e : Event) : Page :=
  match e with
  | AnimationFrame timeMs => animationFrame timeMs p
  | ComputeIntervalSlider value =>
      if listening "compute-interval-slider" p
      then computeIntervalInput value p
      else p
  end.

Definition run (p : Page) (events : list Event) : Page := foldl step p events.

Definition loaded (b : Browser) (random : nat -> Q) : Page :=
  mkPage b (Part001.loaded random) [] None [].

Section Shaders.

Variable simulation_wgsl : Kernel.

(** [init], to its end or to what it throws. *)
Definition init (p : Page) : option Thrown * Page :=
  match setupSliders p with
  | inl e => (Some e, p)
  | inr p =>
      match getAdapter (browser p) with
      | inl e => (Some e, p)
      | inr adapter =>
          match getDevice adapter with
          | inl e => (Some e, p)
          | inr device =>
              match getCanvas (browser p) with
              | inl e => (Some e, p)
              | inr canvas =>
                  match configureContext (browser p) canvas device with
                  | inl e => (Some e, p)
                  | inr _ =>
                      (None,
                       set_world (exec (Part001.init simulation_wgsl) (world p)) p)
                  end
              end
          end
      end
  end.

(** [init().catch((error) => console.error("Error initializing WebGPU:",
    error))]. *)
Definition main (p : Page) : Page :=
  match init p with
  | (Some e, p) => report (Some "Error initializing WebGPU:", e) p
  | (None, p) => p
  end.

Definition started (b : Browser) (random : nat -> Q) : Page :=
  main (loaded b random).

End Shaders.

End Page001.

(** ** A frame on the page *)

(** A call of [render] throws exactly when it takes a reading on a page
    without the #fps element. *)
Definition throws000 (b : Browser) (timeMs : Z) (r : Part000.Renderer) : bool :=
  Tick000.sampled timeMs r && negb (getElementById "fps" b).

Definition throws001 (b : Browser) (timeMs : Z) (r : Part001.Renderer) : bool :=
  Tick001.sampled timeMs r && negb (getElementById "fps" b).

(** The Renderer that such a call leaves: the reading taken, the window
    opened anew, and nothing else changed. *)
Definition aborted000 (timeMs : Z) (r : Part000.Renderer) : Part000.Renderer :=
  Part000.mkRenderer timeMs 0 (Part000.frameCount r + 1)
    (Part000.bindGroupIndex r) (Part000.lastSwitch r)
    (Part000.renderPipeline r) (Part000.computePipeline r)
    (Part000.vertexBuffer r) (Part000.vertices r) (Part000.simulation r)
    (Part000.timeBuffer r).

Definition aborted001 (timeMs : Z) (r : Part001.Renderer) : Part001.Renderer :=
  Part001.mkRenderer timeMs 0 (Part001.frameCount r + 1)
    (Part001.bindGroupIndex r) (Part001.lastBindGroupSwitchTime r)
    (Part001.cellPipeline r) (Part001.simulationPipeline r)
    (Part001.vertexBuffer r) (Part001.bindGroups r) (Part001.timeBuffer r)
    (Part001.vertices r).

(** In the function based program the compute pass was encoded before the
    call threw. *)
Definition abortedWorld001 (r : Part001.Renderer) (w : Part001.World)
  : Part001.World :=
  Part001.set_hostLog
    (Part001.hostLog w ++ [CreateCommandEncoder; Encoded (Tick001.computePass r)])
    w.

(** The event of the program that an event of the page amounts to, if any:
    a click or an input reaches the program through a listener only, the
    slider of the grid size through its timer only. *)
Definition programEvent000 (p : Page000.Page) (e : Page000.Event)
  : option Part000.Event :=
  match e with
  | Page000.AnimationFrame timeMs => Some (Part000.AnimationFrame timeMs)
  | Page000.PipelinesReady => Some Part000.PipelinesReady
  | Page000.ResetClick =>
      if Page000.listening "reset-button" p then Some Part000.ResetClick
      else None
  | Page000.ComputeIntervalSlider value =>
      if Page000.listening "compute-interval-slider" p
      then Some (Part000.ComputeIntervalInput value)
      else None
  | Page000.GridSizeSlider _ => None
  | Page000.Timeout =>
      match Page000.timers p with
      | t :: _ => Some (Part000.GridSizeInput (Page000.timer_size t))
      | [] => None
      end
  end.

Fixpoint programEvents000 (k : Kernel) (p : Page000.Page)
    (events : list Page000.Event) : list Part000.Event :=
  match events with
  | [] => []
  | e :: rest =>
      option_list (programEvent000 p e)
      ++ programEvents000 k (Page000.step k p e) rest
  end.

Definition programEvent001 (p : Page001.Page) (e : Page001.Event)
  : option Part001.Event :=
  match e with
  | Page001.AnimationFrame timeMs => Some (Part001.AnimationFrame timeMs)
  | Page001.ComputeIntervalSlider value =>
      if Page001.listening "compute-interval-slider" p
      then Some (Part001.ComputeIntervalInput value)
      else None
  end.

Fixpoint programEvents001 (p : Page001.Page) (events : list Page001.Event)
  : list Part001.Event :=
  match events with
  | [] => []
  | e :: rest =>
      option_list (programEvent001 p e)
      ++ programEvents001 (Page001.step p e) rest
  end.

(** The timestamps of the frames among the events of a page. *)
Definition frames (events : list Page001.Event) : list Z :=
  omap (fun e => match e with
                 | Page001.AnimationFrame timeMs => Some timeMs
                 | _ => None
                 end) events.

(** At most one grid-size change is scheduled, and it is for the value that
    the label shows. *)
Definition debounced (p : Page000.Page) : Prop :=
  Page000.timers p = []
  \/ exists id v,
       Page000.timers p = [Page000.mkTimer id 150 v]
       /\ Page000.timeout p = Some id /\ Page000.sizeLabel p = Some v.

(** The page of a start that threw before [init]: nothing but the compute
    interval can change. *)
Definition idle (random : nat -> Q) (p : Page000.Page) : Prop :=
  (exists v, Page000.world p
             = Part000.set_COMPUTE_MS_INTERVAL v (Part000.loaded random))
  /\ Page000.timers p = []
  /\ Page000.listening "reset-button" p = false
  /\ Page000.listening "grid-size-slider" p = false.

(** ** The frame counter *)

(** The readings of the FPS counter that a log records, oldest first. *)
Definition samples (log : list Action) : list Z :=
  omap (fun a => match a with FpsSampled f => Some f | _ => None end) log.

Definition total (zs : list Z) : Z := foldr Z.add 0 zs.

(** The frame counter of [updateFPS] and [updateFpsCount], run on its own
    over a stream of timestamps: the readings it displays. *)
Fixpoint sampling (lastFrame frameCount : Z) (ts : list Z) : list Z :=
  match ts with
  | [] => []
  | t :: ts' =>
      let start := if lastFrame =? 0 then t else lastFrame in
      if t - start >=? 1000
      then (frameCount + 1) :: sampling t 0 ts'
      else sampling start (frameCount + 1) ts'
  end.

(** A display that delivers [n] frames, [d] ms apart, the first at [t0]. *)
Definition steady (t0 d : Z) (n : nat) : list Z :=
  map (fun i => t0 + d * Z.of_nat i) (seq 0 n).

(** The number of frames, [d] ms apart, that it takes to span 1000 ms:
    [1000 / d], rounded up. *)
Definition framesPerReading (d : Z) : nat := Z.to_nat ((1000 + d - 1) / d).

(** Every submitted frame is counted once: in a reading already displayed
    or in the running count of its Renderer; and the text on the page is the
    latest reading. *)
Definition counted000 (w : Part000.World) : Prop :=
  total (samples (Part000.hostLog w))
  + total (Part000.frameCount <$> Part000.renderers w)
  = Z.of_nat (length (submitted (Part000.hostLog w)))
  /\ Part000.fpsText w = last (samples (Part000.hostLog w)).

Definition counted001 (w : Part001.World) : Prop :=
  total (samples (Part001.hostLog w))
  + default 0 (Part001.frameCount <$> Part001.renderer w)
  = Z.of_nat (length (submitted (Part001.hostLog w)))
  /\ Part001.fpsText w = last (samples (Part001.hostLog w)).

(** ** Frame requests *)

(** No Renderer has two frame requests pending; every pending request is for
    a Renderer that exists and has an id that was handed out, as has the id
    that the Engine keeps. *)
Definition scheduled (w : Part000.World) : Prop :=
  NoDup (snd <$> Part000.rafPending w)
  /\ Forall (fun q => (q.2 < length (Part000.renderers w))%nat
                      /\ (q.1 < Part000.rafNext w)%nat)
            (Part000.rafPending w)
  /\ (forall id, Part000.animationFrameId (Part000.engine w) = Some id ->
                 (id < Part000.rafNext w)%nat).

(** The requests that answer the requests [qs] at a frame: one each, for the
    same Renderer, with the ids from [next] on. *)
Definition answers (next : nat) (qs : list (nat * nat)) : list (nat * nat) :=
  zip (seq next (length qs)) (snd <$> qs).

(** The timestamps of the frames among the events of the function based
    program. *)
Definition frames001 (events : list Part001.Event) : list Z :=
  omap (fun e => match e with
                 | Part001.AnimationFrame timeMs => Some timeMs
                 | _ => None
                 end) events.

(** The loop of the function based program is alive and single: a Renderer,
    one request pending, which is the one handed out last. *)
Definition looping001 (w : Part001.World) : Prop :=
  is_Some (Part001.renderer w)
  /\ exists id, Part001.rafPending w = [id] /\ Part001.rafNext w = S id.


(** Events among which no pipelines arrive. *)
Definition unready (events : list Part000.Event) : bool :=
  forallb (fun e => match e with Part000.PipelinesReady => false | _ => true end)
          events.


(** ** Buffers over time *)

(** Every buffer of [bufs] is in [bufs'] under the same handle, with the
    label, size and usage it was created with. *)
Definition kept (bufs bufs' : list GPUBuffer) : Prop :=
  forall h b, bufs !! h = Some b ->
              exists b', bufs' !! h = Some b'
                         /\ label b' = label b /\ size b' = size b
                         /\ usage b' = usage b.

(** The grid-size changes among the events of the class based program. *)
Definition resizes000 (events : list Part000.Event) : list Z :=
  omap (fun e => match e with
                 | Part000.GridSizeInput n => Some n
                 | _ => None
                 end) events.

(** The first session of either program, its counters, its bind group index
    and the contents of its time uniform and state buffers apart. *)
Definition renderer000 (k : Kernel) (lastFrame frameCount fps index lastSwitch : Z)
  : Part000.Renderer :=
  Part000.mkRenderer lastFrame frameCount fps index lastSwitch
    (Part000.createRender [Part000.createBindGroupLayout])
    (Part000.createCompute k [Part000.createBindGroupLayout])
    2 Session000.quad
    (Part000.new_Simulation (Part000.mkGrid 64 0) 1 [3%nat; 4%nat]
       Part000.createBindGroupLayout)
    1.

Definition device000 (time : Word) (a b : GPUBuffer) : list GPUBuffer :=
  [ mkBuffer "Grid Uniform" 8 72 [F32 (inject_Z 64); F32 (inject_Z 64)];
    mkBuffer "Time Uniform" 4 72 [time];
    mkBuffer "Cell vertices" 48 40 (F32 <$> Session000.quad);
    a; b ].

Definition first000 (k : Kernel) (w : Part000.World) : Prop :=
  exists lf fc f i ls id x a b,
    Part000.renderers w = [renderer000 k lf fc f i ls]
    /\ (i = 0 \/ i = 1)
    /\ Part000.rafPending w = [(id, 0%nat)]
    /\ Part000.GRID_SIZE w = 64
    /\ Part000.buffers w = device000 x a b.

Definition renderer001 (k : Kernel) (lastFrameTime frameCount fps index lastSwitch : Z)
  : Part001.Renderer :=
  Part001.mkRenderer lastFrameTime frameCount fps index lastSwitch
    (Part001.createCellPipeline [Part001.createBindGroupLayout])
    (Part001.createComputePipeline k [Part001.createBindGroupLayout])
    4 (Part001.createBindGroups 0 1 [2%nat; 3%nat] Part001.createBindGroupLayout)
    1 Session000.quad.

Definition device001 (time : Word) (a b : GPUBuffer) : list GPUBuffer :=
  [ mkBuffer "Grid Uniforms" 8 72
      [F32 (inject_Z Part001.GRID_SIZE); F32 (inject_Z Part001.GRID_SIZE)];
    mkBuffer "Time Uniform" 4 72 [time];
    a; b;
    mkBuffer "Cell vertices" 48 40 (F32 <$> Session000.quad) ].

Definition first001 (k : Kernel) (w : Part001.World) : Prop :=
  exists lf fc f i ls id x a b,
    Part001.renderer w = Some (renderer001 k lf fc f i ls)
    /\ (i = 0 \/ i = 1)
    /\ Part001.rafPending w = [id]
    /\ Part001.buffers w = device001 x a b.

(** What a frame shows of the time: the time uniform as the fragment stage
    sees it, and the two counts of the draw. *)
Definition drawnAt (timeMs : Z) (cells : Z) (canvas : option Frame) : Prop :=
  exists f,
    canvas = Some f
    /\ (1, [F32 (inject_Z timeMs / 1000)]) ∈ frame_view f
    /\ frame_vertexCount f = 6
    /\ frame_instanceCount f = cells.


(** The labels beside the sliders tell the truth: the compute interval is
    the one its label shows, and so is the grid size unless a change of it
    is still waiting in its timer; a label that the page lacks shows
    nothing. *)
Definition truthful (p : Page000.Page) : Prop :=
  (forall v, Page000.intervalLabel p = Some v ->
             Part000.COMPUTE_MS_INTERVAL (Page000.world p) = v
             /\ getElementById "compute-interval-value" (Page000.browser p)
                = true)
  /\ (forall v, Page000.timers p = [] -> Page000.sizeLabel p = Some v ->
                Part000.GRID_SIZE (Page000.world p) = v)
  /\ (forall v, Page000.sizeLabel p = Some v ->
                getElementById "grid-size-value" (Page000.browser p) = true).


(** ** What is written once *)

Definition labelAt (bufs : list GPUBuffer) (h : nat) : option string :=
  label <$> bufs !! h.

(** The buffers that are written when they are created and, as it turns
    out, never again: the grid uniforms and the vertex buffers. *)
Definition constant (b : GPUBuffer) : Prop :=
  label b = "Grid Uniform" \/ label b = "Cell vertices".

Definition gridUniform (n : Z) : GPUBuffer :=
  mkBuffer "Grid Uniform" 8 72 [F32 (inject_Z n); F32 (inject_Z n)].

Definition cellVertices : GPUBuffer :=
  mkBuffer "Cell vertices" 48 40 (F32 <$> Session000.quad).

Definition asCreated (bufs : list GPUBuffer) : Prop :=
  forall h b, bufs !! h = Some b ->
              (label b = "Grid Uniform" -> exists n, b = gridUniform n)
              /\ (label b = "Cell vertices" -> b = cellVertices).

(** [bufs'] is [bufs] with some contents replaced, those of the constant
    buffers apart. *)
Definition spares (bufs bufs' : list GPUBuffer) : Prop :=
  kept bufs bufs'
  /\ (forall h b, bufs !! h = Some b -> constant b -> bufs' !! h = Some b).

(** The five buffers of a session, each under the handle that the session
    uses it by. *)
Definition laidOut (bufs : list GPUBuffer) (grid time vertex a b : nat) : Prop :=
  labelAt bufs grid = Some "Grid Uniform"
  /\ labelAt bufs time = Some "Time Uniform"
  /\ labelAt bufs vertex = Some "Cell vertices"
  /\ labelAt bufs a = Some "State A"
  /\ labelAt bufs b = Some "State B".

Definition rendererLaidOut (bufs : list GPUBuffer) (r : Part000.Renderer) : Prop :=
  (Part000.bindGroupIndex r = 0 \/ Part000.bindGroupIndex r = 1)
  /\ Part000.vertices r = Session000.quad
  /\ Part000.renderPipeline r
     = Part000.createRender [Part000.createBindGroupLayout]
  /\ exists grid a b,
       Part000.simulation r
       = Part000.new_Simulation grid (Part000.timeBuffer r) [a; b]
           Part000.createBindGroupLayout
       /\ laidOut bufs (Part000.uniformBuffer grid) (Part000.timeBuffer r)
            (Part000.vertexBuffer r) a b.

Definition suspendedLaidOut (bufs : list GPUBuffer) (s : Part000.Suspended)
  : Prop :=
  Part000.s_vertices s = Session000.quad
  /\ Part000.s_layout s = Part000.createBindGroupLayout
  /\ Part000.s_pipelineLayout s = [Part000.createBindGroupLayout]
  /\ exists a b,
       Part000.s_stateBuffers s = [a; b]
       /\ laidOut bufs (Part000.uniformBuffer (Part000.s_grid s))
            (Part000.s_timeBuffer s) (Part000.s_vertexBuffer s) a b.

Definition labelled (w : Part000.World) : Prop :=
  Forall (rendererLaidOut (Part000.buffers w)) (Part000.renderers w)
  /\ Forall (suspendedLaidOut (Part000.buffers w)) (Part000.suspended w)
  /\ (forall sim,
        Part000.engine_simulation (Part000.engine w) = Some sim ->
        exists a b, Part000.stateBuffers sim = [a; b]
                    /\ labelAt (Part000.buffers w) a = Some "State A"
                    /\ labelAt (Part000.buffers w) b = Some "State B")
  /\ asCreated (Part000.buffers w).


(** The grid uniform of the newest session holds the grid size in force:
    that of the [init] parked last or, when none is parked, that of the
    Engine's Simulation. *)
Definition gridInForce (w : Part000.World) : Prop :=
  match last (Part000.suspended w) with
  | Some s =>
      Part000.buffers w !! Part000.uniformBuffer (Part000.s_grid s)
      = Some (gridUniform (Part000.GRID_SIZE w))
  | None =>
      exists grid time state layout,
        Part000.engine_simulation (Part000.engine w)
        = Some (Part000.new_Simulation grid time state layout)
        /\ Part000.buffers w !! Part000.uniformBuffer grid
           = Some (gridUniform (Part000.GRID_SIZE w))
  end.

(** ** The first session *)

(** The class based program in its first session: with its first [init]
    parked, as [start] left it but for the compute interval; and, once the
    pipelines have arrived, with the Renderer and the Simulation built over
    the first five buffers. *)
Definition parked000 (random : nat -> Q) (w : Part000.World) : Prop :=
  exists v, w = Part000.set_COMPUTE_MS_INTERVAL v
                  (Session000.afterInit 64 (Part000.loaded random)).

Definition settled000 (k : Kernel) (w : Part000.World) : Prop :=
  first000 k w
  /\ Part000.suspended w = []
  /\ Part000.engine_simulation (Part000.engine w)
     = Some (Part000.new_Simulation (Part000.mkGrid 64 0) 1 [3%nat; 4%nat]
               Part000.createBindGroupLayout).

(** ** Reset and dispatch, as specified *)

(** A reset as the specification has it: both state buffers of the Engine's
    Simulation hold the one array of [GRID_SIZE * GRID_SIZE] cells that the
    reset drew. *)
Definition redrawn (w w' : Part000.World) : Prop :=
  let n := Part000.GRID_SIZE w in
  let data := randomCells (Part000.random w) (Part000.randomUsed w)
                (Z.to_nat (n * n)) in
  exists sim a b,
    Part000.engine_simulation (Part000.engine w') = Some sim
    /\ Part000.stateBuffers sim = [a; b]
    /\ (contents <$> Part000.buffers w' !! a) = Some data
    /\ (contents <$> Part000.buffers w' !! b) = Some data.

(** And nothing else has changed: the grid size, the Renderers with their
    bind group index, switch time and frame counters, the pending frame
    requests, and every other buffer. *)
Definition resetAsSpecified (w w' : Part000.World) : Prop :=
  redrawn w w'
  /\ Part000.GRID_SIZE w' = Part000.GRID_SIZE w
  /\ Part000.renderers w' = Part000.renderers w
  /\ Part000.rafPending w' = Part000.rafPending w
  /\ (forall h b, Part000.buffers w !! h = Some b ->
        label b <> "State A" -> label b <> "State B" ->
        Part000.buffers w' !! h = Some b).

(** The grid that a bind group is for: its grid uniform, at binding 0,
    holds the dimension [n] twice, and the state buffers at bindings 2 and 3
    have room for [n * n] cells each. *)
Definition gridOf (bufs : list GPUBuffer) (g : GPUBindGroup) (n : Z) : Prop :=
  (exists h b, boundAt 0 g = Some h /\ bufs !! h = Some b
               /\ contents b = [F32 (inject_Z n); F32 (inject_Z n)])
  /\ (exists h b, boundAt 2 g = Some h /\ bufs !! h = Some b
                  /\ size b = 4 * (n * n))
  /\ (exists h b, boundAt 3 g = Some h /\ bufs !! h = Some b
                  /\ size b = 4 * (n * n)).

(** A dispatch as the specification has it: a compute pass over a grid of
    dimension [n > 0] that launches [ceil (n / 8)] workgroups in each of the
    two dimensions, so that every cell lies in a workgroup. *)
Definition dispatchCovers (bufs : list GPUBuffer) (n : Z) (c : Command) : Prop :=
  exists p g,
    c = ComputePass p (Some g) (workgroupCount n) (workgroupCount n)
    /\ 0 < n /\ gridOf bufs g n
    /\ forall x y, 0 <= x < n -> 0 <= y < n ->
                   0 <= x / tile < workgroupCount n
                   /\ 0 <= y / tile < workgroupCount n.

(** The Renderer that the Engine holds renders the Simulation that the
    Engine holds. *)
Definition engineHolds (w : Part000.World) : Prop :=
  forall sim,
    Part000.engine_simulation (Part000.engine w) = Some sim ->
    exists i r,
      Part000.engine_renderer (Part000.engine w) = Some i
      /\ Part000.renderers w !! i = Some r
      /\ Part000.simulation r = sim.

(** * Facts *)

(** ** One call of [render] *)

Lemma render000 self timeMs r w :
  Part000.render self timeMs (r, w)
  = (tt, (Tick000.after timeMs r w, Tick000.afterWorld self timeMs r w)).
Proof.
  unfold Tick000.after, Tick000.afterWorld, Tick000.actions, Tick000.device,
    Tick000.batch, Tick000.computePass, Tick000.renderPass, Tick000.direction,
    Tick000.sampled, Tick000.windowStart, Tick000.gate.
  unfold Part000.render, Part000.updateFPS, Part000.runComputePass,
    Part000.runRenderPass, Part000.updateTimeBuffer, Part000.queue_submit,
    Part000.queue_writeBuffer, Part000.createCommandEncoder,
    Part000.requestAnimationFrame, Part000.log, Part000.world, Part000.this,
    Part000.assign, when_, bind, gets, modify, ret.
  cbn.
  destruct (Part000.lastFrame r =? 0); cbn;
    destruct (_ >=? 1000); cbn;
    destruct (timeMs - Part000.lastSwitch r >=? Part000.COMPUTE_MS_INTERVAL w);
    cbn; rewrite <- ?app_assoc; reflexivity.
Qed.

Lemma render001 timeMs r w :
  Part001.render timeMs (r, w)
  = (tt, (Tick001.after timeMs r w, Tick001.afterWorld timeMs r w)).
Proof.
  unfold Tick001.after, Tick001.afterWorld, Tick001.actions, Tick001.device,
    Tick001.batch, Tick001.computePass, Tick001.renderPass, Tick001.direction,
    Tick001.sampled, Tick001.windowStart, Tick001.gate.
  unfold Part001.render, Part001.updateFpsCount, Part001.updateBindGroupIndex,
    Part001.queue_submit, Part001.queue_writeBuffer,
    Part001.createCommandEncoder, Part001.requestAnimationFrame, Part001.log,
    Part001.world, Part001.this, Part001.assign, when_, bind, gets, modify, ret.
  cbn.
  destruct (Part001.lastFrameTime r =? 0); cbn;
    destruct (_ >=? 1000); cbn;
    destruct (timeMs - Part001.lastBindGroupSwitchTime r
              >=? Part001.COMPUTE_MS_INTERVAL w);
    cbn; rewrite <- ?app_assoc; reflexivity.
Qed.

(** ** The device *)

Lemma length_writeBuffer h off data bufs :
  length (writeBuffer h off data bufs) = length bufs.
Proof.
  unfold writeBuffer. destruct (bufs !! h); [|done].
  destruct (_ && _); [|done]. by rewrite length_insert.
Qed.

Lemma writeBuffer_other h off data bufs i :
  i <> h -> writeBuffer h off data bufs !! i = bufs !! i.
Proof.
  intros Hne. unfold writeBuffer. destruct (bufs !! h); [|done].
  destruct (_ && _); [|done]. by rewrite list_lookup_insert_ne.
Qed.

Lemma splice_whole old data :
  length old = length data -> splice old 0 data = data.
Proof.
  intros H. unfold splice. rewrite take_0. cbn.
  rewrite drop_ge by lia. by rewrite app_nil_r.
Qed.

(** A write from offset 0 of as many bytes as the buffer has replaces its
    contents. *)
Lemma writeBuffer_whole h data bufs b :
  bufs !! h = Some b ->
  hasFlag (usage b) GPUBufferUsage.COPY_DST = true ->
  size b = byteLength data ->
  length (contents b) = length data ->
  writeBuffer h 0 data bufs
  = <[h := mkBuffer (label b) (size b) (usage b) data]> bufs.
Proof.
  intros Hb Hflag Hsize Hlen. unfold writeBuffer. rewrite Hb, Hflag, Hsize.
  cbn. rewrite Z.leb_refl. cbn. by rewrite splice_whole.
Qed.

Lemma length_zeroes data :
  length (replicate (Z.to_nat (byteLength data / 4)) (U32 0)) = length data.
Proof.
  rewrite length_replicate. unfold byteLength.
  rewrite Z.mul_comm, Z.div_mul by lia. lia.
Qed.

Lemma write_fresh h k data b tail bufs :
  h = (length bufs + k)%nat ->
  tail !! k = Some b ->
  hasFlag (usage b) GPUBufferUsage.COPY_DST = true ->
  size b = byteLength data -> length (contents b) = length data ->
  writeBuffer h 0 data (bufs ++ tail)
  = bufs ++ <[k := mkBuffer (label b) (size b) (usage b) data]> tail.
Proof.
  intros -> Hk ? ? ?. rewrite (writeBuffer_whole _ _ _ b); try done.
  - rewrite insert_app_r_alt by lia. f_equal. f_equal. lia.
  - rewrite lookup_app_r by lia. rewrite <- Hk. f_equal. lia.
Qed.

(** ** [Engine.init] *)

Lemma new_Grid_eq n w :
  Part000.new_Grid n w
  = (Part000.mkGrid n (length (Part000.buffers w)),
     Part000.mkWorld (Part000.GRID_SIZE w) (Part000.COMPUTE_MS_INTERVAL w)
       (Part000.buffers w ++ [mkBuffer "Grid Uniform" 8 72
                        [F32 (inject_Z n); F32 (inject_Z n)]])
       (Part000.canvas w) (Part000.fpsText w) (Part000.renderers w)
       (Part000.engine w) (Part000.rafNext w) (Part000.rafPending w)
       (Part000.suspended w) (Part000.random w) (Part000.randomUsed w)
       (Part000.hostLog w ++ [WriteBuffer (length (Part000.buffers w))
                        [F32 (inject_Z n); F32 (inject_Z n)]])).
Proof.
  unfold Part000.new_Grid, Part000.device_createBuffer,
    Part000.queue_writeBuffer, Part000.log, bind, modify, ret, createBuffer.
  cbn.
  rewrite (write_fresh _ 0 _ (mkBuffer "Grid Uniform" 8 72 [U32 0; U32 0]));
    cbn; try done; lia.
Qed.

Lemma createTimeBuffer_eq w :
  Part000.createTimeBuffer w
  = (length (Part000.buffers w),
     Part000.mkWorld (Part000.GRID_SIZE w) (Part000.COMPUTE_MS_INTERVAL w)
       (Part000.buffers w ++ [mkBuffer "Time Uniform" 4 72 [U32 0]])
       (Part000.canvas w) (Part000.fpsText w) (Part000.renderers w)
       (Part000.engine w) (Part000.rafNext w) (Part000.rafPending w)
       (Part000.suspended w) (Part000.random w) (Part000.randomUsed w)
       (Part000.hostLog w)).
Proof. reflexivity. Qed.

Lemma createVertexBuffer_eq w :
  Part000.createVertexBuffer w
  = ((length (Part000.buffers w), Session000.quad),
     Part000.mkWorld (Part000.GRID_SIZE w) (Part000.COMPUTE_MS_INTERVAL w)
       (Part000.buffers w
        ++ [mkBuffer "Cell vertices" 48 40 (F32 <$> Session000.quad)])
       (Part000.canvas w) (Part000.fpsText w) (Part000.renderers w)
       (Part000.engine w) (Part000.rafNext w) (Part000.rafPending w)
       (Part000.suspended w) (Part000.random w) (Part000.randomUsed w)
       (Part000.hostLog w ++ [WriteBuffer (length (Part000.buffers w))
                                (F32 <$> Session000.quad)])).
Proof.
  unfold Part000.createVertexBuffer, Part000.device_createBuffer,
    Part000.queue_writeBuffer, Part000.log, bind, modify, ret, createBuffer.
  cbn.
  rewrite (write_fresh _ 0 _
             (mkBuffer "Cell vertices" 48 40 (replicate 12 (U32 0))));
    cbn; try done; lia.
Qed.

Lemma createStateBuffers_eq n w :
  let data := Session000.draw n w in
  Part000.createStateBuffers n w
  = ([length (Part000.buffers w); (length (Part000.buffers w) + 1)%nat],
     Part000.mkWorld (Part000.GRID_SIZE w) (Part000.COMPUTE_MS_INTERVAL w)
       (Part000.buffers w
        ++ [mkBuffer "State A" (byteLength data) 136 data;
            mkBuffer "State B" (byteLength data) 136 data])
       (Part000.canvas w) (Part000.fpsText w) (Part000.renderers w)
       (Part000.engine w) (Part000.rafNext w) (Part000.rafPending w)
       (Part000.suspended w) (Part000.random w)
       (Part000.randomUsed w + Z.to_nat (n * n))%nat
       (Part000.hostLog w
        ++ [WriteBuffer (length (Part000.buffers w)) data;
            WriteBuffer (length (Part000.buffers w) + 1) data])).
Proof.
  intros data.
  unfold Part000.createStateBuffers, Part000.Math_random_cells,
    Part000.device_createBuffer, Part000.queue_writeBuffer, Part000.log, bind,
    modify, ret, createBuffer.
  cbn. fold (Session000.draw n w). fold data. rewrite length_app. cbn.
  rewrite <- !app_assoc. cbn.
  rewrite (write_fresh _ 0 _
             (mkBuffer "State A" (byteLength data) 136
                (replicate (Z.to_nat (byteLength data / 4)) (U32 0))));
    cbn; try done; try lia; try apply length_zeroes.
  rewrite (write_fresh _ 1 _
             (mkBuffer "State B" (byteLength data) 136
                (replicate (Z.to_nat (byteLength data / 4)) (U32 0))));
    cbn; try done; try lia; try apply length_zeroes.
Qed.

Lemma init000 n w : Part000.init n w = (tt, Session000.afterInit n w).
Proof.
  unfold Part000.init, bind.
  rewrite new_Grid_eq, createTimeBuffer_eq, createVertexBuffer_eq,
    createStateBuffers_eq.
  unfold modify, Session000.afterInit, Session000.allocated,
    Session000.parking, Session000.draw. cbn.
  rewrite !length_app. cbn.
  rewrite <- !app_assoc. cbn. rewrite <- !Nat.add_assoc. cbn.
  reflexivity.
Qed.

Lemma init_afterAwait000 k s w :
  Part000.init_afterAwait k s w = (tt, Session000.afterAwait k s w).
Proof. reflexivity. Qed.

(** ** Wiring is kept by every event *)

Lemma exec_bind {S A B} (m : State S A) (k : A -> State S B) s :
  exec (bind m k) s = exec (k (m s).1) (m s).2.
Proof. unfold exec, bind. by destruct (m s). Qed.

Lemma NoDup4 {A} (g t a b : A) :
  NoDup [g; t; a; b] -> g <> t /\ g <> a /\ g <> b /\ t <> a /\ t <> b /\ a <> b.
Proof.
  intros H.
  apply NoDup_cons in H as [H1 H]. apply NoDup_cons in H as [H2 H].
  apply NoDup_cons in H as [H3 _].
  repeat split; intros ->;
    [apply H1 | apply H1 | apply H1 | apply H2 | apply H2 | apply H3];
    rewrite ?elem_of_cons; auto.
Qed.

Lemma submitted_app l1 l2 : submitted (l1 ++ l2) = submitted l1 ++ submitted l2.
Proof. apply omap_app. Qed.

Lemma switches_app l1 l2 : switches (l1 ++ l2) = switches l1 ++ switches l2.
Proof. apply omap_app. Qed.

#[local] Arguments submitted : simpl never.
#[local] Arguments switches : simpl never.

Lemma direction000_bit timeMs r w :
  Part000.bindGroupIndex r = 0 \/ Part000.bindGroupIndex r = 1 ->
  Tick000.direction timeMs r w = 0 \/ Tick000.direction timeMs r w = 1.
Proof.
  unfold Tick000.direction.
  intros [H | H]; rewrite H; destruct (Tick000.gate timeMs r w); cbn; auto.
Qed.

Lemma submitted_actions000 self timeMs r w :
  submitted (Tick000.actions self timeMs r w) = [Tick000.batch timeMs r w].
Proof.
  unfold Tick000.actions.
  destruct (Tick000.sampled timeMs r), (Tick000.gate timeMs r w); reflexivity.
Qed.

Lemma separate_batch000 timeMs r w :
  Inv000.wired r -> separate (Tick000.batch timeMs r w).
Proof.
  intros [Hbit (grid & a & b & Hsim & Hnd)].
  apply NoDup4 in Hnd as (_ & _ & _ & _ & _ & Hab).
  unfold separate, Tick000.batch, Tick000.computePass, Tick000.renderPass.
  rewrite Hsim.
  destruct (direction000_bit timeMs r w Hbit) as [-> | ->]; cbn.
  - exists b, a. auto.
  - exists a, b. auto.
Qed.

Lemma wired_after000 timeMs r w :
  Inv000.wired r -> Inv000.wired (Tick000.after timeMs r w).
Proof.
  intros [Hbit Hsim]. split; [|exact Hsim].
  apply direction000_bit, Hbit.
Qed.

Lemma callRender000 timeMs w request :
  Part000.callRender timeMs w request
  = match Part000.renderers w !! request.2 with
    | Some r =>
        Part000.set_renderers
          (<[request.2 := Tick000.after timeMs r w]> (Part000.renderers w))
          (Tick000.afterWorld request.2 timeMs r w)
    | None => w
    end.
Proof.
  unfold Part000.callRender, exec.
  destruct (Part000.renderers w !! request.2); [|done].
  by rewrite render000.
Qed.

Lemma callRender000_invariant timeMs w request :
  Inv000.invariant w -> Inv000.invariant (Part000.callRender timeMs w request).
Proof.
  intros (Hr & Hs & Hl). rewrite callRender000.
  destruct (Part000.renderers w !! request.2) as [r|] eqn:E; [|done].
  assert (Hw : Inv000.wired r) by (eapply Forall_lookup_1; eauto).
  split; [|split]; cbn.
  - apply Forall_insert; [done|]. by apply wired_after000.
  - done.
  - rewrite submitted_app, submitted_actions000.
    apply Forall_app. split; [done|].
    constructor; [|constructor]. by apply separate_batch000.
Qed.

Lemma animationFrame000_invariant timeMs w :
  Inv000.invariant w -> Inv000.invariant (Part000.animationFrame timeMs w).
Proof.
  intros H. unfold Part000.animationFrame.
  assert (H0 : Inv000.invariant (Part000.set_raf (Part000.rafNext w) [] w))
    by exact H.
  revert H0. generalize (Part000.set_raf (Part000.rafNext w) [] w).
  induction (Part000.rafPending w) as [|q qs IH]; intros w0 H0; cbn; [done|].
  apply IH. by apply callRender000_invariant.
Qed.

Lemma parked_parking n L : Inv000.parked (Session000.parking n L).
Proof.
  exists (L + 3)%nat, (L + 4)%nat. split; [done|]. split; [done|]. cbn.
  repeat (apply NoDup_cons; split; [rewrite ?not_elem_of_cons, ?elem_of_nil; lia|]).
  apply NoDup_nil_2.
Qed.

Lemma wired_rendererOf k s : Inv000.parked s -> Inv000.wired (Session000.rendererOf k s).
Proof.
  intros (a & b & Hst & Hlay & Hnd). split; [by left|].
  exists (Part000.s_grid s), a, b. cbn. unfold Session000.simulationOf.
  by rewrite Hst, Hlay.
Qed.

Lemma init000_invariant n w :
  Inv000.invariant w -> Inv000.invariant (exec (Part000.init n) w).
Proof.
  intros (Hr & Hs & Hl). unfold exec. rewrite init000. cbn.
  split; [done|]. split.
  - apply Forall_app. split; [done|]. constructor; [|constructor].
    apply parked_parking.
  - unfold Session000.afterInit. cbn. by rewrite submitted_app, app_nil_r.
Qed.

Lemma pipelinesReady000_invariant k w :
  Inv000.invariant w -> Inv000.invariant (Part000.pipelinesReady k w).
Proof.
  intros H. pose proof H as (Hr & Hs & Hl). unfold Part000.pipelinesReady.
  destruct (Part000.suspended w) as [|s rest] eqn:E; [exact H|].
  apply Forall_cons in Hs as [Hp Hrest].
  unfold exec. rewrite init_afterAwait000. unfold Session000.afterAwait.
  split; [|split]; cbn.
  - apply Forall_app. split; [done|]. constructor; [|constructor].
    by apply wired_rendererOf.
  - done.
  - by rewrite submitted_app, app_nil_r.
Qed.

Lemma writes_quiet data l w :
  Inv000.invariant w ->
  Inv000.invariant
    (foldr (fun h rest => bind (Part000.queue_writeBuffer h 0 data)
                            (fun _ => rest))
           (ret tt) l w).2.
Proof.
  revert w. induction l as [|h l IH]; intros w H; cbn; [done|].
  unfold bind at 1. unfold Part000.queue_writeBuffer, Part000.log, bind, modify.
  apply IH. destruct H as (Hr & Hs & Hl).
  split; [|split]; cbn; try done.
  by rewrite submitted_app, app_nil_r.
Qed.

Lemma reset000_invariant sim n w :
  Inv000.invariant w -> Inv000.invariant (exec (Part000.reset sim n) w).
Proof.
  intros H. unfold exec, Part000.reset, bind at 1.
  unfold Part000.Math_random_cells.
  apply writes_quiet. exact H.
Qed.

Lemma onReset000_invariant w :
  Inv000.invariant w -> Inv000.invariant (exec Part000.onReset w).
Proof.
  intros H. unfold exec, Part000.onReset, bind at 1, gets.
  destruct (Part000.engine_simulation (Part000.engine w)); [|exact H].
  unfold bind, gets. by apply reset000_invariant.
Qed.

Lemma stopRendering000_invariant w :
  Inv000.invariant w -> Inv000.invariant (exec Part000.stopRendering w).
Proof.
  intros H. pose proof H as (Hr & Hs & Hl).
  unfold exec, Part000.stopRendering, bind at 1, gets.
  destruct (Part000.animationFrameId (Part000.engine w)); [|exact H].
  split; [|split]; cbn; try done.
  by rewrite submitted_app, app_nil_r.
Qed.

Lemma onGridSizeChange000_invariant n w :
  Inv000.invariant w -> Inv000.invariant (exec (Part000.onGridSizeChange n) w).
Proof.
  intros H. unfold Part000.onGridSizeChange. rewrite !exec_bind.
  apply init000_invariant.
  apply stopRendering000_invariant in H. exact H.
Qed.

Lemma step000_invariant k w e :
  Inv000.invariant w -> Inv000.invariant (Part000.step k w e).
Proof.
  intros H. destruct e; unfold Part000.step.
  - by apply animationFrame000_invariant.
  - by apply pipelinesReady000_invariant.
  - by apply onReset000_invariant.
  - by apply onGridSizeChange000_invariant.
  - exact H.
Qed.

Lemma started000_invariant random : Inv000.invariant (Part000.started random).
Proof.
  unfold Part000.started, Part000.start. rewrite exec_bind.
  apply init000_invariant.
  split; [|split]; constructor.
Qed.

Lemma run000_invariant k w events :
  Inv000.invariant w -> Inv000.invariant (Part000.run k w events).
Proof.
  revert w. induction events as [|e es IH]; intros w H; cbn; [done|].
  apply IH. by apply step000_invariant.
Qed.

(** ** [init] of the function based program *)

Lemma length_randomCells random from n : length (randomCells random from n) = n.
Proof. unfold randomCells. by rewrite length_map, length_seq. Qed.

#[local] Opaque Part001.GRID_SIZE.

Lemma createGridUniformBuffer_eq w :
  Part001.createGridUniformBuffer w
  = (length (Part001.buffers w),
     Part001.mkWorld (Part001.COMPUTE_MS_INTERVAL w)
       (Part001.buffers w
        ++ [mkBuffer "Grid Uniforms" 8 72
              [F32 (inject_Z Part001.GRID_SIZE);
               F32 (inject_Z Part001.GRID_SIZE)]])
       (Part001.canvas w) (Part001.fpsText w) (Part001.renderer w)
       (Part001.rafNext w) (Part001.rafPending w) (Part001.random w)
       (Part001.randomUsed w)
       (Part001.hostLog w
        ++ [WriteBuffer (length (Part001.buffers w))
              [F32 (inject_Z Part001.GRID_SIZE);
               F32 (inject_Z Part001.GRID_SIZE)]])).
Proof.
  unfold Part001.createGridUniformBuffer, Part001.device_createBuffer,
    Part001.queue_writeBuffer, Part001.log, bind, modify, ret, createBuffer.
  cbn.
  rewrite (write_fresh _ 0 _ (mkBuffer "Grid Uniforms" 8 72 [U32 0; U32 0]));
    cbn; try done; lia.
Qed.

Lemma createTimeUniformBuffer_eq w :
  Part001.createTimeUniformBuffer w
  = (length (Part001.buffers w),
     Part001.mkWorld (Part001.COMPUTE_MS_INTERVAL w)
       (Part001.buffers w ++ [mkBuffer "Time Uniform" 4 72 [U32 0]])
       (Part001.canvas w) (Part001.fpsText w) (Part001.renderer w)
       (Part001.rafNext w) (Part001.rafPending w) (Part001.random w)
       (Part001.randomUsed w) (Part001.hostLog w)).
Proof. reflexivity. Qed.

Lemma createStateStorageBuffers_eq w :
  let n := Z.to_nat (Part001.GRID_SIZE * Part001.GRID_SIZE) in
  let data := randomCells (Part001.random w) (Part001.randomUsed w) n in
  Part001.createStateStorageBuffers w
  = ([length (Part001.buffers w); (length (Part001.buffers w) + 1)%nat],
     Part001.mkWorld (Part001.COMPUTE_MS_INTERVAL w)
       (Part001.buffers w
        ++ [mkBuffer "Cell State A" (4 * Z.of_nat n) 136 data;
            mkBuffer "Cell State B" (4 * Z.of_nat n) 136 (replicate n (U32 0))])
       (Part001.canvas w) (Part001.fpsText w) (Part001.renderer w)
       (Part001.rafNext w) (Part001.rafPending w) (Part001.random w)
       (Part001.randomUsed w + n)%nat
       (Part001.hostLog w ++ [WriteBuffer (length (Part001.buffers w)) data])).
Proof.
  intros n data.
  unfold Part001.createStateStorageBuffers, Part001.Math_random_cells,
    Part001.device_createBuffer, Part001.queue_writeBuffer, Part001.log, bind,
    modify, ret, createBuffer.
  cbn -[replicate]. fold n. fold data. rewrite length_app. cbn -[replicate].
  rewrite <- !app_assoc. cbn -[replicate].
  assert (Hz : Z.to_nat (byteLength (replicate n (U32 0)) / 4) = n).
  { unfold byteLength.
    rewrite length_replicate, Z.mul_comm, Z.div_mul by lia. lia. }
  assert (Hb : byteLength (replicate n (U32 0)) = 4 * Z.of_nat n).
  { unfold byteLength. by rewrite length_replicate. }
  rewrite Hz, Hb.
  assert (Hd : length data = n) by apply length_randomCells.
  rewrite (write_fresh _ 0 _
             (mkBuffer "Cell State A" (4 * Z.of_nat n) 136 (replicate n (U32 0))));
    cbn -[replicate]; try done; try lia.
Qed.

Lemma createVertexBuffer001_eq w :
  Part001.createVertexBuffer w
  = (length (Part001.buffers w),
     Part001.mkWorld (Part001.COMPUTE_MS_INTERVAL w)
       (Part001.buffers w
        ++ [mkBuffer "Cell vertices" 48 40 (F32 <$> Session000.quad)])
       (Part001.canvas w) (Part001.fpsText w) (Part001.renderer w)
       (Part001.rafNext w) (Part001.rafPending w) (Part001.random w)
       (Part001.randomUsed w)
       (Part001.hostLog w ++ [WriteBuffer (length (Part001.buffers w))
                                (F32 <$> Session000.quad)])).
Proof.
  unfold Part001.createVertexBuffer, Part001.device_createBuffer,
    Part001.queue_writeBuffer, Part001.log, bind, modify, ret, createBuffer.
  cbn.
  rewrite (write_fresh _ 0 _
             (mkBuffer "Cell vertices" 48 40 (replicate 12 (U32 0))));
    cbn; try done; lia.
Qed.

Lemma init001 k random :
  Part001.started k random = Session001.afterInit k random.
Proof.
  unfold Part001.started, exec, Part001.init, bind.
  rewrite createGridUniformBuffer_eq, createTimeUniformBuffer_eq,
    createStateStorageBuffers_eq, createVertexBuffer001_eq.
  reflexivity.
Qed.

#[local] Transparent Part001.GRID_SIZE.

(** ** Wiring in the function based program *)

Lemma direction001_bit timeMs r w :
  Inv001.wired r ->
  Tick001.direction timeMs r w = 0 \/ Tick001.direction timeMs r w = 1.
Proof.
  intros [Hbit (grid & a & b & Hg & _)]. unfold Tick001.direction.
  rewrite Hg. cbn.
  destruct Hbit as [-> | ->]; destruct (Tick001.gate timeMs r w); cbn; auto.
Qed.

Lemma wired_after001 timeMs r w :
  Inv001.wired r -> Inv001.wired (Tick001.after timeMs r w).
Proof.
  intros H. split; [by apply direction001_bit|]. by destruct H as [_ H].
Qed.

Lemma callRender001 timeMs w request :
  Part001.callRender timeMs w request
  = match Part001.renderer w with
    | Some r =>
        Part001.set_renderer (Some (Tick001.after timeMs r w))
          (Tick001.afterWorld timeMs r w)
    | None => w
    end.
Proof.
  unfold Part001.callRender, exec.
  destruct (Part001.renderer w); [|done]. by rewrite render001.
Qed.

Lemma animationFrame001_invariant timeMs w :
  Inv001.invariant w -> Inv001.invariant (Part001.animationFrame timeMs w).
Proof.
  intros H. unfold Part001.animationFrame.
  assert (H0 : Inv001.invariant (Part001.set_raf (Part001.rafNext w) [] w))
    by exact H.
  revert H0. generalize (Part001.set_raf (Part001.rafNext w) [] w).
  induction (Part001.rafPending w) as [|q qs IH]; intros w0 H0; cbn; [done|].
  apply IH. rewrite callRender001. destruct H0 as (r & -> & Hw).
  exists (Tick001.after timeMs r w0). split; [done|]. by apply wired_after001.
Qed.

Lemma run001_invariant w events :
  Inv001.invariant w -> Inv001.invariant (Part001.run w events).
Proof.
  revert w. induction events as [|e es IH]; intros w H; cbn; [done|].
  apply IH. destruct e; cbn; [by apply animationFrame001_invariant|exact H].
Qed.

Lemma started001_invariant k random : Inv001.invariant (Part001.started k random).
Proof.
  rewrite init001. exists (Session001.rendererOf k). split; [done|].
  split; [by left|].
  exists 0%nat, 2%nat, 3%nat. split; [done|]. cbn.
  repeat (apply NoDup_cons; split; [rewrite ?not_elem_of_cons, ?elem_of_nil; lia|]).
  apply NoDup_nil_2.
Qed.

(** The batch of a tick of the function based program: its compute pass
    writes the buffer its render pass reads exactly when the tick switches. *)
Lemma batch001 timeMs r w :
  Inv001.wired r ->
  exists a b,
    concat (map writes (Tick001.batch timeMs r w)) = [a]
    /\ concat (map reads (Tick001.batch timeMs r w)) = [b]
    /\ (a = b <-> Tick001.gate timeMs r w = true).
Proof.
  intros [Hbit (grid & a & b & Hg & Hnd)].
  apply NoDup4 in Hnd as (_ & _ & _ & _ & _ & Hab).
  unfold Tick001.batch, Tick001.computePass, Tick001.renderPass,
    Tick001.direction.
  rewrite Hg.
  destruct Hbit as [-> | ->]; destruct (Tick001.gate timeMs r w); cbn.
  - exists b, b. done.
  - exists b, a. split; [done|]. split; [done|]. split; [congruence|done].
  - exists a, a. done.
  - exists a, b. split; [done|]. split; [done|]. split; [congruence|done].
Qed.

Lemma submitted_actions001 timeMs r w :
  submitted (Tick001.actions timeMs r w) = [Tick001.batch timeMs r w].
Proof.
  unfold Tick001.actions.
  destruct (Tick001.sampled timeMs r), (Tick001.gate timeMs r w); reflexivity.
Qed.

Lemma tick001 timeMs w r q :
  Part001.renderer w = Some r -> Part001.rafPending w = [q] ->
  Part001.animationFrame timeMs w
  = Part001.set_renderer (Some (Tick001.after timeMs r w))
      (Tick001.afterWorld timeMs r (Part001.set_raf (Part001.rafNext w) [] w)).
Proof.
  intros Hr Hq. unfold Part001.animationFrame. rewrite Hq. cbn.
  rewrite callRender001. cbn. rewrite Hr. reflexivity.
Qed.

Lemma running001_eq k random interval :
  running001 k random interval
  = Part001.set_COMPUTE_MS_INTERVAL interval (Session001.afterInit k random).
Proof. unfold running001. by rewrite init001. Qed.

(** * The double-buffering contract *)

(** ** Render input and compute output *)

(** C1, as the specification states it, fails in the function based program:
    with the page's first frame at 100 ms the tick switches, and its render
    pass reads the very buffer its compute pass writes. *)
Lemma C1_first_tick_aliases_part001 :
  ~ Forall separate
      (submitted
         (Part001.hostLog
            (Part001.run (Part001.started (fun _ _ _ => []) (fun _ => 0%Q))
               [Part001.AnimationFrame 100]))).
Proof.
  rewrite init001. cbn [Part001.run foldl Part001.step].
  erewrite tick001; [|reflexivity|reflexivity].
  cbn [Part001.hostLog Part001.set_renderer Tick001.afterWorld].
  rewrite submitted_app, submitted_actions001.
  intros H. apply Forall_app in H as [_ H]. apply Forall_cons in H as [H _].
  destruct H as (a & b & Hw & Hr & Hab).
  vm_compute in Hw, Hr. congruence.
Qed.

(** C1, amended.  In the class based program every batch ever submitted,
    the first included, writes one state buffer in its compute pass (the
    writable storage binding 3) and reads another in its render pass (the
    read-only storage binding 2).  In the function based program a tick's
    batch has that property exactly when the tick does not switch the bind
    group; on a switching tick the render pass reads the buffer that the
    compute pass of the same batch writes. *)
Theorem C1_render_reads_apart_from_compute_writes :
  (forall k random events,
      Forall separate
        (submitted
           (Part000.hostLog (Part000.run k (Part000.started random) events))))
  /\ (forall k random events timeMs,
         let w := Part001.run (Part001.started k random) events in
         exists r cmds a b,
           Part001.renderer w = Some r
           /\ submitted (Part001.hostLog (exec (Part001.render timeMs) (r, w)).2)
              = submitted (Part001.hostLog w) ++ [cmds]
           /\ concat (map writes cmds) = [a]
           /\ concat (map reads cmds) = [b]
           /\ (a = b <->
               (timeMs - Part001.lastBindGroupSwitchTime r
                >=? Part001.COMPUTE_MS_INTERVAL w) = true)).
Proof.
  split.
  - intros k random events.
    apply (run000_invariant k _ events (started000_invariant random)).
  - intros k random events timeMs w.
    destruct (run001_invariant _ events (started001_invariant k random))
      as (r & Hr & Hw).
    destruct (batch001 timeMs r w Hw) as (a & b & Ha & Hb & Hab).
    exists r, (Tick001.batch timeMs r w), a, b.
    split; [exact Hr|]. split; [|done].
    unfold exec. rewrite render001. cbn [snd Part001.hostLog Tick001.afterWorld].
    by rewrite submitted_app, submitted_actions001.
Qed.

(** ** The order of one tick *)

Lemma specified000 self timeMs r w : specifiedTick (Tick000.actions self timeMs r w).
Proof.
  unfold specifiedTick, Tick000.actions.
  eexists _, (Tick000.computePass timeMs r w), (Tick000.renderPass timeMs r w),
    _, _, _.
  split; [rewrite !app_assoc; reflexivity|].
  split; [|done].
  destruct (Tick000.sampled timeMs r), (Tick000.gate timeMs r w); reflexivity.
Qed.

(** C2, as the specification states it, fails in the function based program:
    on the first frame at 100 ms the compute pass is encoded before the
    switch decision, the time uniform is written before the render pass is
    encoded, and the two passes are encoded with different bind groups. *)
Lemma C2_order_differs_part001 :
  let w := Part001.started (fun _ _ _ => []) (fun _ => 0%Q) in
  ~ specifiedTick
      (drop (length (Part001.hostLog w))
         (Part001.hostLog (Part001.run w [Part001.AnimationFrame 100]))).
Proof.
  cbn zeta. rewrite init001. cbn [Part001.run foldl Part001.step].
  erewrite tick001; [|reflexivity|reflexivity].
  cbn [Part001.hostLog Part001.set_renderer Tick001.afterWorld Part001.set_raf
       Session001.afterInit].
  rewrite drop_app_length.
  intros (pre & cp & rp & h & data & id & Heq & Hpre & _).
  vm_compute in Heq.
  destruct pre as [|p1 [|p2 [|p3 pre]]]; cbn in Heq; try discriminate Heq.
  apply (f_equal length) in Heq. cbn in Heq. rewrite length_app in Heq.
  cbn in Heq. lia.
Qed.

(** C2, amended.  Class based program: in every call of [render] the switch
    decision ([timeMs - lastSwitch >= COMPUTE_MS_INTERVAL]) is taken before
    the compute pass is encoded, both passes are encoded with the bind group
    of the index after that decision, and the order is compute pass, render
    pass, write of the time uniform, one submit of both passes, request of
    the next frame.  Function based program: the compute pass is encoded
    first, with the index the tick starts with; then the time uniform is
    written, then the switch decision is taken, then the render pass is
    encoded with the index after the decision; one submit of both passes and
    the request of the next frame end the tick. *)
Theorem C2_tick_order :
  (forall self timeMs r w,
      let flip := timeMs - Part000.lastSwitch r >=? Part000.COMPUTE_MS_INTERVAL w in
      let dir := if flip then Z.rem (Part000.bindGroupIndex r + 1) 2
                 else Part000.bindGroupIndex r in
      let s := exec (Part000.render self timeMs) (r, w) in
      exists pre cp rp,
        Part000.hostLog s.2
        = Part000.hostLog w ++ pre
          ++ [Encoded cp; Encoded rp;
              WriteBuffer (Part000.timeBuffer r) [F32 (inject_Z timeMs / 1000)];
              Submit [cp; rp]; RequestAnimationFrame (Part000.rafNext w)]
        /\ forallb isPreamble pre = true
        /\ switches pre = (if flip then [dir] else [])
        /\ isComputePass cp = true /\ isRenderPass rp = true
        /\ groupOf cp = index (Part000.bindGroups (Part000.simulation r)) dir
        /\ groupOf rp = index (Part000.bindGroups (Part000.simulation r)) dir
        /\ Part000.bindGroupIndex s.1 = dir
        /\ specifiedTick (drop (length (Part000.hostLog w)) (Part000.hostLog s.2)))
  /\ (forall timeMs r w,
         let flip := timeMs - Part001.lastBindGroupSwitchTime r
                     >=? Part001.COMPUTE_MS_INTERVAL w in
         let dir := if flip
                    then Z.rem (Part001.bindGroupIndex r + 1)
                           (Z.of_nat (length (Part001.bindGroups r)))
                    else Part001.bindGroupIndex r in
         let s := exec (Part001.render timeMs) (r, w) in
         exists fps cp rp,
           Part001.hostLog s.2
           = Part001.hostLog w ++ [CreateCommandEncoder; Encoded cp] ++ fps
             ++ [WriteBuffer (Part001.timeBuffer r) [F32 (inject_Z timeMs / 1000)]]
             ++ (if flip then [Switched dir] else [])
             ++ [Encoded rp; Submit [cp; rp];
                 RequestAnimationFrame (Part001.rafNext w)]
           /\ forallb isPreamble fps = true /\ switches fps = []
           /\ isComputePass cp = true /\ isRenderPass rp = true
           /\ groupOf cp = index (Part001.bindGroups r) (Part001.bindGroupIndex r)
           /\ groupOf rp = index (Part001.bindGroups r) dir
           /\ Part001.bindGroupIndex s.1 = dir).
Proof.
  split.
  - intros self timeMs r w flip dir s. subst s. unfold exec.
    rewrite render000. cbn [snd fst Part000.hostLog Tick000.afterWorld].
    exists ((if Tick000.sampled timeMs r then [FpsSampled (Part000.frameCount r + 1)]
             else [])
            ++ [CreateCommandEncoder]
            ++ (if flip then [Switched dir] else [])),
      (Tick000.computePass timeMs r w), (Tick000.renderPass timeMs r w).
    split; [unfold Tick000.actions; by rewrite <- !app_assoc|].
    split; [by destruct (Tick000.sampled timeMs r), flip|].
    split; [by destruct (Tick000.sampled timeMs r), flip|].
    do 5 (split; [reflexivity|]).
    rewrite drop_app_length. apply specified000.
  - intros timeMs r w flip dir s. subst s. unfold exec.
    rewrite render001. cbn [snd fst Part001.hostLog Tick001.afterWorld].
    exists (if Tick001.sampled timeMs r then [FpsSampled (Part001.frameCount r + 1)]
            else []),
      (Tick001.computePass r), (Tick001.renderPass timeMs r w).
    split; [reflexivity|].
    split; [by destruct (Tick001.sampled timeMs r)|].
    split; [by destruct (Tick001.sampled timeMs r)|].
    do 4 (split; [reflexivity|]). reflexivity.
Qed.

(** ** Pacing of the switches *)

Lemma switches_actions000 self timeMs r w :
  switches (Tick000.actions self timeMs r w)
  = if Tick000.gate timeMs r w then [Tick000.direction timeMs r w] else [].
Proof.
  unfold Tick000.actions.
  destruct (Tick000.sampled timeMs r), (Tick000.gate timeMs r w); reflexivity.
Qed.

(** One frame of a world in which one Renderer has a request pending. *)
Lemma tick000 timeMs w i r id :
  Part000.renderers w !! i = Some r -> Part000.rafPending w = [(id, i)] ->
  Part000.animationFrame timeMs w
  = Part000.set_renderers
      (<[i := Tick000.after timeMs r w]> (Part000.renderers w))
      (Tick000.afterWorld i timeMs r
         (Part000.set_raf (Part000.rafNext w) [] w)).
Proof.
  intros Hr Hq. unfold Part000.animationFrame. rewrite Hq. cbn.
  rewrite callRender000. cbn. by rewrite Hr.
Qed.

Lemma flips_run k ts : forall w i r id,
  Part000.renderers w !! i = Some r -> Part000.rafPending w = [(id, i)] ->
  length (switches (Part000.hostLog
            (Part000.run k w (Part000.AnimationFrame <$> ts))))
  = (length (switches (Part000.hostLog w))
     + gated (Part000.COMPUTE_MS_INTERVAL w) (Part000.lastSwitch r) ts)%nat.
Proof.
  induction ts as [|t ts IH]; intros w i r id Hr Hq.
  - cbn. lia.
  - change (Part000.run k w (Part000.AnimationFrame <$> t :: ts))
      with (Part000.run k (Part000.animationFrame t w)
              (Part000.AnimationFrame <$> ts)).
    rewrite (tick000 t w i r id Hr Hq).
    erewrite IH.
    2:{ cbn. apply list_lookup_insert_eq. by eapply lookup_lt_Some. }
    2:{ cbn. reflexivity. }
    cbn [Part000.hostLog Part000.set_renderers Tick000.afterWorld
         Part000.COMPUTE_MS_INTERVAL Part000.set_raf Tick000.after
         Part000.lastSwitch gated].
    rewrite switches_app, length_app, switches_actions000.
    unfold Tick000.gate. cbn [Part000.lastSwitch Part000.COMPUTE_MS_INTERVAL Part000.set_raf].
    destruct (t - Part000.lastSwitch r >=? Part000.COMPUTE_MS_INTERVAL w); cbn; lia.
Qed.

Lemma started000_eq random :
  Part000.started random = Session000.afterInit 64 (Part000.loaded random).
Proof.
  unfold Part000.started, Part000.start. rewrite exec_bind.
  unfold exec. by rewrite init000.
Qed.

Lemma running000_eq k random interval :
  running000 k random interval
  = Part000.set_COMPUTE_MS_INTERVAL interval
      (Session000.afterAwait k (Session000.parking 64 0)
         (Part000.set_suspended []
            (Session000.afterInit 64 (Part000.loaded random)))).
Proof.
  unfold running000. rewrite started000_eq. reflexivity.
Qed.

Lemma flips000_gated k random interval ts :
  flips000 k random interval ts = Z.of_nat (gated interval 0 ts).
Proof.
  unfold flips000.
  rewrite (flips_run k ts _ 0%nat
             (Session000.rendererOf k (Session000.parking 64 0)) 1%nat).
  - rewrite running000_eq. reflexivity.
  - rewrite running000_eq. reflexivity.
  - rewrite running000_eq. reflexivity.
Qed.

(** ** The gate on its own *)

Lemma last_cons {A} (a : A) l d : List.last (a :: l) d = List.last l a.
Proof.
  revert a d. induction l as [|b l IH]; intros a d; [done|].
  change (List.last (a :: b :: l) d) with (List.last (b :: l) d).
  rewrite (IH b d). by rewrite (IH b a).
Qed.

Lemma nondecreasing_cons a b l :
  nondecreasing (a :: b :: l) = true <-> a <= b /\ nondecreasing (b :: l) = true.
Proof.
  change (nondecreasing (a :: b :: l))
    with ((a <=? b) && nondecreasing (b :: l)).
  rewrite andb_true_iff, Z.leb_le. done.
Qed.

Lemma nondecreasing_skip a b l :
  nondecreasing (a :: b :: l) = true -> nondecreasing (a :: l) = true.
Proof.
  intros [Hab H]%nondecreasing_cons. destruct l as [|c l]; [done|].
  apply nondecreasing_cons in H as [Hbc H]. apply nondecreasing_cons.
  split; [lia|done].
Qed.

Lemma last_mono l a b :
  a <= b -> nondecreasing (b :: l) = true -> List.last l a <= List.last l b.
Proof.
  intros Hab H. destruct l as [|c l]; [done|]. by rewrite !last_cons.
Qed.

(** After a switch at [ls], each further switch takes at least the interval. *)
Lemma gated_settled interval ts : forall ls,
  0 < interval -> nondecreasing (ls :: ts) = true ->
  interval * Z.of_nat (gated interval ls ts) <= List.last ts ls - ls.
Proof.
  induction ts as [|t ts IH]; intros ls Hi Hs; [cbn; lia|].
  pose proof Hs as [Hlt Hs']%nondecreasing_cons.
  cbn [gated]. rewrite last_cons.
  destruct (t - ls >=? interval) eqn:E.
  - apply Z.geb_le in E. specialize (IH t Hi Hs'). lia.
  - specialize (IH ls Hi (nondecreasing_skip _ _ _ Hs)).
    pose proof (last_mono ts ls t Hlt Hs'). lia.
Qed.

Lemma gated_upper_from interval ts : forall lo ls,
  0 < interval -> nondecreasing (lo :: ts) = true ->
  interval * (Z.of_nat (gated interval ls ts) - 1) <= List.last ts lo - lo.
Proof.
  induction ts as [|t ts IH]; intros lo ls Hi Hs; [cbn; lia|].
  pose proof Hs as [Hlt Hs']%nondecreasing_cons.
  cbn [gated]. rewrite last_cons.
  destruct (t - ls >=? interval) eqn:E.
  - pose proof (gated_settled interval ts t Hi Hs'). lia.
  - specialize (IH lo ls Hi (nondecreasing_skip _ _ _ Hs)).
    pose proof (last_mono ts lo t Hlt Hs'). lia.
Qed.

Lemma gated_upper interval ls ts :
  0 < interval -> nondecreasing ts = true ->
  Z.of_nat (gated interval ls ts) <= span ts / interval + 1.
Proof.
  intros Hi Hs.
  assert (H : interval * (Z.of_nat (gated interval ls ts) - 1) <= span ts).
  { destruct ts as [|t ts]; [cbn; lia|].
    unfold span.
    apply (gated_upper_from interval (t :: ts) t ls Hi).
    apply nondecreasing_cons. split; [lia|done]. }
  apply Z.div_le_lower_bound in H; lia.
Qed.

Lemma gapsAtMost_cons g a b l :
  gapsAtMost g (a :: b :: l) = true <-> b - a <= g /\ gapsAtMost g (b :: l) = true.
Proof.
  change (gapsAtMost g (a :: b :: l))
    with ((b - a <=? g) && gapsAtMost g (b :: l)).
  rewrite andb_true_iff, Z.leb_le. done.
Qed.

Lemma gated_lower_from interval g ts : forall t ls,
  0 < interval -> 0 <= g ->
  gapsAtMost g (t :: ts) = true -> t - ls < interval + g ->
  List.last ts t - ls
  < (Z.of_nat (gated interval ls (t :: ts)) + 1) * (interval + g).
Proof.
  induction ts as [|t' ts IH]; intros t ls Hi Hg Hp Hnear.
  - cbn [gated List.last]. destruct (t - ls >=? interval); cbn; nia.
  - apply gapsAtMost_cons in Hp as [Hgap Hp].
    rewrite last_cons.
    change (gated interval ls (t :: t' :: ts))
      with (if t - ls >=? interval then S (gated interval t (t' :: ts))
            else gated interval ls (t' :: ts)).
    destruct (t - ls >=? interval) eqn:E.
    + apply Z.geb_le in E.
      assert (Hn : t' - t < interval + g) by lia.
      specialize (IH t' t Hi Hg Hp Hn). nia.
    + assert (Hlt : t - ls < interval).
      { destruct (Z.geb_spec (t - ls) interval); [done|lia]. }
      assert (Hn : t' - ls < interval + g) by lia.
      exact (IH t' ls Hi Hg Hp Hn).
Qed.

Lemma gated_lower interval g ts :
  0 < interval -> 0 <= g ->
  gapsAtMost g ts = true -> forallb (Z.leb 0) ts = true ->
  span ts / (interval + g) <= Z.of_nat (gated interval 0 ts).
Proof.
  intros Hi Hg Hp Hpos.
  assert (H : span ts < (Z.of_nat (gated interval 0 ts) + 1) * (interval + g)).
  { destruct ts as [|t ts]; [cbn; nia|].
    cbn in Hpos. apply andb_true_iff in Hpos as [Ht%Z.leb_le _].
    unfold span. rewrite last_cons.
    destruct (Z.lt_ge_cases (t - 0) (interval + g)) as [Hnear | Hfar].
    - pose proof (gated_lower_from interval g ts t 0 Hi Hg Hp Hnear). lia.
    - cbn [gated].
      destruct (t - 0 >=? interval) eqn:E;
        [|destruct (Z.geb_spec (t - 0) interval); [done|lia]].
      destruct ts as [|t' ts]; [cbn; nia|].
      apply gapsAtMost_cons in Hp as [Hgap Hp].
      assert (Hn : t' - t < interval + g) by lia.
      pose proof (gated_lower_from interval g ts t' t Hi Hg Hp Hn).
      rewrite last_cons. nia. }
  assert (Hd : span ts / (interval + g) < Z.of_nat (gated interval 0 ts) + 1).
  { apply Z.div_lt_upper_bound; lia. }
  lia.
Qed.

(** C3, as the specification states it, fails: with frames every 16 ms and
    the interval at 100 ms a switch happens every 112 ms, so over 2240 ms
    there are 20 switches where [2240 / 100 = 22]. *)
Lemma C3_switches_drift :
  let ts := map (fun k => 16 * Z.of_nat k) (seq 0 141) in
  let flips := flips000 (fun _ _ _ => []) (fun _ => 0%Q) 100 ts in
  flips = 20 /\ span ts / 100 = 22
  /\ ~ (span ts / 100 - 1 <= flips <= span ts / 100 + 1).
Proof.
  cbn zeta. rewrite flips000_gated.
  assert (H1 : gated 100 0 (map (fun k => 16 * Z.of_nat k) (seq 0 141)) = 20%nat)
    by (vm_compute; reflexivity).
  assert (H2 : span (map (fun k => 16 * Z.of_nat k) (seq 0 141)) / 100 = 22)
    by (vm_compute; reflexivity).
  rewrite H1, H2. lia.
Qed.

(** C3, amended.  With the interval fixed at [interval > 0], over frames whose
    timestamps start at or after 0, never go back and are at most [g]
    milliseconds apart, the number of switches is at least
    [span / (interval + g)] and at most [span / interval + 1], where [span]
    is the last timestamp minus the first.  With the interval at 100 and the
    60 Hz timestamps 0, 16, 33, 50, ..., 1000, 1016 there are exactly 10
    switches. *)
Theorem C3_switches_bounded k random interval g ts :
  0 < interval -> 0 <= g ->
  nondecreasing ts = true -> gapsAtMost g ts = true ->
  forallb (Z.leb 0) ts = true ->
  (span ts / (interval + g) <= flips000 k random interval ts
   /\ flips000 k random interval ts <= span ts / interval + 1)
  /\ flips000 k random 100 sixtyHz = 10.
Proof.
  intros Hi Hg Hs Hp Hpos. rewrite !flips000_gated.
  split; [split|].
  - by apply gated_lower.
  - by apply gated_upper.
  - vm_compute. reflexivity.
Qed.

Lemma C3_switches_bounded_witness :
  (span sixtyHz / (100 + 17)
   <= flips000 (fun _ _ _ => []) (fun _ => 0%Q) 100 sixtyHz
   /\ flips000 (fun _ _ _ => []) (fun _ => 0%Q) 100 sixtyHz
      <= span sixtyHz / 100 + 1)
  /\ flips000 (fun _ _ _ => []) (fun _ => 0%Q) 100 sixtyHz = 10.
Proof.
  apply (C3_switches_bounded (fun _ _ _ => []) (fun _ => 0%Q) 100 17 sixtyHz);
    [lia | lia | reflexivity | reflexivity | reflexivity].
Defined.

(** ** The active direction *)

Lemma toggled000 self timeMs r w :
  Part000.bindGroupIndex r = 0 \/ Part000.bindGroupIndex r = 1 ->
  Part000.bindGroupIndex (exec (Part000.render self timeMs) (r, w)).1
  = if timeMs - Part000.lastSwitch r >=? Part000.COMPUTE_MS_INTERVAL w
    then 1 - Part000.bindGroupIndex r else Part000.bindGroupIndex r.
Proof.
  intros Hbit. unfold exec. rewrite render000. cbn.
  unfold Tick000.direction, Tick000.gate.
  destruct (_ >=? _); [|done]. by destruct Hbit as [-> | ->].
Qed.

Lemma toggled001 timeMs r w :
  Inv001.wired r ->
  Part001.bindGroupIndex (exec (Part001.render timeMs) (r, w)).1
  = if timeMs - Part001.lastBindGroupSwitchTime r
       >=? Part001.COMPUTE_MS_INTERVAL w
    then 1 - Part001.bindGroupIndex r else Part001.bindGroupIndex r.
Proof.
  intros [Hbit (grid & a & b & Hg & _)]. unfold exec. rewrite render001. cbn.
  unfold Tick001.direction, Tick001.gate. rewrite Hg.
  destruct (_ >=? _); [|done]. by destruct Hbit as [-> | ->].
Qed.

Lemma switches_actions001 timeMs r w :
  switches (Tick001.actions timeMs r w)
  = if Tick001.gate timeMs r w then [Tick001.direction timeMs r w] else [].
Proof.
  unfold Tick001.actions.
  destruct (Tick001.sampled timeMs r), (Tick001.gate timeMs r w); reflexivity.
Qed.

Lemma switches_run000 k ts : forall w i r id,
  Part000.renderers w !! i = Some r -> Part000.rafPending w = [(id, i)] ->
  Part000.bindGroupIndex r = 0 \/ Part000.bindGroupIndex r = 1 ->
  switches (Part000.hostLog (Part000.run k w (Part000.AnimationFrame <$> ts)))
  = switches (Part000.hostLog w)
    ++ toggles (Part000.bindGroupIndex r)
         (gated (Part000.COMPUTE_MS_INTERVAL w) (Part000.lastSwitch r) ts).
Proof.
  induction ts as [|t ts IH]; intros w i r id Hr Hq Hbit.
  - cbn. by rewrite app_nil_r.
  - change (Part000.run k w (Part000.AnimationFrame <$> t :: ts))
      with (Part000.run k (Part000.animationFrame t w)
              (Part000.AnimationFrame <$> ts)).
    rewrite (tick000 t w i r id Hr Hq).
    erewrite IH.
    2:{ cbn. apply list_lookup_insert_eq. by eapply lookup_lt_Some. }
    2:{ cbn. reflexivity. }
    2:{ cbn. by apply direction000_bit. }
    cbn [Part000.hostLog Part000.set_renderers Tick000.afterWorld
         Part000.COMPUTE_MS_INTERVAL Part000.set_raf Tick000.after
         Part000.lastSwitch Part000.bindGroupIndex gated].
    rewrite switches_app, switches_actions000, <- app_assoc. f_equal.
    unfold Tick000.direction, Tick000.gate.
    cbn [Part000.lastSwitch Part000.COMPUTE_MS_INTERVAL Part000.set_raf].
    destruct (t - Part000.lastSwitch r >=? Part000.COMPUTE_MS_INTERVAL w);
      [|done].
    cbn [toggles app]. by destruct Hbit as [-> | ->].
Qed.

Lemma switches_run001 ts : forall w r q,
  Part001.renderer w = Some r -> Part001.rafPending w = [q] ->
  Inv001.wired r ->
  switches (Part001.hostLog (Part001.run w (Part001.AnimationFrame <$> ts)))
  = switches (Part001.hostLog w)
    ++ toggles (Part001.bindGroupIndex r)
         (gated (Part001.COMPUTE_MS_INTERVAL w)
            (Part001.lastBindGroupSwitchTime r) ts).
Proof.
  induction ts as [|t ts IH]; intros w r q Hr Hq Hw.
  - cbn. by rewrite app_nil_r.
  - change (Part001.run w (Part001.AnimationFrame <$> t :: ts))
      with (Part001.run (Part001.animationFrame t w)
              (Part001.AnimationFrame <$> ts)).
    rewrite (tick001 t w r q Hr Hq).
    erewrite IH.
    2:{ reflexivity. }
    2:{ reflexivity. }
    2:{ by apply wired_after001. }
    cbn [Part001.hostLog Part001.set_renderer Tick001.afterWorld
         Part001.COMPUTE_MS_INTERVAL Part001.set_raf Tick001.after
         Part001.lastBindGroupSwitchTime Part001.bindGroupIndex gated].
    rewrite switches_app, switches_actions001, <- app_assoc. f_equal.
    destruct Hw as [Hbit (grid & a & b & Hg & _)].
    unfold Tick001.direction, Tick001.gate. rewrite Hg.
    cbn [Part001.lastBindGroupSwitchTime Part001.COMPUTE_MS_INTERVAL
         Part001.set_raf].
    destruct (t - Part001.lastBindGroupSwitchTime r
              >=? Part001.COMPUTE_MS_INTERVAL w); [|done].
    cbn [toggles app]. by destruct Hbit as [-> | ->].
Qed.

Lemma toggles_alternate from n i a :
  from = 0 \/ from = 1 ->
  toggles from n !! i = Some a ->
  (a = 0 \/ a = 1)
  /\ (toggles from n !! S i = None \/ toggles from n !! S i = Some (1 - a)).
Proof.
  revert from i. induction n as [|n IH]; intros from i Hf Hi; [done|].
  assert (Hf' : 1 - from = 0 \/ 1 - from = 1) by lia.
  destruct i as [|i].
  - cbn in Hi. injection Hi as <-. split; [done|].
    destruct n; [by left|by right].
  - cbn in Hi. destruct (IH (1 - from) i Hf' Hi) as [H1 H2]. split; done.
Qed.

(** C4.  In every state either program reaches, the bind group index of
    every Renderer is 0 or 1, and a call of [render] leaves it as it is when
    the tick does not switch and replaces it by the other value when the
    tick switches.  So the indices switched to over the frames of a session
    are 1, 0, 1, 0, ...: each is 0 or 1 and the next one, if there is one, is
    the other value. *)
Theorem C4_direction_alternates :
  (forall k random events,
      Forall (fun r =>
                (Part000.bindGroupIndex r = 0 \/ Part000.bindGroupIndex r = 1)
                /\ forall self timeMs w,
                    Part000.bindGroupIndex
                      (exec (Part000.render self timeMs) (r, w)).1
                    = if timeMs - Part000.lastSwitch r
                         >=? Part000.COMPUTE_MS_INTERVAL w
                      then 1 - Part000.bindGroupIndex r
                      else Part000.bindGroupIndex r)
             (Part000.renderers
                (Part000.run k (Part000.started random) events)))
  /\ (forall k random events,
         exists r,
           Part001.renderer (Part001.run (Part001.started k random) events)
           = Some r
           /\ (Part001.bindGroupIndex r = 0 \/ Part001.bindGroupIndex r = 1)
           /\ forall timeMs w,
               Part001.bindGroupIndex (exec (Part001.render timeMs) (r, w)).1
               = if timeMs - Part001.lastBindGroupSwitchTime r
                    >=? Part001.COMPUTE_MS_INTERVAL w
                 then 1 - Part001.bindGroupIndex r
                 else Part001.bindGroupIndex r)
  /\ (forall k random interval ts,
         let flips000 :=
           switches (Part000.hostLog
                       (Part000.run k (running000 k random interval)
                          (Part000.AnimationFrame <$> ts))) in
         let flips001 :=
           switches (Part001.hostLog
                       (Part001.run (running001 k random interval)
                          (Part001.AnimationFrame <$> ts))) in
         flips000 = toggles 0 (gated interval 0 ts)
         /\ flips001 = toggles 0 (gated interval 0 ts)
         /\ forall i a,
              flips000 !! i = Some a ->
              (a = 0 \/ a = 1)
              /\ (flips000 !! S i = None \/ flips000 !! S i = Some (1 - a))).
Proof.
  split; [|split].
  - intros k random events.
    destruct (run000_invariant k _ events (started000_invariant random))
      as (Hr & _ & _).
    eapply Forall_impl; [exact Hr|].
    intros r [Hbit _]. split; [exact Hbit|].
    intros self timeMs w. by apply toggled000.
  - intros k random events.
    destruct (run001_invariant _ events (started001_invariant k random))
      as (r & Hr & Hw).
    exists r. split; [exact Hr|]. split; [by destruct Hw|].
    intros timeMs w. by apply toggled001.
  - intros k random interval ts flips000 flips001.
    assert (H0 : flips000 = toggles 0 (gated interval 0 ts)).
    { unfold flips000.
      rewrite (switches_run000 k ts _ 0%nat
                 (Session000.rendererOf k (Session000.parking 64 0)) 1%nat);
        rewrite ?running000_eq; try reflexivity. by left. }
    split; [exact H0|]. split.
    + unfold flips001.
      rewrite (switches_run001 ts _ (Session001.rendererOf k) 1%nat);
        rewrite ?running001_eq; try reflexivity.
      destruct (started001_invariant k random) as (r & Hr & Hw).
      rewrite init001 in Hr. cbn in Hr. by injection Hr as <-.
    + intros i a. rewrite H0. apply toggles_alternate. by left.
Qed.

(** The class based program does come to hold a Renderer, and both programs
    do switch: after a first frame at 100 ms the index is 1, after a second
    one at 200 ms it is 0 again. *)
Example directions_after_two_frames :
  Part000.bindGroupIndex
  <$> Part000.renderers
        (Part000.run (fun _ _ _ => []) (running000 (fun _ _ _ => []) (fun _ => 0%Q) 100)
           [Part000.AnimationFrame 100]) = [1]
  /\ Part000.bindGroupIndex
     <$> Part000.renderers
           (Part000.run (fun _ _ _ => []) (running000 (fun _ _ _ => []) (fun _ => 0%Q) 100)
              [Part000.AnimationFrame 100; Part000.AnimationFrame 200]) = [0].
Proof. split; vm_compute; reflexivity. Qed.

(** ** The initial fill *)

Lemma lookup_randomCells random from n i :
  randomCells random from n !! i
  = if decide (i < n)%nat then Some (cellOf (random (from + i)%nat)) else None.
Proof.
  unfold randomCells. rewrite list_lookup_fmap.
  destruct (decide (i < n)%nat) as [H | H].
  - by rewrite lookup_seq_lt.
  - by rewrite lookup_seq_ge by lia.
Qed.

Lemma cellOf_live q :
  (cellOf q = U32 1 <-> (6 # 10 < q)%Q) /\ (cellOf q = U32 0 <-> (q <= 6 # 10)%Q).
Proof.
  unfold cellOf. destruct (Qlt_le_dec (6 # 10) q) as [H | H].
  - split; split; try done. intros H'. by apply Qle_not_lt in H'.
  - split; split; try done. intros H'. by apply Qle_not_lt in H.
Qed.

Lemma byteLength_randomCells random from n :
  byteLength (randomCells random from (Z.to_nat (n * n))) = 4 * (n * n).
Proof.
  unfold byteLength. rewrite length_randomCells.
  pose proof (Z.square_nonneg n). lia.
Qed.

(** C5, as the specification states it, fails in the function based program:
    [createStateStorageBuffers] writes the draw to the first state buffer
    only; with every draw at 0.9 the first buffer is all ones and the second
    is still all zeroes. *)
Lemma C5_second_buffer_unfilled_part001 :
  let w := Part001.started (fun _ _ _ => []) (fun _ => (9 # 10)%Q) in
  (contents <$> Part001.buffers w !! 2%nat)
  <> (contents <$> Part001.buffers w !! 3%nat).
Proof.
  cbn zeta. rewrite init001. cbn [Part001.buffers Session001.afterInit].
  intros H. apply (f_equal (fun o => o ≫= (fun l => l !! 0%nat))) in H.
  vm_compute in H. discriminate H.
Qed.

(** C5, amended.  [Engine.init] of the class based program, at dimension
    [n], appends to the device a grid uniform, a time uniform and a vertex
    buffer, none of them a storage buffer, and exactly two storage buffers
    of [n * n] cells ([4 * n * n] bytes) each, both holding the same one
    draw.  [init] of the function based program, at its fixed dimension 64,
    makes the same two storage buffers but writes the draw to the first
    only; the second keeps the zeroes it is created with.  In both, cell [i]
    is decided by draw [i] alone: it is 1 when that draw of [Math.random] is
    above the literal 0.6 and 0 otherwise. *)
Theorem C5_initial_fill :
  (forall n w,
      let data := randomCells (Part000.random w) (Part000.randomUsed w)
                    (Z.to_nat (n * n)) in
      exists grid time quad,
        Part000.buffers (exec (Part000.init n) w)
        = Part000.buffers w
          ++ [grid; time; quad;
              mkBuffer "State A" (4 * (n * n)) 136 data;
              mkBuffer "State B" (4 * (n * n)) 136 data]
        /\ hasFlag (usage grid) GPUBufferUsage.STORAGE = false
        /\ hasFlag (usage time) GPUBufferUsage.STORAGE = false
        /\ hasFlag (usage quad) GPUBufferUsage.STORAGE = false
        /\ hasFlag 136 GPUBufferUsage.STORAGE = true
        /\ Z.of_nat (length data) = n * n)
  /\ (forall k random,
         let cells := Z.to_nat (Part001.GRID_SIZE * Part001.GRID_SIZE) in
         exists grid time quad,
           Part001.buffers (Part001.started k random)
           = [grid; time;
              mkBuffer "Cell State A" (4 * Z.of_nat cells) 136
                (randomCells random 0 cells);
              mkBuffer "Cell State B" (4 * Z.of_nat cells) 136
                (replicate cells (U32 0));
              quad]
           /\ hasFlag (usage grid) GPUBufferUsage.STORAGE = false
           /\ hasFlag (usage time) GPUBufferUsage.STORAGE = false
           /\ hasFlag (usage quad) GPUBufferUsage.STORAGE = false)
  /\ (forall random from n i,
         randomCells random from n !! i
         = if decide (i < n)%nat then Some (cellOf (random (from + i)%nat))
           else None)
  /\ (forall q, (cellOf q = U32 1 <-> (6 # 10 < q)%Q)
                /\ (cellOf q = U32 0 <-> (q <= 6 # 10)%Q)).
Proof.
  split; [|split; [|split]].
  - intros n w data. unfold exec. rewrite init000.
    eexists _, _, _. split.
    + unfold Session000.afterInit, Session000.allocated, Session000.draw.
      cbn [snd Part000.buffers]. fold data.
      unfold data at 1 3. rewrite byteLength_randomCells. reflexivity.
    + cbn. do 4 (split; [reflexivity|]).
      unfold data. rewrite length_randomCells.
      pose proof (Z.square_nonneg n). lia.
  - intros k random cells. rewrite init001.
    eexists _, _, _. split; [reflexivity|]. cbn. done.
  - apply lookup_randomCells.
  - apply cellOf_live.
Qed.

(** ** The dispatch *)

Lemma workgroupCount_ceiling n : workgroupCount n = (n + 7) / 8.
Proof.
  unfold workgroupCount, Qceiling, Qfloor. cbn.
  rewrite Z.mul_1_r. Z.to_euclidean_division_equations. lia.
Qed.

(** ** The time uniform *)

Lemma agreeExcept_refl h b : agreeExcept h b b.
Proof. by split. Qed.

Lemma agree_writeBuffer h d1 d2 b1 b2 :
  agreeExcept h b1 b2 ->
  agreeExcept h (writeBuffer h 0 d1 b1) (writeBuffer h 0 d2 b2).
Proof.
  intros [Hl H]. split.
  - by rewrite !length_writeBuffer.
  - intros i Hi. rewrite !writeBuffer_other by done. by apply H.
Qed.

Lemma agree_setContents h t ws b1 b2 :
  h <> t -> agreeExcept t b1 b2 ->
  agreeExcept t (setContents h ws b1) (setContents h ws b2).
Proof.
  intros Hne [Hl H]. unfold setContents. rewrite <- (H h Hne).
  destruct (b1 !! h) as [b|] eqn:E; [|by split].
  split.
  - by rewrite !length_insert.
  - intros i Hi. destruct (decide (i = h)) as [-> | Hih].
    + rewrite !list_lookup_insert_eq; [done| |].
      * rewrite <- Hl. by eapply lookup_lt_Some.
      * by eapply lookup_lt_Some.
    + rewrite !list_lookup_insert_ne by done. by apply H.
Qed.

Lemma view_agree stage t g b1 b2 :
  hiddenFrom stage t g -> agreeExcept t b1 b2 ->
  shaderView stage b1 g = shaderView stage b2 g.
Proof.
  intros Hh [_ H]. unfold shaderView, hiddenFrom in *.
  induction (layout_entries (layout g)) as [|e es IH]; [done|].
  rewrite filter_cons. destruct (decide (hasFlag (visibility e) stage = true)) as [Hv | Hv].
  - cbn [omap list_omap].
    assert (He : viewEntry b1 g e = viewEntry b2 g e).
    { unfold viewEntry. specialize (Hh e ltac:(left) Hv).
      destruct (boundAt (binding e) g) as [h|]; [|done]. cbn.
      rewrite (H h); [done|]. congruence. }
    rewrite He. rewrite IH; [done|].
    intros e' He' Hv'. apply Hh; [by right|done].
  - apply IH. intros e' He' Hv'. apply Hh; [by right|done].
Qed.

Lemma dispatch_agree k g wg t b1 b2 :
  hiddenFrom GPUShaderStage.COMPUTE t g -> agreeExcept t b1 b2 ->
  agreeExcept t (dispatch k g wg b1) (dispatch k g wg b2).
Proof.
  intros Hh Ha. unfold dispatch.
  rewrite (view_agree _ t g b1 b2 Hh Ha).
  generalize (shaderView GPUShaderStage.COMPUTE b2 g). intros view.
  unfold hiddenFrom in Hh. revert b1 b2 Ha.
  induction (layout_entries (layout g)) as [|e es IH]; intros b1 b2 Ha; [done|].
  cbn [foldl]. apply IH.
  - intros e' He' Hv'. apply Hh; [by right|done].
  - destruct (writable e) eqn:Ew; [|done].
    assert (Hv : hasFlag (visibility e) GPUShaderStage.COMPUTE = true).
    { unfold writable in Ew. by destruct (buffer e). }
    specialize (Hh e ltac:(left) Hv).
    destruct (boundAt (binding e) g) as [h|]; [|done].
    apply agree_setContents; [congruence|done].
Qed.

Lemma execute_agree c t s1 s2 :
  (forall g, groupOf c = Some g -> hiddenFrom GPUShaderStage.COMPUTE t g) ->
  agreeExcept t s1.1 s2.1 ->
  agreeExcept t (execute c s1).1 (execute c s2).1.
Proof.
  intros Hh Ha. destruct c as [p [g|] x y | p vb [g|] vc ic]; cbn; try done.
  apply dispatch_agree; [|done]. by apply Hh.
Qed.

Lemma submit_agree cmds t : forall s1 s2,
  Forall (fun c => forall g, groupOf c = Some g ->
                             hiddenFrom GPUShaderStage.COMPUTE t g) cmds ->
  agreeExcept t s1.1 s2.1 ->
  agreeExcept t (submit cmds s1).1 (submit cmds s2).1.
Proof.
  unfold submit. induction cmds as [|c cmds IH]; intros s1 s2 Hh Ha; [done|].
  apply Forall_cons in Hh as [Hc Hh]. cbn [foldl]. apply IH; [done|].
  by apply execute_agree.
Qed.

(** The time buffer of a wired Renderer is out of the compute stage's sight
    in both of its bind groups. *)
Lemma hidden_group g grid t x y :
  layout g = Part000.createBindGroupLayout
  \/ layout g = Part001.createBindGroupLayout ->
  entries g = [mkEntry 0 grid; mkEntry 1 t; mkEntry 2 x; mkEntry 3 y] ->
  grid <> t -> t <> x -> t <> y ->
  hiddenFrom GPUShaderStage.COMPUTE t g.
Proof.
  intros Hl He Hgt Htx Hty. unfold hiddenFrom.
  apply (Forall_forall
           (fun e => hasFlag (visibility e) GPUShaderStage.COMPUTE = true ->
                     boundAt (binding e) g <> Some t)).
  unfold boundAt. rewrite He.
  destruct Hl as [-> | ->];
    repeat constructor; cbn; intros Hv; try discriminate Hv; congruence.
Qed.

Lemma hidden000 r g :
  Inv000.wired r -> g ∈ Part000.bindGroups (Part000.simulation r) ->
  hiddenFrom GPUShaderStage.COMPUTE (Part000.timeBuffer r) g.
Proof.
  intros [_ (grid & a & b & Hsim & Hnd)] Hg. rewrite Hsim in Hg.
  apply NoDup4 in Hnd as (Hgt & _ & _ & Hta & Htb & _).
  apply list_elem_of_In in Hg. cbn in Hg.
  destruct Hg as [<- | [<- | []]].
  - by apply (hidden_group _ (Part000.uniformBuffer grid) _ a b); [left|..].
  - by apply (hidden_group _ (Part000.uniformBuffer grid) _ b a); [left|..].
Qed.

Lemma hidden001 r g :
  Inv001.wired r -> g ∈ Part001.bindGroups r ->
  hiddenFrom GPUShaderStage.COMPUTE (Part001.timeBuffer r) g.
Proof.
  intros [_ (grid & a & b & Hsim & Hnd)] Hg. rewrite Hsim in Hg.
  apply NoDup4 in Hnd as (Hgt & _ & _ & Hta & Htb & _).
  apply list_elem_of_In in Hg. cbn in Hg.
  destruct Hg as [<- | [<- | []]].
  - by apply (hidden_group _ grid _ a b); [right|..].
  - by apply (hidden_group _ grid _ b a); [right|..].
Qed.

Lemma index_elem {A} (l : list A) i x : index l i = Some x -> x ∈ l.
Proof.
  unfold index. destruct (i <? 0); [done|]. apply list_elem_of_lookup_2.
Qed.

Lemma device_agree000 t1 t2 r1 r2 w1 w2 :
  Inv000.wired r1 -> wiring000 r1 = wiring000 r2 ->
  Tick000.gate t1 r1 w1 = Tick000.gate t2 r2 w2 ->
  Part000.GRID_SIZE w1 = Part000.GRID_SIZE w2 ->
  agreeExcept (Part000.timeBuffer r1) (Part000.buffers w1) (Part000.buffers w2) ->
  agreeExcept (Part000.timeBuffer r1)
    (Tick000.device t1 r1 w1).1 (Tick000.device t2 r2 w2).1.
Proof.
  intros Hw Hr Hg Hn Ha. unfold wiring000 in Hr.
  injection Hr as Hi Hrp Hcp Hvb Hvs Hsim Htb.
  assert (Hb : Tick000.batch t1 r1 w1 = Tick000.batch t2 r2 w2).
  { unfold Tick000.batch, Tick000.computePass, Tick000.renderPass,
      Tick000.direction. by rewrite Hg, Hi, Hrp, Hcp, Hvb, Hvs, Hsim, Hn. }
  unfold Tick000.device. rewrite <- Hb, <- Htb.
  apply submit_agree; [|by apply agree_writeBuffer].
  unfold Tick000.batch, Tick000.computePass, Tick000.renderPass.
  repeat constructor; cbn; intros g Hgr;
    apply (hidden000 r1 g Hw); by eapply index_elem.
Qed.

Lemma device_agree001 t1 t2 r1 r2 w1 w2 :
  Inv001.wired r1 -> wiring001 r1 = wiring001 r2 ->
  Tick001.gate t1 r1 w1 = Tick001.gate t2 r2 w2 ->
  agreeExcept (Part001.timeBuffer r1) (Part001.buffers w1) (Part001.buffers w2) ->
  agreeExcept (Part001.timeBuffer r1)
    (Tick001.device t1 r1 w1).1 (Tick001.device t2 r2 w2).1.
Proof.
  intros Hw Hr Hg Ha. unfold wiring001 in Hr.
  injection Hr as Hi Hrp Hcp Hvb Hbg Htb Hvs.
  assert (Hb : Tick001.batch t1 r1 w1 = Tick001.batch t2 r2 w2).
  { unfold Tick001.batch, Tick001.computePass, Tick001.renderPass,
      Tick001.direction. by rewrite Hg, Hi, Hrp, Hcp, Hvb, Hvs, Hbg. }
  unfold Tick001.device. rewrite <- Hb, <- Htb.
  apply submit_agree; [|by apply agree_writeBuffer].
  unfold Tick001.batch, Tick001.computePass, Tick001.renderPass.
  repeat constructor; cbn; intros g Hgr;
    apply (hidden001 r1 g Hw); by eapply index_elem.
Qed.

Lemma run_agree000 k ts1 : forall ts2 w1 w2 i r1 r2 id1 id2,
  Part000.renderers w1 !! i = Some r1 -> Part000.renderers w2 !! i = Some r2 ->
  Part000.rafPending w1 = [(id1, i)] -> Part000.rafPending w2 = [(id2, i)] ->
  Inv000.wired r1 -> wiring000 r1 = wiring000 r2 ->
  Part000.GRID_SIZE w1 = Part000.GRID_SIZE w2 ->
  agreeExcept (Part000.timeBuffer r1) (Part000.buffers w1) (Part000.buffers w2) ->
  sameSwitching (Part000.COMPUTE_MS_INTERVAL w1) (Part000.lastSwitch r1) ts1
                (Part000.COMPUTE_MS_INTERVAL w2) (Part000.lastSwitch r2) ts2
  = true ->
  agreeExcept (Part000.timeBuffer r1)
    (Part000.buffers (Part000.run k w1 (Part000.AnimationFrame <$> ts1)))
    (Part000.buffers (Part000.run k w2 (Part000.AnimationFrame <$> ts2))).
Proof.
  induction ts1 as [|t1 ts1 IH];
    intros [|t2 ts2] w1 w2 i r1 r2 id1 id2 Hr1 Hr2 Hq1 Hq2 Hw Hwi Hn Ha Hs;
    try discriminate Hs; [exact Ha|].
  cbn [sameSwitching] in Hs. apply andb_true_iff in Hs as [Hg Hs].
  apply eqb_prop in Hg.
  change (Part000.run k w1 (Part000.AnimationFrame <$> t1 :: ts1))
    with (Part000.run k (Part000.animationFrame t1 w1)
            (Part000.AnimationFrame <$> ts1)).
  change (Part000.run k w2 (Part000.AnimationFrame <$> t2 :: ts2))
    with (Part000.run k (Part000.animationFrame t2 w2)
            (Part000.AnimationFrame <$> ts2)).
  rewrite (tick000 t1 w1 i r1 id1 Hr1 Hq1), (tick000 t2 w2 i r2 id2 Hr2 Hq2).
  pose proof Hwi as Hwi'. unfold wiring000 in Hwi'.
  injection Hwi' as Hi Hrp Hcp Hvb Hvs Hsim Htb.
  eapply (IH ts2 _ _ i (Tick000.after t1 r1 w1) (Tick000.after t2 r2 w2)).
  - cbn. apply list_lookup_insert_eq. by eapply lookup_lt_Some.
  - cbn. apply list_lookup_insert_eq. by eapply lookup_lt_Some.
  - reflexivity.
  - reflexivity.
  - by apply wired_after000.
  - unfold wiring000, Tick000.after, Tick000.direction, Tick000.gate. cbn.
    by rewrite Hg, Hi, Hrp, Hcp, Hvb, Hvs, Hsim, Htb.
  - exact Hn.
  - apply (device_agree000 t1 t2 r1 r2); done.
  - exact Hs.
Qed.

Lemma run_agree001 ts1 : forall ts2 w1 w2 r1 r2 q1 q2,
  Part001.renderer w1 = Some r1 -> Part001.renderer w2 = Some r2 ->
  Part001.rafPending w1 = [q1] -> Part001.rafPending w2 = [q2] ->
  Inv001.wired r1 -> wiring001 r1 = wiring001 r2 ->
  agreeExcept (Part001.timeBuffer r1) (Part001.buffers w1) (Part001.buffers w2) ->
  sameSwitching
    (Part001.COMPUTE_MS_INTERVAL w1) (Part001.lastBindGroupSwitchTime r1) ts1
    (Part001.COMPUTE_MS_INTERVAL w2) (Part001.lastBindGroupSwitchTime r2) ts2
  = true ->
  agreeExcept (Part001.timeBuffer r1)
    (Part001.buffers (Part001.run w1 (Part001.AnimationFrame <$> ts1)))
    (Part001.buffers (Part001.run w2 (Part001.AnimationFrame <$> ts2))).
Proof.
  induction ts1 as [|t1 ts1 IH];
    intros [|t2 ts2] w1 w2 r1 r2 q1 q2 Hr1 Hr2 Hq1 Hq2 Hw Hwi Ha Hs;
    try discriminate Hs; [exact Ha|].
  cbn [sameSwitching] in Hs. apply andb_true_iff in Hs as [Hg Hs].
  apply eqb_prop in Hg.
  change (Part001.run w1 (Part001.AnimationFrame <$> t1 :: ts1))
    with (Part001.run (Part001.animationFrame t1 w1)
            (Part001.AnimationFrame <$> ts1)).
  change (Part001.run w2 (Part001.AnimationFrame <$> t2 :: ts2))
    with (Part001.run (Part001.animationFrame t2 w2)
            (Part001.AnimationFrame <$> ts2)).
  rewrite (tick001 t1 w1 r1 q1 Hr1 Hq1), (tick001 t2 w2 r2 q2 Hr2 Hq2).
  pose proof Hwi as Hwi'. unfold wiring001 in Hwi'.
  injection Hwi' as Hi Hrp Hcp Hvb Hbg Htb Hvs.
  eapply (IH ts2 _ _ (Tick001.after t1 r1 w1) (Tick001.after t2 r2 w2)).
  - reflexivity.
  - reflexivity.
  - reflexivity.
  - reflexivity.
  - by apply wired_after001.
  - unfold wiring001, Tick001.after, Tick001.direction, Tick001.gate. cbn.
    by rewrite Hg, Hi, Hrp, Hcp, Hvb, Hvs, Hbg, Htb.
  - apply (device_agree001 t1 t2 r1 r2); done.
  - exact Hs.
Qed.

Lemma timeWrites_actions000 self timeMs r w :
  timeWrites (Part000.timeBuffer r) (Tick000.actions self timeMs r w)
  = [[F32 (inject_Z timeMs / 1000)]].
Proof.
  unfold Tick000.actions, timeWrites.
  destruct (Tick000.sampled timeMs r), (Tick000.gate timeMs r w); cbn;
    by rewrite decide_True.
Qed.

Lemma timeWrites_actions001 timeMs r w :
  timeWrites (Part001.timeBuffer r) (Tick001.actions timeMs r w)
  = [[F32 (inject_Z timeMs / 1000)]].
Proof.
  unfold Tick001.actions, timeWrites.
  destruct (Tick001.sampled timeMs r), (Tick001.gate timeMs r w); cbn;
    by rewrite decide_True.
Qed.



(** The two runs of the witness do write different time values, and their
    compute passes do rewrite the state buffers. *)
Example time_values_differ :
  let k := fun (_ : ShaderView) (_ : Z * Z) (_ : Z) => [U32 1] in
  let random := fun _ : nat => 0%Q in
  let w1 := Part000.run k (running000 k random 100)
              (Part000.AnimationFrame <$> [16; 120; 130]) in
  let w2 := Part000.run k (running000 k random 1000)
              (Part000.AnimationFrame <$> [160; 1200; 1300]) in
  (contents <$> Part000.buffers w1 !! 1%nat) = Some [F32 (130 # 1000)]
  /\ (contents <$> Part000.buffers w2 !! 1%nat) = Some [F32 (1300 # 1000)]
  /\ (take 2 <$> (contents <$> Part000.buffers w1 !! 3%nat))
     = Some [U32 1; U32 0]
  /\ (take 2 <$> (contents <$> Part000.buffers (running000 k random 100) !! 3%nat))
     = Some [U32 0; U32 0].
Proof. vm_compute. repeat split. Qed.

(** ** Grid-size change *)

Lemma stopRendering000 w : Part000.stopRendering w = (tt, afterStop000 w).
Proof.
  unfold Part000.stopRendering, afterStop000, bind, gets.
  by destruct (Part000.animationFrameId (Part000.engine w)).
Qed.

Lemma afterStop000_kept w :
  Part000.buffers (afterStop000 w) = Part000.buffers w
  /\ Part000.suspended (afterStop000 w) = Part000.suspended w
  /\ Part000.renderers (afterStop000 w) = Part000.renderers w
  /\ Part000.random (afterStop000 w) = Part000.random w
  /\ Part000.randomUsed (afterStop000 w) = Part000.randomUsed w
  /\ Part000.rafNext (afterStop000 w) = Part000.rafNext w.
Proof.
  unfold afterStop000.
  by destruct (Part000.animationFrameId (Part000.engine w)).
Qed.

Lemma onGridSizeChange000 n w :
  exec (Part000.onGridSizeChange n) w
  = Session000.afterInit n (Part000.set_GRID_SIZE n (afterStop000 w)).
Proof.
  unfold Part000.onGridSizeChange. rewrite !exec_bind.
  rewrite stopRendering000. unfold exec. by rewrite init000.
Qed.

Lemma resize000 k n w :
  Part000.suspended w = [] ->
  Part000.run k w [Part000.GridSizeInput n; Part000.PipelinesReady]
  = Session000.afterAwait k
      (Session000.parking n (length (Part000.buffers w)))
      (Part000.set_suspended []
         (Session000.afterInit n (Part000.set_GRID_SIZE n (afterStop000 w)))).
Proof.
  intros Hs. unfold Part000.run. cbn [foldl Part000.step].
  rewrite onGridSizeChange000. unfold Part000.pipelinesReady.
  destruct (afterStop000_kept w) as (Hb & Hsu & _).
  unfold Session000.afterInit at 1.
  cbn [Part000.suspended Part000.buffers Part000.set_GRID_SIZE].
  rewrite Hsu, Hs, Hb. cbn [app]. unfold exec.
  by rewrite init_afterAwait000.
Qed.

Lemma session_after_resize k n w :
  Part000.suspended w = [] ->
  let L := length (Part000.buffers w) in
  Inv000.session n
    (Part000.new_Simulation (Part000.mkGrid n L) (L + 1)
       [(L + 3)%nat; (L + 4)%nat] Part000.createBindGroupLayout)
    (L + 3) (L + 4)
    (Part000.run k w [Part000.GridSizeInput n; Part000.PipelinesReady]).
Proof.
  intros Hs L. rewrite (resize000 k n w Hs).
  destruct (afterStop000_kept w) as (Hb & _ & _ & Hrd & Hru & _).
  pose proof (Z.square_nonneg n) as Hnn.
  split; [reflexivity|]. split; [reflexivity|]. split; [reflexivity|].
  split; [lia|].
  unfold Session000.afterAwait, Session000.afterInit, Session000.allocated.
  cbn [Part000.buffers Part000.set_suspended Part000.set_GRID_SIZE].
  rewrite Hb. fold L.
  split.
  - eexists. split.
    + rewrite lookup_app_r by (unfold L; lia).
      replace (L + 3 - length (Part000.buffers w))%nat with 3%nat
        by (unfold L; lia).
      reflexivity.
    + split; [reflexivity|]. cbn [size contents]. unfold Session000.draw.
      unfold byteLength. rewrite length_randomCells. done.
  - eexists. split.
    + rewrite lookup_app_r by (unfold L; lia).
      replace (L + 4 - length (Part000.buffers w))%nat with 4%nat
        by (unfold L; lia).
      reflexivity.
    + split; [reflexivity|]. cbn [size contents]. unfold Session000.draw.
      unfold byteLength. rewrite length_randomCells. done.
Qed.

(** ** State buffers are kept by every event *)

Lemma keeps_refl n bufs : keeps n bufs bufs.
Proof. intros h b Hb Hs. eauto. Qed.

Lemma keeps_trans n b1 b2 b3 : keeps n b1 b2 -> keeps n b2 b3 -> keeps n b1 b3.
Proof.
  intros H12 H23 h b Hb Hs. destruct (H12 h b Hb Hs) as (b' & Hb' & Hs').
  eauto.
Qed.

Lemma length_splice old at_ data :
  (at_ + length data <= length old)%nat ->
  length (splice old at_ data) = length old.
Proof.
  intros H. unfold splice.
  rewrite !length_app, length_take, length_drop. lia.
Qed.

Lemma keeps_writeBuffer n h off data bufs :
  keeps n bufs (writeBuffer h off data bufs).
Proof.
  intros i b Hb Hs. unfold writeBuffer.
  destruct (bufs !! h) as [o|] eqn:Ho; [|eauto].
  destruct (_ && _) eqn:Hv; [|eauto].
  destruct (decide (i = h)) as [-> | Hne].
  - rewrite list_lookup_insert_eq by (by eapply lookup_lt_Some).
    eexists. split; [reflexivity|].
    assert (o = b) as -> by congruence.
    destruct Hs as (Hflag & Hsize & Hlen).
    split; [done|]. split; [done|]. cbn [contents].
    rewrite <- Hlen. apply length_splice.
    rewrite !andb_true_iff in Hv. destruct Hv as [[[_ H0] Hm] Hfit].
    apply Z.leb_le in H0, Hfit. apply Z.eqb_eq in Hm.
    rewrite Hsize in Hfit. unfold byteLength in Hfit. rewrite Hlen.
    apply Nat2Z.inj_le. rewrite Nat2Z.inj_add, Z2Nat.id.
    + pose proof (Z.div_mod off 4 ltac:(lia)). lia.
    + apply Z.div_pos; lia.
  - rewrite list_lookup_insert_ne by done. eauto.
Qed.

Lemma keeps_setContents n h ws bufs : keeps n bufs (setContents h ws bufs).
Proof.
  intros i b Hb Hs. unfold setContents.
  destruct (bufs !! h) as [o|] eqn:Ho; [|eauto].
  destruct (decide (i = h)) as [-> | Hne].
  - rewrite list_lookup_insert_eq by (by eapply lookup_lt_Some).
    eexists. split; [reflexivity|].
    assert (o = b) as -> by congruence.
    destruct Hs as (Hflag & Hsize & Hlen).
    split; [done|]. split; [done|]. cbn [contents]. by rewrite length_resize.
  - rewrite list_lookup_insert_ne by done. eauto.
Qed.

Lemma keeps_dispatch n k g wg bufs : keeps n bufs (dispatch k g wg bufs).
Proof.
  unfold dispatch. generalize (shaderView GPUShaderStage.COMPUTE bufs g).
  intros view. revert bufs.
  induction (layout_entries (layout g)) as [|e es IH]; intros acc.
  - apply keeps_refl.
  - cbn [foldl]. eapply keeps_trans; [|apply IH].
    destruct (writable e); [|apply keeps_refl].
    destruct (boundAt (binding e) g); [|apply keeps_refl].
    apply keeps_setContents.
Qed.

Lemma keeps_submit n cmds : forall s, keeps n s.1 (submit cmds s).1.
Proof.
  unfold submit. induction cmds as [|c cmds IH]; intros s.
  - apply keeps_refl.
  - cbn [foldl]. eapply keeps_trans; [|apply IH].
    destruct c as [p [g|] x y | p vb [g|] vc ic]; cbn;
      try apply keeps_refl. apply keeps_dispatch.
Qed.

Lemma keeps_callRender timeMs w request :
  keeps (Part000.GRID_SIZE w) (Part000.buffers w)
    (Part000.buffers (Part000.callRender timeMs w request))
  /\ Part000.GRID_SIZE (Part000.callRender timeMs w request) = Part000.GRID_SIZE w
  /\ Part000.engine (Part000.callRender timeMs w request) = Part000.engine w
  /\ Part000.suspended (Part000.callRender timeMs w request)
     = Part000.suspended w.
Proof.
  rewrite callRender000.
  destruct (Part000.renderers w !! request.2) as [r|];
    [|by split; [apply keeps_refl|]].
  split; [|done].
  cbn [Part000.buffers Part000.set_renderers Tick000.afterWorld].
  unfold Tick000.device.
  eapply keeps_trans; [apply keeps_writeBuffer|].
  apply (keeps_submit _ _ (_, _)).
Qed.

Lemma keeps_frames timeMs qs : forall w,
  let w' := foldl (Part000.callRender timeMs) w qs in
  keeps (Part000.GRID_SIZE w) (Part000.buffers w) (Part000.buffers w')
  /\ Part000.GRID_SIZE w' = Part000.GRID_SIZE w
  /\ Part000.engine w' = Part000.engine w
  /\ Part000.suspended w' = Part000.suspended w.
Proof.
  induction qs as [|q qs IH]; intros w; cbn [foldl].
  - by split; [apply keeps_refl|].
  - destruct (keeps_callRender timeMs w q) as (H1 & H2 & H3 & H4).
    destruct (IH (Part000.callRender timeMs w q)) as (I1 & I2 & I3 & I4).
    cbn zeta. rewrite I2, I3, I4, H2, H3, H4. rewrite H2 in I1.
    split; [|done]. by eapply keeps_trans.
Qed.

Lemma keeps_animationFrame timeMs w :
  keeps (Part000.GRID_SIZE w) (Part000.buffers w)
    (Part000.buffers (Part000.animationFrame timeMs w))
  /\ Part000.GRID_SIZE (Part000.animationFrame timeMs w) = Part000.GRID_SIZE w
  /\ Part000.engine (Part000.animationFrame timeMs w) = Part000.engine w
  /\ Part000.suspended (Part000.animationFrame timeMs w)
     = Part000.suspended w.
Proof.
  exact (keeps_frames timeMs (Part000.rafPending w)
           (Part000.set_raf (Part000.rafNext w) [] w)).
Qed.

Lemma sized_keeps w w' hs :
  keeps (Part000.GRID_SIZE w) (Part000.buffers w) (Part000.buffers w') ->
  Part000.GRID_SIZE w' = Part000.GRID_SIZE w ->
  sized w hs -> sized w' hs.
Proof.
  intros Hk Hn (a & b & Hhs & Hab & (ba & Ha & Hsa) & (bb & Hb & Hsb)).
  exists a, b. rewrite Hn. split; [done|]. split; [done|]. split.
  - by apply (Hk a ba).
  - by apply (Hk b bb).
Qed.

Lemma current_animationFrame timeMs w :
  current w -> current (Part000.animationFrame timeMs w).
Proof.
  intros (hs & Hnew & Hs).
  destruct (keeps_animationFrame timeMs w) as (Hk & Hn & He & Hsu).
  exists hs. split.
  - unfold newest. by rewrite Hsu, He.
  - by apply (sized_keeps w).
Qed.

Lemma keeps_writes n data w0 l : forall w,
  keeps n (Part000.buffers w0) (Part000.buffers w)
  /\ Part000.GRID_SIZE w = Part000.GRID_SIZE w0
  /\ Part000.engine w = Part000.engine w0
  /\ Part000.suspended w = Part000.suspended w0 ->
  let w' := (foldr (fun h rest => bind (Part000.queue_writeBuffer h 0 data)
                                    (fun _ => rest))
                   (ret tt) l w).2 in
  keeps n (Part000.buffers w0) (Part000.buffers w')
  /\ Part000.GRID_SIZE w' = Part000.GRID_SIZE w0
  /\ Part000.engine w' = Part000.engine w0
  /\ Part000.suspended w' = Part000.suspended w0.
Proof.
  induction l as [|h l IH]; intros w H; cbn [foldr]; [exact H|].
  unfold bind at 1.
  unfold Part000.queue_writeBuffer, Part000.log, bind, modify.
  apply IH. destruct H as (H1 & H2 & H3 & H4). split; [|done].
  eapply keeps_trans; [exact H1|]. apply keeps_writeBuffer.
Qed.

Lemma onReset_unfold w :
  Part000.onReset w
  = match Part000.engine_simulation (Part000.engine w) with
    | Some sim => Part000.reset sim (Part000.GRID_SIZE w) w
    | None => (tt, w)
    end.
Proof.
  unfold Part000.onReset, bind, gets.
  by destruct (Part000.engine_simulation (Part000.engine w)).
Qed.

Lemma reset_unfold sim n w :
  Part000.reset sim n w
  = foldr (fun h rest =>
             bind (Part000.queue_writeBuffer h 0
                     (randomCells (Part000.random w) (Part000.randomUsed w)
                        (Z.to_nat (n * n))))
                  (fun _ => rest))
          (ret tt) (Part000.stateBuffers sim)
          (Part000.set_randomUsed
             (Part000.randomUsed w + Z.to_nat (n * n))%nat w).
Proof. reflexivity. Qed.

Lemma current_onReset w : current w -> current (exec Part000.onReset w).
Proof.
  intros (hs & Hnew & Hs). unfold exec. rewrite onReset_unfold.
  destruct (Part000.engine_simulation (Part000.engine w)) as [sim|] eqn:E;
    [|by exists hs].
  rewrite reset_unfold.
  match goal with |- context [foldr ?f ?z ?l ?w1] =>
    destruct (keeps_writes (Part000.GRID_SIZE w)
                (randomCells (Part000.random w) (Part000.randomUsed w)
                   (Z.to_nat (Part000.GRID_SIZE w * Part000.GRID_SIZE w)))
                w l w1) as (I1 & I2 & I3 & I4);
      [by split; [apply keeps_refl|]|];
    set (w' := (foldr f z l w1).2) in *
  end.
  exists hs. split.
  - unfold newest. rewrite I3, I4. exact Hnew.
  - eapply sized_keeps; [exact I1|exact I2|exact Hs].
Qed.

Lemma stateBuffer_allocated n random used label :
  Inv000.stateBuffer n
    (mkBuffer label (byteLength (randomCells random used (Z.to_nat (n * n))))
       136 (randomCells random used (Z.to_nat (n * n)))).
Proof.
  split; [reflexivity|]. cbn [size contents]. unfold byteLength.
  by rewrite length_randomCells.
Qed.

Lemma current_afterInit n w :
  Part000.GRID_SIZE w = n -> current (Session000.afterInit n w).
Proof.
  intros Hn. exists [(length (Part000.buffers w) + 3)%nat;
                     (length (Part000.buffers w) + 4)%nat].
  split.
  - unfold newest, Session000.afterInit. cbn [Part000.suspended].
    by rewrite last_snoc.
  - exists (length (Part000.buffers w) + 3)%nat,
      (length (Part000.buffers w) + 4)%nat.
    split; [done|]. split; [lia|].
    unfold Session000.afterInit, Session000.allocated, Session000.draw.
    cbn [Part000.buffers Part000.GRID_SIZE]. rewrite Hn.
    split; eexists; (split; [|apply stateBuffer_allocated]).
    + rewrite lookup_app_r by lia.
      by replace (length (Part000.buffers w) + 3 - length (Part000.buffers w))%nat
        with 3%nat by lia.
    + rewrite lookup_app_r by lia.
      by replace (length (Part000.buffers w) + 4 - length (Part000.buffers w))%nat
        with 4%nat by lia.
Qed.

Lemma current_pipelinesReady k w :
  current w -> current (Part000.pipelinesReady k w).
Proof.
  intros (hs & Hnew & Hs). unfold Part000.pipelinesReady.
  destruct (Part000.suspended w) as [|s rest] eqn:E; [by exists hs|].
  unfold exec. rewrite init_afterAwait000. cbn [snd]. exists hs. split.
  - unfold newest in *. rewrite E in Hnew.
    unfold Session000.afterAwait.
    cbn [Part000.suspended Part000.engine Part000.set_suspended
         Part000.engine_simulation].
    destruct rest as [|s' rest]; [exact Hnew|].
    rewrite last_cons_cons in Hnew.
    destruct (last (s' :: rest)) eqn:El; [exact Hnew|].
    by apply last_None in El.
  - exact Hs.
Qed.

Lemma current_step k w e : current w -> current (Part000.step k w e).
Proof.
  intros H. destruct e; unfold Part000.step.
  - by apply current_animationFrame.
  - by apply current_pipelinesReady.
  - by apply current_onReset.
  - rewrite onGridSizeChange000. by apply current_afterInit.
  - exact H.
Qed.

Lemma current_run k events : forall w,
  current w -> current (Part000.run k w events).
Proof.
  induction events as [|e es IH]; intros w H; [done|].
  apply (IH (Part000.step k w e)). by apply current_step.
Qed.

(** In every state the class based program reaches with no [init] parked,
    the Engine holds a Simulation over two state buffers of
    [GRID_SIZE * GRID_SIZE] cells. *)
Lemma session_in_reach k random events :
  let w := Part000.run k (Part000.started random) events in
  Part000.suspended w = [] ->
  exists sim a b, Inv000.session (Part000.GRID_SIZE w) sim a b w.
Proof.
  intros w Hsu.
  assert (Hc : current w).
  { apply current_run. rewrite started000_eq. by apply current_afterInit. }
  destruct Hc as (hs & Hnew & (a & b & -> & Hab & Ha & Hb)).
  unfold newest in Hnew. rewrite Hsu in Hnew. cbn in Hnew.
  destruct (Part000.engine_simulation (Part000.engine w)) as [sim|] eqn:E;
    [|done].
  cbn in Hnew. injection Hnew as Hst.
  exists sim, a, b. by repeat split.
Qed.

(** ** Reset *)

Lemma stateBuffer_write n h data bufs b :
  bufs !! h = Some b -> Inv000.stateBuffer n b ->
  length data = Z.to_nat (n * n) ->
  writeBuffer h 0 data bufs
  = <[h := mkBuffer (label b) (size b) (usage b) data]> bufs.
Proof.
  intros Hb (Hflag & Hsize & Hlen) Hd.
  apply writeBuffer_whole; try done.
  - unfold byteLength. by rewrite Hd.
  - by rewrite Hd.
Qed.

Lemma onReset000 n sim a b w :
  Inv000.session n sim a b w ->
  Part000.onReset w = (tt, Session000.afterReset n a b w).
Proof.
  intros (Hn & Hsim & Hst & Hab & (ba & Ha & Hsa) & (bb & Hb & Hsb)).
  unfold Part000.onReset, bind, gets. rewrite Hsim, Hn.
  unfold Part000.reset, Part000.Math_random_cells, bind. rewrite Hst.
  cbn [foldr]. unfold Part000.queue_writeBuffer, Part000.log, bind, modify, ret.
  cbn. unfold Session000.afterReset, Session000.draw.
  set (data := randomCells (Part000.random w) (Part000.randomUsed w)
                 (Z.to_nat (n * n))).
  assert (Hd : length data = Z.to_nat (n * n)) by apply length_randomCells.
  rewrite (stateBuffer_write n a data _ ba Ha Hsa Hd).
  rewrite Ha.
  assert (Hb' : <[a := mkBuffer (label ba) (size ba) (usage ba) data]>
                  (Part000.buffers w) !! b = Some bb).
  { by rewrite list_lookup_insert_ne. }
  rewrite (stateBuffer_write n b data _ bb Hb' Hsb Hd). rewrite Hb'.
  by rewrite <- app_assoc.
Qed.

(** What a reset does in a session of dimension [n]. *)
Lemma reset_frame n sim a b w :
  Inv000.session n sim a b w ->
  let w' := exec Part000.onReset w in
  let data := randomCells (Part000.random w) (Part000.randomUsed w)
                (Z.to_nat (n * n)) in
  (exists ba bb,
      Part000.buffers w !! a = Some ba /\ Part000.buffers w !! b = Some bb
      /\ Part000.buffers w' !! a
         = Some (mkBuffer (label ba) (size ba) (usage ba) data)
      /\ Part000.buffers w' !! b
         = Some (mkBuffer (label bb) (size bb) (usage bb) data)
      /\ size ba = 4 * (n * n) /\ size bb = 4 * (n * n))
  /\ Z.of_nat (length data) = n * n
  /\ length (Part000.buffers w') = length (Part000.buffers w)
  /\ (forall h, h <> a -> h <> b ->
                Part000.buffers w' !! h = Part000.buffers w !! h)
  /\ Part000.GRID_SIZE w' = n
  /\ Part000.renderers w' = Part000.renderers w
  /\ Part000.engine w' = Part000.engine w
  /\ Part000.rafPending w' = Part000.rafPending w
  /\ Part000.rafNext w' = Part000.rafNext w
  /\ Part000.suspended w' = Part000.suspended w
  /\ Part000.COMPUTE_MS_INTERVAL w' = Part000.COMPUTE_MS_INTERVAL w
  /\ Part000.canvas w' = Part000.canvas w
  /\ Part000.fpsText w' = Part000.fpsText w
  /\ Part000.randomUsed w'
     = (Part000.randomUsed w + Z.to_nat (n * n))%nat
  /\ Part000.hostLog w'
     = Part000.hostLog w ++ [WriteBuffer a data; WriteBuffer b data].
Proof.
  intros Hs w' data. subst w'. unfold exec. rewrite (onReset000 n sim a b w Hs).
  destruct Hs as (Hn & Hsim & Hst & Hab & (ba & Ha & Hsa) & (bb & Hb & Hsb)).
  pose proof (Z.square_nonneg n) as Hnn.
  unfold Session000.afterReset, Session000.draw. fold data.
  cbn [snd Part000.buffers Part000.GRID_SIZE Part000.renderers Part000.engine
       Part000.rafPending Part000.rafNext Part000.suspended
       Part000.COMPUTE_MS_INTERVAL Part000.canvas Part000.fpsText
       Part000.hostLog].
  rewrite Ha.
  assert (Hb' : <[a := mkBuffer (label ba) (size ba) (usage ba) data]>
                  (Part000.buffers w) !! b = Some bb).
  { by rewrite list_lookup_insert_ne. }
  rewrite Hb'.
  split; [|split; [|split; [|split]]].
  - exists ba, bb. split; [done|]. split; [done|]. split; [|split; [|split]].
    + rewrite list_lookup_insert_ne by done.
      apply list_lookup_insert_eq. by eapply lookup_lt_Some.
    + apply list_lookup_insert_eq. rewrite length_insert.
      by eapply lookup_lt_Some.
    + destruct Hsa as (_ & -> & _). lia.
    + destruct Hsb as (_ & -> & _). lia.
  - unfold data. rewrite length_randomCells. lia.
  - by rewrite !length_insert.
  - intros h Ha' Hb''. by rewrite !list_lookup_insert_ne.
  - done.
Qed.

(** After a reset both state buffers hold the array it drew. *)
Lemma reset_twins n sim a b w :
  Inv000.session n sim a b w ->
  let w' := exec Part000.onReset w in
  let data := randomCells (Part000.random w) (Part000.randomUsed w)
                (Z.to_nat (n * n)) in
  (contents <$> Part000.buffers w' !! a) = Some data
  /\ (contents <$> Part000.buffers w' !! b) = Some data
  /\ Z.of_nat (length data) = n * n.
Proof.
  intros Hs w' data. subst w'. unfold exec. rewrite (onReset000 n sim a b w Hs).
  destruct Hs as (Hn & Hsim & Hst & Hab & (ba & Ha & Hsa) & (bb & Hb & Hsb)).
  unfold Session000.afterReset, Session000.draw. fold data.
  cbn [snd Part000.buffers]. rewrite Ha.
  assert (Hb' : <[a := mkBuffer (label ba) (size ba) (usage ba) data]>
                  (Part000.buffers w) !! b = Some bb).
  { by rewrite list_lookup_insert_ne. }
  rewrite Hb'. split; [|split].
  - rewrite list_lookup_insert_ne by done.
    rewrite list_lookup_insert_eq; [done|]. by eapply lookup_lt_Some.
  - rewrite list_lookup_insert_eq; [done|]. rewrite length_insert.
    by eapply lookup_lt_Some.
  - unfold data. rewrite length_randomCells.
    pose proof (Z.square_nonneg n). lia.
Qed.

(** C8, as the specification states it, fails while a call of [init] waits
    for its pipelines.  Before the first pipelines arrive the Engine has no
    Simulation: a click on the reset button draws nothing and writes
    nothing, the program is as it was.  And while a change of the grid size
    to 2 waits, [GRID_SIZE] is 2 already and the Engine's Simulation still
    the one of 64 by 64: the reset draws 4 cells and writes them over the
    first 4 of the 4096 cells of each state buffer. *)
Lemma C8_reset_while_init_waits :
  let k := fun (_ : ShaderView) (_ : Z * Z) (_ : Z) => [U32 1] in
  let random := fun i : nat => if Nat.even i then (9 # 10)%Q else (1 # 10)%Q in
  let w0 := Part000.started random in
  let w1 := Part000.run k (Part000.started random)
              [Part000.PipelinesReady; Part000.GridSizeInput 2] in
  exec Part000.onReset w0 = w0
  /\ ~ resetAsSpecified w0 (exec Part000.onReset w0)
  /\ Part000.GRID_SIZE w1 = 2
  /\ (length <$> (contents <$> Part000.buffers (exec Part000.onReset w1) !! 3%nat))
     = Some 4096%nat
  /\ ~ resetAsSpecified w1 (exec Part000.onReset w1).
Proof.
  intros k random w0 w1.
  assert (H0 : exec Part000.onReset w0 = w0).
  { unfold exec, w0. rewrite onReset_unfold, started000_eq. reflexivity. }
  split; [exact H0|]. split.
  { intros ((sim & a & b & Hsim & _) & _). rewrite H0 in Hsim.
    unfold w0 in Hsim. rewrite started000_eq in Hsim. discriminate Hsim. }
  split; [vm_compute; reflexivity|]. split; [vm_compute; reflexivity|].
  intros ((sim & a & b & Hsim & Hst & Ha & _) & _).
  vm_compute in Hsim. injection Hsim as <-.
  vm_compute in Hst. injection Hst as <- <-.
  apply (f_equal (fmap length)) in Ha. vm_compute in Ha. discriminate Ha.
Qed.

(** C8, amended.  In every state the class based program reaches with no
    call of [init] waiting for its pipelines (neither the first one nor one
    of a grid-size change), a click on the reset button draws
    [GRID_SIZE * GRID_SIZE] fresh cells and writes them over both state
    buffers of the Engine's Simulation, in place: the two buffers keep their
    handles, labels, sizes ([4 * GRID_SIZE * GRID_SIZE] bytes) and usages.
    Nothing else changes: no buffer is added or removed, every other buffer
    (grid and time uniforms, vertices) is as before, and so are [GRID_SIZE],
    the Renderers (bind group index, last switch time, frame counters,
    pipelines), the Engine, the pending frame requests, the parked [init]
    calls, the compute interval, the canvas and the FPS text; only the count
    of draws taken from [Math.random] and the record of host calls grow. *)
Theorem C8_reset_touches_state_buffers_only k random events :
  let w := Part000.run k (Part000.started random) events in
  Part000.suspended w = [] ->
  let n := Part000.GRID_SIZE w in
  let w' := exec Part000.onReset w in
  let data := randomCells (Part000.random w) (Part000.randomUsed w)
                (Z.to_nat (n * n)) in
  exists sim a b ba bb,
    Part000.engine_simulation (Part000.engine w) = Some sim
    /\ Part000.stateBuffers sim = [a; b] /\ a <> b
    /\ Part000.buffers w !! a = Some ba /\ Part000.buffers w !! b = Some bb
    /\ Part000.buffers w' !! a
       = Some (mkBuffer (label ba) (size ba) (usage ba) data)
    /\ Part000.buffers w' !! b
       = Some (mkBuffer (label bb) (size bb) (usage bb) data)
    /\ size ba = 4 * (n * n) /\ size bb = 4 * (n * n)
    /\ Z.of_nat (length data) = n * n
    /\ length (Part000.buffers w') = length (Part000.buffers w)
    /\ (forall h, h <> a -> h <> b ->
                  Part000.buffers w' !! h = Part000.buffers w !! h)
    /\ Part000.GRID_SIZE w' = n
    /\ Part000.renderers w' = Part000.renderers w
    /\ Part000.engine w' = Part000.engine w
    /\ Part000.rafPending w' = Part000.rafPending w
    /\ Part000.rafNext w' = Part000.rafNext w
    /\ Part000.suspended w' = Part000.suspended w
    /\ Part000.COMPUTE_MS_INTERVAL w' = Part000.COMPUTE_MS_INTERVAL w
    /\ Part000.canvas w' = Part000.canvas w
    /\ Part000.fpsText w' = Part000.fpsText w
    /\ Part000.randomUsed w'
       = (Part000.randomUsed w + Z.to_nat (n * n))%nat
    /\ Part000.hostLog w'
       = Part000.hostLog w ++ [WriteBuffer a data; WriteBuffer b data].
Proof.
  intros w Hsu n w' data.
  destruct (session_in_reach k random events Hsu) as (sim & a & b & Hs).
  fold w in Hs. fold n in Hs.
  destruct (reset_frame n sim a b w Hs)
    as ((ba & bb & H1 & H2 & H3 & H4 & H5 & H6) & H7).
  destruct Hs as (_ & Hsim & Hst & Hab & _).
  exists sim, a, b, ba, bb. by repeat (split; [done|]).
Qed.

Lemma C8_reset_touches_state_buffers_only_witness :
  let k := fun (_ : ShaderView) (_ : Z * Z) (_ : Z) => [U32 1] in
  let random := fun i : nat => if Nat.even i then (9 # 10)%Q else (1 # 10)%Q in
  let w := Part000.run k (Part000.started random)
             [Part000.PipelinesReady; Part000.AnimationFrame 120;
              Part000.GridSizeInput 2; Part000.PipelinesReady] in
  let w' := exec Part000.onReset w in
  Part000.renderers w' = Part000.renderers w
  /\ Part000.rafPending w' = Part000.rafPending w
  /\ Part000.GRID_SIZE w' = 2
  /\ length (Part000.buffers w') = length (Part000.buffers w).
Proof.
  intros k random w w'.
  assert (Hsu : Part000.suspended w = []) by (vm_compute; reflexivity).
  assert (Hn : Part000.GRID_SIZE w = 2) by (vm_compute; reflexivity).
  destruct (C8_reset_touches_state_buffers_only k random
              [Part000.PipelinesReady; Part000.AnimationFrame 120;
               Part000.GridSizeInput 2; Part000.PipelinesReady] Hsu)
    as (sim & a & b & ba & bb & H).
  destruct H as (_ & _ & _ & _ & _ & _ & _ & _ & _ & _ & Hl & _ & Hg & Hr & _
                 & Hp & _).
  fold w in Hg, Hl, Hr, Hp. rewrite Hn in Hg.
  exact (conj Hr (conj Hp (conj Hg Hl))).
Defined.

(** C10, as the specification states it, fails for a reset that comes while
    a change of the grid size waits for its pipelines.  After a frame at
    120 ms the two state buffers of the first session differ; the grid size
    is then changed to 2, and a reset, before the new pipelines arrive,
    writes its 4 cells over the first 4 of each: the two buffers of the
    Engine's Simulation still differ, and neither holds the array that the
    reset drew. *)
Lemma C10_reset_during_resize_leaves_buffers_apart :
  let k := fun (_ : ShaderView) (_ : Z * Z) (_ : Z) => [U32 1] in
  let random := fun i : nat => if Nat.even i then (9 # 10)%Q else (1 # 10)%Q in
  let w := Part000.run k (Part000.started random)
             [Part000.PipelinesReady; Part000.AnimationFrame 120;
              Part000.GridSizeInput 2] in
  let w' := exec Part000.onReset w in
  (Part000.stateBuffers <$> Part000.engine_simulation (Part000.engine w'))
  = Some [3%nat; 4%nat]
  /\ (contents <$> Part000.buffers w' !! 3%nat)
     <> (contents <$> Part000.buffers w' !! 4%nat)
  /\ ~ redrawn w w'.
Proof.
  intros k random w w'.
  split; [vm_compute; reflexivity|]. split.
  - intros H.
    apply (f_equal (fun o => o ≫= (fun l => l !! 6%nat))) in H.
    vm_compute in H. discriminate H.
  - intros (sim & a & b & Hsim & Hst & Ha & _).
    vm_compute in Hsim. injection Hsim as <-.
    vm_compute in Hst. injection Hst as <- <-.
    apply (f_equal (fmap length)) in Ha. vm_compute in Ha. discriminate Ha.
Qed.

(** C10, amended.  After every reset that comes while no call of [init]
    waits for its pipelines (neither the first one nor one of a grid-size
    change), in any state the class based program reaches, the two state
    buffers hold the same contents: the one array of
    [GRID_SIZE * GRID_SIZE] cells drawn by that reset. *)
Theorem C10_reset_leaves_buffers_identical k random events :
  let w := Part000.run k (Part000.started random) events in
  Part000.suspended w = [] ->
  let n := Part000.GRID_SIZE w in
  let w' := exec Part000.onReset w in
  let data := randomCells (Part000.random w) (Part000.randomUsed w)
                (Z.to_nat (n * n)) in
  exists sim a b,
    Part000.engine_simulation (Part000.engine w') = Some sim
    /\ Part000.stateBuffers sim = [a; b] /\ a <> b
    /\ (contents <$> Part000.buffers w' !! a) = Some data
    /\ (contents <$> Part000.buffers w' !! b) = Some data
    /\ Z.of_nat (length data) = n * n.
Proof.
  intros w Hsu n w' data.
  destruct (session_in_reach k random events Hsu) as (sim & a & b & Hs).
  fold w in Hs. fold n in Hs.
  destruct (reset_twins n sim a b w Hs) as (H1 & H2 & H3).
  destruct (reset_frame n sim a b w Hs) as (_ & _ & _ & _ & _ & _ & He & _).
  destruct Hs as (_ & Hsim & Hst & Hab & _).
  exists sim, a, b. subst w'. rewrite He. by repeat (split; [done|]).
Qed.

Lemma C10_reset_leaves_buffers_identical_witness :
  let k := fun (_ : ShaderView) (_ : Z * Z) (_ : Z) => [U32 1] in
  let random := fun i : nat => if Nat.even i then (9 # 10)%Q else (1 # 10)%Q in
  let w := Part000.run k (Part000.started random)
             [Part000.PipelinesReady; Part000.AnimationFrame 120;
              Part000.GridSizeInput 2; Part000.PipelinesReady;
              Part000.AnimationFrame 300] in
  let w' := exec Part000.onReset w in
  (contents <$> Part000.buffers w !! 8%nat) = Some [U32 1; U32 0; U32 0; U32 0]
  /\ (contents <$> Part000.buffers w !! 9%nat) = Some [U32 1; U32 0; U32 1; U32 0]
  /\ exists sim a b,
       Part000.engine_simulation (Part000.engine w') = Some sim
       /\ Part000.stateBuffers sim = [a; b]
       /\ (contents <$> Part000.buffers w' !! a)
          = (contents <$> Part000.buffers w' !! b).
Proof.
  intros k random w w'.
  split; [vm_compute; reflexivity|]. split; [vm_compute; reflexivity|].
  assert (Hsu : Part000.suspended w = []) by (vm_compute; reflexivity).
  destruct (C10_reset_leaves_buffers_identical k random
              [Part000.PipelinesReady; Part000.AnimationFrame 120;
               Part000.GridSizeInput 2; Part000.PipelinesReady;
               Part000.AnimationFrame 300] Hsu)
    as (sim & a & b & H1 & H2 & _ & H4 & H5 & _).
  exists sim, a, b.
  exact (conj H1 (conj H2 (eq_trans H4 (eq_sym H5)))).
Defined.

(** ** Grid-size change: the claim *)

(** C9, as the specification states it, fails.  A frame runs at 5000 ms, then
    the grid size is changed to 32: the Renderer the Engine then holds has
    its switch time, frame window and frame count at 0, not at a timestamp
    of 5000 ms or later, so that the next frame, 10 ms on, switches at once;
    and the five buffers of the first session are still on the device beside
    the five new ones. *)
Lemma C9_resize_not_as_specified :
  let k := fun (_ : ShaderView) (_ : Z * Z) (_ : Z) => [U32 1] in
  let random := fun _ : nat => 0%Q in
  let w := Part000.run k (running000 k random 100)
             [Part000.AnimationFrame 5000] in
  let w' := Part000.run k w [Part000.GridSizeInput 32; Part000.PipelinesReady] in
  (Part000.lastSwitch <$> Part000.renderers w') = [5000; 0]
  /\ (Part000.bindGroupIndex
      <$> Part000.renderers (Part000.run k w' [Part000.AnimationFrame 5010]))
     !! 1%nat = Some 1
  /\ length (Part000.buffers w') = 10%nat
  /\ ~ (exists timeMs, 5000 <= timeMs /\ resizeAsSpecified timeMs w w').
Proof.
  intros k random w w'.
  split; [vm_compute; reflexivity|]. split; [vm_compute; reflexivity|].
  split; [vm_compute; reflexivity|].
  intros (timeMs & Ht & _ & _ & (i & r & Hi & Hr & Hls & _)).
  vm_compute in Hi. injection Hi as <-.
  vm_compute in Hr. injection Hr as <-.
  cbn in Hls. lia.
Qed.

(** C9, amended.  A grid-size change to [n], once the pipelines of the new
    session exist, has set [GRID_SIZE] to [n] and has built a whole new
    session beside the old one: five new buffers are appended to the device
    (grid uniform, time uniform, vertices and two state buffers of [n * n]
    cells filled with one draw) while every buffer that existed stays as it
    was; the Engine holds a new Simulation whose bind groups are over the new
    buffers and a new Renderer whose bind group index, last switch time,
    frame window start and frame counters are all 0; and the first frame of
    that Renderer is requested, its request id kept by the Engine. *)
Theorem C9_resize_builds_new_session k n w :
  Part000.suspended w = [] ->
  let w' := Part000.run k w [Part000.GridSizeInput n; Part000.PipelinesReady] in
  let L := length (Part000.buffers w) in
  let data := randomCells (Part000.random w) (Part000.randomUsed w)
                (Z.to_nat (n * n)) in
  let sim := Part000.new_Simulation (Part000.mkGrid n L) (L + 1)
               [(L + 3)%nat; (L + 4)%nat] Part000.createBindGroupLayout in
  Part000.GRID_SIZE w' = n
  /\ Part000.buffers w'
     = Part000.buffers w
       ++ [ mkBuffer "Grid Uniform" 8 72 [F32 (inject_Z n); F32 (inject_Z n)];
            mkBuffer "Time Uniform" 4 72 [U32 0];
            mkBuffer "Cell vertices" 48 40 (F32 <$> Session000.quad);
            mkBuffer "State A" (4 * (n * n)) 136 data;
            mkBuffer "State B" (4 * (n * n)) 136 data ]
  /\ Part000.engine w'
     = Part000.mkEngine (Some sim) (Some (length (Part000.renderers w)))
         (Some (Part000.rafNext w))
  /\ (exists r,
         Part000.renderers w' = Part000.renderers w ++ [r]
         /\ Part000.simulation r = sim
         /\ Part000.timeBuffer r = (L + 1)%nat
         /\ Part000.vertexBuffer r = (L + 2)%nat
         /\ Part000.bindGroupIndex r = 0 /\ Part000.lastSwitch r = 0
         /\ Part000.lastFrame r = 0 /\ Part000.frameCount r = 0
         /\ Part000.fps r = 0)
  /\ List.last (Part000.rafPending w') (0%nat, 0%nat)
     = (Part000.rafNext w, length (Part000.renderers w))
  /\ Inv000.session n sim (L + 3) (L + 4) w'.
Proof.
  intros Hs w' L data sim.
  pose proof (session_after_resize k n w Hs) as Hsession.
  subst w'. fold L in Hsession. fold sim in Hsession.
  split; [by destruct Hsession|].
  destruct (afterStop000_kept w) as (Hb & Hsu & Hr & Hrd & Hru & Hnext).
  split; [|split; [|split; [|split; [|exact Hsession]]]];
    rewrite (resize000 k n w Hs);
    unfold Session000.afterAwait, Session000.afterInit, Session000.allocated,
      Session000.draw;
    cbn [Part000.buffers Part000.engine Part000.renderers Part000.rafPending
         Part000.rafNext Part000.set_suspended Part000.set_GRID_SIZE
         Part000.random Part000.randomUsed];
    rewrite ?Hb, ?Hr, ?Hrd, ?Hru, ?Hnext; fold L; fold data.
  - unfold data. by rewrite byteLength_randomCells.
  - reflexivity.
  - eexists. split; [reflexivity|]. by repeat split.
  - rewrite last_last. reflexivity.
Qed.

Lemma C9_resize_builds_new_session_witness :
  let k := fun (_ : ShaderView) (_ : Z * Z) (_ : Z) => [U32 1] in
  let random := fun _ : nat => 0%Q in
  let w := Part000.run k (running000 k random 100)
             [Part000.AnimationFrame 5000] in
  let w' := Part000.run k w [Part000.GridSizeInput 32; Part000.PipelinesReady] in
  Part000.GRID_SIZE w' = 32
  /\ List.last (Part000.rafPending w') (0%nat, 0%nat) = (3%nat, 1%nat).
Proof.
  intros k random w w'.
  pose proof (C9_resize_builds_new_session k 32 w eq_refl)
    as (H1 & _ & _ & _ & H5 & _).
  split; [exact H1|exact H5].
Defined.

(** * Beyond the contract: the page, the counters, the buffers *)

(** ** Start-up of the class based program *)

#[local] Opaque getElementById Part000.start Part001.init.

Ltac start000 b :=
  unfold Page000.started, Page000.main, Page000.Engine_start,
    Page000.UIController.setup, Page000.UIController.onGridSizeChange,
    Page000.UIController.onReset, Page000.addEventListener,
    Page000.getDevice, Page000.getCanvas, Page000.loaded;
  cbn;
  destruct (getElementById "compute-interval-slider" b); cbn;
  [destruct (navigator_gpu b); cbn;
   [destruct (gpu_adapter b); cbn;
    [destruct (getElementById "canvas" b); cbn;
     [destruct (webgpu_context b); cbn;
      [destruct (getElementById "reset-button" b); cbn;
       destruct (getElementById "grid-size-slider" b); cbn|]|]|]|]|].

(** X1.  [Engine.start] of the class based program runs to its end exactly
    when the page has the compute-interval slider, [navigator.gpu], an
    adapter, the canvas, a WebGPU context for it and the grid-size slider.
    The program is then started ([init] has run to its [await]) and the
    sliders and, if the page has one, the reset button are listened to; the
    reset button is the one element that may be missing. *)
Theorem start_runs_to_its_end b random :
  let p := Page000.started b random in
  (Page000.errors p = []
   <-> getElementById "compute-interval-slider" b = true
       /\ navigator_gpu b = true /\ gpu_adapter b = true
       /\ getElementById "canvas" b = true /\ webgpu_context b = true
       /\ getElementById "grid-size-slider" b = true)
  /\ (Page000.errors p = [] ->
      Page000.world p = Part000.started random
      /\ Page000.listeners p
         = ["compute-interval-slider"]
           ++ (if getElementById "reset-button" b then ["reset-button"] else [])
           ++ ["grid-size-slider"]
      /\ Page000.timers p = []).
Proof.
  start000 b; (split; [split; [intros H; try done; by repeat split
                              |intros (? & ? & ? & ? & ? & ?); done]
                      |intros H; try done]).
Qed.

(** X2.  When the grid-size slider is the one thing missing, [Engine.start]
    throws only after it has called [init]: a [TypeError] reaches the console,
    and yet the program is started, the compute-interval slider and the reset
    button work, and nothing listens for a grid-size change. *)
Theorem start_fails_after_init b random :
  getElementById "compute-interval-slider" b = true ->
  navigator_gpu b = true -> gpu_adapter b = true ->
  getElementById "canvas" b = true -> webgpu_context b = true ->
  getElementById "grid-size-slider" b = false ->
  let p := Page000.started b random in
  Page000.errors p = [TypeError]
  /\ Page000.world p = Part000.started random
  /\ Page000.listeners p
     = ["compute-interval-slider"]
       ++ (if getElementById "reset-button" b then ["reset-button"] else []).
Proof.
  intros H1 H2 H3 H4 H5 H6.
  unfold Page000.started, Page000.main, Page000.Engine_start,
    Page000.UIController.setup, Page000.UIController.onGridSizeChange,
    Page000.UIController.onReset, Page000.addEventListener,
    Page000.getDevice, Page000.getCanvas, Page000.loaded.
  cbn. rewrite H1. cbn. rewrite H2, H3. cbn. rewrite H4. cbn. rewrite H5. cbn.
  destruct (getElementById "reset-button" b); cbn; rewrite H6; cbn; done.
Qed.

Lemma start_fails_after_init_witness :
  let b := mkBrowser ["compute-interval-slider"; "compute-interval-value";
                      "canvas"; "fps"; "reset-button"] true true true in
  let p := Page000.started b (fun _ => 0%Q) in
  Page000.errors p = [TypeError]
  /\ Page000.listeners p = ["compute-interval-slider"; "reset-button"].
Proof.
  intros b p.
  assert (H1 : getElementById "compute-interval-slider" b = true)
    by (vm_compute; reflexivity).
  assert (H4 : getElementById "canvas" b = true) by (vm_compute; reflexivity).
  assert (H6 : getElementById "grid-size-slider" b = false)
    by (vm_compute; reflexivity).
  assert (H7 : getElementById "reset-button" b = true)
    by (vm_compute; reflexivity).
  pose proof (start_fails_after_init b (fun _ => 0%Q) H1 eq_refl eq_refl H4
                eq_refl H6) as (Ha & _ & Hc).
  fold p in Ha, Hc. rewrite H7 in Hc. exact (conj Ha Hc).
Defined.

(** ** A frame on the page *)

Lemma updateFPS_page000 b timeMs r w :
  Page000.updateFPS b timeMs (r, w)
  = if throws000 b timeMs r
    then (Some TypeError, (aborted000 timeMs r, w))
    else (None, (Part000.updateFPS timeMs (r, w)).2).
Proof.
  unfold throws000, aborted000, Tick000.sampled, Tick000.windowStart.
  unfold Page000.updateFPS, Part000.updateFPS, Part000.log, Part000.world,
    Part000.this, Part000.assign, when_, bind, gets, modify, ret.
  cbn.
  destruct (Part000.lastFrame r =? 0); cbn;
    destruct (_ >=? 1000); cbn; try reflexivity;
    destruct (getElementById "fps" b); reflexivity.
Qed.

Lemma render_page000 b self timeMs r w :
  Page000.render b self timeMs (r, w)
  = if throws000 b timeMs r
    then (Some TypeError, (aborted000 timeMs r, w))
    else (None, (Tick000.after timeMs r w, Tick000.afterWorld self timeMs r w)).
Proof.
  unfold Page000.render, bind. rewrite updateFPS_page000.
  destruct (throws000 b timeMs r); [reflexivity|].
  pose proof (render000 self timeMs r w) as H.
  unfold Part000.render, bind in H.
  destruct (Part000.updateFPS timeMs (r, w)) as [[] s]. cbn [snd].
  unfold ret in *.
  repeat match type of H with
         | (let (_, _) := ?m in _) = _ => destruct m
         end.
  by injection H as ->.
Qed.

Lemma callRender_page000 timeMs p request :
  Page000.callRender timeMs p request
  = match Part000.renderers (Page000.world p) !! request.2 with
    | Some r =>
        if throws000 (Page000.browser p) timeMs r
        then Page000.report TypeError
               (Page000.set_world
                  (Part000.set_renderers
                     (<[request.2 := aborted000 timeMs r]>
                        (Part000.renderers (Page000.world p)))
                     (Page000.world p)) p)
        else Page000.set_world
               (Part000.callRender timeMs (Page000.world p) request) p
    | None => p
    end.
Proof.
  unfold Page000.callRender. rewrite callRender000.
  destruct (Part000.renderers (Page000.world p) !! request.2) as [r|]; [|done].
  rewrite render_page000. by destruct (throws000 _ timeMs r).
Qed.

(** What a call leaves of the page and of the program, throwing or not. *)
Lemma callRender_page timeMs p request :
  let p' := Page000.callRender timeMs p request in
  Page000.browser p' = Page000.browser p
  /\ Page000.listeners p' = Page000.listeners p
  /\ Page000.intervalLabel p' = Page000.intervalLabel p
  /\ Page000.sizeLabel p' = Page000.sizeLabel p
  /\ Page000.timeout p' = Page000.timeout p
  /\ Page000.timerNext p' = Page000.timerNext p
  /\ Page000.timers p' = Page000.timers p.
Proof.
  cbn zeta. rewrite callRender_page000.
  destruct (Part000.renderers (Page000.world p) !! request.2) as [r|]; [|done].
  by destruct (throws000 _ timeMs r).
Qed.

Lemma callRender_world timeMs p request :
  let w := Page000.world p in
  let w' := Page000.world (Page000.callRender timeMs p request) in
  Part000.GRID_SIZE w' = Part000.GRID_SIZE w
  /\ Part000.COMPUTE_MS_INTERVAL w' = Part000.COMPUTE_MS_INTERVAL w
  /\ Part000.engine w' = Part000.engine w
  /\ Part000.suspended w' = Part000.suspended w
  /\ Part000.random w' = Part000.random w
  /\ Part000.randomUsed w' = Part000.randomUsed w.
Proof.
  cbn zeta. rewrite callRender_page000.
  destruct (Part000.renderers (Page000.world p) !! request.2) as [r|] eqn:Hr;
    [|done].
  destruct (throws000 _ timeMs r); [done|].
  cbn [Page000.world Page000.set_world]. by rewrite callRender000, Hr.
Qed.

Lemma frames_page timeMs qs : forall p,
  let p' := foldl (Page000.callRender timeMs) p qs in
  Page000.browser p' = Page000.browser p
  /\ Page000.listeners p' = Page000.listeners p
  /\ Page000.intervalLabel p' = Page000.intervalLabel p
  /\ Page000.sizeLabel p' = Page000.sizeLabel p
  /\ Page000.timeout p' = Page000.timeout p
  /\ Page000.timerNext p' = Page000.timerNext p
  /\ Page000.timers p' = Page000.timers p.
Proof.
  induction qs as [|q qs IH]; intros p; [done|].
  cbn [foldl]. cbn zeta.
  destruct (IH (Page000.callRender timeMs p q))
    as (H1 & H2 & H3 & H4 & H5 & H6 & H7).
  destruct (callRender_page timeMs p q) as (G1 & G2 & G3 & G4 & G5 & G6 & G7).
  rewrite H1, H2, H3, H4, H5, H6, H7. done.
Qed.

Lemma frames_world timeMs qs : forall p,
  let w := Page000.world p in
  let w' := Page000.world (foldl (Page000.callRender timeMs) p qs) in
  Part000.GRID_SIZE w' = Part000.GRID_SIZE w
  /\ Part000.COMPUTE_MS_INTERVAL w' = Part000.COMPUTE_MS_INTERVAL w
  /\ Part000.engine w' = Part000.engine w
  /\ Part000.suspended w' = Part000.suspended w
  /\ Part000.random w' = Part000.random w
  /\ Part000.randomUsed w' = Part000.randomUsed w.
Proof.
  induction qs as [|q qs IH]; intros p; [done|].
  cbn [foldl]. cbn zeta.
  destruct (IH (Page000.callRender timeMs p q)) as (H1 & H2 & H3 & H4 & H5 & H6).
  destruct (callRender_world timeMs p q) as (G1 & G2 & G3 & G4 & G5 & G6).
  rewrite H1, H2, H3, H4, H5, H6. done.
Qed.

Lemma animationFrame_page timeMs p :
  let p' := Page000.animationFrame timeMs p in
  Page000.browser p' = Page000.browser p
  /\ Page000.listeners p' = Page000.listeners p
  /\ Page000.intervalLabel p' = Page000.intervalLabel p
  /\ Page000.sizeLabel p' = Page000.sizeLabel p
  /\ Page000.timeout p' = Page000.timeout p
  /\ Page000.timerNext p' = Page000.timerNext p
  /\ Page000.timers p' = Page000.timers p.
Proof.
  exact (frames_page timeMs (Part000.rafPending (Page000.world p))
           (Page000.set_world
              (Part000.set_raf (Part000.rafNext (Page000.world p)) []
                 (Page000.world p)) p)).
Qed.

Lemma animationFrame_world timeMs p :
  let w := Page000.world p in
  let w' := Page000.world (Page000.animationFrame timeMs p) in
  Part000.GRID_SIZE w' = Part000.GRID_SIZE w
  /\ Part000.COMPUTE_MS_INTERVAL w' = Part000.COMPUTE_MS_INTERVAL w
  /\ Part000.engine w' = Part000.engine w
  /\ Part000.suspended w' = Part000.suspended w
  /\ Part000.random w' = Part000.random w
  /\ Part000.randomUsed w' = Part000.randomUsed w.
Proof.
  exact (frames_world timeMs (Part000.rafPending (Page000.world p))
           (Page000.set_world
              (Part000.set_raf (Part000.rafNext (Page000.world p)) []
                 (Page000.world p)) p)).
Qed.

(** No request pending: the frame calls nothing. *)
Lemma animationFrame_idle timeMs p :
  Part000.rafPending (Page000.world p) = [] ->
  Page000.animationFrame timeMs p = p.
Proof.
  intros Hq. unfold Page000.animationFrame. rewrite Hq. cbn [foldl].
  destruct p as [b w l il sl t tn ts es]. cbn in *.
  unfold Page000.set_world. cbn. f_equal.
  destruct w. cbn in *. by subst.
Qed.

Lemma set_world_set_world w w' p :
  Page000.set_world w' (Page000.set_world w p) = Page000.set_world w' p.
Proof. reflexivity. Qed.

(** On a page that has the #fps element a frame is the frame of
    [Part000]. *)
Lemma frames_fps timeMs qs : forall p,
  getElementById "fps" (Page000.browser p) = true ->
  foldl (Page000.callRender timeMs) p qs
  = Page000.set_world (foldl (Part000.callRender timeMs) (Page000.world p) qs) p.
Proof.
  induction qs as [|q qs IH]; intros p Hb.
  - by destruct p.
  - cbn [foldl].
    assert (Hc : Page000.callRender timeMs p q
                 = Page000.set_world
                     (Part000.callRender timeMs (Page000.world p) q) p).
    { rewrite callRender_page000, callRender000.
      destruct (Part000.renderers (Page000.world p) !! q.2) as [r|];
        [|by destruct p].
      unfold throws000. rewrite Hb, andb_false_r. done. }
    rewrite Hc, IH by done. done.
Qed.

Lemma animationFrame_fps timeMs p :
  getElementById "fps" (Page000.browser p) = true ->
  Page000.animationFrame timeMs p
  = Page000.set_world (Part000.animationFrame timeMs (Page000.world p)) p.
Proof.
  intros Hb. unfold Page000.animationFrame, Part000.animationFrame.
  by rewrite frames_fps.
Qed.

Lemma resetClick_page p :
  let p' := Page000.resetClick p in
  Page000.world p' = exec Part000.onReset (Page000.world p)
  /\ Page000.browser p' = Page000.browser p
  /\ Page000.listeners p' = Page000.listeners p
  /\ Page000.intervalLabel p' = Page000.intervalLabel p
  /\ Page000.sizeLabel p' = Page000.sizeLabel p
  /\ Page000.timeout p' = Page000.timeout p
  /\ Page000.timerNext p' = Page000.timerNext p
  /\ Page000.timers p' = Page000.timers p.
Proof.
  cbn zeta. unfold Page000.resetClick.
  by destruct (Part000.engine_simulation (Part000.engine (Page000.world p))).
Qed.


(** The same for the function based program. *)
Lemma updateFpsCount_page001 b timeMs r w :
  Page001.updateFpsCount b timeMs (r, w)
  = if throws001 b timeMs r
    then (Some TypeError, (aborted001 timeMs r, w))
    else (None, (Part001.updateFpsCount timeMs (r, w)).2).
Proof.
  unfold throws001, aborted001, Tick001.sampled, Tick001.windowStart.
  unfold Page001.updateFpsCount, Part001.updateFpsCount, Part001.log,
    Part001.world, Part001.this, Part001.assign, when_, bind, gets, modify, ret.
  cbn.
  destruct (Part001.lastFrameTime r =? 0); cbn;
    destruct (_ >=? 1000); cbn; try reflexivity;
    destruct (getElementById "fps" b); reflexivity.
Qed.

Lemma render_page001 b timeMs r w :
  Page001.render b timeMs (r, w)
  = if throws001 b timeMs r
    then (Some TypeError, (aborted001 timeMs r, abortedWorld001 r w))
    else (None, (Tick001.after timeMs r w, Tick001.afterWorld timeMs r w)).
Proof.
  unfold throws001, aborted001, abortedWorld001.
  unfold Tick001.after, Tick001.afterWorld, Tick001.actions, Tick001.device,
    Tick001.batch, Tick001.computePass, Tick001.renderPass, Tick001.direction,
    Tick001.sampled, Tick001.windowStart, Tick001.gate.
  unfold Page001.render, Page001.updateFpsCount, Part001.updateBindGroupIndex,
    Part001.queue_submit, Part001.queue_writeBuffer,
    Part001.createCommandEncoder, Part001.requestAnimationFrame, Part001.log,
    Part001.world, Part001.this, Part001.assign, when_, bind, gets, modify, ret.
  cbn.
  destruct (Part001.lastFrameTime r =? 0); cbn;
    destruct (_ >=? 1000); cbn;
    destruct (getElementById "fps" b); cbn;
    destruct (timeMs - Part001.lastBindGroupSwitchTime r
              >=? Part001.COMPUTE_MS_INTERVAL w);
    cbn; rewrite <- ?app_assoc; reflexivity.
Qed.

Lemma callRender_page001 timeMs p request :
  Page001.callRender timeMs p request
  = match Part001.renderer (Page001.world p) with
    | Some r =>
        if throws001 (Page001.browser p) timeMs r
        then Page001.report (None, TypeError)
               (Page001.set_world
                  (Part001.set_renderer (Some (aborted001 timeMs r))
                     (abortedWorld001 r (Page001.world p))) p)
        else Page001.set_world
               (Part001.callRender timeMs (Page001.world p) request) p
    | None => p
    end.
Proof.
  unfold Page001.callRender. rewrite callRender001.
  destruct (Part001.renderer (Page001.world p)) as [r|]; [|done].
  rewrite render_page001. by destruct (throws001 _ timeMs r).
Qed.

Lemma frames_page001 timeMs qs : forall p,
  let p' := foldl (Page001.callRender timeMs) p qs in
  Page001.browser p' = Page001.browser p
  /\ Page001.listeners p' = Page001.listeners p
  /\ Page001.intervalLabel p' = Page001.intervalLabel p
  /\ Part001.COMPUTE_MS_INTERVAL (Page001.world p')
     = Part001.COMPUTE_MS_INTERVAL (Page001.world p).
Proof.
  induction qs as [|q qs IH]; intros p; [done|].
  cbn [foldl]. cbn zeta.
  destruct (IH (Page001.callRender timeMs p q)) as (H1 & H2 & H3 & H4).
  rewrite H1, H2, H3, H4. rewrite callRender_page001.
  destruct (Part001.renderer (Page001.world p)) as [r|] eqn:Hr; [|done].
  destruct (throws001 _ timeMs r); [done|].
  cbn [Page001.world Page001.set_world Page001.browser Page001.listeners
       Page001.intervalLabel].
  by rewrite callRender001, Hr.
Qed.

Lemma animationFrame_page001 timeMs p :
  let p' := Page001.animationFrame timeMs p in
  Page001.browser p' = Page001.browser p
  /\ Page001.listeners p' = Page001.listeners p
  /\ Page001.intervalLabel p' = Page001.intervalLabel p
  /\ Part001.COMPUTE_MS_INTERVAL (Page001.world p')
     = Part001.COMPUTE_MS_INTERVAL (Page001.world p).
Proof.
  exact (frames_page001 timeMs (Part001.rafPending (Page001.world p))
           (Page001.set_world
              (Part001.set_raf (Part001.rafNext (Page001.world p)) []
                 (Page001.world p)) p)).
Qed.

Lemma animationFrame_idle001 timeMs p :
  Part001.rafPending (Page001.world p) = [] ->
  Page001.animationFrame timeMs p = p.
Proof.
  intros Hq. unfold Page001.animationFrame. rewrite Hq. cbn [foldl].
  destruct p as [b w l il es]. cbn in *.
  unfold Page001.set_world. cbn. f_equal.
  destruct w. cbn in *. by subst.
Qed.

Lemma frames_fps001 timeMs qs : forall p,
  getElementById "fps" (Page001.browser p) = true ->
  foldl (Page001.callRender timeMs) p qs
  = Page001.set_world (foldl (Part001.callRender timeMs) (Page001.world p) qs) p.
Proof.
  induction qs as [|q qs IH]; intros p Hb.
  - by destruct p.
  - cbn [foldl].
    assert (Hc : Page001.callRender timeMs p q
                 = Page001.set_world
                     (Part001.callRender timeMs (Page001.world p) q) p).
    { rewrite callRender_page001, callRender001.
      destruct (Part001.renderer (Page001.world p)) as [r|];
        [|by destruct p].
      unfold throws001. rewrite Hb, andb_false_r. done. }
    rewrite Hc, IH by done. done.
Qed.

Lemma animationFrame_fps001 timeMs p :
  getElementById "fps" (Page001.browser p) = true ->
  Page001.animationFrame timeMs p
  = Page001.set_world (Part001.animationFrame timeMs (Page001.world p)) p.
Proof.
  intros Hb. unfold Page001.animationFrame, Part001.animationFrame.
  by rewrite frames_fps001.
Qed.

(** ** Events of the page *)

Lemma GRID_SIZE_pipelinesReady k w :
  Part000.GRID_SIZE (Part000.pipelinesReady k w) = Part000.GRID_SIZE w.
Proof.
  unfold Part000.pipelinesReady. destruct (Part000.suspended w); [done|].
  unfold exec. by rewrite init_afterAwait000.
Qed.

Lemma GRID_SIZE_onReset w :
  Part000.GRID_SIZE (exec Part000.onReset w) = Part000.GRID_SIZE w.
Proof.
  unfold exec. rewrite onReset_unfold.
  destruct (Part000.engine_simulation (Part000.engine w)) as [sim|]; [|done].
  rewrite reset_unfold.
  eapply (keeps_writes (Part000.GRID_SIZE w)).
  repeat split. apply keeps_refl.
Qed.

Lemma listeners_step k p e :
  Page000.browser (Page000.step k p e) = Page000.browser p
  /\ Page000.listeners (Page000.step k p e) = Page000.listeners p.
Proof.
  destruct e; cbn [Page000.step]; try done.
  - by destruct (animationFrame_page timeMs p) as (-> & -> & _).
  - destruct (Page000.listening _ p); [|done].
    by destruct (resetClick_page p) as (_ & -> & -> & _).
  - destruct (Page000.listening _ p); [|done].
    unfold Page000.computeIntervalInput. cbn.
    by destruct (getElementById _ _).
  - destruct (Page000.listening _ p); [|done].
    unfold Page000.gridSizeInput. destruct (Page000.timeout p); cbn;
      by destruct (getElementById _ _).
  - by destruct (Page000.timers p).
Qed.

Lemma run_cons000 k p e events :
  Page000.run k p (e :: events) = Page000.run k (Page000.step k p e) events.
Proof. reflexivity. Qed.

Lemma listeners_run k events : forall p,
  Page000.browser (Page000.run k p events) = Page000.browser p
  /\ Page000.listeners (Page000.run k p events) = Page000.listeners p.
Proof.
  induction events as [|e events IH]; intros p; [done|].
  rewrite run_cons000. destruct (IH (Page000.step k p e)) as [-> ->].
  apply listeners_step.
Qed.

Lemma listening_run k p events id :
  Page000.listening id (Page000.run k p events) = Page000.listening id p.
Proof.
  unfold Page000.listening. by rewrite (proj2 (listeners_run k events p)).
Qed.

Lemma idle_step k random p e : idle random p -> idle random (Page000.step k p e).
Proof.
  intros ((v & Hw) & Ht & Hr & Hg).
  assert (Hl : forall id, Page000.listening id (Page000.step k p e)
                          = Page000.listening id p).
  { intros id. unfold Page000.listening.
    by rewrite (proj2 (listeners_step k p e)). }
  assert (Hq : Part000.rafPending (Page000.world p) = []) by (by rewrite Hw).
  split; [|split; [|by rewrite !Hl]].
  - destruct e; cbn [Page000.step]; rewrite ?Hr, ?Hg, ?Ht;
      rewrite ?animationFrame_idle by done; eauto.
    + cbn. rewrite Hw. by exists v.
    + destruct (Page000.listening "compute-interval-slider" p); [|by exists v].
      unfold Page000.computeIntervalInput. cbn. rewrite Hw.
      destruct (getElementById _ _); cbn; by exists value.
  - destruct e; cbn [Page000.step]; rewrite ?Hr, ?Hg, ?Ht;
      rewrite ?animationFrame_idle by done; try done.
    destruct (Page000.listening "compute-interval-slider" p); [|done].
    unfold Page000.computeIntervalInput. cbn.
    by destruct (getElementById _ _).
Qed.

Lemma idle_run k random events : forall p,
  idle random p -> idle random (Page000.run k p events).
Proof.
  induction events as [|e events IH]; intros p Hp; [done|].
  rewrite run_cons000. apply IH. by apply idle_step.
Qed.

(** X3.  When [Engine.start] throws before it calls [init] (the error is
    there although the grid-size slider exists), the program stays as it was
    loaded whatever happens on the page: no buffer is ever created, nothing is
    written, submitted or drawn, no frame is requested and the grid size
    stays 64. *)
Theorem failed_start_never_renders k b random events :
  Page000.errors (Page000.started b random) <> [] ->
  getElementById "grid-size-slider" b = true ->
  let w := Page000.world (Page000.run k (Page000.started b random) events) in
  Part000.buffers w = [] /\ Part000.hostLog w = [] /\ Part000.canvas w = None
  /\ Part000.rafPending w = [] /\ Part000.suspended w = []
  /\ Part000.randomUsed w = 0%nat /\ Part000.GRID_SIZE w = 64.
Proof.
  intros He Hg w.
  assert (Hi : idle random (Page000.started b random)).
  { revert He. start000 b; try done; intros _;
      (split; [by exists 100|by repeat split]). }
  destruct (idle_run k random events _ Hi) as ((v & Hw) & _).
  subst w. by rewrite Hw.
Qed.

Lemma failed_start_never_renders_witness :
  let k := fun (_ : ShaderView) (_ : Z * Z) (_ : Z) => [U32 1] in
  let b := mkBrowser ["compute-interval-slider"; "compute-interval-value";
                      "grid-size-slider"; "grid-size-value"; "reset-button"]
             true true true in
  let p := Page000.run k (Page000.started b (fun _ => 0%Q))
             [Page000.ComputeIntervalSlider 50; Page000.AnimationFrame 16;
              Page000.GridSizeSlider 32; Page000.Timeout; Page000.ResetClick] in
  Page000.errors p = [Error "Canvas element not found"]
  /\ Part000.buffers (Page000.world p) = []
  /\ Part000.GRID_SIZE (Page000.world p) = 64.
Proof.
  intros k b p.
  assert (He : Page000.errors (Page000.started b (fun _ => 0%Q)) <> [])
    by (vm_compute; discriminate).
  assert (Hg : getElementById "grid-size-slider" b = true)
    by (vm_compute; reflexivity).
  pose proof (failed_start_never_renders k b (fun _ => 0%Q)
                [Page000.ComputeIntervalSlider 50; Page000.AnimationFrame 16;
                 Page000.GridSizeSlider 32; Page000.Timeout; Page000.ResetClick]
                He Hg) as (H1 & _ & _ & _ & _ & _ & H7).
  split; [vm_compute; reflexivity|]. exact (conj H1 H7).
Defined.

(** ** The debounce of the grid-size slider *)

Lemma filter_own_timer id v :
  filter (fun t => Page000.timer_id t <> id) [Page000.mkTimer id 150 v] = [].
Proof.
  rewrite filter_cons. cbn. destruct (decide (id <> id)); done.
Qed.

Lemma debounced_step k p e : debounced p -> debounced (Page000.step k p e).
Proof.
  intros Hd. destruct e; cbn [Page000.step]; try done.
  - unfold debounced.
    by destruct (animationFrame_page timeMs p) as (_ & _ & _ & -> & -> & _ & ->).
  - destruct (Page000.listening "reset-button" p); [|done].
    unfold debounced.
    by destruct (resetClick_page p) as (_ & _ & _ & _ & -> & -> & _ & ->).
  - destruct (Page000.listening "compute-interval-slider" p); [|done].
    unfold Page000.computeIntervalInput. cbn.
    by destruct (getElementById _ _).
  - destruct (Page000.listening "grid-size-slider" p); [|done].
    unfold Page000.gridSizeInput.
    assert (Hc : Page000.timers (Page000.clearTimeout (Page000.timeout p) p) = []).
    { destruct Hd as [Ht|(id & v & Ht & Hid & _)].
      - unfold Page000.clearTimeout. destruct (Page000.timeout p); [|done].
        cbn. by rewrite Ht.
      - rewrite Hid. cbn. rewrite Ht. apply filter_own_timer. }
    set (q := Page000.clearTimeout (Page000.timeout p) p) in *.
    destruct (getElementById _ _); cbn.
    + right. exists (Page000.timerNext q), value. by rewrite Hc.
    + by left.
  - destruct (Page000.timers p) as [|t rest] eqn:Ht; [exact Hd|].
    left. cbn. destruct Hd as [Hd|(id & v & Hd & _)]; rewrite Ht in Hd; [done|].
    by injection Hd as _ <-.
Qed.

Lemma debounced_run k events : forall p,
  debounced p -> debounced (Page000.run k p events).
Proof.
  induction events as [|e events IH]; intros p Hp; [done|].
  rewrite run_cons000. apply IH. by apply debounced_step.
Qed.

Lemma debounced_started b random : debounced (Page000.started b random).
Proof. start000 b; by left. Qed.

(** X4.  Whatever happens on the page of the class based program, at most
    one grid-size change is waiting to run; the one that waits was scheduled
    150 ms ahead, is the one the handler would cancel next, and carries the
    size that the label beside the slider shows. *)
Theorem one_resize_scheduled k b random events :
  let p := Page000.run k (Page000.started b random) events in
  Page000.timers p = []
  \/ exists id v,
       Page000.timers p = [Page000.mkTimer id 150 v]
       /\ Page000.timeout p = Some id /\ Page000.sizeLabel p = Some v.
Proof. apply debounced_run, debounced_started. Qed.

Lemma burst k vs : forall p v,
  debounced p ->
  Page000.listening "grid-size-slider" p = true ->
  getElementById "grid-size-value" (Page000.browser p) = true ->
  let p' := Page000.run k p ((Page000.GridSizeSlider <$> vs)
                             ++ [Page000.GridSizeSlider v]) in
  Page000.world p' = Page000.world p
  /\ exists id, Page000.timers p' = [Page000.mkTimer id 150 v].
Proof.
  assert (Hone : forall p v,
    debounced p -> Page000.listening "grid-size-slider" p = true ->
    getElementById "grid-size-value" (Page000.browser p) = true ->
    let p' := Page000.step k p (Page000.GridSizeSlider v) in
    Page000.world p' = Page000.world p
    /\ exists id, Page000.timers p' = [Page000.mkTimer id 150 v]).
  { intros p v Hd Hl Hv. cbn. rewrite Hl. unfold Page000.gridSizeInput.
    assert (Hc : Page000.timers (Page000.clearTimeout (Page000.timeout p) p) = []).
    { destruct Hd as [Ht|(id & v' & Ht & Hid & _)].
      - unfold Page000.clearTimeout. destruct (Page000.timeout p); [|done].
        cbn. by rewrite Ht.
      - rewrite Hid. cbn. rewrite Ht. apply filter_own_timer. }
    assert (Hb : Page000.browser (Page000.clearTimeout (Page000.timeout p) p)
                 = Page000.browser p)
      by (unfold Page000.clearTimeout; by destruct (Page000.timeout p)).
    assert (Hw : Page000.world (Page000.clearTimeout (Page000.timeout p) p)
                 = Page000.world p)
      by (unfold Page000.clearTimeout; by destruct (Page000.timeout p)).
    set (q := Page000.clearTimeout (Page000.timeout p) p) in *.
    rewrite Hb, Hv. cbn. rewrite Hc, Hw. split; [done|by eexists]. }
  induction vs as [|u vs IH]; intros p v Hd Hl Hv.
  - apply (Hone p v Hd Hl Hv).
  - cbn [fmap list_fmap app]. rewrite run_cons000.
    destruct (Hone p u Hd Hl Hv) as (Hw & _).
    destruct (listeners_step k p (Page000.GridSizeSlider u)) as (Hb' & Hl').
    destruct (IH (Page000.step k p (Page000.GridSizeSlider u)) v) as (Hw' & Ht').
    + by apply debounced_step.
    + unfold Page000.listening in *. by rewrite Hl'.
    + by rewrite Hb'.
    + split; [by rewrite Hw', Hw|done].
Qed.

Lemma run_app000 k p es1 es2 :
  Page000.run k p (es1 ++ es2) = Page000.run k (Page000.run k p es1) es2.
Proof. apply foldl_app. Qed.

Lemma listening_started b random :
  Page000.errors (Page000.started b random) = [] ->
  Page000.listening "grid-size-slider" (Page000.started b random) = true.
Proof.
  unfold Page000.listening. start000 b; intros H; try done;
    vm_compute; reflexivity.
Qed.

(** X5.  A burst of inputs of the grid-size slider, however long, followed
    by the timer, changes the grid size once, to the last value of the burst:
    the program is then as after that one change, and no timer is left. *)
Theorem burst_resizes_once k b random events vs v :
  Page000.errors (Page000.started b random) = [] ->
  getElementById "grid-size-value" b = true ->
  let p := Page000.run k (Page000.started b random) events in
  let p' := Page000.run k p ((Page000.GridSizeSlider <$> vs)
                             ++ [Page000.GridSizeSlider v; Page000.Timeout]) in
  Page000.world p' = Part000.step k (Page000.world p) (Part000.GridSizeInput v)
  /\ Page000.timers p' = []
  /\ Page000.sizeLabel p' = Some v.
Proof.
  intros He Hv p p'.
  destruct (listeners_run k events (Page000.started b random)) as (Hb' & Hl').
  assert (Hl2 : Page000.listening "grid-size-slider" p = true).
  { unfold p. rewrite listening_run. by apply listening_started. }
  assert (Hb2 : getElementById "grid-size-value" (Page000.browser p) = true).
  { subst p. rewrite Hb'.
    revert Hv. clear. start000 b; done. }
  assert (Hd : debounced p) by apply debounced_run, debounced_started.
  subst p'.
  change ([Page000.GridSizeSlider v; Page000.Timeout])
    with ([Page000.GridSizeSlider v] ++ [Page000.Timeout]).
  rewrite app_assoc, run_app000.
  pose proof (burst k vs p v Hd Hl2 Hb2) as (Hw & (id & Ht)).
  pose proof (debounced_run k ((Page000.GridSizeSlider <$> vs)
                               ++ [Page000.GridSizeSlider v]) p Hd) as Hd'.
  set (q := Page000.run k p _) in *.
  cbn. rewrite Ht. cbn. rewrite Hw. split; [done|]. split; [done|].
  destruct Hd' as [Hn|(id' & v' & Ht' & _ & Hlab)]; [by rewrite Hn in Ht|].
  rewrite Ht in Ht'. by injection Ht' as _ <-.
Qed.

Lemma burst_resizes_once_witness :
  let k := fun (_ : ShaderView) (_ : Z * Z) (_ : Z) => [U32 1] in
  let b := mkBrowser ["compute-interval-slider"; "compute-interval-value";
                      "grid-size-slider"; "grid-size-value"; "reset-button";
                      "canvas"; "fps"] true true true in
  let p := Page000.run k (Page000.started b (fun _ => 0%Q))
             [Page000.PipelinesReady; Page000.AnimationFrame 16] in
  let p' := Page000.run k p
              [Page000.GridSizeSlider 8; Page000.GridSizeSlider 4;
               Page000.GridSizeSlider 2; Page000.Timeout] in
  Part000.GRID_SIZE (Page000.world p') = 2
  /\ length (Part000.buffers (Page000.world p')) = 10%nat
  /\ Page000.timers p' = [].
Proof.
  intros k b p p'.
  assert (He : Page000.errors (Page000.started b (fun _ => 0%Q)) = [])
    by (vm_compute; reflexivity).
  assert (Hv : getElementById "grid-size-value" b = true)
    by (vm_compute; reflexivity).
  pose proof (burst_resizes_once k b (fun _ => 0%Q)
                [Page000.PipelinesReady; Page000.AnimationFrame 16] [8; 4] 2
                He Hv) as (Hw & Ht & _).
  change (Page000.world p'
          = Part000.step k (Page000.world p) (Part000.GridSizeInput 2)) in Hw.
  change (Page000.timers p' = []) in Ht.
  rewrite Hw. split; [vm_compute; reflexivity|].
  split; [vm_compute; reflexivity|exact Ht].
Defined.

Lemma never_resized_step k p e :
  Page000.timers p = [] ->
  Part000.GRID_SIZE (Page000.world p) = 64 ->
  Page000.listening "grid-size-slider" p = false
  \/ getElementById "grid-size-value" (Page000.browser p) = false ->
  Page000.timers (Page000.step k p e) = []
  /\ Part000.GRID_SIZE (Page000.world (Page000.step k p e)) = 64.
Proof.
  intros Ht Hg Hm. destruct e; cbn [Page000.step].
  - destruct (animationFrame_page timeMs p) as (_ & _ & _ & _ & _ & _ & ->).
    by destruct (animationFrame_world timeMs p) as (-> & _).
  - cbn. by rewrite GRID_SIZE_pipelinesReady.
  - destruct (Page000.listening "reset-button" p); [|done].
    destruct (resetClick_page p) as (-> & _ & _ & _ & _ & _ & _ & ->).
    by rewrite GRID_SIZE_onReset.
  - destruct (Page000.listening "compute-interval-slider" p); [|done].
    unfold Page000.computeIntervalInput. cbn.
    by destruct (getElementById "compute-interval-value" _).
  - destruct (Page000.listening "grid-size-slider" p) eqn:Hl; [|done].
    destruct Hm as [Hm|Hm]; [done|].
    unfold Page000.gridSizeInput.
    assert (Hq : Page000.clearTimeout (Page000.timeout p) p = p).
    { unfold Page000.clearTimeout. destruct (Page000.timeout p); [|done].
      unfold Page000.set_timers. rewrite Ht. cbn. rewrite <- Ht.
      by destruct p. }
    rewrite Hq, Hm. done.
  - by rewrite Ht.
Qed.

(** X6.  When the page lacks the grid-size slider or the label that shows
    its value, the grid size of the class based program never changes: in
    the first case nothing listens, in the second every input of the slider
    throws before it schedules the change.  Whatever happens, [GRID_SIZE]
    stays 64 and no timer is ever pending. *)
Theorem grid_size_stays_without_label k b random events :
  getElementById "grid-size-slider" b = false
  \/ getElementById "grid-size-value" b = false ->
  let p := Page000.run k (Page000.started b random) events in
  Part000.GRID_SIZE (Page000.world p) = 64 /\ Page000.timers p = [].
Proof.
  intros Hm.
  assert (H0 : Page000.timers (Page000.started b random) = []
               /\ Part000.GRID_SIZE (Page000.world (Page000.started b random)) = 64
               /\ (Page000.listening "grid-size-slider" (Page000.started b random)
                   = false
                   \/ getElementById "grid-size-value"
                        (Page000.browser (Page000.started b random)) = false)).
  { destruct Hm as [Hm|Hm].
    - revert Hm. unfold Page000.listening.
      start000 b; intros Hm; try done; repeat split;
        try (by rewrite started000_eq); left; vm_compute; reflexivity.
    - revert Hm.
      start000 b; intros Hm; try done; repeat split;
        try (by rewrite started000_eq); by right. }
  revert H0. generalize (Page000.started b random).
  induction events as [|e events IH]; intros p (Ht & Hg & Hl); [done|].
  cbn zeta. rewrite run_cons000.
  destruct (never_resized_step k p e Ht Hg Hl) as (Ht' & Hg').
  apply IH. split; [done|]. split; [done|].
  destruct (listeners_step k p e) as (Hb' & Hl').
  unfold Page000.listening. by rewrite Hb', Hl'.
Qed.

Lemma grid_size_stays_without_label_witness :
  let k := fun (_ : ShaderView) (_ : Z * Z) (_ : Z) => [U32 1] in
  let b := mkBrowser ["compute-interval-slider"; "compute-interval-value";
                      "grid-size-slider"; "reset-button"; "canvas"; "fps"]
             true true true in
  let p := Page000.run k (Page000.started b (fun _ => 0%Q))
             [Page000.PipelinesReady; Page000.GridSizeSlider 8;
              Page000.Timeout; Page000.AnimationFrame 16] in
  Part000.GRID_SIZE (Page000.world p) = 64
  /\ Page000.errors p = [TypeError].
Proof.
  intros k b p.
  assert (Hm : getElementById "grid-size-slider" b = false
               \/ getElementById "grid-size-value" b = false)
    by (right; vm_compute; reflexivity).
  pose proof (grid_size_stays_without_label k b (fun _ => 0%Q)
                [Page000.PipelinesReady; Page000.GridSizeSlider 8;
                 Page000.Timeout; Page000.AnimationFrame 16] Hm) as (Hg & _).
  split; [exact Hg|vm_compute; reflexivity].
Defined.

(** ** Start-up of the function based program *)

Ltac start001 b :=
  unfold Page001.started, Page001.main, Page001.init, Page001.setupSliders,
    Page001.getAdapter, Page001.getDevice, Page001.getCanvas,
    Page001.configureContext, Page001.loaded;
  cbn;
  destruct (getElementById "compute-interval-slider" b); cbn;
  [destruct (navigator_gpu b); cbn;
   [destruct (gpu_adapter b); cbn;
    [destruct (getElementById "canvas" b); cbn;
     [destruct (webgpu_context b); cbn|]|]|]|].

Lemma run_cons001 p e events :
  Page001.run p (e :: events) = Page001.run (Page001.step p e) events.
Proof. reflexivity. Qed.

Lemma unstarted_run001 random events : forall p,
  (exists v, Page001.world p
             = Part001.set_COMPUTE_MS_INTERVAL v (Part001.loaded random)) ->
  exists v, Page001.world (Page001.run p events)
            = Part001.set_COMPUTE_MS_INTERVAL v (Part001.loaded random).
Proof.
  induction events as [|e events IH]; intros p (v & Hw); [by exists v|].
  rewrite run_cons001. apply IH. destruct e; cbn [Page001.step].
  - rewrite animationFrame_idle001 by (by rewrite Hw). by exists v.
  - destruct (Page001.listening "compute-interval-slider" p); [|by exists v].
    unfold Page001.computeIntervalInput. cbn. rewrite Hw.
    destruct (getElementById "compute-interval-value" _); by exists value.
Qed.

(** X7.  [init] of the function based program runs to its end exactly when
    the page has the compute-interval slider, [navigator.gpu], an adapter,
    the canvas and a WebGPU context for it; the program is then started.
    Otherwise one error reaches the console, and the program stays as it was
    loaded whatever happens afterwards: no buffer is ever created, nothing is
    written or submitted, no frame is requested. *)
Theorem init_all_or_nothing k b random :
  let p := Page001.started k b random in
  (Page001.errors p = []
   <-> getElementById "compute-interval-slider" b = true
       /\ navigator_gpu b = true /\ gpu_adapter b = true
       /\ getElementById "canvas" b = true /\ webgpu_context b = true)
  /\ (Page001.errors p = [] ->
      Page001.world p = Part001.started k random
      /\ Page001.listeners p = ["compute-interval-slider"])
  /\ (Page001.errors p <> [] ->
      length (Page001.errors p) = 1%nat
      /\ forall events,
           let w := Page001.world (Page001.run p events) in
           Part001.buffers w = [] /\ Part001.hostLog w = []
           /\ Part001.rafPending w = [] /\ Part001.renderer w = None
           /\ Part001.randomUsed w = 0%nat).
Proof.
  assert (Hrun : forall p events,
    Page001.world p = Part001.loaded random ->
    let w := Page001.world (Page001.run p events) in
    Part001.buffers w = [] /\ Part001.hostLog w = []
    /\ Part001.rafPending w = [] /\ Part001.renderer w = None
    /\ Part001.randomUsed w = 0%nat).
  { intros p events Hw.
    destruct (unstarted_run001 random events p) as (v & Hv); [by exists 100|].
    cbn zeta. by rewrite Hv. }
  start001 b;
    (split; [split; [intros H; try done; by repeat split
                    |intros (? & ? & ? & ? & ?); done]
            |split; [intros H; try done|]]);
    intros H; try done; (split; [done|]); intros events; by apply Hrun.
Qed.

(** ** The program on a page that has the #fps element *)

Lemma world_step000 k p e :
  getElementById "fps" (Page000.browser p) = true ->
  Page000.world (Page000.step k p e)
  = match programEvent000 p e with
    | Some e' => Part000.step k (Page000.world p) e'
    | None => Page000.world p
    end.
Proof.
  intros Hb. destruct e; cbn [Page000.step programEvent000].
  - by rewrite animationFrame_fps.
  - reflexivity.
  - destruct (Page000.listening "reset-button" p); [|done].
    by destruct (resetClick_page p) as (-> & _).
  - destruct (Page000.listening "compute-interval-slider" p); [|done].
    unfold Page000.computeIntervalInput. cbn.
    by destruct (getElementById "compute-interval-value" _).
  - destruct (Page000.listening "grid-size-slider" p); [|done].
    unfold Page000.gridSizeInput, Page000.clearTimeout.
    destruct (Page000.timeout p); cbn;
      by destruct (getElementById "grid-size-value" _).
  - by destruct (Page000.timers p).
Qed.

Lemma world_run000 k events : forall p,
  getElementById "fps" (Page000.browser p) = true ->
  Page000.world (Page000.run k p events)
  = Part000.run k (Page000.world p) (programEvents000 k p events).
Proof.
  induction events as [|e events IH]; intros p Hb; [done|].
  rewrite run_cons000. cbn [programEvents000].
  rewrite IH by (by rewrite (proj1 (listeners_step k p e))).
  rewrite world_step000 by done.
  unfold Part000.run. rewrite foldl_app.
  by destruct (programEvent000 p e).
Qed.

Lemma world_step001 p e :
  getElementById "fps" (Page001.browser p) = true ->
  Page001.world (Page001.step p e)
  = match programEvent001 p e with
    | Some e' => Part001.step (Page001.world p) e'
    | None => Page001.world p
    end.
Proof.
  intros Hb. destruct e; cbn [Page001.step programEvent001].
  - by rewrite animationFrame_fps001.
  - destruct (Page001.listening "compute-interval-slider" p); [|done].
    unfold Page001.computeIntervalInput. cbn.
    by destruct (getElementById "compute-interval-value" _).
Qed.

Lemma browser_step001 p e :
  Page001.browser (Page001.step p e) = Page001.browser p
  /\ Page001.listeners (Page001.step p e) = Page001.listeners p.
Proof.
  destruct e; cbn [Page001.step].
  - by destruct (animationFrame_page001 timeMs p) as (-> & -> & _).
  - destruct (Page001.listening "compute-interval-slider" p); [|done].
    unfold Page001.computeIntervalInput. cbn.
    by destruct (getElementById "compute-interval-value" _).
Qed.

Lemma world_run001 events : forall p,
  getElementById "fps" (Page001.browser p) = true ->
  Page001.world (Page001.run p events)
  = Part001.run (Page001.world p) (programEvents001 p events).
Proof.
  induction events as [|e events IH]; intros p Hb; [done|].
  rewrite run_cons001. cbn [programEvents001].
  rewrite IH by (by rewrite (proj1 (browser_step001 p e))).
  rewrite world_step001 by done.
  unfold Part001.run. rewrite foldl_app.
  by destruct (programEvent001 p e).
Qed.

(** Where start-up leaves the program: started, or as loaded. *)
Lemma started_page000 b random :
  Page000.browser (Page000.started b random) = b
  /\ (Page000.world (Page000.started b random) = Part000.started random
      \/ Page000.world (Page000.started b random) = Part000.loaded random).
Proof. start000 b; (split; [done|]); auto. Qed.

Lemma started_page001 k b random :
  Page001.browser (Page001.started k b random) = b
  /\ (Page001.world (Page001.started k b random) = Part001.started k random
      /\ Page001.errors (Page001.started k b random) = []
      \/ Page001.world (Page001.started k b random) = Part001.loaded random
         /\ Page001.errors (Page001.started k b random) <> []).
Proof. start001 b; (split; [done|]); auto. Qed.

Lemma started_ok000 b random :
  Page000.errors (Page000.started b random) = [] ->
  Page000.world (Page000.started b random) = Part000.started random.
Proof. start000 b; done. Qed.

(** What every event of the program keeps, the page keeps too. *)
Lemma reach_page000 (P : Part000.World -> Prop) k b random events :
  getElementById "fps" b = true ->
  P (Part000.loaded random) -> P (Part000.started random) ->
  (forall w e, P w -> P (Part000.step k w e)) ->
  P (Page000.world (Page000.run k (Page000.started b random) events)).
Proof.
  intros Hb Hl Hs Hstep.
  destruct (started_page000 b random) as (Hb' & Hw).
  rewrite world_run000 by (by rewrite Hb').
  assert (H0 : P (Page000.world (Page000.started b random)))
    by (by destruct Hw as [-> | ->]).
  revert H0. generalize (Page000.world (Page000.started b random)).
  induction (programEvents000 k _ events) as [|e es IH]; intros w Hw0; [done|].
  apply (IH (Part000.step k w e)). by apply Hstep.
Qed.

Lemma reach_page001 (P : Part001.World -> Prop) k b random events :
  getElementById "fps" b = true ->
  P (Part001.loaded random) -> P (Part001.started k random) ->
  (forall w e, P w -> P (Part001.step w e)) ->
  P (Page001.world (Page001.run (Page001.started k b random) events)).
Proof.
  intros Hb Hl Hs Hstep.
  destruct (started_page001 k b random) as (Hb' & Hw).
  rewrite world_run001 by (by rewrite Hb').
  assert (H0 : P (Page001.world (Page001.started k b random)))
    by (by destruct Hw as [[-> _] | [-> _]]).
  revert H0. generalize (Page001.world (Page001.started k b random)).
  induction (programEvents001 _ events) as [|e es IH]; intros w Hw0; [done|].
  apply (IH (Part001.step w e)). by apply Hstep.
Qed.

#[local] Transparent getElementById Part000.start Part001.init.

(** ** The frame counter *)

Lemma samples_app l1 l2 : samples (l1 ++ l2) = samples l1 ++ samples l2.
Proof. apply omap_app. Qed.

Lemma total_app l1 l2 : total (l1 ++ l2) = total l1 + total l2.
Proof.
  unfold total. induction l1 as [|a l1 IH]; cbn; [done|]. rewrite IH. lia.
Qed.

Lemma total_insert l : forall i x y,
  l !! i = Some x -> total (<[i := y]> l) = total l - x + y.
Proof.
  unfold total. induction l as [|a l IH]; intros [|i] x y Hi; try done.
  - injection Hi as ->. cbn. lia.
  - specialize (IH i x y Hi). cbn in *.
    transitivity (a + (foldr Z.add 0 l - x + y)); [|lia].
    f_equal. exact IH.
Qed.

Lemma samples_actions000 self timeMs r w :
  samples (Tick000.actions self timeMs r w)
  = if Tick000.sampled timeMs r then [Part000.frameCount r + 1] else [].
Proof.
  unfold Tick000.actions.
  destruct (Tick000.sampled timeMs r), (Tick000.gate timeMs r w); reflexivity.
Qed.

Lemma samples_actions001 timeMs r w :
  samples (Tick001.actions timeMs r w)
  = if Tick001.sampled timeMs r then [Part001.frameCount r + 1] else [].
Proof.
  unfold Tick001.actions.
  destruct (Tick001.sampled timeMs r), (Tick001.gate timeMs r w); reflexivity.
Qed.

Lemma last_app_cases {A} (l1 l2 : list A) :
  last (l1 ++ l2) = match last l2 with Some x => Some x | None => last l1 end.
Proof.
  induction l2 as [|x l2 IH] using rev_ind.
  - by rewrite app_nil_r.
  - by rewrite app_assoc, !last_snoc.
Qed.

Lemma counted_callRender000 timeMs w request :
  counted000 w -> counted000 (Part000.callRender timeMs w request).
Proof.
  intros (Hc & Hf). rewrite callRender000.
  destruct (Part000.renderers w !! request.2) as [r|] eqn:Hr; [|done].
  unfold counted000, Tick000.afterWorld.
  cbn [Part000.set_renderers Part000.hostLog Part000.renderers Part000.fpsText].
  rewrite samples_app, submitted_app, total_app, length_app, last_app_cases.
  rewrite samples_actions000, submitted_actions000.
  rewrite list_fmap_insert.
  rewrite (total_insert _ request.2 (Part000.frameCount r));
    [|by rewrite list_lookup_fmap, Hr].
  cbn [Tick000.after Part000.frameCount].
  destruct (Tick000.sampled timeMs r); cbn [total foldr last length];
    (split; [lia|done]).
Qed.

Lemma counted_animationFrame000 timeMs w :
  counted000 w -> counted000 (Part000.animationFrame timeMs w).
Proof.
  intros Hc. unfold Part000.animationFrame.
  assert (H0 : counted000 (Part000.set_raf (Part000.rafNext w) [] w)) by done.
  revert H0. generalize (Part000.set_raf (Part000.rafNext w) [] w).
  induction (Part000.rafPending w) as [|q qs IH]; intros w0 H0; [done|].
  cbn. apply IH. by apply counted_callRender000.
Qed.

Lemma counted_afterInit000 n w : counted000 w -> counted000 (Session000.afterInit n w).
Proof.
  intros (Hc & Hf). unfold counted000, Session000.afterInit.
  cbn [Part000.hostLog Part000.renderers Part000.fpsText].
  rewrite samples_app, submitted_app, total_app, length_app, last_app_cases.
  split; [|done].
  change (submitted [_; _; _; _]) with (@nil (list Command)).
  cbn [samples omap total foldr length]. cbn. lia.
Qed.

Lemma counted_pipelinesReady000 k w :
  counted000 w -> counted000 (Part000.pipelinesReady k w).
Proof.
  intros (Hc & Hf). unfold Part000.pipelinesReady.
  destruct (Part000.suspended w) as [|s rest]; [done|].
  unfold exec. rewrite init_afterAwait000.
  unfold counted000, Session000.afterAwait.
  cbn [snd Part000.hostLog Part000.renderers Part000.fpsText
       Part000.set_suspended].
  rewrite samples_app, submitted_app, total_app, length_app, last_app_cases.
  rewrite fmap_app, total_app. split; [|done].
  change (submitted [_]) with (@nil (list Command)). cbn. lia.
Qed.

Lemma writes_log data l : forall w,
  let w' := (foldr (fun h rest => bind (Part000.queue_writeBuffer h 0 data)
                                    (fun _ => rest))
                   (ret tt) l w).2 in
  Part000.renderers w' = Part000.renderers w
  /\ Part000.fpsText w' = Part000.fpsText w
  /\ Part000.hostLog w'
     = Part000.hostLog w ++ ((fun h => WriteBuffer h data) <$> l).
Proof.
  induction l as [|h l IH]; intros w.
  - cbn. by rewrite app_nil_r.
  - cbn [foldr fmap list_fmap]. cbn zeta.
    change (bind ?m ?k w).2 with (exec (bind m k) w). rewrite exec_bind.
    destruct (IH (Part000.queue_writeBuffer h 0 data w).2) as (H1 & H2 & H3).
    unfold exec.
    split; [exact H1|]. split; [exact H2|].
    etrans; [exact H3|]. cbn. by rewrite <- app_assoc.
Qed.

Lemma samples_writes data (l : list nat) :
  samples ((fun h => WriteBuffer h data) <$> l) = []
  /\ submitted ((fun h => WriteBuffer h data) <$> l) = [].
Proof. induction l as [|h l [IH1 IH2]]; [done|]. split; [exact IH1|exact IH2]. Qed.

Lemma counted_onReset000 w : counted000 w -> counted000 (exec Part000.onReset w).
Proof.
  intros (Hc & Hf). unfold exec. rewrite onReset_unfold.
  destruct (Part000.engine_simulation (Part000.engine w)) as [sim|]; [|done].
  rewrite reset_unfold.
  match goal with |- counted000 (foldr _ _ ?l ?w0).2 =>
    destruct (writes_log
                (randomCells (Part000.random w) (Part000.randomUsed w)
                   (Z.to_nat (Part000.GRID_SIZE w * Part000.GRID_SIZE w)))
                l w0) as (H1 & H2 & H3)
  end.
  unfold counted000. rewrite H1, H2, H3.
  rewrite samples_app, submitted_app, total_app, length_app, last_app_cases.
  destruct (samples_writes
              (randomCells (Part000.random w) (Part000.randomUsed w)
                 (Z.to_nat (Part000.GRID_SIZE w * Part000.GRID_SIZE w)))
              (Part000.stateBuffers sim)) as (-> & ->).
  cbn [Part000.set_randomUsed Part000.renderers Part000.hostLog
       Part000.fpsText length last].
  change (total []) with 0. split; [lia|done].
Qed.

Lemma counted_afterStop000 w : counted000 w -> counted000 (afterStop000 w).
Proof.
  intros (Hc & Hf). unfold afterStop000.
  destruct (Part000.animationFrameId (Part000.engine w)); [|done].
  unfold counted000. cbn [Part000.hostLog Part000.renderers Part000.fpsText].
  rewrite samples_app, submitted_app, total_app, length_app, last_app_cases.
  change (submitted [_]) with (@nil (list Command)). cbn. split; [lia|done].
Qed.

Lemma counted_step000 k w e : counted000 w -> counted000 (Part000.step k w e).
Proof.
  intros Hc. destruct e; cbn [Part000.step].
  - by apply counted_animationFrame000.
  - by apply counted_pipelinesReady000.
  - by apply counted_onReset000.
  - rewrite onGridSizeChange000. apply counted_afterInit000.
    by apply (counted_afterStop000 w).
  - done.
Qed.

Lemma counted_run000 k events : forall w,
  counted000 w -> counted000 (Part000.run k w events).
Proof.
  induction events as [|e events IH]; intros w Hw; [done|].
  apply IH. by apply counted_step000.
Qed.

Lemma counted_callRender001 timeMs w request :
  counted001 w -> counted001 (Part001.callRender timeMs w request).
Proof.
  intros (Hc & Hf). rewrite callRender001.
  destruct (Part001.renderer w) as [r|] eqn:Hr; [|by rewrite <- Hr in Hc].
  unfold counted001, Tick001.afterWorld.
  cbn [Part001.set_renderer Part001.hostLog Part001.renderer Part001.fpsText
       fmap option_fmap option_map default Tick001.after Part001.frameCount].
  cbn [fmap option_fmap option_map default] in Hc.
  rewrite samples_app, submitted_app, total_app, length_app, last_app_cases.
  rewrite samples_actions001, submitted_actions001. unfold id in *.
  destruct (Tick001.sampled timeMs r); cbn [total foldr last length];
    (split; [lia|done]).
Qed.

Lemma counted_run001 events : forall w,
  counted001 w -> counted001 (Part001.run w events).
Proof.
  induction events as [|e events IH]; intros w Hw; [done|].
  apply IH. destruct e; cbn [Part001.step]; [|done].
  unfold Part001.animationFrame.
  assert (H0 : counted001 (Part001.set_raf (Part001.rafNext w) [] w)) by done.
  revert H0. generalize (Part001.set_raf (Part001.rafNext w) [] w).
  induction (Part001.rafPending w) as [|q qs IHq]; intros w0 H0; [done|].
  cbn. apply IHq. by apply counted_callRender001.
Qed.

Lemma counted_step001 w e : counted001 w -> counted001 (Part001.step w e).
Proof. apply (counted_run001 [e]). Qed.

(** X8.  On a page that has the #fps element, every frame that either
    program submits is counted exactly once by the FPS counter: after any
    events of the page, the readings displayed so far and the running counts
    of the Renderers add up to the number of submitted frames; and the text
    on the page is the latest reading (none before the first). *)
Theorem frames_counted_once b :
  getElementById "fps" b = true ->
  (forall k random events,
      let w := Page000.world (Page000.run k (Page000.started b random) events) in
      total (samples (Part000.hostLog w))
      + total (Part000.frameCount <$> Part000.renderers w)
      = Z.of_nat (length (submitted (Part000.hostLog w)))
      /\ Part000.fpsText w = last (samples (Part000.hostLog w)))
  /\ (forall k random events,
         let w := Page001.world
                    (Page001.run (Page001.started k b random) events) in
         total (samples (Part001.hostLog w))
         + default 0 (Part001.frameCount <$> Part001.renderer w)
         = Z.of_nat (length (submitted (Part001.hostLog w)))
         /\ Part001.fpsText w = last (samples (Part001.hostLog w))).
Proof.
  intros Hb. split.
  - intros k random events.
    apply (reach_page000 counted000 k b random events Hb).
    + by split.
    + rewrite started000_eq. by apply counted_afterInit000.
    + intros w e. apply counted_step000.
  - intros k random events.
    apply (reach_page001 counted001 k b random events Hb).
    + by split.
    + rewrite init001. by split.
    + apply counted_step001.
Qed.

Lemma frames_counted_once_witness :
  let k := fun (_ : ShaderView) (_ : Z * Z) (_ : Z) => @nil Word in
  let b := mkBrowser ["compute-interval-slider"; "compute-interval-value";
                      "grid-size-slider"; "grid-size-value"; "reset-button";
                      "canvas"; "fps"] true true true in
  let w := Page000.world
             (Page000.run k (Page000.started b (fun _ => 0%Q))
                [Page000.PipelinesReady; Page000.AnimationFrame 16;
                 Page000.AnimationFrame 500; Page000.AnimationFrame 1016;
                 Page000.AnimationFrame 1033]) in
  samples (Part000.hostLog w) = [3]
  /\ (Part000.frameCount <$> Part000.renderers w) = [1]
  /\ Z.of_nat (length (submitted (Part000.hostLog w))) = 3 + 1
  /\ Part000.fpsText w = Some 3.
Proof.
  intros k b w.
  assert (Hb : getElementById "fps" b = true) by (vm_compute; reflexivity).
  assert (Hs : samples (Part000.hostLog w) = [3]) by (vm_compute; reflexivity).
  assert (Hf : (Part000.frameCount <$> Part000.renderers w) = [1])
    by (vm_compute; reflexivity).
  destruct (proj1 (frames_counted_once b Hb) k (fun _ => 0%Q)
              [Page000.PipelinesReady; Page000.AnimationFrame 16;
               Page000.AnimationFrame 500; Page000.AnimationFrame 1016;
               Page000.AnimationFrame 1033]) as (Hc & Ht).
  fold w in Hc, Ht. rewrite Hs, Hf in Hc. rewrite Hs in Ht.
  exact (conj Hs (conj Hf (conj (eq_sym Hc) Ht))).
Defined.

(** The readings over a stream of frames are those of the counter run on its
    own. *)
Lemma samples_run000 k ts : forall w i r id,
  Part000.renderers w !! i = Some r -> Part000.rafPending w = [(id, i)] ->
  samples (Part000.hostLog (Part000.run k w (Part000.AnimationFrame <$> ts)))
  = samples (Part000.hostLog w)
    ++ sampling (Part000.lastFrame r) (Part000.frameCount r) ts.
Proof.
  induction ts as [|t ts IH]; intros w i r id Hr Hp.
  - cbn. by rewrite app_nil_r.
  - change (Part000.run k w (Part000.AnimationFrame <$> t :: ts))
      with (Part000.run k (Part000.animationFrame t w)
              (Part000.AnimationFrame <$> ts)).
    rewrite (tick000 t w i r id Hr Hp).
    erewrite IH.
    2:{ cbn. apply list_lookup_insert_eq. by eapply lookup_lt_Some. }
    2:{ cbn. reflexivity. }
    cbn [Part000.set_renderers Part000.hostLog Tick000.afterWorld
         Part000.set_raf Tick000.after Part000.lastFrame Part000.frameCount].
    rewrite samples_app, samples_actions000, <- app_assoc. f_equal.
    cbn [sampling]. unfold Tick000.sampled, Tick000.windowStart.
    by destruct (t - _ >=? 1000).
Qed.

Lemma samples_run001 ts : forall w r q,
  Part001.renderer w = Some r -> Part001.rafPending w = [q] ->
  samples (Part001.hostLog (Part001.run w (Part001.AnimationFrame <$> ts)))
  = samples (Part001.hostLog w)
    ++ sampling (Part001.lastFrameTime r) (Part001.frameCount r) ts.
Proof.
  induction ts as [|t ts IH]; intros w r q Hr Hp.
  - cbn. by rewrite app_nil_r.
  - change (Part001.run w (Part001.AnimationFrame <$> t :: ts))
      with (Part001.run (Part001.animationFrame t w)
              (Part001.AnimationFrame <$> ts)).
    rewrite (tick001 t w r q Hr Hp).
    erewrite IH.
    2:{ cbn. reflexivity. }
    2:{ cbn. reflexivity. }
    cbn [Part001.set_renderer Part001.hostLog Tick001.afterWorld
         Part001.set_raf Tick001.after Part001.lastFrameTime
         Part001.frameCount].
    rewrite samples_app, samples_actions001, <- app_assoc. f_equal.
    cbn [sampling]. unfold Tick001.sampled, Tick001.windowStart.
    by destruct (t - _ >=? 1000).
Qed.

Lemma steady_S t0 d n : steady t0 d (S n) = t0 :: steady (t0 + d) d n.
Proof.
  unfold steady. cbn [seq map]. f_equal; [f_equal; lia|].
  rewrite <- seq_shift, map_map. apply map_ext. intros i. lia.
Qed.

Lemma framesPerReading_spans d :
  0 < d ->
  (1 <= framesPerReading d)%nat
  /\ 1000 <= d * Z.of_nat (framesPerReading d)
  /\ d * (Z.of_nat (framesPerReading d) - 1) < 1000.
Proof.
  intros Hd. unfold framesPerReading.
  assert (H1 : 1 <= (1000 + d - 1) / d).
  { apply Z.div_le_lower_bound; lia. }
  pose proof (Z.mul_div_le (1000 + d - 1) d Hd) as H2.
  pose proof (Z.mul_succ_div_gt (1000 + d - 1) d Hd) as H3.
  rewrite Z2Nat.id by lia. split; [lia|]. split; nia.
Qed.

(** From a window that started at [s], with [j] frames of it gone by: no
    reading for [gap] more frames, then one of all the frames counted. *)
Lemma sampling_window d gap : forall s m j n,
  s <> 0 -> 0 < d -> (1 <= j)%nat -> (j + gap = framesPerReading d)%nat ->
  sampling s m (steady (s + d * Z.of_nat j) d n)
  = if (n <=? gap)%nat then []
    else (m + Z.of_nat gap + 1)
           :: sampling (s + d * Z.of_nat (framesPerReading d)) 0
                (steady (s + d * Z.of_nat (S (framesPerReading d))) d
                   (n - gap - 1)).
Proof.
  induction gap as [|g IH]; intros s m j n Hs Hd Hj Hc;
    destruct (framesPerReading_spans d Hd) as (Hc1 & Hc2 & Hc3);
    (destruct n as [|n]; [done|]);
    rewrite steady_S; cbn [sampling];
    (destruct (s =? 0) eqn:E; [lia|]).
  - assert (j = framesPerReading d) as -> by lia.
    destruct (s + d * Z.of_nat (framesPerReading d) - s >=? 1000) eqn:E1; [|lia].
    cbn [Nat.leb]. rewrite Nat.sub_0_r. cbn [Nat.sub]. rewrite Nat.sub_0_r.
    do 3 f_equal; lia.
  - destruct (s + d * Z.of_nat j - s >=? 1000) eqn:E1; [nia|].
    replace (s + d * Z.of_nat j + d) with (s + d * Z.of_nat (S j)) by lia.
    rewrite (IH s (m + 1) (S j) n) by lia.
    cbn [Nat.leb Nat.sub].
    destruct (n <=? g)%nat; [done|]. do 2 f_equal. lia.
Qed.

Lemma sampling_steady_rest d : forall n s,
  0 < s -> 0 < d ->
  sampling s 0 (steady (s + d) d n)
  = replicate (n / framesPerReading d) (Z.of_nat (framesPerReading d)).
Proof.
  intros n. induction n as [n IH] using lt_wf_ind. intros s Hs Hd.
  destruct (framesPerReading_spans d Hd) as (Hc1 & _).
  set (c := framesPerReading d) in *.
  replace (s + d) with (s + d * Z.of_nat 1) by lia.
  rewrite (sampling_window d (c - 1) s 0 1 n) by (fold c; lia).
  fold c. destruct (n <=? c - 1)%nat eqn:E.
  - apply Nat.leb_le in E. rewrite Nat.div_small by lia. done.
  - apply Nat.leb_gt in E.
    replace (s + d * Z.of_nat (S c)) with (s + d * Z.of_nat c + d) by lia.
    rewrite IH by lia.
    replace (n / c)%nat with (S ((n - (c - 1) - 1) / c)).
    + cbn [replicate]. f_equal. lia.
    + replace n with ((n - (c - 1) - 1) + 1 * c)%nat at 2 by lia.
      rewrite Nat.div_add by lia. lia.
Qed.

Lemma sampling_steady d t0 n :
  0 < t0 -> 0 < d ->
  let c := framesPerReading d in
  sampling 0 0 (steady t0 d (S n))
  = if (n <? c)%nat then []
    else (Z.of_nat c + 1) :: replicate ((n - c) / c) (Z.of_nat c).
Proof.
  intros Ht Hd c. destruct (framesPerReading_spans d Hd) as (Hc1 & _).
  fold c in Hc1.
  rewrite steady_S. cbn [sampling]. cbn [Z.eqb].
  replace (t0 - t0 >=? 1000) with false by lia.
  replace (t0 + d) with (t0 + d * Z.of_nat 1) by lia.
  rewrite (sampling_window d (c - 1) t0 (0 + 1) 1 n) by (fold c; lia).
  fold c.
  destruct (n <=? c - 1)%nat eqn:E.
  - apply Nat.leb_le in E. replace (n <? c)%nat with true; [done|].
    symmetry. apply Nat.ltb_lt. lia.
  - apply Nat.leb_gt in E. replace (n <? c)%nat with false.
    2:{ symmetry. apply Nat.ltb_ge. lia. }
    replace (t0 + d * Z.of_nat (S c)) with (t0 + d * Z.of_nat c + d) by lia.
    rewrite sampling_steady_rest by lia. fold c.
    f_equal; [lia|]. do 2 f_equal. lia.
Qed.

Lemma sampling_quiet ts : forall s m,
  s <> 0 -> Forall (fun t => t - s < 1000) ts -> sampling s m ts = [].
Proof.
  induction ts as [|t ts IH]; intros s m Hs Hq; [done|].
  apply Forall_cons in Hq as (Ht & Hq). cbn [sampling].
  destruct (s =? 0) eqn:E; [lia|].
  destruct (t - s >=? 1000) eqn:E1; [lia|]. by apply IH.
Qed.

Lemma samples_running000 k random interval ts :
  samples (Part000.hostLog (Part000.run k (running000 k random interval)
                              (Part000.AnimationFrame <$> ts)))
  = sampling 0 0 ts.
Proof.
  rewrite (samples_run000 k ts _ 0%nat
             (Session000.rendererOf k (Session000.parking 64 0)) 1%nat).
  - rewrite running000_eq. reflexivity.
  - rewrite running000_eq. reflexivity.
  - rewrite running000_eq. reflexivity.
Qed.

Lemma samples_running001 k random interval ts :
  samples (Part001.hostLog (Part001.run (running001 k random interval)
                              (Part001.AnimationFrame <$> ts)))
  = sampling 0 0 ts.
Proof.
  rewrite (samples_run001 ts _ (Session001.rendererOf k) 1%nat).
  - rewrite running001_eq. reflexivity.
  - rewrite running001_eq. reflexivity.
  - rewrite running001_eq. reflexivity.
Qed.

(** X9.  On a display that delivers a frame every [d] ms, the first at a
    time [t0] after 0, both programs show their first reading at the first
    frame that comes 1000 ms or more after the first one, and a reading
    every [c] frames from then on, [c] being [1000 / d] rounded up.  The
    first reading is [c + 1], one more than every later one, which is [c]:
    the frame that opens the first window is counted in it, while each later
    window opens with the count at 0 on the frame that closed the one
    before. *)
Theorem first_reading_counts_one_more k random interval t0 d n :
  0 < t0 -> 0 < d ->
  let c := framesPerReading d in
  let ts := steady t0 d (S n) in
  let readings := if (n <? c)%nat then []
                  else (Z.of_nat c + 1) :: replicate ((n - c) / c) (Z.of_nat c) in
  samples (Part000.hostLog (Part000.run k (running000 k random interval)
                              (Part000.AnimationFrame <$> ts)))
  = readings
  /\ samples (Part001.hostLog (Part001.run (running001 k random interval)
                                 (Part001.AnimationFrame <$> ts)))
     = readings.
Proof.
  intros Ht Hd c ts readings.
  rewrite samples_running000, samples_running001.
  split; apply (sampling_steady d t0 n Ht Hd).
Qed.

Lemma first_reading_counts_one_more_witness :
  let k := fun (_ : ShaderView) (_ : Z * Z) (_ : Z) => @nil Word in
  let random := fun _ : nat => 0%Q in
  let ts := steady 7 20 151 in
  framesPerReading 20 = 50%nat
  /\ samples (Part000.hostLog (Part000.run k (running000 k random 100)
                                 (Part000.AnimationFrame <$> ts)))
     = [51; 50; 50]
  /\ samples (Part001.hostLog (Part001.run (running001 k random 100)
                                 (Part001.AnimationFrame <$> ts)))
     = [51; 50; 50].
Proof.
  intros k random ts. split; [reflexivity|].
  exact (first_reading_counts_one_more k random 100 7 20 150
           eq_refl eq_refl).
Defined.

(** X10.  Neither program displays a reading as long as every frame comes
    less than 1000 ms after the first one: the FPS text stays as the page
    has it.  The first frame is at a time other than 0. *)
Theorem no_reading_in_the_first_second k random interval t0 ts :
  t0 <> 0 -> Forall (fun t => t - t0 < 1000) ts ->
  let w0 := Part000.run k (running000 k random interval)
              (Part000.AnimationFrame <$> t0 :: ts) in
  let w1 := Part001.run (running001 k random interval)
              (Part001.AnimationFrame <$> t0 :: ts) in
  samples (Part000.hostLog w0) = [] /\ Part000.fpsText w0 = None
  /\ samples (Part001.hostLog w1) = [] /\ Part001.fpsText w1 = None.
Proof.
  intros Ht Hq w0 w1.
  assert (Hs : sampling 0 0 (t0 :: ts) = []).
  { cbn [sampling Z.eqb]. replace (t0 - t0 >=? 1000) with false by lia.
    by apply sampling_quiet. }
  assert (H0 : counted000 w0).
  { apply counted_run000. unfold running000. apply counted_run000.
    rewrite started000_eq. by apply counted_afterInit000. }
  assert (H1 : counted001 w1).
  { apply counted_run001. unfold running001. apply counted_run001.
    rewrite init001. by split. }
  destruct H0 as (_ & H0). destruct H1 as (_ & H1).
  rewrite H0, H1. unfold w0, w1.
  rewrite samples_running000, samples_running001, Hs. done.
Qed.

Lemma no_reading_in_the_first_second_witness :
  let k := fun (_ : ShaderView) (_ : Z * Z) (_ : Z) => @nil Word in
  let random := fun _ : nat => 0%Q in
  Part000.fpsText (Part000.run k (running000 k random 100)
                     (Part000.AnimationFrame <$> [120; 136; 700; 1119]))
  = None.
Proof.
  intros k random.
  assert (Hq : Forall (fun t => t - 120 < 1000) [136; 700; 1119])
    by (repeat constructor).
  assert (Ht : 120 <> 0) by lia.
  exact (proj1 (proj2 (no_reading_in_the_first_second k random 100 120
                         [136; 700; 1119] Ht Hq))).
Defined.

(** ** Frame requests *)

Lemma frames_answered timeMs qs : forall w,
  Forall (fun q => (q.2 < length (Part000.renderers w))%nat) qs ->
  let w' := foldl (Part000.callRender timeMs) w qs in
  Part000.rafPending w' = Part000.rafPending w ++ answers (Part000.rafNext w) qs
  /\ Part000.rafNext w' = (Part000.rafNext w + length qs)%nat
  /\ length (Part000.renderers w') = length (Part000.renderers w)
  /\ Part000.engine w' = Part000.engine w.
Proof.
  induction qs as [|q qs IH]; intros w Hq.
  - cbn. by rewrite app_nil_r, Nat.add_0_r.
  - apply Forall_cons in Hq as (Hq1 & Hq). cbn [foldl]. cbn zeta.
    destruct (lookup_lt_is_Some_2 _ _ Hq1) as (r & Hr).
    assert (Hc : Part000.callRender timeMs w q
                 = Part000.set_renderers
                     (<[q.2 := Tick000.after timeMs r w]> (Part000.renderers w))
                     (Tick000.afterWorld q.2 timeMs r w))
      by (by rewrite callRender000, Hr).
    destruct (IH (Part000.callRender timeMs w q)) as (H1 & H2 & H3 & H4).
    { rewrite Hc. cbn. by rewrite length_insert. }
    rewrite H1, H2, H3, H4, Hc. cbn. rewrite length_insert, <- app_assoc.
    repeat split; try done; try lia.
Qed.

Lemma animationFrame_answers timeMs w :
  scheduled w ->
  let w' := Part000.animationFrame timeMs w in
  Part000.rafPending w' = answers (Part000.rafNext w) (Part000.rafPending w)
  /\ Part000.rafNext w'
     = (Part000.rafNext w + length (Part000.rafPending w))%nat
  /\ length (Part000.renderers w') = length (Part000.renderers w)
  /\ Part000.engine w' = Part000.engine w.
Proof.
  intros (_ & Hq & _). unfold Part000.animationFrame.
  apply (frames_answered timeMs (Part000.rafPending w)
           (Part000.set_raf (Part000.rafNext w) [] w)).
  cbn. eapply Forall_impl; [exact Hq|]. by intros q [? _].
Qed.

Lemma answers_snd next qs : snd <$> answers next qs = snd <$> qs.
Proof. unfold answers. apply snd_zip. by rewrite length_seq, length_fmap. Qed.

Lemma answers_ids next qs :
  Forall (fun q => (next <= q.1 < next + length qs)%nat) (answers next qs).
Proof.
  unfold answers. apply Forall_forall. intros [i r] Hin.
  apply elem_of_zip_l in Hin. apply elem_of_seq in Hin. cbn. lia.
Qed.

Lemma scheduled_animationFrame timeMs w :
  scheduled w -> scheduled (Part000.animationFrame timeMs w).
Proof.
  intros Hs. destruct (animationFrame_answers timeMs w Hs) as (Hp & Hn & Hl & He).
  destruct Hs as (Hnd & Hq & Hid).
  unfold scheduled. rewrite Hp, Hn, Hl, He, answers_snd.
  split; [done|]. split.
  - apply Forall_forall. intros q Hin. split.
    + assert (Hin' : q.2 ∈ snd <$> Part000.rafPending w).
      { rewrite <- (answers_snd (Part000.rafNext w)).
        by apply list_elem_of_fmap_2. }
      apply list_elem_of_fmap in Hin' as (q' & -> & Hq').
      by apply (proj1 (Forall_forall _ _) Hq q').
    + pose proof (proj1 (Forall_forall _ _)
                    (answers_ids (Part000.rafNext w) (Part000.rafPending w))
                    q Hin). cbn in *. lia.
  - intros id Hi. specialize (Hid id Hi). lia.
Qed.

Lemma scheduled_afterInit n w : scheduled w -> scheduled (Session000.afterInit n w).
Proof. by intros Hs. Qed.

Lemma scheduled_pipelinesReady k w :
  scheduled w -> scheduled (Part000.pipelinesReady k w).
Proof.
  intros (Hnd & Hq & Hid). unfold Part000.pipelinesReady.
  destruct (Part000.suspended w) as [|s rest]; [done|].
  unfold exec. rewrite init_afterAwait000.
  unfold scheduled, Session000.afterAwait.
  cbn [snd Part000.rafPending Part000.renderers Part000.rafNext Part000.engine
       Part000.animationFrameId Part000.set_suspended].
  rewrite fmap_app, length_app. cbn [fmap list_fmap snd length].
  split; [|split].
  - apply NoDup_app. split; [done|]. split; [|apply NoDup_singleton].
    intros i Hi Hi'. apply list_elem_of_singleton in Hi' as ->.
    apply list_elem_of_fmap in Hi as (q & Hq1 & Hq2).
    pose proof (proj1 (Forall_forall _ _) Hq q Hq2) as [? _]. lia.
  - apply Forall_app. split.
    + eapply Forall_impl; [exact Hq|]. intros q [? ?]. split; lia.
    + apply Forall_singleton. cbn. split; lia.
  - intros id [= <-]. lia.
Qed.

Lemma NoDup_snd_filter (P : nat * nat -> Prop) `{!forall q, Decision (P q)}
    (l : list (nat * nat)) :
  NoDup (snd <$> l) -> NoDup (snd <$> filter P l).
Proof.
  induction l as [|q l IH]; [done|]. cbn [fmap list_fmap].
  intros Hnd. apply NoDup_cons in Hnd as (Hq & Hnd).
  rewrite filter_cons. destruct (decide (P q)); [|by apply IH].
  cbn [fmap list_fmap]. apply NoDup_cons. split; [|by apply IH].
  intros Hin. apply Hq. apply list_elem_of_fmap in Hin as (q' & -> & Hq').
  apply list_elem_of_filter in Hq' as (_ & Hq'). by apply list_elem_of_fmap_2.
Qed.

Lemma filter_all {A} (P : A -> Prop) `{!forall x, Decision (P x)} (l : list A) :
  Forall P l -> filter P l = l.
Proof.
  induction 1 as [|x l Hx _ IH]; [done|].
  by rewrite filter_cons_True, IH.
Qed.

Lemma Forall_kept {A} (P Q : A -> Prop) `{!forall x, Decision (P x)} (l : list A) :
  Forall Q l -> Forall Q (filter P l).
Proof.
  rewrite !Forall_forall. intros HQ x Hx.
  apply list_elem_of_filter in Hx as (_ & Hx). by apply HQ.
Qed.

Lemma scheduled_afterStop w : scheduled w -> scheduled (afterStop000 w).
Proof.
  intros Hs. pose proof Hs as (Hnd & Hq & Hid). unfold afterStop000.
  destruct (Part000.animationFrameId (Part000.engine w)) as [id|] eqn:E;
    [|exact Hs].
  unfold scheduled.
  cbn [Part000.rafPending Part000.renderers Part000.rafNext Part000.engine
       Part000.animationFrameId Part000.set_animationFrameId].
  split; [by apply NoDup_snd_filter|]. split; [by apply Forall_kept|].
  by intros id' [=].
Qed.

Lemma writes_raf data l : forall w,
  let w' := (foldr (fun h rest => bind (Part000.queue_writeBuffer h 0 data)
                                    (fun _ => rest))
                   (ret tt) l w).2 in
  Part000.rafPending w' = Part000.rafPending w
  /\ Part000.rafNext w' = Part000.rafNext w
  /\ Part000.renderers w' = Part000.renderers w
  /\ Part000.engine w' = Part000.engine w.
Proof.
  induction l as [|h l IH]; intros w; [done|].
  cbn [foldr]. cbn zeta.
  change (bind ?m ?k w).2 with (exec (bind m k) w). rewrite exec_bind.
  destruct (IH (Part000.queue_writeBuffer h 0 data w).2) as (H1 & H2 & H3 & H4).
  unfold exec. repeat split; [exact H1|exact H2|exact H3|exact H4].
Qed.

Lemma scheduled_onReset w : scheduled w -> scheduled (exec Part000.onReset w).
Proof.
  intros Hs. unfold exec. rewrite onReset_unfold.
  destruct (Part000.engine_simulation (Part000.engine w)) as [sim|]; [|done].
  rewrite reset_unfold.
  match goal with |- scheduled (foldr _ _ ?l ?w0).2 =>
    destruct (writes_raf
                (randomCells (Part000.random w) (Part000.randomUsed w)
                   (Z.to_nat (Part000.GRID_SIZE w * Part000.GRID_SIZE w)))
                l w0) as (H1 & H2 & H3 & H4)
  end.
  unfold scheduled. rewrite H1, H2, H3, H4. exact Hs.
Qed.

Lemma scheduled_step k w e : scheduled w -> scheduled (Part000.step k w e).
Proof.
  intros Hs. destruct e; cbn [Part000.step].
  - by apply scheduled_animationFrame.
  - by apply scheduled_pipelinesReady.
  - by apply scheduled_onReset.
  - rewrite onGridSizeChange000. apply scheduled_afterInit.
    by apply (scheduled_afterStop w).
  - done.
Qed.

Lemma scheduled_run k events : forall w,
  scheduled w -> scheduled (Part000.run k w events).
Proof.
  induction events as [|e events IH]; intros w Hw; [done|].
  apply IH. by apply scheduled_step.
Qed.

Lemma scheduled_started random : scheduled (Part000.started random).
Proof.
  rewrite started000_eq. apply scheduled_afterInit.
  split; [apply NoDup_nil_2|]. split; [apply Forall_nil_2|done].
Qed.

(** X11.  On a page that has the #fps element, in every state the class
    based program reaches, no Renderer has two frame requests pending, and a
    frame answers every pending request by exactly one new request, for the
    same Renderer: the requests after the frame are as many as before it,
    for the same Renderers in the same order, with the next ids. *)
Theorem every_request_answered_once k b random events timeMs :
  getElementById "fps" b = true ->
  let p := Page000.run k (Page000.started b random) events in
  let w := Page000.world p in
  let w' := Page000.world (Page000.step k p (Page000.AnimationFrame timeMs)) in
  NoDup (snd <$> Part000.rafPending w)
  /\ (snd <$> Part000.rafPending w') = (snd <$> Part000.rafPending w)
  /\ (fst <$> Part000.rafPending w')
     = seq (Part000.rafNext w) (length (Part000.rafPending w))
  /\ Part000.rafNext w'
     = (Part000.rafNext w + length (Part000.rafPending w))%nat.
Proof.
  intros Hb p w w'.
  assert (Hs : scheduled w).
  { apply (reach_page000 scheduled k b random events Hb).
    - split; [apply NoDup_nil_2|]. split; [apply Forall_nil_2|done].
    - apply scheduled_started.
    - intros w0 e. apply scheduled_step. }
  assert (Hp' : getElementById "fps" (Page000.browser p) = true).
  { unfold p. rewrite (proj1 (listeners_run k events _)).
    by rewrite (proj1 (started_page000 b random)). }
  assert (Hw' : w' = Part000.animationFrame timeMs w).
  { unfold w'. cbn [Page000.step]. by rewrite animationFrame_fps. }
  destruct (animationFrame_answers timeMs w Hs) as (Hp & Hn & _).
  split; [by destruct Hs|].
  rewrite Hw', Hp, Hn, answers_snd.
  split; [done|]. split; [|done].
  unfold answers. apply fst_zip. by rewrite length_seq, length_fmap.
Qed.

Lemma every_request_answered_once_witness :
  let k := fun (_ : ShaderView) (_ : Z * Z) (_ : Z) => [U32 1] in
  let b := mkBrowser ["compute-interval-slider"; "compute-interval-value";
                      "grid-size-slider"; "grid-size-value"; "reset-button";
                      "canvas"; "fps"] true true true in
  let p := Page000.run k (Page000.started b (fun _ => 0%Q))
             [Page000.PipelinesReady; Page000.AnimationFrame 16;
              Page000.GridSizeSlider 8; Page000.Timeout;
              Page000.PipelinesReady] in
  Part000.rafPending (Page000.world p) = [(2%nat, 0%nat); (3%nat, 1%nat)]
  /\ (snd <$> Part000.rafPending
                (Page000.world (Page000.step k p (Page000.AnimationFrame 1500))))
     = [0%nat; 1%nat].
Proof.
  intros k b p.
  assert (Hb : getElementById "fps" b = true) by (vm_compute; reflexivity).
  assert (Hp : Part000.rafPending (Page000.world p)
               = [(2%nat, 0%nat); (3%nat, 1%nat)]) by (vm_compute; reflexivity).
  destruct (every_request_answered_once k b (fun _ => 0%Q)
              [Page000.PipelinesReady; Page000.AnimationFrame 16;
               Page000.GridSizeSlider 8; Page000.Timeout;
               Page000.PipelinesReady] 1500 Hb) as (_ & H & _).
  fold p in H. rewrite Hp in H. exact (conj Hp H).
Defined.

(** X12.  [stopRendering] cancels the request whose id [init] stored, the
    first of its session.  So a grid-size change that comes before that
    first frame cancels it, and one that comes after any frame cancels
    nothing: [render] has requested the next frames without storing their
    ids, the id that is cancelled is no longer pending, and every Renderer
    that was running keeps running beside the new one. *)
Theorem resize_cancels_only_the_first_request k random :
  (forall n,
      Part000.rafPending
        (Part000.run k (Part000.started random)
           [Part000.PipelinesReady; Part000.GridSizeInput n])
      = [])
  /\ (forall events timeMs n,
         let w := Part000.run k (Part000.started random)
                    (events ++ [Part000.AnimationFrame timeMs]) in
         Part000.rafPending (Part000.step k w (Part000.GridSizeInput n))
         = Part000.rafPending w).
Proof.
  split.
  - intros n.
    change (Part000.run k (Part000.started random)
              [Part000.PipelinesReady; Part000.GridSizeInput n])
      with (exec (Part000.onGridSizeChange n)
              (Part000.pipelinesReady k (Part000.started random))).
    rewrite onGridSizeChange000, started000_eq.
    unfold Part000.pipelinesReady, exec. cbn [Session000.afterInit
      Part000.suspended Part000.loaded app]. rewrite init_afterAwait000.
    cbn [snd]. unfold afterStop000. cbn.
    by destruct (decide (1%nat <> 1%nat)).
  - intros events timeMs n w.
    unfold w. unfold Part000.run. rewrite foldl_app. cbn [foldl].
    fold (Part000.run k (Part000.started random) events).
    set (w0 := Part000.run k (Part000.started random) events).
    assert (Hs : scheduled w0) by apply scheduled_run, scheduled_started.
    destruct (animationFrame_answers timeMs w0 Hs) as (Hp & Hn & _ & He).
    destruct Hs as (_ & _ & Hid).
    cbn [Part000.step]. rewrite onGridSizeChange000.
    cbn [Session000.afterInit Part000.rafPending Part000.set_GRID_SIZE].
    unfold afterStop000. rewrite He.
    destruct (Part000.animationFrameId (Part000.engine w0)) as [id|] eqn:E;
      [|done].
    cbn [Part000.rafPending]. specialize (Hid id eq_refl).
    rewrite Hp. apply filter_all.
    eapply Forall_impl; [apply answers_ids|]. intros q Hq. cbn in *. lia.
Qed.

Example two_sessions_render_after_resize :
  let k := fun (_ : ShaderView) (_ : Z * Z) (_ : Z) => [U32 1] in
  let w := Part000.run k (Part000.started (fun _ => 0%Q))
             [Part000.PipelinesReady; Part000.AnimationFrame 16;
              Part000.GridSizeInput 8; Part000.PipelinesReady] in
  let w' := Part000.step k w (Part000.AnimationFrame 32) in
  Part000.rafPending w = [(2%nat, 0%nat); (3%nat, 1%nat)]
  /\ length (submitted (Part000.hostLog w)) = 1%nat
  /\ length (submitted (Part000.hostLog w')) = 3%nat
  /\ Part000.rafPending w' = [(4%nat, 0%nat); (5%nat, 1%nat)].
Proof. vm_compute. done. Qed.

Lemma looping_step001 w e :
  looping001 w ->
  looping001 (Part001.step w e)
  /\ length (submitted (Part001.hostLog (Part001.step w e)))
     = (length (submitted (Part001.hostLog w))
        + match e with Part001.AnimationFrame _ => 1 | _ => 0 end)%nat.
Proof.
  intros ((r & Hr) & (id & Hp & Hn)). destruct e; cbn [Part001.step].
  - rewrite (tick001 timeMs w r id Hr Hp).
    unfold looping001, Tick001.afterWorld.
    cbn [Part001.set_renderer Part001.renderer Part001.rafPending
         Part001.rafNext Part001.hostLog Part001.set_raf].
    rewrite submitted_app, length_app, submitted_actions001.
    split; [|done]. split; [done|]. by exists (Part001.rafNext w).
  - split; [|cbn; lia]. split; [by exists r|by exists id].
Qed.

Lemma looping_run001 events : forall w,
  looping001 w ->
  looping001 (Part001.run w events)
  /\ length (submitted (Part001.hostLog (Part001.run w events)))
     = (length (submitted (Part001.hostLog w)) + length (frames001 events))%nat.
Proof.
  induction events as [|e events IH]; intros w Hl.
  - split; [done|]. cbn. lia.
  - change (Part001.run w (e :: events))
      with (Part001.run (Part001.step w e) events).
    destruct (looping_step001 w e Hl) as (Hl' & Hc').
    destruct (IH _ Hl') as (Hl'' & Hc''). split; [done|].
    rewrite Hc'', Hc'. destruct e.
    + change (frames001 (Part001.AnimationFrame timeMs :: events))
        with (timeMs :: frames001 events).
      cbn [length]. lia.
    + change (frames001 (Part001.ComputeIntervalInput value :: events))
        with (frames001 events).
      lia.
Qed.

Lemma frames_programEvents001 events : forall p,
  frames001 (programEvents001 p events) = frames events.
Proof.
  induction events as [|e events IH]; intros p; [done|].
  cbn [programEvents001]. unfold frames001. rewrite omap_app.
  fold (frames001 (programEvents001 (Page001.step p e) events)). rewrite IH.
  destruct e; cbn [programEvent001]; [done|].
  by destruct (Page001.listening "compute-interval-slider" p).
Qed.

(** X13.  On a page that has the #fps element, and where [init] has run to
    its end, the loop of the function based program neither stops nor forks:
    after any events there is exactly one frame request pending, the one
    handed out last, and the frames submitted so far are as many as the
    frames the display has run. *)
Theorem one_request_pending k b random events :
  getElementById "fps" b = true ->
  Page001.errors (Page001.started k b random) = [] ->
  let w := Page001.world (Page001.run (Page001.started k b random) events) in
  (exists id, Part001.rafPending w = [id] /\ Part001.rafNext w = S id)
  /\ length (submitted (Part001.hostLog w)) = length (frames events).
Proof.
  intros Hb He w.
  destruct (started_page001 k b random) as (Hb' & [(Hw & _)|(_ & Hne)]);
    [|done].
  unfold w. rewrite world_run001 by (by rewrite Hb'). rewrite Hw.
  destruct (looping_run001 (programEvents001 (Page001.started k b random) events)
              (Part001.started k random)) as (Hl & Hc).
  { rewrite init001. split; [done|by exists 1%nat]. }
  split; [by destruct Hl|].
  rewrite Hc, init001, frames_programEvents001. done.
Qed.

Lemma one_request_pending_witness :
  let k := fun (_ : ShaderView) (_ : Z * Z) (_ : Z) => [U32 1] in
  let b := mkBrowser ["compute-interval-slider"; "canvas"; "fps"]
             true true true in
  let w := Page001.world
             (Page001.run (Page001.started k b (fun _ => 0%Q))
                [Page001.AnimationFrame 16; Page001.ComputeIntervalSlider 50;
                 Page001.AnimationFrame 1016; Page001.AnimationFrame 1033]) in
  Part001.rafPending w = [4%nat]
  /\ length (submitted (Part001.hostLog w)) = 3%nat.
Proof.
  intros k b w.
  assert (Hb : getElementById "fps" b = true) by (vm_compute; reflexivity).
  assert (He : Page001.errors (Page001.started k b (fun _ => 0%Q)) = [])
    by (vm_compute; reflexivity).
  assert (Hp : Part001.rafPending w = [4%nat]) by (vm_compute; reflexivity).
  destruct (one_request_pending k b (fun _ => 0%Q)
              [Page001.AnimationFrame 16; Page001.ComputeIntervalSlider 50;
               Page001.AnimationFrame 1016; Page001.AnimationFrame 1033]
              Hb He) as (_ & Hc).
  exact (conj Hp Hc).
Defined.

(** ** Edges of the gate and of the reset *)

Lemma gated_always interval ts : forall ls,
  interval <= 0 -> nondecreasing (ls :: ts) = true ->
  gated interval ls ts = length ts.
Proof.
  induction ts as [|t ts IH]; intros ls Hi Hn; [done|].
  apply nondecreasing_cons in Hn as (Hle & Hn). cbn [gated length].
  destruct (t - ls >=? interval) eqn:E; [|lia]. by rewrite IH.
Qed.

(** X14.  With the compute interval at 0 or below, every frame switches the
    bind group, in both programs: over frames whose timestamps are not
    negative and never go back, there are as many switches as frames. *)
Theorem every_frame_switches_at_interval_zero k random interval ts :
  interval <= 0 -> nondecreasing (0 :: ts) = true ->
  flips000 k random interval ts = Z.of_nat (length ts)
  /\ length (switches (Part001.hostLog
                         (Part001.run (running001 k random interval)
                            (Part001.AnimationFrame <$> ts))))
     = length ts.
Proof.
  intros Hi Hn. split.
  - by rewrite flips000_gated, gated_always.
  - rewrite (switches_run001 ts _ (Session001.rendererOf k) 1%nat).
    + rewrite running001_eq.
      cbn [Part001.hostLog Part001.set_COMPUTE_MS_INTERVAL
           Part001.COMPUTE_MS_INTERVAL Session001.afterInit
           Session001.rendererOf Part001.new_Renderer
           Part001.lastBindGroupSwitchTime Part001.bindGroupIndex].
      rewrite length_app, gated_always by done.
      generalize (length ts). intros n.
      assert (Ht : forall from, length (toggles from n) = n).
      { induction n as [|n IHn]; intros from; cbn; [done|]. by rewrite IHn. }
      rewrite Ht. reflexivity.
    + rewrite running001_eq. reflexivity.
    + rewrite running001_eq. reflexivity.
    + destruct (started001_invariant k random) as (r & Hr & Hw).
      rewrite init001 in Hr. injection Hr as <-. exact Hw.
Qed.

Lemma every_frame_switches_at_interval_zero_witness :
  let k := fun (_ : ShaderView) (_ : Z * Z) (_ : Z) => @nil Word in
  flips000 k (fun _ => 0%Q) 0 [16; 33; 50; 50; 66] = 5.
Proof.
  intros k.
  exact (proj1 (every_frame_switches_at_interval_zero k (fun _ => 0%Q) 0
                  [16; 33; 50; 50; 66] (Z.le_refl 0) eq_refl)).
Defined.

Lemma unready_run k events : forall w,
  unready events = true ->
  Part000.engine w = Part000.mkEngine None None None ->
  Part000.engine (Part000.run k w events) = Part000.mkEngine None None None.
Proof.
  induction events as [|e events IH]; intros w Hu He; [done|].
  cbn [unready forallb] in Hu. apply andb_true_iff in Hu as (He' & Hu).
  apply (IH _ Hu). destruct e; cbn [Part000.step]; try done.
  - by rewrite (proj1 (proj2 (proj2 (keeps_animationFrame timeMs w)))).
  - unfold exec. rewrite onReset_unfold, He. done.
  - rewrite onGridSizeChange000. unfold afterStop000. rewrite He. done.
Qed.

(** X15.  A click on the reset button before the pipelines of the first
    session have arrived does nothing: the Engine has no Simulation yet,
    the handler throws on it, and the program is as it was; no cell is drawn
    and no buffer written. *)
Theorem reset_before_pipelines_does_nothing k random events :
  unready events = true ->
  let w := Part000.run k (Part000.started random) events in
  Part000.step k w Part000.ResetClick = w.
Proof.
  intros Hu w.
  assert (He : Part000.engine w = Part000.mkEngine None None None).
  { apply unready_run; [done|]. by rewrite started000_eq. }
  cbn [Part000.step]. unfold exec. by rewrite onReset_unfold, He.
Qed.

Lemma reset_before_pipelines_does_nothing_witness :
  let k := fun (_ : ShaderView) (_ : Z * Z) (_ : Z) => @nil Word in
  let w := Part000.run k (Part000.started (fun _ => 0%Q))
             [Part000.AnimationFrame 16; Part000.GridSizeInput 4;
              Part000.ComputeIntervalInput 50] in
  Part000.randomUsed (Part000.step k w Part000.ResetClick) = (4096 + 16)%nat.
Proof.
  intros k w.
  pose proof (reset_before_pipelines_does_nothing k (fun _ => 0%Q)
                [Part000.AnimationFrame 16; Part000.GridSizeInput 4;
                 Part000.ComputeIntervalInput 50] eq_refl) as H.
  cbv zeta in H. fold w in H. rewrite H. vm_compute. reflexivity.
Defined.

Lemma writeBuffer_rejected h off data bufs b :
  bufs !! h = Some b -> size b < off + byteLength data ->
  writeBuffer h off data bufs = bufs.
Proof.
  intros Hb Hs. unfold writeBuffer. rewrite Hb.
  replace (off + byteLength data <=? size b) with false by lia.
  by rewrite andb_false_r.
Qed.

Lemma writes_rejected data l : forall w,
  Forall (fun h => exists b, Part000.buffers w !! h = Some b
                             /\ size b < byteLength data) l ->
  let w' := (foldr (fun h rest => bind (Part000.queue_writeBuffer h 0 data)
                                    (fun _ => rest))
                   (ret tt) l w).2 in
  Part000.buffers w' = Part000.buffers w
  /\ Part000.randomUsed w' = Part000.randomUsed w
  /\ Part000.suspended w' = Part000.suspended w.
Proof.
  induction l as [|h l IH]; intros w Hl; [done|].
  apply Forall_cons in Hl as ((b & Hb & Hs) & Hl).
  cbn [foldr]. cbn zeta.
  change (bind ?m ?k w).2 with (exec (bind m k) w). rewrite exec_bind.
  assert (Hw : Part000.buffers (Part000.queue_writeBuffer h 0 data w).2
               = Part000.buffers w).
  { cbn. apply (writeBuffer_rejected h 0 data _ b Hb). lia. }
  destruct (IH (Part000.queue_writeBuffer h 0 data w).2) as (H1 & H2 & H3).
  { by rewrite Hw. }
  unfold exec. split; [by rewrite H1|]. split; [exact H2|exact H3].
Qed.

(** X16.  A reset that is clicked while a grid-size change to a larger grid
    waits for its pipelines is lost.  The handler draws cells for the new
    size and writes them to the state buffers of the session that still
    runs; they do not fit, the device rejects both writes, and no buffer
    changes, neither of the old session nor of the new one.  Only the draws
    of [Math.random] are used up and the two writes recorded. *)
Theorem reset_during_growth_is_lost k random events n :
  let w := Part000.run k (Part000.started random) events in
  Part000.suspended w = [] ->
  Part000.GRID_SIZE w * Part000.GRID_SIZE w < n * n ->
  let w1 := Part000.step k w (Part000.GridSizeInput n) in
  let w2 := Part000.step k w1 Part000.ResetClick in
  Part000.buffers w2 = Part000.buffers w1
  /\ Part000.randomUsed w2 = (Part000.randomUsed w1 + Z.to_nat (n * n))%nat
  /\ length (Part000.hostLog w2) = (length (Part000.hostLog w1) + 2)%nat
  /\ Part000.suspended w2 = Part000.suspended w1.
Proof.
  intros w Hsu Hn w1 w2.
  destruct (session_in_reach k random events Hsu)
    as (sim & a & b & _ & Hsim & Hst & Hab & (ba & Ha & Hsa) & (bb & Hb & Hsb)).
  fold w in Hsim, Ha, Hb, Hsa, Hsb.
  destruct Hsa as (_ & Hsa & _). destruct Hsb as (_ & Hsb & _).
  pose proof (Z.square_nonneg (Part000.GRID_SIZE w)) as Hnn.
  assert (Hw1 : w1 = Session000.afterInit n
                       (Part000.set_GRID_SIZE n (afterStop000 w)))
    by apply onGridSizeChange000.
  destruct (afterStop000_kept w) as (Hbs & _).
  assert (He : Part000.engine_simulation (Part000.engine w1) = Some sim).
  { rewrite Hw1. cbn. unfold afterStop000.
    by destruct (Part000.animationFrameId (Part000.engine w)). }
  assert (Hg : Part000.GRID_SIZE w1 = n) by by rewrite Hw1.
  assert (Hla : Part000.buffers w1 !! a = Some ba).
  { rewrite Hw1. cbn. rewrite Hbs. by apply lookup_app_l_Some. }
  assert (Hlb : Part000.buffers w1 !! b = Some bb).
  { rewrite Hw1. cbn. rewrite Hbs. by apply lookup_app_l_Some. }
  unfold w2. cbn [Part000.step]. unfold exec.
  rewrite onReset_unfold, He, Hg, reset_unfold, Hst.
  set (data := randomCells _ _ _).
  assert (Hd : byteLength data = 4 * (n * n)).
  { unfold data. apply byteLength_randomCells. }
  set (w1' := Part000.set_randomUsed _ w1).
  destruct (writes_rejected data [a; b] w1') as (H1 & H2 & H3).
  { apply Forall_cons. split; [exists ba; split; [exact Hla|lia]|].
    apply Forall_singleton. exists bb. split; [exact Hlb|lia]. }
  destruct (writes_log data [a; b] w1') as (_ & _ & H4).
  rewrite H1, H2, H3, H4, length_app. by repeat split.
Qed.

Lemma reset_during_growth_is_lost_witness :
  let k := fun (_ : ShaderView) (_ : Z * Z) (_ : Z) => [U32 1] in
  let random := fun i : nat => if Nat.even i then (9 # 10)%Q else (1 # 10)%Q in
  let w := Part000.run k (Part000.started random)
             [Part000.PipelinesReady; Part000.GridSizeInput 2;
              Part000.PipelinesReady; Part000.AnimationFrame 16] in
  let w1 := Part000.step k w (Part000.GridSizeInput 3) in
  let w2 := Part000.step k w1 Part000.ResetClick in
  Part000.buffers w2 = Part000.buffers w1
  /\ Part000.randomUsed w2 = (4096 + 4 + 9 + 9)%nat.
Proof.
  intros k random w w1 w2.
  assert (Hsu : Part000.suspended w = []) by (vm_compute; reflexivity).
  assert (Hn : Part000.GRID_SIZE w * Part000.GRID_SIZE w < 3 * 3)
    by (vm_compute; reflexivity).
  pose proof (reset_during_growth_is_lost k random
                [Part000.PipelinesReady; Part000.GridSizeInput 2;
                 Part000.PipelinesReady; Part000.AnimationFrame 16] 3 Hsu Hn)
    as (H1 & H2 & _).
  split; [exact H1|]. etrans; [exact H2|]. vm_compute. reflexivity.
Defined.

(** ** Buffers over time *)

Lemma kept_refl bufs : kept bufs bufs.
Proof. intros h b Hb. eauto. Qed.

Lemma kept_trans b1 b2 b3 : kept b1 b2 -> kept b2 b3 -> kept b1 b3.
Proof.
  intros H12 H23 h b Hb. destruct (H12 h b Hb) as (b' & Hb' & Hl & Hs & Hu).
  destruct (H23 h b' Hb') as (b'' & Hb'' & Hl' & Hs' & Hu').
  exists b''. repeat split; congruence.
Qed.

Lemma kept_insert bufs h o ws :
  bufs !! h = Some o ->
  kept bufs (<[h := mkBuffer (label o) (size o) (usage o) ws]> bufs).
Proof.
  intros Ho i b Hb. destruct (decide (i = h)) as [-> | Hne].
  - rewrite list_lookup_insert_eq by (by eapply lookup_lt_Some).
    eexists. split; [reflexivity|]. assert (o = b) as -> by congruence. done.
  - rewrite list_lookup_insert_ne by done. eauto.
Qed.

Lemma kept_writeBuffer h off data bufs : kept bufs (writeBuffer h off data bufs).
Proof.
  unfold writeBuffer. destruct (bufs !! h) as [o|] eqn:Ho; [|apply kept_refl].
  destruct (_ && _); [|apply kept_refl]. by apply kept_insert.
Qed.

Lemma kept_setContents h ws bufs : kept bufs (setContents h ws bufs).
Proof.
  unfold setContents. destruct (bufs !! h) as [o|] eqn:Ho; [|apply kept_refl].
  by apply kept_insert.
Qed.

Lemma length_setContents h ws bufs : length (setContents h ws bufs) = length bufs.
Proof.
  unfold setContents. destruct (bufs !! h); [|done]. by rewrite length_insert.
Qed.

Lemma device_dispatch k g wg bufs :
  kept bufs (dispatch k g wg bufs)
  /\ length (dispatch k g wg bufs) = length bufs.
Proof.
  unfold dispatch. generalize (shaderView GPUShaderStage.COMPUTE bufs g).
  intros view. revert bufs.
  induction (layout_entries (layout g)) as [|e es IH]; intros acc.
  - split; [apply kept_refl|done].
  - cbn [foldl].
    destruct (writable e); [|apply IH].
    destruct (boundAt (binding e) g) as [h|]; [|apply IH].
    destruct (IH (setContents h (k view wg (binding e)) acc)) as (Hk & Hl).
    split; [|by rewrite Hl, length_setContents].
    eapply kept_trans; [apply kept_setContents|exact Hk].
Qed.

Lemma device_submit cmds : forall s,
  kept s.1 (submit cmds s).1 /\ length (submit cmds s).1 = length s.1.
Proof.
  unfold submit. induction cmds as [|c cmds IH]; intros s.
  - split; [apply kept_refl|done].
  - cbn [foldl]. destruct (IH (execute c s)) as (Hk & Hl).
    assert (Hc : kept s.1 (execute c s).1
                 /\ length (execute c s).1 = length s.1).
    { destruct c as [p [g|] x y|p vb [g|] vc ic]; cbn;
        try (split; [apply kept_refl|done]).
      apply device_dispatch. }
    destruct Hc as (Hk' & Hl').
    split; [by eapply kept_trans|by rewrite Hl, Hl'].
Qed.

Lemma device_callRender timeMs w request :
  let w' := Part000.callRender timeMs w request in
  kept (Part000.buffers w) (Part000.buffers w')
  /\ length (Part000.buffers w') = length (Part000.buffers w).
Proof.
  cbn zeta. rewrite callRender000.
  destruct (Part000.renderers w !! request.2) as [r|];
    [|by split; [apply kept_refl|]].
  cbn [Part000.buffers Part000.set_renderers Tick000.afterWorld].
  unfold Tick000.device.
  destruct (device_submit (Tick000.batch timeMs r w)
              (writeBuffer (Part000.timeBuffer r) 0
                 [F32 (inject_Z timeMs / 1000)] (Part000.buffers w),
               Part000.canvas w)) as (Hk & Hl).
  cbn [fst] in Hk, Hl. split.
  - eapply kept_trans; [apply kept_writeBuffer|exact Hk].
  - by rewrite Hl, length_writeBuffer.
Qed.

Lemma device_animationFrame timeMs w :
  let w' := Part000.animationFrame timeMs w in
  kept (Part000.buffers w) (Part000.buffers w')
  /\ length (Part000.buffers w') = length (Part000.buffers w).
Proof.
  cbn zeta. unfold Part000.animationFrame.
  change (Part000.buffers w)
    with (Part000.buffers (Part000.set_raf (Part000.rafNext w) [] w)).
  generalize (Part000.set_raf (Part000.rafNext w) [] w).
  induction (Part000.rafPending w) as [|q qs IH]; intros w0.
  - split; [apply kept_refl|done].
  - cbn [foldl]. destruct (IH (Part000.callRender timeMs w0 q)) as (Hk & Hl).
    destruct (device_callRender timeMs w0 q) as (Hk' & Hl').
    split; [by eapply kept_trans|by rewrite Hl, Hl'].
Qed.

Lemma device_writes data l : forall w,
  let w' := (foldr (fun h rest => bind (Part000.queue_writeBuffer h 0 data)
                                    (fun _ => rest))
                   (ret tt) l w).2 in
  kept (Part000.buffers w) (Part000.buffers w')
  /\ length (Part000.buffers w') = length (Part000.buffers w).
Proof.
  induction l as [|h l IH]; intros w.
  - split; [apply kept_refl|done].
  - cbn [foldr]. cbn zeta.
    change (bind ?m ?k w).2 with (exec (bind m k) w). rewrite exec_bind.
    destruct (IH (Part000.queue_writeBuffer h 0 data w).2) as (Hk & Hl).
    unfold exec. split.
    + eapply kept_trans; [|exact Hk]. cbn. apply kept_writeBuffer.
    + etrans; [exact Hl|]. cbn. apply length_writeBuffer.
Qed.

Lemma kept_app bufs tail : kept bufs (bufs ++ tail).
Proof. intros h b Hb. exists b. by rewrite (lookup_app_l_Some _ _ _ _ Hb). Qed.

Lemma device_step k w e :
  let w' := Part000.step k w e in
  kept (Part000.buffers w) (Part000.buffers w')
  /\ length (Part000.buffers w')
     = (length (Part000.buffers w)
        + match e with Part000.GridSizeInput _ => 5 | _ => 0 end)%nat.
Proof.
  cbn zeta. destruct e; cbn [Part000.step]; rewrite ?Nat.add_0_r.
  - apply device_animationFrame.
  - unfold Part000.pipelinesReady.
    destruct (Part000.suspended w) as [|s rest]; [by split; [apply kept_refl|]|].
    unfold exec. rewrite init_afterAwait000. by split; [apply kept_refl|].
  - unfold exec. rewrite onReset_unfold.
    destruct (Part000.engine_simulation (Part000.engine w)) as [sim|];
      [|by split; [apply kept_refl|]].
    rewrite reset_unfold.
    match goal with |- context [foldr _ _ ?l ?w0] =>
      apply (device_writes
               (randomCells (Part000.random w) (Part000.randomUsed w)
                  (Z.to_nat (Part000.GRID_SIZE w * Part000.GRID_SIZE w)))
               l w0)
    end.
  - rewrite onGridSizeChange000.
    destruct (afterStop000_kept w) as (Hb & _).
    cbn [Session000.afterInit Part000.buffers Part000.set_GRID_SIZE].
    rewrite Hb, length_app. split; [apply kept_app|done].
  - by split; [apply kept_refl|].
Qed.

Lemma device_run k events : forall w,
  let w' := Part000.run k w events in
  kept (Part000.buffers w) (Part000.buffers w')
  /\ length (Part000.buffers w')
     = (length (Part000.buffers w) + 5 * length (resizes000 events))%nat.
Proof.
  induction events as [|e events IH]; intros w.
  - split; [apply kept_refl|]. cbn. lia.
  - change (Part000.run k w (e :: events))
      with (Part000.run k (Part000.step k w e) events).
    cbn zeta. destruct (IH (Part000.step k w e)) as (Hk & Hl).
    destruct (device_step k w e) as (Hk' & Hl').
    split; [by eapply kept_trans|].
    rewrite Hl, Hl'. destruct e as [t| | |n|v];
      try (change (resizes000 (?e :: events)) with (resizes000 events); lia).
    change (resizes000 (Part000.GridSizeInput n :: events))
      with (n :: resizes000 events).
    cbn [length]. lia.
Qed.

(** X17.  The class based program never gives a buffer back.  After any
    events the device holds five buffers for the first session and five more
    for every grid-size change there has been; and whatever happens later,
    each of them is still there under its handle, with the label, size and
    usage it was created with. *)
Theorem buffers_are_never_freed k random events later :
  let w := Part000.run k (Part000.started random) events in
  let w' := Part000.run k w later in
  length (Part000.buffers w) = (5 * (1 + length (resizes000 events)))%nat
  /\ forall h b, Part000.buffers w !! h = Some b ->
       exists b', Part000.buffers w' !! h = Some b'
                  /\ label b' = label b /\ size b' = size b
                  /\ usage b' = usage b.
Proof.
  intros w w'. split.
  - destruct (device_run k events (Part000.started random)) as (_ & Hl).
    fold w in Hl. rewrite Hl, started000_eq. cbn. lia.
  - apply (device_run k later w).
Qed.

(** ** The first session, frame by frame *)

Lemma write_time001 x a b s :
  writeBuffer 1 0 [F32 s] (device001 x a b) = device001 (F32 s) a b.
Proof. reflexivity. Qed.

Lemma write_time000 x a b s :
  writeBuffer 1 0 [F32 s] (device000 x a b) = device000 (F32 s) a b.
Proof. reflexivity. Qed.

(** A dispatch with either bind group overwrites the state buffer bound at
    binding 3 and nothing else. *)
Lemma dispatch_first001 k (i : Z) wg x a b :
  i = 0 \/ i = 1 ->
  exists g a' b',
    index (Part001.createBindGroups 0 1 [2%nat; 3%nat]
             Part001.createBindGroupLayout) i = Some g
    /\ dispatch k g wg (device001 x a b) = device001 x a' b'
    /\ forall t c d,
         exists view,
           shaderView drawStages (device001 t c d) g = view
           /\ (1, [t]) ∈ view.
Proof.
  intros [-> | ->]; eexists _, _, _; (split; [reflexivity|]);
    (split; [reflexivity|]); intros t c d; eexists; (split; [reflexivity|]);
    apply list_elem_of_further, list_elem_of_here.
Qed.

Lemma dispatch_first000 k (i : Z) wg x a b :
  i = 0 \/ i = 1 ->
  exists g a' b',
    index (Part000.bindGroups
             (Part000.new_Simulation (Part000.mkGrid 64 0) 1 [3%nat; 4%nat]
                Part000.createBindGroupLayout)) i = Some g
    /\ dispatch k g wg (device000 x a b) = device000 x a' b'
    /\ forall t c d,
         exists view,
           shaderView drawStages (device000 t c d) g = view
           /\ (1, [t]) ∈ view.
Proof.
  intros [-> | ->]; eexists _, _, _; (split; [reflexivity|]);
    (split; [reflexivity|]); intros t c d; eexists; (split; [reflexivity|]);
    apply list_elem_of_further, list_elem_of_here.
Qed.

Lemma first_frame001 k timeMs w :
  first001 k w ->
  let w' := Part001.animationFrame timeMs w in
  first001 k w'
  /\ drawnAt timeMs (Part001.GRID_SIZE * Part001.GRID_SIZE) (Part001.canvas w')
  /\ (contents <$> Part001.buffers w' !! 1%nat)
     = Some [F32 (inject_Z timeMs / 1000)].
Proof.
  intros (lf & fc & f & i & ls & id & x & a & b & Hr & Hi & Hp & Hb). cbn zeta.
  rewrite (tick001 timeMs w _ id Hr Hp).
  set (r := renderer001 k lf fc f i ls).
  set (w0 := Part001.set_raf (Part001.rafNext w) [] w).
  set (dir := Tick001.direction timeMs r w0).
  assert (Hdir : dir = 0 \/ dir = 1).
  { unfold dir, Tick001.direction. destruct (Tick001.gate timeMs r w0); [|done].
    destruct Hi as [-> | ->]; cbn; auto. }
  destruct (dispatch_first001 k i
              (workgroupCount Part001.GRID_SIZE, workgroupCount Part001.GRID_SIZE)
              (F32 (inject_Z timeMs / 1000)) a b Hi)
    as (g & a' & b' & Hg & Hd & _).
  destruct (dispatch_first001 k dir (0, 0) x a b Hdir)
    as (g' & _ & _ & Hg' & _ & Hv).
  destruct (Hv (F32 (inject_Z timeMs / 1000)) a' b') as (view & Hview & Hin).
  assert (Hdev : Tick001.device timeMs r w0
                 = (device001 (F32 (inject_Z timeMs / 1000)) a' b',
                    Some (mkFrame view (Some (F32 <$> Session000.quad)) 6
                            (Part001.GRID_SIZE * Part001.GRID_SIZE)))).
  { unfold Tick001.device, Tick001.batch, Tick001.computePass,
      Tick001.renderPass. fold dir.
    change (Part001.timeBuffer r) with 1%nat.
    change (Part001.buffers w0) with (Part001.buffers w).
    rewrite Hb, write_time001.
    change (Part001.bindGroups r)
      with (Part001.createBindGroups 0 1 [2%nat; 3%nat]
              Part001.createBindGroupLayout).
    change (Part001.bindGroupIndex r) with i.
    rewrite Hg, Hg'. cbn [submit foldl execute fst snd].
    change (compute_module (Part001.simulationPipeline r)) with k.
    rewrite Hd, Hview. reflexivity. }
  unfold Tick001.afterWorld. rewrite Hdev.
  cbn [Part001.set_renderer Part001.renderer Part001.rafPending
       Part001.buffers Part001.canvas fst snd].
  split; [|split].
  - exists (if Tick001.sampled timeMs r then timeMs
            else Tick001.windowStart timeMs r),
      (if Tick001.sampled timeMs r then 0 else fc + 1),
      (if Tick001.sampled timeMs r then fc + 1 else f),
      dir, (if Tick001.gate timeMs r w then timeMs else ls),
      (Part001.rafNext w), (F32 (inject_Z timeMs / 1000)), a', b'.
    by repeat split.
  - eexists. by repeat split.
  - reflexivity.
Qed.

Lemma first_frame000 k timeMs w :
  first000 k w ->
  let w' := Part000.animationFrame timeMs w in
  first000 k w'
  /\ drawnAt timeMs (64 * 64) (Part000.canvas w')
  /\ (contents <$> Part000.buffers w' !! 1%nat)
     = Some [F32 (inject_Z timeMs / 1000)].
Proof.
  intros (lf & fc & f & i & ls & id & x & a & b & Hr & Hi & Hp & Hn & Hb).
  cbn zeta.
  set (r := renderer000 k lf fc f i ls) in *.
  assert (Hr0 : Part000.renderers w !! 0%nat = Some r) by by rewrite Hr.
  rewrite (tick000 timeMs w 0%nat r id Hr0 Hp).
  set (w0 := Part000.set_raf (Part000.rafNext w) [] w).
  set (dir := Tick000.direction timeMs r w0).
  assert (Hdir : dir = 0 \/ dir = 1).
  { unfold dir, Tick000.direction. destruct (Tick000.gate timeMs r w0); [|done].
    destruct Hi as [-> | ->]; cbn; auto. }
  destruct (dispatch_first000 k dir
              (workgroupCount 64, workgroupCount 64)
              (F32 (inject_Z timeMs / 1000)) a b Hdir)
    as (g & a' & b' & Hg & Hd & Hv).
  destruct (Hv (F32 (inject_Z timeMs / 1000)) a' b') as (view & Hview & Hin).
  assert (Hdev : Tick000.device timeMs r w0
                 = (device000 (F32 (inject_Z timeMs / 1000)) a' b',
                    Some (mkFrame view (Some (F32 <$> Session000.quad)) 6
                            (64 * 64)))).
  { unfold Tick000.device, Tick000.batch, Tick000.computePass,
      Tick000.renderPass. fold dir.
    change (Part000.timeBuffer r) with 1%nat.
    change (Part000.buffers w0) with (Part000.buffers w).
    change (Part000.GRID_SIZE w0) with (Part000.GRID_SIZE w).
    rewrite Hb, Hn, write_time000.
    change (Part000.simulation r)
      with (Part000.new_Simulation (Part000.mkGrid 64 0) 1 [3%nat; 4%nat]
              Part000.createBindGroupLayout).
    rewrite Hg. cbn [submit foldl execute fst snd].
    change (compute_module (Part000.computePipeline r)) with k.
    rewrite Hd, Hview. reflexivity. }
  unfold Tick000.afterWorld. rewrite Hdev.
  cbn [Part000.set_renderers Part000.renderers Part000.rafPending
       Part000.buffers Part000.canvas Part000.GRID_SIZE fst snd].
  split; [|split].
  - exists (if Tick000.sampled timeMs r then timeMs
            else Tick000.windowStart timeMs r),
      (if Tick000.sampled timeMs r then 0 else fc + 1),
      (if Tick000.sampled timeMs r then fc + 1 else f),
      dir, (if Tick000.gate timeMs r w then timeMs else ls),
      (Part000.rafNext w), (F32 (inject_Z timeMs / 1000)), a', b'.
    rewrite Hr. by repeat split.
  - eexists. by repeat split.
  - reflexivity.
Qed.

Lemma first_run001 k events : forall w,
  first001 k w -> first001 k (Part001.run w events).
Proof.
  induction events as [|e events IH]; intros w Hw; [done|].
  apply IH. destruct e; cbn [Part001.step]; [by apply first_frame001|].
  exact Hw.
Qed.

Lemma first_started001 k random : first001 k (Part001.started k random).
Proof.
  rewrite init001.
  exists 0, 0, 0, 0, 0, 1%nat, (U32 0). eexists _, _. by repeat split; auto.
Qed.

(** A write to a state buffer of the first session. *)
Lemma write_state000 h data x a b :
  h = 3%nat \/ h = 4%nat ->
  exists a' b', writeBuffer h 0 data (device000 x a b) = device000 x a' b'.
Proof.
  intros [-> | ->]; unfold writeBuffer; cbn [lookup list_lookup device000];
    destruct (_ && _); by eexists _, _.
Qed.

Lemma settled_onReset k w :
  settled000 k w -> settled000 k (exec Part000.onReset w).
Proof.
  intros (Hf & Hsu & Hsim).
  unfold exec. rewrite onReset_unfold, Hsim, reset_unfold.
  cbn [Part000.stateBuffers Part000.new_Simulation].
  set (data := randomCells _ _ _).
  set (w0 := Part000.set_randomUsed _ w).
  destruct (writes_raf data [3%nat; 4%nat] w0) as (H1 & H2 & H3 & H4).
  destruct (keeps_writes (Part000.GRID_SIZE w) data w0 [3%nat; 4%nat] w0)
    as (_ & H5 & _ & H6).
  { repeat split. apply keeps_refl. }
  split; [|split; [by rewrite H6|by rewrite H4]].
  destruct Hf as (lf & fc & f & i & ls & id & x & a & b & Hr & Hi & Hp & Hn & Hb).
  assert (Hbufs : exists a' b',
    Part000.buffers
      (foldr (fun h rest => bind (Part000.queue_writeBuffer h 0 data)
                                 (fun _ => rest))
             (ret tt) [3%nat; 4%nat] w0).2 = device000 x a' b').
  { cbn [foldr]. unfold bind, Part000.queue_writeBuffer, Part000.log, modify,
      ret. cbn. rewrite Hb.
    destruct (write_state000 3 data x a b) as (a1 & b1 & ->); [by left|].
    destruct (write_state000 4 data x a1 b1) as (a2 & b2 & ->); [by right|].
    by exists a2, b2. }
  destruct Hbufs as (a' & b' & Hb').
  exists lf, fc, f, i, ls, id, x, a', b'.
  rewrite H3, H1, H5, Hb'. by repeat split.
Qed.

Lemma settled_step k w e :
  settled000 k w ->
  match e with Part000.GridSizeInput _ => False | _ => True end ->
  settled000 k (Part000.step k w e).
Proof.
  intros Hw He. pose proof Hw as (Hf & Hsu & Hsim).
  destruct e as [t| | |n|v]; cbn [Part000.step]; [| | |done|].
  - destruct (first_frame000 k t w Hf) as (Hf' & _).
    destruct (keeps_animationFrame t w) as (_ & _ & He' & Hsu').
    split; [done|]. by rewrite Hsu', He'.
  - unfold Part000.pipelinesReady. by rewrite Hsu.
  - by apply settled_onReset.
  - split; [|done].
    destruct Hf as (lf & fc & f & i & ls & id & x & a & b & Hf).
    by exists lf, fc, f, i, ls, id, x, a, b.
Qed.

Lemma parked_step k random w e :
  parked000 random w ->
  match e with
  | Part000.GridSizeInput _ => True
  | Part000.PipelinesReady => settled000 k (Part000.step k w e)
  | _ => parked000 random (Part000.step k w e)
  end.
Proof.
  intros (v & ->). destruct e as [t| | |n|v']; cbn [Part000.step]; [| | |done|].
  - exists v. reflexivity.
  - unfold Part000.pipelinesReady.
    cbn [Part000.suspended Part000.set_COMPUTE_MS_INTERVAL
         Session000.afterInit Part000.loaded app].
    unfold exec. rewrite init_afterAwait000. cbn [snd].
    split; [|by split].
    exists 0, 0, 0, 0, 0, 1%nat, (U32 0). eexists _, _.
    by repeat split; auto.
  - exists v. reflexivity.
  - exists v'. reflexivity.
Qed.

Lemma settled_run k events : forall w,
  settled000 k w -> resizes000 events = [] ->
  settled000 k (Part000.run k w events).
Proof.
  induction events as [|e events IH]; intros w Hw Hr; [done|].
  change (Part000.run k w (e :: events))
    with (Part000.run k (Part000.step k w e) events).
  assert (He : match e with Part000.GridSizeInput _ => False | _ => True end
               /\ resizes000 events = []) by (by destruct e).
  destruct He as (He & Hr'). apply IH; [|done]. by apply settled_step.
Qed.

(** Once the pipelines have arrived, and as long as no grid-size change
    runs, the program is in its first session. *)
Lemma first_session000 k random events : forall w,
  parked000 random w ->
  resizes000 events = [] -> Part000.PipelinesReady ∈ events ->
  settled000 k (Part000.run k w events).
Proof.
  induction events as [|e events IH]; intros w Hw Hr Hp.
  - by apply elem_of_nil in Hp.
  - change (Part000.run k w (e :: events))
      with (Part000.run k (Part000.step k w e) events).
    pose proof (parked_step k random w e Hw) as Hs.
    destruct e as [t| | |n|v]; try done;
      try (apply IH; [done|done|];
           by apply elem_of_cons in Hp as [Hp | Hp]).
    by apply settled_run.
Qed.

Lemma resizes_programEvents000 k events : forall p,
  Page000.Timeout ∉ events -> resizes000 (programEvents000 k p events) = [].
Proof.
  induction events as [|e events IH]; intros p Ht; [done|].
  apply not_elem_of_cons in Ht as (He & Ht).
  cbn [programEvents000]. unfold resizes000. rewrite omap_app.
  fold (resizes000 (programEvents000 k (Page000.step k p e) events)).
  rewrite IH by done. rewrite app_nil_r.
  destruct e; cbn [programEvent000]; try done.
  - by destruct (Page000.listening "reset-button" p).
  - by destruct (Page000.listening "compute-interval-slider" p).
Qed.

Lemma pipelines_programEvents000 k events : forall p,
  Page000.PipelinesReady ∈ events ->
  Part000.PipelinesReady ∈ programEvents000 k p events.
Proof.
  induction events as [|e events IH]; intros p Hp.
  - by apply elem_of_nil in Hp.
  - cbn [programEvents000]. apply elem_of_app.
    apply elem_of_cons in Hp as [<- | Hp].
    + left. cbn. apply list_elem_of_here.
    + right. by apply IH.
Qed.

Lemma browser_run001 events : forall p,
  Page001.browser (Page001.run p events) = Page001.browser p.
Proof.
  induction events as [|e events IH]; intros p; [done|].
  rewrite run_cons001, IH. apply browser_step001.
Qed.

(** X18.  On a page that has the #fps element, every frame is drawn with
    its own time.  After a frame at [timeMs], in the first session of the
    class based program once its pipelines have arrived (whatever frames,
    resets and slider inputs there have been, no grid-size change having
    run) and in any state of the function based program, the time uniform
    holds the one element that [new Float32Array([timeMs / 1000])] holds,
    the binary32 nearest to that quotient; the canvas shows a draw whose
    fragment stage read that element at binding 1; and the draw was of six
    vertices and one instance per cell of the grid of 64 by 64. *)
Theorem frame_drawn_with_its_time k b random :
  getElementById "fps" b = true ->
  (forall events timeMs,
      Page000.errors (Page000.started b random) = [] ->
      Page000.PipelinesReady ∈ events -> Page000.Timeout ∉ events ->
      let w := Page000.world
                 (Page000.run k (Page000.started b random)
                    (events ++ [Page000.AnimationFrame timeMs])) in
      exists word f,
        (contents <$> Part000.buffers w !! 1%nat) = Some [word]
        /\ word = F32 (inject_Z timeMs / 1000)
        /\ number word = Math_fround (inject_Z timeMs / 1000)
        /\ Part000.canvas w = Some f
        /\ (1, [word]) ∈ frame_view f
        /\ frame_vertexCount f = 6 /\ frame_instanceCount f = 64 * 64)
  /\ (forall events timeMs,
         Page001.errors (Page001.started k b random) = [] ->
         let w := Page001.world
                    (Page001.run (Page001.started k b random)
                       (events ++ [Page001.AnimationFrame timeMs])) in
         exists word f,
           (contents <$> Part001.buffers w !! 1%nat) = Some [word]
           /\ word = F32 (inject_Z timeMs / 1000)
           /\ number word = Math_fround (inject_Z timeMs / 1000)
           /\ Part001.canvas w = Some f
           /\ (1, [word]) ∈ frame_view f
           /\ frame_vertexCount f = 6 /\ frame_instanceCount f = 64 * 64).
Proof.
  intros Hb. split.
  - intros events timeMs He Hp Ht w.
    destruct (started_page000 b random) as (Hb' & _).
    pose proof (started_ok000 b random He) as Hw.
    set (p := Page000.run k (Page000.started b random) events).
    assert (Hbp : getElementById "fps" (Page000.browser p) = true).
    { unfold p. by rewrite (proj1 (listeners_run k events _)), Hb'. }
    assert (Hs : settled000 k (Page000.world p)).
    { unfold p. rewrite world_run000 by (by rewrite Hb'). rewrite Hw.
      apply (first_session000 k random).
      - exists 100. by rewrite started000_eq.
      - by apply resizes_programEvents000.
      - by apply pipelines_programEvents000. }
    assert (Hw' : w = Part000.animationFrame timeMs (Page000.world p)).
    { unfold w. rewrite run_app000. fold p. cbn [Page000.run foldl Page000.step].
      by rewrite animationFrame_fps. }
    destruct Hs as (Hf & _).
    destruct (first_frame000 k timeMs _ Hf) as (_ & (f & Hc & Hin & Hv & Hi) & Hc').
    rewrite Hw'. exists (F32 (inject_Z timeMs / 1000)), f. by repeat split.
  - intros events timeMs He w.
    destruct (started_page001 k b random) as (Hb' & [(Hw & _)|(_ & Hne)]);
      [|done].
    set (p := Page001.run (Page001.started k b random) events).
    assert (Hbp : getElementById "fps" (Page001.browser p) = true).
    { unfold p. by rewrite browser_run001, Hb'. }
    assert (Hf : first001 k (Page001.world p)).
    { unfold p. rewrite world_run001 by (by rewrite Hb'). rewrite Hw.
      apply first_run001, first_started001. }
    assert (Hw' : w = Part001.animationFrame timeMs (Page001.world p)).
    { unfold w, Page001.run. rewrite foldl_app. fold (Page001.run (Page001.started k b random) events).
      fold p. cbn [foldl Page001.step]. by rewrite animationFrame_fps001. }
    destruct (first_frame001 k timeMs _ Hf) as (_ & (f & Hc & Hin & Hv & Hi) & Hc').
    rewrite Hw'. exists (F32 (inject_Z timeMs / 1000)), f. by repeat split.
Qed.

Lemma frame_drawn_with_its_time_witness :
  let k := fun (_ : ShaderView) (_ : Z * Z) (_ : Z) => @nil Word in
  let b := mkBrowser ["compute-interval-slider"; "compute-interval-value";
                      "grid-size-slider"; "grid-size-value"; "reset-button";
                      "canvas"; "fps"] true true true in
  let w := Page000.world
             (Page000.run k (Page000.started b (fun _ => 0%Q))
                ([Page000.ComputeIntervalSlider 50; Page000.PipelinesReady;
                  Page000.AnimationFrame 8; Page000.ResetClick;
                  Page000.GridSizeSlider 8]
                 ++ [Page000.AnimationFrame 16])) in
  exists word,
    (contents <$> Part000.buffers w !! 1%nat) = Some [word]
    /\ number word = (8589935 # 536870912)%Q.
Proof.
  intros k b w.
  assert (Hb : getElementById "fps" b = true) by (vm_compute; reflexivity).
  assert (He : Page000.errors (Page000.started b (fun _ => 0%Q)) = [])
    by (vm_compute; reflexivity).
  destruct (proj1 (frame_drawn_with_its_time k b (fun _ => 0%Q) Hb)
              [Page000.ComputeIntervalSlider 50; Page000.PipelinesReady;
               Page000.AnimationFrame 8; Page000.ResetClick;
               Page000.GridSizeSlider 8] 16 He)
    as (word & f & Hc & Hword & Hn & _).
  - apply list_elem_of_further, list_elem_of_here.
  - intros H. repeat (apply elem_of_cons in H as [H|H]; [discriminate H|]).
    by apply elem_of_nil in H.
  - exists word. split; [exact Hc|]. rewrite Hn. vm_compute. reflexivity.
Defined.

Lemma kept_run001 events : forall w,
  kept (Part001.buffers w) (Part001.buffers (Part001.run w events)).
Proof.
  induction events as [|e events IH]; intros w; [apply kept_refl|].
  change (Part001.run w (e :: events))
    with (Part001.run (Part001.step w e) events).
  eapply kept_trans; [|apply IH].
  destruct e; cbn [Part001.step]; [|apply kept_refl].
  unfold Part001.animationFrame.
  change (Part001.buffers w)
    with (Part001.buffers (Part001.set_raf (Part001.rafNext w) [] w)).
  generalize (Part001.set_raf (Part001.rafNext w) [] w).
  induction (Part001.rafPending w) as [|q qs IHq]; intros w0;
    [apply kept_refl|].
  cbn [foldl]. eapply kept_trans; [|apply IHq].
  rewrite callRender001. destruct (Part001.renderer w0) as [r|];
    [|apply kept_refl].
  cbn [Part001.buffers Part001.set_renderer Tick001.afterWorld].
  unfold Tick001.device.
  eapply kept_trans; [apply kept_writeBuffer|].
  apply (device_submit _ (_, _)).
Qed.

(** X19.  The function based program creates its buffers at start and none
    later: after any events the device holds five buffers, each with the
    label, size and usage [init] gave it; the grid uniform and the vertex
    buffer are as [init] wrote them, and the time uniform is one word. *)
Theorem buffers_of_the_function_based_program k random events :
  let w := Part001.run (Part001.started k random) events in
  length (Part001.buffers w) = 5%nat
  /\ (forall h b, Part001.buffers (Part001.started k random) !! h = Some b ->
        exists b', Part001.buffers w !! h = Some b'
                   /\ label b' = label b /\ size b' = size b
                   /\ usage b' = usage b)
  /\ Part001.buffers w !! 0%nat
     = Some (mkBuffer "Grid Uniforms" 8 72 [F32 (inject_Z 64); F32 (inject_Z 64)])
  /\ Part001.buffers w !! 4%nat
     = Some (mkBuffer "Cell vertices" 48 40 (F32 <$> Session000.quad))
  /\ exists time, Part001.buffers w !! 1%nat
                  = Some (mkBuffer "Time Uniform" 4 72 [time]).
Proof.
  intros w.
  destruct (first_run001 k events _ (first_started001 k random))
    as (lf & fc & f & i & ls & id & x & a & b & _ & _ & _ & Hb).
  fold w in Hb. split; [by rewrite Hb|]. split; [apply kept_run001|].
  rewrite Hb. repeat split. by exists x.
Qed.

#[local] Opaque getElementById Part000.start Part001.init.

(** ** The labels of the sliders *)

Lemma interval_frames timeMs qs : forall w,
  Part000.COMPUTE_MS_INTERVAL (foldl (Part000.callRender timeMs) w qs)
  = Part000.COMPUTE_MS_INTERVAL w.
Proof.
  induction qs as [|q qs IH]; intros w; [done|].
  cbn [foldl]. rewrite IH, callRender000.
  by destruct (Part000.renderers w !! q.2).
Qed.

Lemma interval_writes data l : forall w,
  Part000.COMPUTE_MS_INTERVAL
    (foldr (fun h rest => bind (Part000.queue_writeBuffer h 0 data)
                            (fun _ => rest))
           (ret tt) l w).2
  = Part000.COMPUTE_MS_INTERVAL w.
Proof.
  induction l as [|h l IH]; intros w; [done|].
  cbn [foldr].
  change (bind ?m ?k w).2 with (exec (bind m k) w). rewrite exec_bind.
  unfold exec. by rewrite IH.
Qed.

Lemma interval_animationFrame timeMs w :
  Part000.COMPUTE_MS_INTERVAL (Part000.animationFrame timeMs w)
  = Part000.COMPUTE_MS_INTERVAL w.
Proof. unfold Part000.animationFrame. by rewrite interval_frames. Qed.

Lemma interval_pipelinesReady k w :
  Part000.COMPUTE_MS_INTERVAL (Part000.pipelinesReady k w)
  = Part000.COMPUTE_MS_INTERVAL w.
Proof.
  unfold Part000.pipelinesReady. destruct (Part000.suspended w); [done|].
  unfold exec. by rewrite init_afterAwait000.
Qed.

Lemma interval_onReset w :
  Part000.COMPUTE_MS_INTERVAL (exec Part000.onReset w)
  = Part000.COMPUTE_MS_INTERVAL w.
Proof.
  unfold exec. rewrite onReset_unfold.
  destruct (Part000.engine_simulation (Part000.engine w)); [|done].
  by rewrite reset_unfold, interval_writes.
Qed.

Lemma interval_onGridSizeChange n w :
  Part000.COMPUTE_MS_INTERVAL (exec (Part000.onGridSizeChange n) w)
  = Part000.COMPUTE_MS_INTERVAL w
  /\ Part000.GRID_SIZE (exec (Part000.onGridSizeChange n) w) = n.
Proof.
  rewrite onGridSizeChange000. split; [|done]. cbn. unfold afterStop000.
  by destruct (Part000.animationFrameId (Part000.engine w)).
Qed.

Lemma truthful_same p p' :
  Page000.intervalLabel p' = Page000.intervalLabel p ->
  Page000.sizeLabel p' = Page000.sizeLabel p ->
  Page000.timers p' = Page000.timers p ->
  Page000.browser p' = Page000.browser p ->
  Part000.COMPUTE_MS_INTERVAL (Page000.world p')
  = Part000.COMPUTE_MS_INTERVAL (Page000.world p) ->
  Part000.GRID_SIZE (Page000.world p') = Part000.GRID_SIZE (Page000.world p) ->
  truthful p -> truthful p'.
Proof.
  intros H1 H2 H3 H4 H5 H6. unfold truthful.
  by rewrite H1, H2, H3, H4, H5, H6.
Qed.

Lemma truthful_step k p e :
  debounced p -> truthful p -> truthful (Page000.step k p e).
Proof.
  intros Hd Ht. pose proof Ht as (Hi & Hg & Hs).
  destruct e as [t| | |v|v|]; cbn [Page000.step].
  - destruct (animationFrame_page t p) as (H1 & _ & H3 & H4 & _ & _ & H7).
    destruct (animationFrame_world t p) as (G1 & G2 & _).
    by apply (truthful_same p).
  - apply (truthful_same p); try done; cbn.
    + apply interval_pipelinesReady.
    + apply GRID_SIZE_pipelinesReady.
  - destruct (Page000.listening "reset-button" p); [|done].
    destruct (resetClick_page p) as (Hw & H1 & _ & H3 & H4 & _ & _ & H7).
    apply (truthful_same p); try done; rewrite Hw.
    + apply interval_onReset.
    + apply GRID_SIZE_onReset.
  - destruct (Page000.listening "compute-interval-slider" p); [|done].
    unfold Page000.computeIntervalInput. cbn.
    destruct (getElementById "compute-interval-value" (Page000.browser p))
      eqn:E; (split; [|split]); cbn; auto.
    + intros v' [= <-]. done.
    + intros v' Hv'. destruct (Hi v' Hv') as (_ & Hi'). congruence.
  - destruct (Page000.listening "grid-size-slider" p); [|done].
    unfold Page000.gridSizeInput.
    assert (Hq : Page000.intervalLabel (Page000.clearTimeout (Page000.timeout p) p)
                 = Page000.intervalLabel p
                 /\ Page000.world (Page000.clearTimeout (Page000.timeout p) p)
                    = Page000.world p
                 /\ Page000.browser (Page000.clearTimeout (Page000.timeout p) p)
                    = Page000.browser p
                 /\ Page000.sizeLabel (Page000.clearTimeout (Page000.timeout p) p)
                    = Page000.sizeLabel p)
      by (unfold Page000.clearTimeout; by destruct (Page000.timeout p)).
    destruct Hq as (Hq1 & Hq2 & Hq3 & Hq4).
    set (q := Page000.clearTimeout (Page000.timeout p) p) in *.
    destruct (getElementById "grid-size-value" (Page000.browser q)) eqn:E; cbn.
    + (split; [|split]); cbn; rewrite ?Hq1, ?Hq2, ?Hq3; [exact Hi| |].
      * intros v' Hn. by apply app_nil in Hn as (_ & Hn).
      * intros v' _. by rewrite <- Hq3.
    + (split; [|split]); cbn; rewrite ?Hq1, ?Hq2, ?Hq3, ?Hq4; [exact Hi| |].
      * intros v' _ Hl. specialize (Hs v' Hl). rewrite <- Hq3 in Hs. congruence.
      * exact Hs.
  - destruct (Page000.timers p) as [|t rest] eqn:Hp; [done|].
    destruct (interval_onGridSizeChange (Page000.timer_size t) (Page000.world p))
      as (H1 & H2).
    (split; [|split]); cbn; rewrite ?H1, ?H2; [exact Hi| |exact Hs].
    intros v' _ Hl.
    destruct Hd as [Hd|(id & v'' & Hd & _ & Hlab)]; [congruence|].
    rewrite Hp in Hd. injection Hd as -> _. cbn. congruence.
Qed.

Lemma truthful_started b random : truthful (Page000.started b random).
Proof.
  assert (H : Page000.intervalLabel (Page000.started b random) = None
              /\ Page000.sizeLabel (Page000.started b random) = None)
    by (start000 b; done).
  destruct H as (H1 & H2). unfold truthful. rewrite H1, H2.
  split; [by intros v [=]|]. split; [by intros v _ [=]|by intros v [=]].
Qed.

(** X20.  The labels beside the sliders of the class based program tell the
    truth: after any events the compute interval in force is the one its
    label shows, and, unless a grid-size change is still waiting in its
    timer, the grid size in force is the one its label shows. *)
Theorem labels_show_the_values_in_force k b random events :
  let p := Page000.run k (Page000.started b random) events in
  (forall v, Page000.intervalLabel p = Some v ->
             Part000.COMPUTE_MS_INTERVAL (Page000.world p) = v)
  /\ (forall v, Page000.timers p = [] -> Page000.sizeLabel p = Some v ->
                Part000.GRID_SIZE (Page000.world p) = v).
Proof.
  assert (H : forall evs p, debounced p -> truthful p ->
                            truthful (Page000.run k p evs)).
  { induction evs as [|e evs IH]; intros p Hd Ht; [done|].
    rewrite run_cons000. apply IH; [by apply debounced_step|].
    by apply truthful_step. }
  destruct (H events (Page000.started b random)) as (Hi & Hg & _).
  - apply debounced_started.
  - apply truthful_started.
  - cbn zeta. split; [|exact Hg]. intros v Hv. by destruct (Hi v Hv).
Qed.

#[local] Transparent getElementById Part000.start Part001.init.

(** ** What is written once *)

Lemma spares_refl bufs : spares bufs bufs.
Proof. split; [apply kept_refl|done]. Qed.

Lemma spares_trans b1 b2 b3 : spares b1 b2 -> spares b2 b3 -> spares b1 b3.
Proof.
  intros (Hk & Hc) (Hk' & Hc').
  split; [by eapply kept_trans|].
  intros h b Hb Hcb. apply Hc'; [|done]. by apply Hc.
Qed.

Lemma labelAt_kept bufs bufs' h l :
  kept bufs bufs' -> labelAt bufs h = Some l -> labelAt bufs' h = Some l.
Proof.
  unfold labelAt. intros Hk Hl.
  destruct (bufs !! h) as [b|] eqn:Hb; [|done].
  destruct (Hk h b Hb) as (b' & -> & Hlab & _). cbn in *. congruence.
Qed.

Lemma setContents_other h ws bufs i :
  i <> h -> setContents h ws bufs !! i = bufs !! i.
Proof.
  intros Hne. unfold setContents. destruct (bufs !! h); [|done].
  by rewrite list_lookup_insert_ne.
Qed.

(** A write that goes to a buffer with another label spares the constant
    ones. *)
Lemma spares_writeBuffer h l off data bufs :
  labelAt bufs h = Some l -> l <> "Grid Uniform" -> l <> "Cell vertices" ->
  spares bufs (writeBuffer h off data bufs).
Proof.
  intros Hl H1 H2. split; [apply kept_writeBuffer|].
  intros i b Hb Hc. rewrite writeBuffer_other; [done|].
  intros ->. unfold labelAt in Hl. rewrite Hb in Hl. injection Hl as <-.
  by destruct Hc.
Qed.

Lemma spares_setContents h l ws bufs :
  labelAt bufs h = Some l -> l <> "Grid Uniform" -> l <> "Cell vertices" ->
  spares bufs (setContents h ws bufs).
Proof.
  intros Hl H1 H2. split; [apply kept_setContents|].
  intros i b Hb Hc. rewrite setContents_other; [done|].
  intros ->. unfold labelAt in Hl. rewrite Hb in Hl. injection Hl as <-.
  by destruct Hc.
Qed.

(** A dispatch with a bind group of [createBindGroups] overwrites the buffer
    at binding 3. *)
Lemma dispatch_binding3 k grid t x y wg bufs :
  let g := mkBindGroup "" Part000.createBindGroupLayout
             [mkEntry 0 grid; mkEntry 1 t; mkEntry 2 x; mkEntry 3 y] in
  dispatch k g wg bufs
  = setContents y (k (shaderView GPUShaderStage.COMPUTE bufs g) wg 3) bufs.
Proof. reflexivity. Qed.

Lemma bindGroups_index grid t a b :
  let groups := Part000.bindGroups
                  (Part000.new_Simulation grid t [a; b]
                     Part000.createBindGroupLayout) in
  index groups 0
  = Some (mkBindGroup "" Part000.createBindGroupLayout
            [mkEntry 0 (Part000.uniformBuffer grid); mkEntry 1 t;
             mkEntry 2 a; mkEntry 3 b])
  /\ index groups 1
     = Some (mkBindGroup "" Part000.createBindGroupLayout
               [mkEntry 0 (Part000.uniformBuffer grid); mkEntry 1 t;
                mkEntry 2 b; mkEntry 3 a]).
Proof. split; reflexivity. Qed.

Lemma laidOut_kept bufs bufs' grid time vertex a b :
  kept bufs bufs' -> laidOut bufs grid time vertex a b ->
  laidOut bufs' grid time vertex a b.
Proof.
  intros Hk (H1 & H2 & H3 & H4 & H5).
  repeat split; by eapply labelAt_kept.
Qed.

Lemma spares_device timeMs r w :
  rendererLaidOut (Part000.buffers w) r ->
  spares (Part000.buffers w) (Tick000.device timeMs r w).1.
Proof.
  intros (Hi & _ & _ & (grid & a & b & Hsim & Hlay)).
  pose proof Hlay as (_ & Ht & _ & Ha & Hb).
  unfold Tick000.device, Tick000.batch, Tick000.computePass,
    Tick000.renderPass. rewrite Hsim.
  set (bufs1 := writeBuffer (Part000.timeBuffer r) 0 _ (Part000.buffers w)).
  assert (H1 : spares (Part000.buffers w) bufs1)
    by (by apply (spares_writeBuffer _ "Time Uniform")).
  eapply spares_trans; [exact H1|].
  destruct H1 as (Hk & _).
  pose proof (labelAt_kept _ _ _ _ Hk Ha) as Ha'.
  pose proof (labelAt_kept _ _ _ _ Hk Hb) as Hb'.
  assert (Hd : Tick000.direction timeMs r w = 0
               \/ Tick000.direction timeMs r w = 1)
    by (by apply direction000_bit).
  destruct (bindGroups_index grid (Part000.timeBuffer r) a b) as (Hg0 & Hg1).
  destruct Hd as [-> | ->]; rewrite ?Hg0, ?Hg1;
    cbn [submit foldl execute fst snd];
    rewrite dispatch_binding3.
  - by apply (spares_setContents _ "State B").
  - by apply (spares_setContents _ "State A").
Qed.

Lemma asCreated_spares bufs bufs' :
  spares bufs bufs' -> length bufs' = length bufs ->
  asCreated bufs -> asCreated bufs'.
Proof.
  intros (Hk & Hc) Hl Ha h b' Hb'.
  assert (Hlt : (h < length bufs)%nat).
  { rewrite <- Hl. by eapply lookup_lt_Some. }
  destruct (lookup_lt_is_Some_2 _ _ Hlt) as (b & Hb).
  destruct (Hk h b Hb) as (b'' & Hb'' & Hlab & _).
  assert (b'' = b') as -> by congruence.
  destruct (Ha h b Hb) as (Hg & Hv).
  split; intros Hlb.
  - assert (Hcb : constant b) by (left; congruence).
    pose proof (Hc h b Hb Hcb). assert (b' = b) as -> by congruence.
    apply Hg. congruence.
  - assert (Hcb : constant b) by (right; congruence).
    pose proof (Hc h b Hb Hcb). assert (b' = b) as -> by congruence.
    apply Hv. congruence.
Qed.

Lemma rendererLaidOut_kept bufs bufs' r :
  kept bufs bufs' -> rendererLaidOut bufs r -> rendererLaidOut bufs' r.
Proof.
  intros Hk (Hi & Hv & Hp & (grid & a & b & Hsim & Hlay)).
  repeat split; try done. exists grid, a, b. split; [done|].
  by eapply laidOut_kept.
Qed.

Lemma suspendedLaidOut_kept bufs bufs' s :
  kept bufs bufs' -> suspendedLaidOut bufs s -> suspendedLaidOut bufs' s.
Proof.
  intros Hk (Hv & Hl & Hp & (a & b & Hst & Hlay)).
  repeat split; try done. exists a, b. split; [done|].
  by eapply laidOut_kept.
Qed.

(** The invariant carries over to a world with the same sessions whose
    device spares the constant buffers. *)
Lemma labelled_transfer w w' :
  spares (Part000.buffers w) (Part000.buffers w') ->
  length (Part000.buffers w') = length (Part000.buffers w) ->
  Part000.suspended w' = Part000.suspended w ->
  Part000.engine_simulation (Part000.engine w')
  = Part000.engine_simulation (Part000.engine w) ->
  Forall (rendererLaidOut (Part000.buffers w')) (Part000.renderers w') ->
  labelled w -> labelled w'.
Proof.
  intros Hs Hl Hsu He Hr (_ & Hs' & Hsim & Ha).
  pose proof Hs as (Hk & _).
  split; [done|]. split; [|split].
  - rewrite Hsu. eapply Forall_impl; [exact Hs'|].
    intros s. by apply suspendedLaidOut_kept.
  - rewrite He. intros sim Hsome.
    destruct (Hsim sim Hsome) as (a & b & Hst & Hla & Hlb).
    exists a, b. split; [done|]. split; by eapply labelAt_kept.
  - by eapply asCreated_spares.
Qed.

Lemma labelled_callRender timeMs w request :
  labelled w ->
  labelled (Part000.callRender timeMs w request)
  /\ spares (Part000.buffers w)
       (Part000.buffers (Part000.callRender timeMs w request)).
Proof.
  intros Hw. rewrite callRender000.
  destruct (Part000.renderers w !! request.2) as [r|] eqn:Hr;
    [|by split; [|apply spares_refl]].
  pose proof Hw as (Hrs & _).
  pose proof (proj1 (Forall_lookup _ _) Hrs _ _ Hr) as Hlr.
  pose proof (spares_device timeMs r w Hlr) as Hsp.
  assert (Hlen : length (Tick000.device timeMs r w).1
                 = length (Part000.buffers w)).
  { destruct (device_callRender timeMs w request) as (_ & Hlen).
    rewrite callRender000, Hr in Hlen. exact Hlen. }
  split; [|exact Hsp].
  apply (labelled_transfer w); try done.
  cbn [Part000.set_renderers Part000.renderers Part000.buffers
       Tick000.afterWorld].
  apply Forall_insert.
  - eapply Forall_impl; [exact Hrs|]. intros r'.
    apply rendererLaidOut_kept, Hsp.
  - apply (rendererLaidOut_kept (Part000.buffers w)); [apply Hsp|].
    destruct Hlr as (Hi & Hv & Hp & Hsim).
    split; [by apply direction000_bit|]. by repeat split.
Qed.

Lemma labelled_animationFrame timeMs w :
  labelled w ->
  labelled (Part000.animationFrame timeMs w)
  /\ spares (Part000.buffers w)
       (Part000.buffers (Part000.animationFrame timeMs w)).
Proof.
  unfold Part000.animationFrame. intros Hw.
  assert (H0 : labelled (Part000.set_raf (Part000.rafNext w) [] w)) by done.
  change (Part000.buffers w)
    with (Part000.buffers (Part000.set_raf (Part000.rafNext w) [] w)).
  revert H0. generalize (Part000.set_raf (Part000.rafNext w) [] w).
  induction (Part000.rafPending w) as [|q qs IH]; intros w0 H0.
  - split; [done|apply spares_refl].
  - cbn [foldl]. destruct (labelled_callRender timeMs w0 q H0) as (H1 & H2).
    destruct (IH _ H1) as (H3 & H4).
    split; [done|by eapply spares_trans].
Qed.

Lemma labelled_pipelinesReady k w :
  labelled w -> labelled (Part000.pipelinesReady k w).
Proof.
  intros (Hr & Hs & Hsim & Ha). unfold Part000.pipelinesReady.
  destruct (Part000.suspended w) as [|s rest] eqn:E; [by rewrite <- E in Hs|].
  apply Forall_cons in Hs as (Hs1 & Hs).
  unfold exec. rewrite init_afterAwait000.
  destruct Hs1 as (Hv & Hl & Hp & (a & b & Hst & Hlay)).
  split; [|split; [done|split; [|done]]].
  - cbn. apply Forall_app. split; [done|]. apply Forall_singleton.
    split; [by left|]. split; [done|].
    split; [cbn; by rewrite Hp|].
    exists (Part000.s_grid s), a, b. cbn.
    unfold Session000.simulationOf. by rewrite Hst, Hl.
  - cbn. intros sim [= <-]. exists a, b. cbn.
    destruct Hlay as (_ & _ & _ & Hla & Hlb). by rewrite Hst.
Qed.

Lemma spares_writes data l : forall w,
  Forall (fun h => exists lab, labelAt (Part000.buffers w) h = Some lab
                               /\ lab <> "Grid Uniform"
                               /\ lab <> "Cell vertices") l ->
  spares (Part000.buffers w)
    (Part000.buffers
       (foldr (fun h rest => bind (Part000.queue_writeBuffer h 0 data)
                               (fun _ => rest))
              (ret tt) l w).2).
Proof.
  induction l as [|h l IH]; intros w Hl; [apply spares_refl|].
  apply Forall_cons in Hl as ((lab & Hlab & H1 & H2) & Hl).
  cbn [foldr].
  change (bind ?m ?k w).2 with (exec (bind m k) w). rewrite exec_bind.
  unfold exec.
  assert (Hs : spares (Part000.buffers w)
                 (Part000.buffers (Part000.queue_writeBuffer h 0 data w).2))
    by (cbn; by apply (spares_writeBuffer _ lab)).
  eapply spares_trans; [exact Hs|]. apply IH.
  eapply Forall_impl; [exact Hl|]. intros h' (lab' & Hlab' & ? & ?).
  exists lab'. split; [|done]. eapply labelAt_kept; [apply Hs|done].
Qed.

Lemma labelled_onReset w :
  labelled w ->
  labelled (exec Part000.onReset w)
  /\ spares (Part000.buffers w) (Part000.buffers (exec Part000.onReset w)).
Proof.
  intros Hw. pose proof Hw as (Hr & Hs & Hsim & Ha).
  unfold exec. rewrite onReset_unfold.
  destruct (Part000.engine_simulation (Part000.engine w)) as [sim|] eqn:E;
    [|by split; [|apply spares_refl]].
  destruct (Hsim sim eq_refl) as (a & b & Hst & Hla & Hlb).
  rewrite reset_unfold, Hst.
  set (data := randomCells _ _ _).
  set (w0 := Part000.set_randomUsed _ w).
  assert (Hsp : spares (Part000.buffers w)
                  (Part000.buffers
                     (foldr (fun h rest =>
                               bind (Part000.queue_writeBuffer h 0 data)
                                    (fun _ => rest))
                            (ret tt) [a; b] w0).2)).
  { apply (spares_writes data [a; b] w0).
    apply Forall_cons. split; [by exists "State A"|].
    apply Forall_singleton. by exists "State B". }
  split; [|exact Hsp].
  destruct (writes_raf data [a; b] w0) as (_ & _ & Hrs & He).
  destruct (keeps_writes (Part000.GRID_SIZE w) data w0 [a; b] w0)
    as (_ & _ & _ & Hsu).
  { repeat split. apply keeps_refl. }
  destruct (device_writes data [a; b] w0) as (_ & Hlen).
  apply (labelled_transfer w).
  - exact Hsp.
  - exact Hlen.
  - exact Hsu.
  - by rewrite He.
  - rewrite Hrs. eapply Forall_impl; [exact Hr|]. intros r.
    apply rendererLaidOut_kept, Hsp.
  - exact Hw.
Qed.

Lemma asCreated_app bufs tail :
  asCreated bufs -> asCreated tail -> asCreated (bufs ++ tail).
Proof.
  intros H1 H2 h b Hb. apply lookup_app_Some in Hb as [Hb|(_ & Hb)].
  - by apply (H1 h).
  - by apply (H2 (h - length bufs)%nat).
Qed.

Lemma labelled_afterInit n w :
  labelled w ->
  labelled (Session000.afterInit n w)
  /\ spares (Part000.buffers w) (Part000.buffers (Session000.afterInit n w)).
Proof.
  intros (Hr & Hs & Hsim & Ha).
  assert (Hk : kept (Part000.buffers w)
                 (Part000.buffers (Session000.afterInit n w)))
    by apply kept_app.
  split.
  - split; [|split; [|split]].
    + eapply Forall_impl; [exact Hr|]. intros r.
      by apply rendererLaidOut_kept.
    + cbn [Session000.afterInit Part000.suspended]. apply Forall_app. split.
      * eapply Forall_impl; [exact Hs|]. intros s.
        by apply suspendedLaidOut_kept.
      * apply Forall_singleton. repeat split.
        exists (length (Part000.buffers w) + 3)%nat,
          (length (Part000.buffers w) + 4)%nat.
        split; [done|]. unfold laidOut, labelAt. cbn.
        rewrite !lookup_app_r by lia.
        replace (length (Part000.buffers w) - length (Part000.buffers w))%nat
          with 0%nat by lia.
        replace (length (Part000.buffers w) + 1 - length (Part000.buffers w))%nat
          with 1%nat by lia.
        replace (length (Part000.buffers w) + 2 - length (Part000.buffers w))%nat
          with 2%nat by lia.
        replace (length (Part000.buffers w) + 3 - length (Part000.buffers w))%nat
          with 3%nat by lia.
        replace (length (Part000.buffers w) + 4 - length (Part000.buffers w))%nat
          with 4%nat by lia.
        done.
    + intros sim Hsome. destruct (Hsim sim Hsome) as (a & b & Hst & Hla & Hlb).
      exists a, b. split; [done|]. split; by eapply labelAt_kept.
    + cbn [Session000.afterInit Part000.buffers]. apply asCreated_app; [done|].
      intros [|[|[|[|[|h]]]]] b Hb; cbn in Hb; try done;
        injection Hb as <-; (split; intros Hl; try done).
      by exists n.
  - split; [exact Hk|]. intros h b Hb _. cbn. by apply lookup_app_l_Some.
Qed.

Lemma labelled_step k w e :
  labelled w ->
  labelled (Part000.step k w e)
  /\ spares (Part000.buffers w) (Part000.buffers (Part000.step k w e)).
Proof.
  intros Hw. destruct e as [t| | |n|v]; cbn [Part000.step].
  - by apply labelled_animationFrame.
  - split; [by apply labelled_pipelinesReady|].
    unfold Part000.pipelinesReady. destruct (Part000.suspended w);
      [apply spares_refl|].
    unfold exec. rewrite init_afterAwait000. apply spares_refl.
  - by apply labelled_onReset.
  - rewrite onGridSizeChange000.
    destruct (afterStop000_kept w) as (Hb & Hsu & Hr & _).
    assert (Hst : labelled (Part000.set_GRID_SIZE n (afterStop000 w))).
    { destruct Hw as (H1 & H2 & H3 & H4).
      split; [|split; [|split]]; cbn [Part000.set_GRID_SIZE Part000.buffers
        Part000.renderers Part000.suspended Part000.engine];
        rewrite ?Hb, ?Hsu, ?Hr; try done.
      unfold afterStop000.
      by destruct (Part000.animationFrameId (Part000.engine w)). }
    destruct (labelled_afterInit n _ Hst) as (H1 & H2).
    split; [done|]. cbn [Part000.set_GRID_SIZE Part000.buffers] in H2.
    by rewrite Hb in H2.
  - split; [done|apply spares_refl].
Qed.

Lemma labelled_run k events : forall w,
  labelled w ->
  labelled (Part000.run k w events)
  /\ spares (Part000.buffers w) (Part000.buffers (Part000.run k w events)).
Proof.
  induction events as [|e events IH]; intros w Hw.
  - split; [done|apply spares_refl].
  - change (Part000.run k w (e :: events))
      with (Part000.run k (Part000.step k w e) events).
    destruct (labelled_step k w e Hw) as (H1 & H2).
    destruct (IH _ H1) as (H3 & H4).
    split; [done|by eapply spares_trans].
Qed.

Lemma labelled_started random : labelled (Part000.started random).
Proof.
  rewrite started000_eq. apply labelled_afterInit.
  split; [apply Forall_nil_2|]. split; [apply Forall_nil_2|].
  split; [done|]. by intros h b Hb.
Qed.

(** X21.  The grid uniforms and the vertex buffers of the class based
    program are written once.  In every state it reaches, a buffer labelled
    "Grid Uniform" holds the two equal numbers that [new Grid] wrote and one
    labelled "Cell vertices" holds the twelve coordinates of the quad; and
    whatever happens later, frames, resets and grid-size changes included,
    the buffer stays under its handle exactly as it is. *)
Theorem grid_and_vertices_are_written_once k random events later h b :
  let w := Part000.run k (Part000.started random) events in
  Part000.buffers w !! h = Some b ->
  label b = "Grid Uniform" \/ label b = "Cell vertices" ->
  Part000.buffers (Part000.run k w later) !! h = Some b
  /\ (label b = "Grid Uniform" ->
      exists n, b = mkBuffer "Grid Uniform" 8 72
                      [F32 (inject_Z n); F32 (inject_Z n)])
  /\ (label b = "Cell vertices" ->
      b = mkBuffer "Cell vertices" 48 40 (F32 <$> Session000.quad)).
Proof.
  intros w Hb Hc.
  destruct (labelled_run k events _ (labelled_started random))
    as (Hw & _). fold w in Hw.
  destruct (labelled_run k later w Hw) as (_ & (_ & Hs)).
  split; [by apply Hs|].
  destruct Hw as (_ & _ & _ & Ha). apply (Ha h b Hb).
Qed.

Lemma grid_and_vertices_are_written_once_witness :
  let k := fun (_ : ShaderView) (_ : Z * Z) (_ : Z) => [U32 1] in
  let random := fun _ : nat => 0%Q in
  let w := Part000.run k (Part000.started random)
             [Part000.PipelinesReady; Part000.AnimationFrame 16] in
  let later := [Part000.GridSizeInput 2; Part000.ResetClick;
                Part000.PipelinesReady; Part000.AnimationFrame 200;
                Part000.ResetClick] in
  Part000.buffers (Part000.run k w later) !! 0%nat
  = Some (mkBuffer "Grid Uniform" 8 72 [F32 (inject_Z 64); F32 (inject_Z 64)]).
Proof.
  intros k random w later.
  assert (Hb : Part000.buffers w !! 0%nat
               = Some (mkBuffer "Grid Uniform" 8 72
                         [F32 (inject_Z 64); F32 (inject_Z 64)]))
    by (vm_compute; reflexivity).
  exact (proj1 (grid_and_vertices_are_written_once k random
                  [Part000.PipelinesReady; Part000.AnimationFrame 16] later
                  0%nat _ Hb (or_introl eq_refl))).
Defined.

(** X22.  Every draw of the class based program covers its vertex buffer
    and no more.  In every state the program reaches, the render pass that a
    Renderer encodes takes its vertices from a buffer that holds the quad,
    and draws six of them with the stride of 8 bytes that its pipeline
    declares, which is the 48 bytes of that buffer; it draws one instance
    per cell of the grid size in force, with a bind group that has a grid
    uniform at binding 0. *)
Theorem draw_covers_the_vertex_buffer k random events i r self timeMs :
  let w := Part000.run k (Part000.started random) events in
  Part000.renderers w !! i = Some r ->
  exists cp p vb g vc ic quad grid n,
    submitted (drop (length (Part000.hostLog w))
                 (Part000.hostLog (exec (Part000.render self timeMs) (r, w)).2))
    = [[cp; RenderPass p vb (Some g) vc ic]]
    /\ Part000.buffers w !! vb = Some quad
    /\ contents quad = F32 <$> Session000.quad
    /\ vc = 6
    /\ vc * vertex_arrayStride p = size quad
    /\ ic = Part000.GRID_SIZE w * Part000.GRID_SIZE w
    /\ boundAt 0 g = Some grid
    /\ Part000.buffers w !! grid
       = Some (mkBuffer "Grid Uniform" 8 72 [F32 (inject_Z n); F32 (inject_Z n)]).
Proof.
  intros w Hr.
  destruct (labelled_run k events _ (labelled_started random))
    as ((Hrs & _ & _ & Ha) & _). fold w in Hrs, Ha.
  pose proof (proj1 (Forall_lookup _ _) Hrs _ _ Hr)
    as (Hi & Hv & Hp & (grid & a & b & Hsim & (Hlg & _ & Hlv & _))).
  unfold labelAt in Hlg, Hlv.
  destruct (Part000.buffers w !! Part000.vertexBuffer r) as [quad|] eqn:Hq;
    [|done].
  destruct (Part000.buffers w !! Part000.uniformBuffer grid) as [gb|] eqn:Hg;
    [|done].
  injection Hlg as Hlg. injection Hlv as Hlv.
  destruct (Ha _ _ Hq) as (_ & Hquad). specialize (Hquad Hlv).
  destruct (Ha _ _ Hg) as (Hgrid & _). destruct (Hgrid Hlg) as (n & Hgn).
  subst quad gb.
  assert (Hd : Tick000.direction timeMs r w = 0
               \/ Tick000.direction timeMs r w = 1)
    by (by apply direction000_bit).
  destruct (bindGroups_index grid (Part000.timeBuffer r) a b) as (Hg0 & Hg1).
  unfold exec. rewrite render000. cbn [snd Tick000.afterWorld Part000.hostLog].
  rewrite drop_app_length, submitted_actions000.
  unfold Tick000.batch, Tick000.renderPass. rewrite Hsim, Hv, Hp.
  destruct Hd as [-> | ->]; rewrite ?Hg0, ?Hg1;
    eexists _, _, _, _, _, _, cellVertices, (Part000.uniformBuffer grid), n;
    (split; [reflexivity|]); by repeat split.
Qed.

Lemma draw_covers_the_vertex_buffer_witness :
  let k := fun (_ : ShaderView) (_ : Z * Z) (_ : Z) => [U32 1] in
  let random := fun _ : nat => 0%Q in
  let w := Part000.run k (Part000.started random)
             [Part000.PipelinesReady; Part000.AnimationFrame 16;
              Part000.GridSizeInput 2; Part000.PipelinesReady] in
  exists r cmds,
    Part000.renderers w !! 1%nat = Some r
    /\ submitted (drop (length (Part000.hostLog w))
                    (Part000.hostLog (exec (Part000.render 1 32) (r, w)).2))
       = [cmds].
Proof.
  intros k random w.
  destruct (Part000.renderers w !! 1%nat) as [r|] eqn:Hr;
    [|vm_compute in Hr; discriminate].
  destruct (draw_covers_the_vertex_buffer k random
              [Part000.PipelinesReady; Part000.AnimationFrame 16;
               Part000.GridSizeInput 2; Part000.PipelinesReady]
              1%nat r 1%nat 32 Hr)
    as (cp & p & vb & g & vc & ic & quad & grid & n & H & _).
  exists r. eexists. split; [reflexivity|exact H].
Defined.

(** ** The grid uniform and the grid size *)

Lemma gridInForce_transfer w w' :
  spares (Part000.buffers w) (Part000.buffers w') ->
  Part000.suspended w' = Part000.suspended w ->
  Part000.engine w' = Part000.engine w ->
  Part000.GRID_SIZE w' = Part000.GRID_SIZE w ->
  gridInForce w -> gridInForce w'.
Proof.
  intros (_ & Hs) Hsu He Hg. unfold gridInForce. rewrite Hsu, He, Hg.
  destruct (last (Part000.suspended w)) as [s|].
  - intros Hb. apply Hs; [done|]. by left.
  - intros (grid & t & st & l & Hsim & Hb). exists grid, t, st, l.
    split; [done|]. apply Hs; [done|]. by left.
Qed.

Lemma onReset_same w :
  Part000.suspended (exec Part000.onReset w) = Part000.suspended w
  /\ Part000.engine (exec Part000.onReset w) = Part000.engine w.
Proof.
  unfold exec. rewrite onReset_unfold.
  destruct (Part000.engine_simulation (Part000.engine w)) as [sim|]; [|done].
  rewrite reset_unfold.
  match goal with |- context [foldr _ _ ?l ?w0] =>
    destruct (keeps_writes (Part000.GRID_SIZE w)
                (randomCells (Part000.random w) (Part000.randomUsed w)
                   (Z.to_nat (Part000.GRID_SIZE w * Part000.GRID_SIZE w)))
                w0 l w0) as (_ & _ & He & Hsu)
  end.
  { repeat split. apply keeps_refl. }
  split; [exact Hsu|exact He].
Qed.

Lemma gridInForce_step k w e :
  labelled w -> gridInForce w -> gridInForce (Part000.step k w e).
Proof.
  intros Hl Hg. destruct (labelled_step k w e Hl) as (_ & Hsp).
  destruct e as [t| | |n|v]; cbn [Part000.step] in *.
  - destruct (keeps_animationFrame t w) as (_ & H1 & H2 & H3).
    apply (gridInForce_transfer w); [exact Hsp|exact H3|exact H2|exact H1|exact Hg].
  - unfold Part000.pipelinesReady in *.
    destruct (Part000.suspended w) as [|s rest] eqn:E; [done|].
    unfold exec. rewrite init_afterAwait000.
    unfold gridInForce in *. rewrite E in Hg.
    cbn [snd Session000.afterAwait Part000.suspended Part000.set_suspended
         Part000.buffers Part000.GRID_SIZE Part000.engine
         Part000.engine_simulation].
    destruct rest as [|s' rest].
    + cbn in Hg. cbn [last].
      exists (Part000.s_grid s), (Part000.s_timeBuffer s),
        (Part000.s_stateBuffers s), (Part000.s_layout s). by split.
    + rewrite last_cons_cons in Hg.
      destruct (last (s' :: rest)) as [s0|] eqn:El; [exact Hg|].
      by apply last_None in El.
  - destruct (onReset_same w) as (H3 & H2).
    apply (gridInForce_transfer w);
      [exact Hsp|exact H3|exact H2|apply GRID_SIZE_onReset|exact Hg].
  - rewrite onGridSizeChange000. unfold gridInForce.
    cbn [Session000.afterInit Part000.suspended Part000.buffers
         Part000.GRID_SIZE Part000.set_GRID_SIZE].
    rewrite last_snoc. cbn [Session000.parking Part000.s_grid
      Part000.uniformBuffer].
    destruct (afterStop000_kept w) as (Hb & _). rewrite Hb.
    rewrite lookup_app_r by lia. rewrite Nat.sub_diag. reflexivity.
  - done.
Qed.

Lemma gridInForce_run k events : forall w,
  labelled w -> gridInForce w ->
  labelled (Part000.run k w events) /\ gridInForce (Part000.run k w events).
Proof.
  induction events as [|e events IH]; intros w Hl Hg; [done|].
  change (Part000.run k w (e :: events))
    with (Part000.run k (Part000.step k w e) events).
  apply IH; [by apply labelled_step|by apply gridInForce_step].
Qed.

(** X23.  In every state the class based program reaches with no grid-size
    change waiting for its pipelines, both bind groups of the Engine's
    Simulation have at binding 0 a grid uniform that holds the grid size in
    force, twice: what the shaders read as the grid is what [render]
    dispatches and draws for. *)
Theorem grid_uniform_holds_the_size_in_force k random events :
  let w := Part000.run k (Part000.started random) events in
  Part000.suspended w = [] ->
  exists sim grid,
    Part000.engine_simulation (Part000.engine w) = Some sim
    /\ length (Part000.bindGroups sim) = 2%nat
    /\ Forall (fun g => boundAt 0 g = Some grid) (Part000.bindGroups sim)
    /\ Part000.buffers w !! grid
       = Some (mkBuffer "Grid Uniform" 8 72
                 [F32 (inject_Z (Part000.GRID_SIZE w));
                  F32 (inject_Z (Part000.GRID_SIZE w))]).
Proof.
  intros w Hsu.
  assert (H : labelled w /\ gridInForce w).
  { apply gridInForce_run; [apply labelled_started|].
    rewrite started000_eq. reflexivity. }
  destruct H as (_ & Hg). unfold gridInForce in Hg. rewrite Hsu in Hg.
  destruct Hg as (grid & t & st & l & Hsim & Hb).
  eexists _, (Part000.uniformBuffer grid). split; [exact Hsim|].
  split; [done|]. split; [|exact Hb].
  apply Forall_cons. split; [done|]. by apply Forall_singleton.
Qed.

Lemma grid_uniform_holds_the_size_in_force_witness :
  let k := fun (_ : ShaderView) (_ : Z * Z) (_ : Z) => [U32 1] in
  let random := fun _ : nat => 0%Q in
  let w := Part000.run k (Part000.started random)
             [Part000.PipelinesReady; Part000.AnimationFrame 16;
              Part000.GridSizeInput 2; Part000.GridSizeInput 3;
              Part000.PipelinesReady; Part000.PipelinesReady;
              Part000.AnimationFrame 32] in
  exists grid,
    Part000.buffers w !! grid
    = Some (mkBuffer "Grid Uniform" 8 72 [F32 (inject_Z 3); F32 (inject_Z 3)]).
Proof.
  intros k random w.
  assert (Hsu : Part000.suspended w = []) by (vm_compute; reflexivity).
  assert (Hn : Part000.GRID_SIZE w = 3) by (vm_compute; reflexivity).
  destruct (grid_uniform_holds_the_size_in_force k random
              [Part000.PipelinesReady; Part000.AnimationFrame 16;
               Part000.GridSizeInput 2; Part000.GridSizeInput 3;
               Part000.PipelinesReady; Part000.PipelinesReady;
               Part000.AnimationFrame 32] Hsu)
    as (sim & grid & _ & _ & _ & Hb).
  fold w in Hb. rewrite Hn in Hb. by exists grid.
Defined.

(** ** The dispatch over the grid *)

Lemma simulations_callRender timeMs w request :
  Part000.simulation <$> Part000.renderers (Part000.callRender timeMs w request)
  = Part000.simulation <$> Part000.renderers w.
Proof.
  rewrite callRender000.
  destruct (Part000.renderers w !! request.2) as [r|] eqn:Hr; [|done].
  cbn [Part000.set_renderers Part000.renderers]. rewrite list_fmap_insert.
  apply list_insert_id. by rewrite list_lookup_fmap, Hr.
Qed.

Lemma simulations_animationFrame timeMs w :
  Part000.simulation <$> Part000.renderers (Part000.animationFrame timeMs w)
  = Part000.simulation <$> Part000.renderers w.
Proof.
  unfold Part000.animationFrame.
  change (Part000.renderers w)
    with (Part000.renderers (Part000.set_raf (Part000.rafNext w) [] w)).
  generalize (Part000.set_raf (Part000.rafNext w) [] w).
  induction (Part000.rafPending w) as [|q qs IH]; intros w0; [done|].
  cbn [foldl]. by rewrite IH, simulations_callRender.
Qed.

Lemma engineHolds_same w w' :
  Part000.engine w' = Part000.engine w ->
  Part000.simulation <$> Part000.renderers w'
  = Part000.simulation <$> Part000.renderers w ->
  engineHolds w -> engineHolds w'.
Proof.
  intros He Hr Hw sim Hsim. rewrite He in Hsim.
  destruct (Hw sim Hsim) as (i & r & Hi & Hri & Hs).
  assert (Hl : (Part000.simulation <$> Part000.renderers w') !! i = Some sim).
  { rewrite Hr, list_lookup_fmap, Hri. cbn. by rewrite Hs. }
  apply list_lookup_fmap_Some_1 in Hl as (r' & Hs' & Hr').
  exists i, r'. by rewrite He.
Qed.

Lemma engineHolds_step k w e : engineHolds w -> engineHolds (Part000.step k w e).
Proof.
  intros Hw. destruct e as [t| | |n|v]; cbn [Part000.step].
  - apply (engineHolds_same w); [|apply simulations_animationFrame|done].
    apply (keeps_animationFrame t w).
  - unfold Part000.pipelinesReady. destruct (Part000.suspended w) as [|s rest];
      [done|].
    unfold exec. rewrite init_afterAwait000. intros sim Hsim.
    cbn in Hsim. injection Hsim as <-.
    exists (length (Part000.renderers w)), (Session000.rendererOf k s).
    cbn. split; [done|]. split; [|done].
    rewrite lookup_app_r by lia. by rewrite Nat.sub_diag.
  - apply (engineHolds_same w); [| |done].
    + apply onReset_same.
    + unfold exec. rewrite onReset_unfold.
      destruct (Part000.engine_simulation (Part000.engine w)) as [sim|];
        [|done].
      rewrite reset_unfold.
      match goal with |- context [foldr _ _ ?l ?w0] =>
        destruct (writes_raf
                    (randomCells (Part000.random w) (Part000.randomUsed w)
                       (Z.to_nat (Part000.GRID_SIZE w * Part000.GRID_SIZE w)))
                    l w0) as (_ & _ & -> & _)
      end.
      done.
  - rewrite onGridSizeChange000. intros sim Hsim.
    destruct (afterStop000_kept w) as (_ & _ & Hr & _).
    destruct (Hw sim) as (i & r & Hi & Hri & Hs).
    { revert Hsim. cbn. unfold afterStop000.
      by destruct (Part000.animationFrameId (Part000.engine w)). }
    exists i, r. cbn. rewrite Hr. split; [|done].
    unfold afterStop000.
    by destruct (Part000.animationFrameId (Part000.engine w)).
  - done.
Qed.

Lemma engineHolds_run k events : forall w,
  engineHolds w -> engineHolds (Part000.run k w events).
Proof.
  induction events as [|e events IH]; intros w Hw; [done|].
  apply (IH (Part000.step k w e)). by apply engineHolds_step.
Qed.

Lemma covers_ceiling n :
  0 < n ->
  workgroupCount n = (n + 7) / 8
  /\ tile * (workgroupCount n - 1) < n <= tile * workgroupCount n
  /\ forall x y, 0 <= x < n -> 0 <= y < n ->
                 0 <= x / tile < workgroupCount n
                 /\ 0 <= y / tile < workgroupCount n.
Proof.
  intros Hn. rewrite workgroupCount_ceiling. unfold tile.
  split; [done|]. split.
  - Z.to_euclidean_division_equations. lia.
  - intros x y Hx Hy. Z.to_euclidean_division_equations. lia.
Qed.

(** The compute pass of a tick of the Engine's Renderer, when no [init] is
    parked, is over the grid of the size in force. *)
Lemma dispatch_in_force k random events timeMs :
  let w := Part000.run k (Part000.started random) events in
  let n := Part000.GRID_SIZE w in
  Part000.suspended w = [] -> 0 < n ->
  exists i r,
    Part000.engine_renderer (Part000.engine w) = Some i
    /\ Part000.renderers w !! i = Some r
    /\ dispatchCovers (Part000.buffers w) n (Tick000.computePass timeMs r w).
Proof.
  intros w n Hsu Hn.
  destruct (session_in_reach k random events Hsu)
    as (sim & a & b & _ & Hsim & Hst & Hab & (ba & Ha & Hsa) & (bb & Hb & Hsb)).
  fold w in Hsim, Ha, Hb, Hsa, Hsb. fold n in Hsa, Hsb.
  assert (H : labelled w /\ gridInForce w).
  { apply gridInForce_run; [apply labelled_started|].
    rewrite started000_eq. reflexivity. }
  destruct H as (_ & Hg). unfold gridInForce in Hg. rewrite Hsu in Hg.
  destruct Hg as (grid & t & st & l & Hsim' & Hgb). fold n in Hgb.
  assert (Hh : engineHolds w).
  { apply engineHolds_run. rewrite started000_eq. by intros s Hs. }
  destruct (Hh sim Hsim) as (i & r & Hi & Hr & Hs).
  assert (Hw : Inv000.wired r).
  { pose proof (run000_invariant k _ events (started000_invariant random))
      as (Hrs & _). fold w in Hrs.
    by eapply Forall_lookup_1. }
  destruct Hw as (Hbit & (grid' & a' & b' & Hsr & _)).
  assert (Heq : Part000.uniformBuffer grid = Part000.uniformBuffer grid'
                /\ a' = a /\ b' = b).
  { rewrite Hsim in Hsim'. injection Hsim' as Heq1.
    rewrite <- Hs, Hsr in Heq1. rewrite <- Hs, Hsr in Hst.
    cbn in Hst. injection Hst as -> ->.
    apply (f_equal (fun s => head (Part000.bindGroups s) ≫= boundAt 0)) in Heq1.
    cbn in Heq1. by injection Heq1 as ->. }
  destruct Heq as (Hu & -> & ->).
  exists i, r. split; [done|]. split; [done|].
  destruct (covers_ceiling n Hn) as (_ & _ & Hcov).
  pose proof (Z.square_nonneg n) as Hnn.
  assert (Hsza : size ba = 4 * (n * n)) by (destruct Hsa as (_ & -> & _); lia).
  assert (Hszb : size bb = 4 * (n * n)) by (destruct Hsb as (_ & -> & _); lia).
  unfold Tick000.computePass. fold n. rewrite Hsr.
  destruct (bindGroups_index grid' (Part000.timeBuffer r) a b) as (Hg0 & Hg1).
  destruct (direction000_bit timeMs r w Hbit) as [-> | ->];
    rewrite ?Hg0, ?Hg1; eexists _, _; (split; [reflexivity|]);
    (split; [done|]); (split; [|done]); (split; [|split]).
  - exists (Part000.uniformBuffer grid'), (gridUniform n).
    by rewrite <- Hu.
  - by exists a, ba.
  - by exists b, bb.
  - exists (Part000.uniformBuffer grid'), (gridUniform n).
    by rewrite <- Hu.
  - by exists b, bb.
  - by exists a, ba.
Qed.

Lemma dispatch_001 k random events :
  let w := Part001.run (Part001.started k random) events in
  exists r,
    Part001.renderer w = Some r
    /\ dispatchCovers (Part001.buffers w) Part001.GRID_SIZE
         (Tick001.computePass r).
Proof.
  intros w.
  destruct (first_run001 k events _ (first_started001 k random))
    as (lf & fc & f & i & ls & id & x & a & b & Hr & Hi & _ & Hb).
  fold w in Hr, Hb.
  pose proof (kept_run001 events (Part001.started k random)) as Hk.
  fold w in Hk.
  destruct (Hk 2%nat (mkBuffer "Cell State A" (4 * Z.of_nat Session001.cells)
                        136 (Session001.draw random)))
    as (ba & Ha & _ & Hsa & _); [by rewrite init001|].
  destruct (Hk 3%nat (mkBuffer "Cell State B" (4 * Z.of_nat Session001.cells)
                        136 (replicate Session001.cells (U32 0))))
    as (bb & Hbb & _ & Hsb & _); [by rewrite init001|].
  cbn [size] in Hsa, Hsb.
  exists (renderer001 k lf fc f i ls). split; [done|].
  destruct (covers_ceiling Part001.GRID_SIZE) as (_ & _ & Hcov); [done|].
  unfold Tick001.computePass.
  destruct Hi as [-> | ->]; eexists _, _; (split; [reflexivity|]);
    (split; [done|]); (split; [|done]); (split; [|split]).
  - eexists 0%nat, _. split; [reflexivity|]. by rewrite Hb.
  - by exists 2%nat, ba.
  - by exists 3%nat, bb.
  - eexists 0%nat, _. split; [reflexivity|]. by rewrite Hb.
  - by exists 3%nat, bb.
  - by exists 2%nat, ba.
Qed.




(** ** A page without the #fps element *)

(** X24.  On a page without the #fps element the loop of either program
    stops at the first reading of the frame counter.  With one frame request
    pending, the frame in which [render] takes the reading (a second or more
    after the window of the counter was opened) ends in a [TypeError] that
    reaches the console: the counters of the Renderer have been reset for
    the new window, nothing is written to a buffer, submitted or drawn, and
    no frame is requested; the function based program has by then encoded
    its compute pass, which is dropped with the encoder.  No request being
    pending, the frames that follow do nothing. *)
Theorem loop_stops_without_fps :
  (forall k p timeMs id self r,
      getElementById "fps" (Page000.browser p) = false ->
      Part000.rafPending (Page000.world p) = [(id, self)] ->
      Part000.renderers (Page000.world p) !! self = Some r ->
      Tick000.sampled timeMs r = true ->
      let w := Page000.world p in
      let p' := Page000.step k p (Page000.AnimationFrame timeMs) in
      let w' := Page000.world p' in
      Page000.errors p' = Page000.errors p ++ [TypeError]
      /\ Part000.renderers w'
         = <[self := aborted000 timeMs r]> (Part000.renderers w)
      /\ Part000.rafPending w' = []
      /\ Part000.hostLog w' = Part000.hostLog w
      /\ Part000.buffers w' = Part000.buffers w
      /\ Part000.canvas w' = Part000.canvas w
      /\ Part000.fpsText w' = Part000.fpsText w
      /\ forall t, Page000.step k p' (Page000.AnimationFrame t) = p')
  /\ (forall p timeMs id r,
         getElementById "fps" (Page001.browser p) = false ->
         Part001.rafPending (Page001.world p) = [id] ->
         Part001.renderer (Page001.world p) = Some r ->
         Tick001.sampled timeMs r = true ->
         let w := Page001.world p in
         let p' := Page001.step p (Page001.AnimationFrame timeMs) in
         let w' := Page001.world p' in
         Page001.errors p' = Page001.errors p ++ [(None, TypeError)]
         /\ Part001.renderer w' = Some (aborted001 timeMs r)
         /\ Part001.rafPending w' = []
         /\ Part001.hostLog w'
            = Part001.hostLog w
              ++ [CreateCommandEncoder; Encoded (Tick001.computePass r)]
         /\ submitted (Part001.hostLog w') = submitted (Part001.hostLog w)
         /\ Part001.buffers w' = Part001.buffers w
         /\ Part001.canvas w' = Part001.canvas w
         /\ Part001.fpsText w' = Part001.fpsText w
         /\ forall t, Page001.step p' (Page001.AnimationFrame t) = p').
Proof.
  split.
  - intros k p timeMs id self r Hb Hq Hr Hs w p' w'.
    assert (Hp : p' = Page000.report TypeError
                   (Page000.set_world
                      (Part000.set_renderers
                         (<[self := aborted000 timeMs r]> (Part000.renderers w))
                         (Part000.set_raf (Part000.rafNext w) [] w)) p)).
    { unfold p'. cbn [Page000.step]. unfold Page000.animationFrame.
      rewrite Hq. cbn [foldl]. rewrite callRender_page000.
      cbn [Page000.world Page000.set_world Page000.browser snd
           Part000.renderers Part000.set_raf].
      rewrite Hr. unfold throws000. rewrite Hs, Hb. reflexivity. }
    unfold w'. rewrite Hp. do 7 (split; [reflexivity|]).
    intros t. rewrite <- Hp. cbn [Page000.step].
    apply animationFrame_idle. rewrite Hp. reflexivity.
  - intros p timeMs id r Hb Hq Hr Hs w p' w'.
    assert (Hp : p' = Page001.report (None, TypeError)
                   (Page001.set_world
                      (Part001.set_renderer (Some (aborted001 timeMs r))
                         (abortedWorld001 r
                            (Part001.set_raf (Part001.rafNext w) [] w))) p)).
    { unfold p'. cbn [Page001.step]. unfold Page001.animationFrame.
      rewrite Hq. cbn [foldl]. rewrite callRender_page001.
      cbn [Page001.world Page001.set_world Page001.browser
           Part001.renderer Part001.set_raf].
      rewrite Hr. unfold throws001. rewrite Hs, Hb. reflexivity. }
    unfold w'. rewrite Hp. do 4 (split; [reflexivity|]).
    split.
    { cbn [Page001.world Page001.report Page001.set_world Part001.hostLog
           Part001.set_renderer abortedWorld001 Part001.set_hostLog
           Part001.set_raf].
      rewrite submitted_app. cbn. by rewrite app_nil_r. }
    do 3 (split; [reflexivity|]).
    intros t. rewrite <- Hp. cbn [Page001.step].
    apply animationFrame_idle001. rewrite Hp. reflexivity.
Qed.

Lemma loop_stops_without_fps_witness :
  let k := fun (_ : ShaderView) (_ : Z * Z) (_ : Z) => [U32 1] in
  let b := mkBrowser ["compute-interval-slider"; "compute-interval-value";
                      "grid-size-slider"; "grid-size-value"; "reset-button";
                      "canvas"] true true true in
  let p := Page000.run k (Page000.started b (fun _ => 0%Q))
             [Page000.PipelinesReady; Page000.AnimationFrame 16;
              Page000.AnimationFrame 500] in
  let p' := Page000.step k p (Page000.AnimationFrame 1016) in
  Page000.errors p = []
  /\ length (submitted (Part000.hostLog (Page000.world p))) = 2%nat
  /\ Page000.errors p' = [TypeError]
  /\ Part000.rafPending (Page000.world p') = []
  /\ Part000.hostLog (Page000.world p') = Part000.hostLog (Page000.world p)
  /\ Page000.step k p' (Page000.AnimationFrame 1033) = p'.
Proof.
  intros k b p p'.
  assert (He : Page000.errors p = []) by (vm_compute; reflexivity).
  assert (Hn : length (submitted (Part000.hostLog (Page000.world p))) = 2%nat)
    by (vm_compute; reflexivity).
  assert (Hb : getElementById "fps" (Page000.browser p) = false)
    by (vm_compute; reflexivity).
  assert (Hq : Part000.rafPending (Page000.world p) = [(3%nat, 0%nat)])
    by (vm_compute; reflexivity).
  destruct (Part000.renderers (Page000.world p) !! 0%nat) as [r|] eqn:Hr;
    [|vm_compute in Hr; discriminate Hr].
  assert (Hs : Tick000.sampled 1016 r = true).
  { vm_compute in Hr. injection Hr as <-. vm_compute. reflexivity. }
  destruct (proj1 loop_stops_without_fps k p 1016 3%nat 0%nat r Hb Hq Hr Hs)
    as (H1 & _ & H3 & H4 & _ & _ & _ & H8).
  fold p' in H1, H3, H4, H8. rewrite He in H1.
  exact (conj He (conj Hn (conj H1 (conj H3 (conj H4 (H8 1033)))))).
Defined.

(** ** A page that has the #fps element *)

(** X25.  On a page that has the #fps element and on which start-up ran to
    its end, the page runs the program: after any events of the page (frames,
    clicks, slider inputs, timers) the state of the program is the one that
    [Part000.run] and [Part001.run] reach from the started program on the
    events that the listeners and timers of the page pass on. *)
Theorem page_with_fps_runs_the_program b :
  getElementById "fps" b = true ->
  (forall k random events,
      Page000.errors (Page000.started b random) = [] ->
      Page000.world (Page000.run k (Page000.started b random) events)
      = Part000.run k (Part000.started random)
          (programEvents000 k (Page000.started b random) events))
  /\ (forall k random events,
         Page001.errors (Page001.started k b random) = [] ->
         Page001.world (Page001.run (Page001.started k b random) events)
         = Part001.run (Part001.started k random)
             (programEvents001 (Page001.started k b random) events)).
Proof.
  intros Hb. split.
  - intros k random events He.
    rewrite world_run000 by (by rewrite (proj1 (started_page000 b random))).
    by rewrite (started_ok000 b random He).
  - intros k random events He.
    rewrite world_run001 by (by rewrite (proj1 (started_page001 k b random))).
    destruct (started_page001 k b random) as (_ & [(-> & _) | (_ & Hn)]);
      [done|]. by destruct Hn.
Qed.

Lemma page_with_fps_runs_the_program_witness :
  let k := fun (_ : ShaderView) (_ : Z * Z) (_ : Z) => [U32 1] in
  let b := mkBrowser ["compute-interval-slider"; "compute-interval-value";
                      "grid-size-slider"; "grid-size-value"; "canvas"; "fps"]
             true true true in
  Page000.world
    (Page000.run k (Page000.started b (fun _ => 0%Q))
       [Page000.PipelinesReady; Page000.AnimationFrame 16;
        Page000.ResetClick; Page000.GridSizeSlider 8;
        Page000.ComputeIntervalSlider 50; Page000.Timeout;
        Page000.PipelinesReady; Page000.AnimationFrame 1016])
  = Part000.run k (Part000.started (fun _ => 0%Q))
      [Part000.PipelinesReady; Part000.AnimationFrame 16;
       Part000.ComputeIntervalInput 50; Part000.GridSizeInput 8;
       Part000.PipelinesReady; Part000.AnimationFrame 1016].
Proof.
  intros k b.
  assert (Hb : getElementById "fps" b = true) by (vm_compute; reflexivity).
  assert (He : Page000.errors (Page000.started b (fun _ => 0%Q)) = [])
    by (vm_compute; reflexivity).
  assert (Hp : programEvents000 k (Page000.started b (fun _ => 0%Q))
                 [Page000.PipelinesReady; Page000.AnimationFrame 16;
                  Page000.ResetClick; Page000.GridSizeSlider 8;
                  Page000.ComputeIntervalSlider 50; Page000.Timeout;
                  Page000.PipelinesReady; Page000.AnimationFrame 1016]
               = [Part000.PipelinesReady; Part000.AnimationFrame 16;
                  Part000.ComputeIntervalInput 50; Part000.GridSizeInput 8;
                  Part000.PipelinesReady; Part000.AnimationFrame 1016])
    by (vm_compute; reflexivity).
  rewrite <- Hp.
  exact (proj1 (page_with_fps_runs_the_program b Hb) k (fun _ => 0%Q) _ He).
Defined.
